(* ===== verification/_CoqProject ===== *)
-Q . S2P
Prelude.v
PyStr.v
PyObj.v
Types.v
Sdk.v
Points.v
Iterator.v
Analyses.v
State.v
Info.v
AnalysisInfo.v
AnalysisBatch.v
ElementTree.v
PointList.v
Json.v
Scripts.v
Cache.v
CachedQueries.v
Convert.v
Client.v
