(* ===== verification/Prelude.v ===== *)
(** * A verification library for pipolars

    pipolars is a Python connector that pulls time series and metadata out of
    a PI Data Archive / PI Asset Framework through the vendor's .NET SDK and
    hands them on as plain records.  The repository's code is glue around
    SDK objects: read an attribute if it is there, coerce it, fall back to a
    default, catch what goes wrong and carry on with the next item.  What can
    be wrong with such code is exactly its branching: which exception is
    caught where, what a missing attribute turns into, what a batch does when
    one item fails, in which order the upstream is called.  This library
    models that branching and proves what it does.

    ** Files, in dependency order

    - [Prelude] (this file).  The exceptions of the model ([Exn]), the error
      monad [Res] in which every fallible Python expression is written, the
      [try_except] combinators that stand for [try: ... except ...:], the
      monadic list traversals the loops of the code become, how the
      iteration over a collection goes ([Iter]: the items given, and the
      exception that ends it when one does) with the traversals of an
      iteration ([iter_list], [iter_mapM], [iter_foldM]), the tactics
      ([res_simpl], [res_inv], [case_res]) and the hint databases ([res], a
      rewrite database of the monad's equations).
    - [PyStr].  The [str] methods the code calls: [in] ([str_contains]),
      [split] ([str_split]), [strip] ([str_strip_chars]), [lower]
      ([str_lower]), with the lemmas the extraction proofs use (splitting a
      joined list, the first separator, containment in an append).
    - [PyObj].  The objects the code handles: Python values and the .NET
      objects that pythonnet exposes ([Obj]), with [getattr], [hasattr],
      truthiness, [str()], [float()], [int()], [bool()], [len()], iteration
      ([iterate], and [py_iter] for [list(o)]) and insertion-ordered
      dictionaries.  [hasattr] on a property reads it; on a method
      ([ToString], [GetConfiguration]) it looks the method up and does not
      call it ([has_method]).  The conversions of Python that work on
      the text of a number, and the message of an exception of Python's
      own, are an interface ([Builtins]), with a decimal instance for
      running the model.
    - [Types].  The records of [pipolars.core.types] that the extractor
      builds ([PIValue], [PointConfig], the enumerations).  That module is
      not part of the sources at hand; the records are written down from the
      specification and from the unit tests that construct them.
    - [Sdk].  The upstream as the extractor sees it.  A call into the SDK
      is a [Call] (a method with arguments, a constructor, a function); a
      program that makes calls is a term of [SdkM], the free monad over
      [Call] with results in [Res].  An upstream is an instance of the class
      [Upstream], a state and a step function that answers each call;
      [run] runs a program against one and gives the result, the final
      state and the trace of the calls.  [Runs m script r] says the same
      without an upstream: answered as [script] says, [m] makes exactly
      the calls of [script] and ends with [r].  [calls_le m n] bounds the
      calls of [m] on every path.
    - [Points].  [src/pipolars/extraction/points.py], class
      [PIPointExtractor]: one definition per method, under the method's
      name, the loop bodies and dictionary literals as definitions of their
      own ([snapshots_add], [summary_entry], [boundary_of],
      [point_type_map], ...).
    - [Iterator].  The generator that [recorded_values_iterator] returns,
      as a state machine ([Generator]: created, suspended at the [yield]
      with what is still to come of the answer, finished) advanced by one
      [next()]
      at a time ([iterator_next]); [after_pulls] and [read_all] are a
      consumer that calls [next()] a number of times or to the end.
    - [Analyses].  The helpers of [examples/extract_analyses.py]
      ([serialize_datetime], [convert_net_datetime], [safe_str],
      [extract_plant_name], [determine_plant_category]); the first two are
      repeated word for word in [examples/extract_pipoints.py].
    - [State].  The monad [StM S] of code that changes an object of type
      [S] inside [try] blocks: every outcome, an exception too, carries the
      state, so that a handler and a [finally] start from what the body had
      done ([st_try], [st_finally]); [st_for] is the [for] loop that stops
      at the first exception, [st_for_in] the loop over a collection that
      is read while the body runs.  With it, totality ([st_total]),
      preservation of a property of the state ([st_keeps]) and, for code
      that appends to a list, the items it goes through ([st_meets]).
    - [Info].  [InfoM], the instance of [StM] for code that fills a
      dictionary key by key, and the predicates that describe a block
      without running it
      ([info_total], [info_writes], [info_assigns], [info_sets],
      [info_adds_given], [info_holds], [info_sim]) and their rules of
      composition.
    - [AnalysisInfo].  [extract_analysis_info] and
      [extract_analysis_info_raw] of [examples/extract_analyses.py]: one
      definition per block of the source ([plugin_name_block],
      [eft_name_block], [rule_properties_block], [checkout_block], ...),
      composed in the order of the source ([analysis_blocks]).
    - [AnalysisBatch].  The functions of [examples/extract_analyses.py]
      that collect the records: [extract_analyses_from_all_databases],
      [search_analyses_in_elements] with its inner [traverse_elements], and
      [extract_analyses]; the loop bodies are definitions of their own
      ([database_step], [raw_analysis_step], [element_analyses_step],
      [element_children_step], [analysis_step]).
    - [ElementTree].  What [search_analyses_in_elements] does, said
      without state or handlers.  Of every object: the analyses the walk
      goes through and how it ends ([elements_met], [search_met]), made
      of what the statements of the code meet ([analyses_read],
      [name_logged], [entered]).  Of a hierarchy: the elements as a tree
      ([Element]), what the walk should collect said on the tree
      ([analyses_of_element], the preorder; [analyses_within], the
      preorder down to a depth; [worklist], the walk over a list of
      elements still to visit) and the relation between an object of the
      SDK and the tree it answers as ([reads_as]).
    - [PointList].  [extract_pi_points] of [examples/extract_pipoints.py]:
      the record of a point block by block ([attributes_block],
      [current_value_block], [point_class_block], [server_name_block]), the
      handler that appends the short record ([fallback_step]) and the loop
      over the search result ([point_step]).
    - [Json].  What [json.dump(obj, f, default=serialize_datetime)] makes
      of an object: a JSON value ([Json]) or the [TypeError] of the
      [default] hook ([json_dump]), with the values it can write as a
      Boolean predicate ([json_writable]).
    - [Scripts].  [main] of both example scripts and the block under
      [__name__ == "__main__"]: the [try] around the extraction and the
      saving, its handler, the output file as a state ([File]:
      untouched, truncated, written), and the set-up of [logging] that
      opens the log file before [main] is called ([configure_logging]).
    - [Cache].  The cache of [pipolars.cache], of which the sources hold
      the package file only; written from sections 3, 4.1 and 4.2 of the
      specification: keys as fingerprints of a query, entries, the
      strategies as a class ([CacheStrategy], with its laws
      [StrategyLaws]) and its two instances, the in-memory backend
      ([MemoryCache], [cache_get], [cache_set], [cache_invalidate],
      [cache_clear], [cache_stats]) and the control flow of a request
      ([cached_query]).
    - [CachedQueries].  [recorded_values] of [Points] behind
      [cached_query], with the key made of the arguments as they reach the
      SDK ([recorded_values_key]).
    - [Convert].  The converter of [pipolars.transform], of which the
      sources hold the package file only; written from section 4.4: the
      long form, the pivot to the wide form ([pivot],
      [multi_tag_to_dataframe]) and the way back ([unpivot]).
    - [Client].  The server a [PIClient] connects to, as the unit tests of
      [tests/unit/test_client.py] and section 6 fix it
      ([PIClient_config]).

    ** How the code maps to the model

    A Python expression that can raise is a term of [Res A]; sequencing is
    the monad's bind, written [x ← e; k].  [try: b except (E1, E2): h] is
    [try_except b (one_of [E1; E2]) h]; [except Exception] is
    [try_except b any_exception h].  A [for] loop over a list is
    [res_mapM] or [res_foldM].

    A [for] statement or a comprehension over an object of the SDK reads
    the object while the body runs.  [iterate o] says how that goes: the
    items the object gives, in order, and then either the end or an
    exception (an object that cannot be iterated gives no item and
    [TypeError]; a collection of the SDK, an [ONet] with the slot
    [__iter__], gives the items of that slot and, when it has a slot
    [MoveNext] that raises, fails after them with that exception, as a
    collection does that fetches its pages from the server while it is
    read).  The body has run on every item given when the exception
    reaches the [for] statement: [iter_mapM], [iter_foldM] and
    [st_for_in] run the body over the items and then raise it;
    [list(o)] is [py_iter], which gives the items only when the iteration
    ends by itself.

    A call into the SDK is [sdk_call c] in
    [SdkM]; [run] steps the upstream's state and appends [c] to the trace,
    so that theorems can speak of how many calls an operation makes and in
    which order.  A generator ([recorded_values_iterator]) is modelled by
    what it yields to a consumer that reads it to the end: the items, and
    the exception that ended it, if one did ([Yielded]); and, in
    [Iterator], by its states: the body up to the loop runs at the first
    [next()], each further [next()] runs the loop up to the next [yield],
    and an exception or the end of the loop finishes the generator.

    A script writes one file.  [open(path, "w")] truncates it, [json.dump]
    writes it when the encoder accepts the whole object and raises
    otherwise; the text of the JSON (indentation, escapes) is not modelled,
    the file holds the JSON value.  Whether [open] succeeds is a parameter
    of [main], like the connection.  So is whether the [FileHandler] of
    [logging.basicConfig] can open the log file: that statement stands
    before the [try] of the script, and what it raises ends the script.

    What is modelled from the specification ([Cache], [Convert], [Client],
    the records of [Types]) is marked so in its file.  Time in the cache
    is a number of ticks, given to each operation; a timestamp in the
    converter is an integer instant.

    An attribute of a .NET object is a slot of an [ONet] value: it holds a
    value or raises.  Reading a slot has no effect, so reading it twice gives
    the same answer; the code relies on that as well (it tests
    [analysis.AnalysisRule] and then reads it again).  A method without
    arguments ([ToString()], [GetPath()], [CurrentValue()] in the example
    scripts) is a slot under the method's name, which holds what the call
    returns or raises; the method is there when the slot is, so that
    [hasattr(value, "ToString")] is true of a value whose [ToString()]
    raises, and the exception comes from the call.

    Code that builds a dictionary is a term of [InfoM]: [info[k] = v] is
    [info_set k v], [info.get(k)] is [info_get k], an expression that can
    raise is lifted ([x ⇐ e; k]), and [try: b except Exception: h] is
    [st_try b any_exception h], whose handler runs on the dictionary as
    [b] left it.  The argument of a log line is formatted before
    [log_verbose] looks at its flag: where the f-string formats an SDK
    object the model has [log_fmt], which raises when [str()] of the object
    does; log lines that format strings, numbers or [None] cannot raise and
    are left out, as are [type(x)] and [dir(x)].

    Code that appends to a list inside nested [try] blocks is a term of
    [StM (list Info)]: [analyses_list.append(r)] is [st_append r], a [for]
    loop over a collection is [st_for_in], [try: b finally: f] is
    [st_finally b f].  What a
    script does before it holds its first SDK object (initialising the SDK,
    indexing [PISystems()], entering a connection, reading the clock) is a
    parameter of the function: a [Res] where the step can raise.  The
    recursion of [traverse_elements] is not structural for Rocq; it takes
    the depth bound of the interpreter as [fuel] and raises
    [RecursionError] when the bound is reached, as Python does.

    ** What the theorems show

    - [Prelude]: the monad laws, the equations of [try_except], that the
      traversals stop at the first exception, and that a traversal of an
      iteration returns exactly when the body returns on every item and the
      iteration ends by itself ([iter_mapM_ok], [iter_list_ok]); what
      blocks meet composes as the blocks do ([iter_app], [iter_catch],
      [iter_bind]: associativity, the loop that ends by itself on every
      item, the item that ends it); [omap] and [≫=] keep the order of
      what they leave ([omap_sublist], [bind_sublist_Forall]).
    - [PyStr]: [split] inverts [join] for a one-character separator,
      [split] cuts at the first occurrence of the separator, [in] is
      existence of a decomposition, [strip] is idempotent and leaves no
      stripped character at either end.
    - [PyObj]: [hasattr] is [getattr] not raising [AttributeError], truthiness
      of each kind of value, insert and lookup in ordered dictionaries.
    - [Sdk]: [run] of a sequence is the run of its parts; [run] implements
      [Runs] for every upstream that answers as the script says
      ([Runs_run]) and every run is a conversation ([run_Runs]); a bound
      [calls_le] bounds every trace; loops run item by item and stop at the
      first exception.
    - [Points]: the value normalisation rule of [_convert_value] on every
      branch (digital state, numeric coercion, fall-back to text, quality)
      and its totality on well-formed values ([wf_af_value]); that one
      sample that fails loses the answer of a list query
      ([convert_all_raise]), as does an answer that breaks off while it is
      read ([convert_all_cut]), while the generator has delivered the
      samples before it; that the records of an answer have the order and
      the times of its samples, nothing sorted and nothing removed
      ([convert_all_times]); the conversation of
      every query with the upstream, call by call with the arguments
      ([recorded_values_run], [snapshots_runs], [summary_runs], ...), that
      a failed lookup ends every query after one call, and the bound on the
      calls of each; the names of the summaries, and that the loop of
      [summary] binds each name to [summary.Value.Value] of the last
      summary of the answer that goes by it ([summary_result_lookup]); the
      record and the defaults of [get_point_config].
    - [Iterator]: the generator ends ([generator_finishes]: one [next()]
      more than there are samples finishes it, and it stays finished); it
      goes forward only ([generator_forward_only]); its first [next()] has
      the conversation of the query, call by call with the arguments, and
      raises what the query raises ([first_pull_runs]); read
      to its end it gives what [recorded_values_iterator] of [Points] says
      ([read_all_iterator]); when the answer breaks off, its consumer has
      the samples given before, where the list query has none
      ([cut_answer_reaches_consumer]).
    - [Analyses]: [convert_net_datetime] never raises and returns a date
      exactly when [datetime] accepts the fields; [safe_str] never raises;
      the plant name is the fourth (or third) part of the element path; the
      plant category is that of the first keyword found anywhere in the
      path, whatever the case of the letters.
    - [State]: the monad laws with exceptions, the equations of [st_try]
      and [st_finally], [st_for] over an append and over a body that always
      returns, [st_for_in] as [st_for] over the items given followed by
      the end of the iteration, and the rules that carry [st_total],
      [st_keeps] and [st_meets] through each construct: a block that
      appends to a list goes through the items that the descriptions of
      its statements give, put together with [iter_app] for a sequence,
      [iter_catch] for a [try] and [iter_bind] for a loop.
    - [Info]: each predicate follows the structure of the code (a rule for
      an assignment, a lifted expression, a sequence, a [try]); a block
      that cannot raise and writes only given keys adds exactly those keys
      to a record and keeps its values serialisable; two programs that read
      no key of a set stay in step outside that set: [agree_off ks] is an
      equivalence of records, [info_sim ks] the partial equivalence of
      blocks it induces, and [st_bind] and [st_try] are [Proper] for it.
    - [AnalysisInfo]: [extract_analysis_info] raises exactly when one of
      the three reads outside any [try] raises; otherwise it returns a
      record with the 34 keys of the output format, in order, whose values
      [json.dump] can write ([extract_analysis_info_schema]); the raw
      function returns the same record but for [DatabaseName] and two
      roll-up fields ([extract_analysis_info_raw_agrees]), and never fills
      a roll-up field; the two roll-up attributes are never filled by
      either; the time of extraction and the name of the database reach
      the record under their own keys only ([raw_record_of_analysis],
      [records_of_two_runs], [record_times]); the template name read
      with [split] is the
      one [find] gives
      ([eft_name_of_ref]); a log line that formats a value before
      [safe_str] sees it can end the block of the rule properties
      ([true_for_text_aborts]).
    - [AnalysisBatch]: each of the three functions is equal to a function
      of the objects it is given, without state or handlers
      ([extract_analyses_from_all_databases_spec], [extract_analyses_spec]):
      the records of the analyses that can be identified, in order, a
      database that cannot be read contributing none; one database whose
      name cannot be read loses the whole result
      ([unnamed_database_loses_all]), and so does a collection of
      databases that fails while it is read ([cut_databases_lose_all]),
      whereas a collection of analyses that fails while it is read gives
      the list of a collection that ends there ([cut_collection_unseen]);
      a second run at another time returns the same records up to
      [ExtractedAt] ([all_databases_reproducible]); the traversal of the
      elements does
      not depend on the depth bound once the bound exceeds the size of the
      tree ([traverse_elements_fuel]); the search never raises and, like
      the other two, returns only records with the keys of the output
      format; an element that refuses its analyses and its name ends the
      traversal of its level ([closed_element_ends_traversal]).
    - [ElementTree]: the search is a function of the connection that
      never raises: the records of the analyses [search_met] lists
      ([search_analyses_in_elements_spec]), each statement of
      [traverse_elements] going through what its description says
      ([found_analysis_step_meets], [element_analyses_step_meets],
      [element_children_step_meets], [traverse_elements_meets]); an
      element that fails its analyses and its name ends the walk of its
      level and nothing else does ([elements_met_closed]); on a
      hierarchy the search returns the records of the analyses of the
      levels within the bound of the recursion, in preorder
      ([search_analyses_in_elements_levels]): all of them when no element
      lies deeper ([search_complete]), and otherwise a part of them in
      their order, with nothing to tell that the rest is missing
      ([search_within_all]); [extract_analyses] returns the same for a
      database without [Analyses] ([extract_analyses_through_elements]);
      the walk over a list of elements still to visit gives the preorder
      ([worklist_preorder]) and so what the search returns within its
      bound ([search_as_worklist]); every tree has an object that answers
      as it does ([element_obj_reads]); what the search goes through does
      not depend on the time, so that the extraction of one database,
      through its collection or through its elements, returns the same
      records at another time up to [ExtractedAt]
      ([search_reproducible], [one_database_reproducible]).
    - [PointList]: the record of a point and the list of [extract_pi_points]
      as functions of the point and of the search result
      ([point_record_spec], [extract_pi_points_spec]); which keys a record
      has ([point_record_has_keys]); that a point whose name cannot be read
      is left out of the list ([unreadable_name_drops_point]) and every
      entry of the list holds the name of its point ([point_entry_named]);
      the
      conversion of an attribute value on each branch
      ([convert_attribute_text]).
    - [Json]: [json_dump] succeeds exactly on the writable objects
      ([json_dump_cases]); the records of the analyses are writable;
      records with the same keys are written as a table ([records_table]),
      records that hold a string under a key as rows that have it
      ([records_named]).
    - [Scripts]: [main] of [extract_analyses.py] as a function of the
      extraction and of [open] ([extract_analyses_main_saves]: it never
      raises and never leaves a truncated file), and the file it writes is
      a table with the 35 keys of the output format, whatever the server
      answers ([analyses_file_is_a_table]); [main] of
      [extract_pipoints.py] writes all records when the attribute values
      kept as they are can be written ([extract_pipoints_main_saves]) and
      leaves a truncated file and an empty summary otherwise
      ([unwritable_value_truncates]); every row of the file it writes has
      the name of a point ([points_file_rows_named]); a script ends with
      an exception only when its log file cannot be opened, before [main]
      is called, and the handlers under [__main__] never run
      ([scripts_fail_only_at_logging]).
    - [Cache]: the invariant of the in-memory backend (one entry per key,
      within the bound) holds in every reachable cache ([reachable_wf]);
      [get], [set], [invalidate] and [clear] act on the finite map [live]
      as lookup, insert up to one eviction, delete and the empty map
      ([cache_get_live], [cache_set_live], ...); eviction takes the least
      recently used entry ([recently_used_survives]); the counters count
      ([stats_count]); a stored answer is served and another query is not
      ([second_request_is_served], [different_query_misses]); with time to
      live every entry expires ([ttl_entry_expires]), with a sliding
      window an entry in use does not ([sliding_window_keeps_hot_key]);
      the fingerprint is injective, the fields run together are not.
    - [CachedQueries]: the key of a call of [recorded_values] is equal
      for two calls exactly when the calls are the same program
      ([recorded_values_key_sound], [recorded_values_key_complete]); a
      second request is served without a call
      ([cached_recorded_values_served]); after the time to live the
      upstream is asked again ([cached_recorded_values_refreshed]).
    - [Convert]: the wide form is in ascending order of the timestamps,
      one row per distinct timestamp ([pivot_ascending]), rectangular and
      aligned by equality of timestamps ([pivot_cells]); and the way to
      the wide form and back is the identity up to the order of the rows
      when no key occurs twice ([pivot_unpivot]), not otherwise
      ([pivot_duplicate_key]).
    - [Client]: the unit tests of the client, and that a client made from
      a name never has a blank host ([PIClient_host_of_name]).

    Each theorem that has a hypothesis is applied, at the end of its file,
    to objects that are written out ([..._witness]), with the decimal
    instance of [Builtins] and, for runs, the upstream that answers from a
    list ([scripted_upstream]).

    ** Tactics and hint databases

    [res_simpl], [case_res], [res_inv] and [res_binds] compute and invert
    in [Res] (database [res] for [autorewrite]); [res_answered] takes a
    sequence that returned apart into the steps that returned; [run_simpl] pushes [run]
    through binds; [runs] follows a program along a script; [calls_le_tac]
    counts the calls of a sequence with the bounds of its parts from the
    database [calls]; [getattr_eval] reads the attributes of objects that
    are written out.  For [InfoM], one tactic per predicate follows the
    code ([info_total_tac], [info_writes_tac], [info_assigns_tac],
    [info_sets_tac], [info_sim_tac]); [info_single_tac] and
    [info_defaults_tac] prove the keys of the two shapes of block,
    [info_seq_tac] those of a sequence; the database [plain] holds what
    makes an assigned value serialisable.  [st_total_tac] and
    [st_keeps_tac] do the same for [StM]; [same_reads] (in [PointList])
    proves that a block equals its description by cases on the reads the
    two share.

    ** Bounds and assumptions

    - Strings are sequences of 8-bit characters; [lower] acts on ASCII
      letters.  The keywords and separators of the code are ASCII.
    - Floats are the finite ones, as a decimal mantissa and exponent; the
      code does no arithmetic on them.  [float(s)] and [int(s)] on a string
      and the text of a float are parameters ([Builtins]).
    - Integers are unbounded, as Python's are; [datetime] alone checks
      that its arguments fit a C [int] ([datetime_new]).
    - Two definitions have fuel.  For [traverse_elements] the fuel is the
      depth bound of the interpreter, and running out of it is the
      [RecursionError] of Python, not a missing result.  An object of the
      model is a finite tree, and [obj_size] of the elements plus one is
      enough fuel for the bound never to be met
      ([traverse_elements_fuel]); the theorems on the search hold for every
      bound, and [ElementTree] says what the search returns under each:
      the levels of the hierarchy within it.  The bound is counted in
      nested calls of [traverse_elements]; the calls that the work on one
      element makes besides are taken to fit under the limit of the
      interpreter.  For [read_all] the fuel is the number of calls of [next()];
      [pulls_left], one more than the samples still to come, is enough
      for the generator to be read to its end ([read_all_iterator]), and
      [None] is the answer only below it.  [worklist] of [ElementTree] is
      defined by well-founded recursion on the number of elements left
      (with Equations); its equations rest on functional extensionality,
      the one axiom of the development, which [worklist_preorder] and
      [search_as_worklist] use and no other theorem does; [worklist] is a
      second description of the preorder, not code of the repository.
      Every other
      recursion is structural on a list, a string, a tree or a program; a
      program of [SdkM] is a finite tree, so every run ends.
    - [search_analyses_in_elements_spec] holds of every object.  The
      theorems on a hierarchy are stated of elements none of which fails
      both its analyses and its name ([reads_as]); a collection that
      breaks off gives the tree of the items it gave, and the analyses
      themselves are not constrained (one that cannot be identified has
      no record).
    - The in-memory cache has room for at least one entry ([cache_wf]);
      the clock of the cache is given to each operation and need not be
      monotone, except where a theorem says so.
    - Reading an attribute of an SDK object has no effect on the upstream:
      only calls do.  A collection of the SDK that fetches its pages while
      it is iterated can fail in the middle ([iterate]); the requests it
      sends for its pages are the SDK's own and are not in the trace, so
      the calls counted are those the code makes.  What a collection gives
      is fixed by the object: reading it twice gives the same items and
      the same end, and [len()] of a search result is the same before the
      loop and inside it.  The answers of the upstream are not
      constrained; the theorems on queries hold for every [Upstream].
    - Exceptions outside [Exception] ([KeyboardInterrupt], [SystemExit]) are
      not modelled; every exception of the model is caught by
      [except Exception].

    ** Not modelled

    - The console and the log: [print], [traceback.print_exc], what
      [logging] writes, and the log lines that cannot raise.  They change
      nothing that the code reads, and a failure of the console itself is
      outside the model.  Of [logging.basicConfig] the model has the one
      thing that can fail, the opening of the log file.
    - When the pages of a paged answer travel.  [recorded_values_iterator]
      hands a paging configuration to the SDK and iterates over what comes
      back; the requests that the collection sends while it is iterated
      are made inside the SDK, not by a statement of the source, and are
      no [Call] of the model.  The model has what the source asks for and
      what its consumer sees, a page that does not arrive included (the
      exception that ends the iteration).
    - The message of an exception of Python's own ([AttributeError],
      [TypeError], ...): [str(e)] of such an exception is what [Builtins]
      says ([str_of_exn]), one text per class.
    - The text of the JSON files (indentation, escapes, encoding) and a
      failure while the file is written or closed; the model has the value
      the file holds and the failure of [open] and of the encoder.
    - A second definition for code that the sources repeat word for word:
      the blocks of [extract_analysis_info_raw] (extract_analyses.py, lines
      203 to 454) are those of [extract_analysis_info] but for the name
      of the database and the roll-up block, and [convert_net_datetime]
      and [serialize_datetime] of [extract_pipoints.py] are those of
      [extract_analyses.py].  One definition stands for both copies (the
      comment of a block names the lines of both), and
      [extract_analysis_info_raw_agrees] is stated of the two functions.
    - The modules the sources import but do not contain: connection
      management and the SDK manager (they are calls and slots of the
      upstream), the durable cache backends ([SQLiteCache], [ArrowCache])
      and [get_cache_backend], [summaries_to_dataframe],
      [DigitalStateMapper] and [TimestampHandler], of which the
      specification gives no more than the names.  The in-memory cache,
      the strategies, the long and wide converters, the resolution of the
      client's server and the records of [core.types] are written from the
      specification and the unit tests, and are marked so. *)

From stdpp Require Import base tactics option list strings.

#[global] Set Warnings "-clear-no-such-hyp".

(** ** Exceptions *)

(** The exception classes the sources name or can meet.  [NetError] is an
    exception raised inside the SDK and surfaced by pythonnet; the two
    [PI...] classes are those of [pipolars.core.exceptions];
    [RecursionError] is what the interpreter raises when a recursion goes
    deeper than its limit. *)
Inductive Exn : Type :=
| AttributeError
| ValueError
| TypeError
| KeyError
| IndexError
| OverflowError
| RecursionError
| NetError (msg : string)
| PIPointNotFoundError (tag : string)
| PIDataError (msg : string).

#[export] Instance Exn_eq_dec : EqDecision Exn.
Proof. solve_decision. Defined.

(** ** The error monad *)

Inductive Res (A : Type) : Type :=
| Ok (a : A)
| Raise (e : Exn).
Arguments Ok {A} a.
Arguments Raise {A} e.

#[export] Instance Res_eq_dec `{EqDecision A} : EqDecision (Res A).
Proof. solve_decision. Defined.

(** Sequencing, with the computation before its continuation, so that the
    type of the bound variable is known when the continuation is read. *)
Definition res_bind {A B} (m : Res A) (f : A → Res B) : Res B :=
  match m with Ok a => f a | Raise e => Raise e end.

Declare Scope py_scope.
Delimit Scope py_scope with py.
Notation "x ← y ; z" := (res_bind y (λ x, z))
  (at level 20, y at level 100, z at level 200, only parsing) : py_scope.
Notation "' x ← y ; z" := (res_bind y (λ x, z))
  (at level 20, x pattern, y at level 100, z at level 200, only parsing)
  : py_scope.
Notation "x ;; z" := (res_bind x (λ _, z))
  (at level 100, z at level 200, only parsing, right associativity) : py_scope.
#[global] Open Scope py_scope.

#[export] Instance Res_fmap : FMap Res := λ A B f m,
  match m with Ok a => Ok (f a) | Raise e => Raise e end.

Definition is_ok {A} (m : Res A) : bool :=
  match m with Ok _ => true | Raise _ => false end.

Definition res_to_option {A} (m : Res A) : option A :=
  match m with Ok a => Some a | Raise _ => None end.

(** [None] of an [option] as a raised exception. *)
Definition res_of_option {A} (e : Exn) (o : option A) : Res A :=
  match o with Some a => Ok a | None => Raise e end.

(** ** try / except *)

(** Which exceptions an [except] clause names. *)
Definition any_exception : Exn → bool := λ _, true.
Definition one_of (es : list Exn) : Exn → bool := λ e, bool_decide (e ∈ es).

(** [try: body except <handles> as e: handler e].  An exception the clause
    does not name passes through. *)
Definition try_except {A} (body : Res A) (handles : Exn → bool)
    (handler : Exn → Res A) : Res A :=
  match body with
  | Ok a => Ok a
  | Raise e => if handles e then handler e else Raise e
  end.

(** [try: body finally: fin]: [fin] runs on both paths; an exception of
    [fin] replaces the outcome of [body]. *)
Definition try_finally {A} (body : Res A) (fin : Res unit) : Res A :=
  match fin with
  | Ok _ => body
  | Raise e => Raise e
  end.

(** ** Loops *)

(** A [for] loop that collects one result per item and stops at the first
    exception. *)
Fixpoint res_mapM {A B} (f : A → Res B) (l : list A) : Res (list B) :=
  match l with
  | [] => Ok []
  | x :: l => y ← f x; ys ← res_mapM f l; Ok (y :: ys)
  end.

(** A [for] loop that threads an accumulator. *)
Fixpoint res_foldM {A T} (f : T → A → Res T) (s : T) (l : list A) : Res T :=
  match l with
  | [] => Ok s
  | x :: l => s' ← f s x; res_foldM f s' l
  end.

(** A [for] loop whose body is wrapped in [try ... except Exception: pass]
    (or a handler that only logs): the items whose body raised are left
    out. *)
Definition collect_ok {A B} (f : A → Res B) (l : list A) : list B :=
  omap (λ x, res_to_option (f x)) l.

(** ** Iterations *)

(** How the iteration over a collection goes: the items it gives, in
    order, and the exception that ends it when it does not end by itself
    (the object cannot be iterated, or the collection fails while it is
    read).  A [for] loop has run its body on the items given before the
    exception reaches it. *)
Record Iter (A : Type) : Type := mkIter {
  given : list A;
  ended : option Exn
}.
#[global] Arguments mkIter {A} _ _.
#[global] Arguments given {A} _.
#[global] Arguments ended {A} _.

(** The end of an iteration, as it reaches the loop. *)
Definition iter_end (e : option Exn) : Res unit :=
  match e with None => Ok tt | Some e => Raise e end.

(** [list(it)]: all the items, or the exception. *)
Definition iter_list {A} (it : Iter A) : Res (list A) :=
  _ ← iter_end (ended it); Ok (given it).

(** [[f(x) for x in it]] *)
Definition iter_mapM {A B} (f : A → Res B) (it : Iter A) : Res (list B) :=
  ys ← res_mapM f (given it); _ ← iter_end (ended it); Ok ys.

(** [for x in it: s = f(s, x)] *)
Definition iter_foldM {A T} (f : T → A → Res T) (s : T) (it : Iter A)
    : Res T :=
  s' ← res_foldM f s (given it); _ ← iter_end (ended it); Ok s'.

(** The same record says what a block of statements meets: the items it
    goes through, in order, and the exception that ends it, if one does.
    A statement that meets nothing: *)
Definition iter_of_res {A B} (r : Res A) : Iter B :=
  mkIter [] (match r with Ok _ => None | Raise e => Some e end).

(** One block after another: the second runs when the first has ended by
    itself. *)
Definition iter_app {A} (it1 it2 : Iter A) : Iter A :=
  match ended it1 with
  | Some _ => it1
  | None => mkIter (given it1 ++ given it2) (ended it2)
  end.

(** [try: it except Exception as e: handler(e)] *)
Definition iter_catch {A} (it : Iter A) (handler : Exn → Iter A) : Iter A :=
  match ended it with
  | Some e => iter_app (mkIter (given it) None) (handler e)
  | None => it
  end.

(** [for x in l: f(x)], and then the end [ending] of the iteration over
    [l]. *)
Fixpoint iter_concat {A B} (f : A → Iter B) (l : list A)
    (ending : option Exn) : Iter B :=
  match l with
  | [] => mkIter [] ending
  | x :: l => iter_app (f x) (iter_concat f l ending)
  end.

(** [for x in it: f(x)] *)
Definition iter_bind {A B} (it : Iter A) (f : A → Iter B) : Iter B :=
  iter_concat f (given it) (ended it).

(** ** Tactics *)

(** Unfold the monad's operations where they meet a constructor. *)
Ltac res_simpl :=
  repeat (progress (cbn [res_bind fmap Res_fmap
                        try_except try_finally is_ok res_to_option
                        res_of_option] in *)).

(** Case analysis on the first [Res]-valued scrutinee of the goal. *)
Ltac case_res :=
  match goal with
  | |- context [res_bind ?m _] => destruct m eqn:?
  | |- context [try_except ?m _ _] => destruct m eqn:?
  | |- context [match ?m with Ok _ => _ | Raise _ => _ end] => destruct m eqn:?
  end; res_simpl.

(** Invert hypotheses that equate two results. *)
Ltac res_inv := res_simpl; simplify_eq.

Create HintDb res discriminated.
Create Rewrite HintDb res.

(** ** The monad's equations *)

Section res_laws.
Context {A B C : Type}.
Implicit Types (m : Res A) (f : A → Res B) (g : B → Res C).

Lemma res_bind_ok a f : res_bind (Ok a) f = f a.
Proof. done. Qed.

Lemma res_bind_raise e f : res_bind (Raise e) f = Raise e.
Proof. done. Qed.

Lemma res_bind_ret m : res_bind m Ok = m.
Proof. by destruct m. Qed.

Lemma res_bind_assoc m f g : res_bind (res_bind m f) g = res_bind m (λ a, res_bind (f a) g).
Proof. by destruct m. Qed.

(** A bind succeeds exactly when both of its parts do. *)
Lemma res_bind_ok_inv m f b :
  res_bind m f = Ok b ↔ ∃ a, m = Ok a ∧ f a = Ok b.
Proof.
  destruct m; res_simpl; [naive_solver|].
  split; [done|by intros (?&?&?)].
Qed.

(** A bind raises exactly when its first part does, or its second after the
    first succeeded. *)
Lemma res_bind_raise_inv m f e :
  res_bind m f = Raise e ↔ m = Raise e ∨ ∃ a, m = Ok a ∧ f a = Raise e.
Proof. destruct m; res_simpl; naive_solver. Qed.

Lemma res_fmap_ok (h : A → B) a : h <$> Ok a = Ok (h a).
Proof. done. Qed.

Lemma res_fmap_raise (h : A → B) e : h <$> (Raise e : Res A) = Raise e.
Proof. done. Qed.

Lemma is_ok_true m : is_ok m = true ↔ ∃ a, m = Ok a.
Proof. destruct m; naive_solver. Qed.

Lemma is_ok_false m : is_ok m = false ↔ ∃ e, m = Raise e.
Proof. destruct m; naive_solver. Qed.

End res_laws.

(** Split a sequence that succeeded into its steps, each with its
    result. *)
Ltac res_binds H :=
  repeat (apply res_bind_ok_inv in H as (? & ? & H)); simplify_eq.

#[export] Hint Rewrite @res_bind_ok @res_bind_raise @res_bind_ret
  @res_fmap_ok @res_fmap_raise : res.

(** ** try / except: equations *)

Section try_except_laws.
Context {A : Type}.
Implicit Types (m : Res A) (h : Exn → Res A) (p : Exn → bool).

Lemma try_except_ok a p h : try_except (Ok a) p h = Ok a.
Proof. done. Qed.

Lemma try_except_caught e p h :
  p e = true → try_except (Raise e) p h = h e.
Proof. by intros Hp; cbn; rewrite Hp. Qed.

Lemma try_except_passed e p h :
  p e = false → try_except (Raise e) p h = Raise e.
Proof. by intros Hp; cbn; rewrite Hp. Qed.

(** [except Exception] with a handler that cannot raise never raises. *)
Lemma try_except_any_total m (d : Exn → A) :
  ∃ a, try_except m any_exception (λ e, Ok (d e)) = Ok a.
Proof. destruct m; cbn; eauto. Qed.

Lemma try_except_any m h :
  try_except m any_exception h = match m with Ok a => Ok a | Raise e => h e end.
Proof. by destruct m. Qed.

(** A [try] that answered: its body did, or its handler did. *)
Lemma try_except_ok_inv m p h a :
  try_except m p h = Ok a →
  m = Ok a ∨ ∃ e, m = Raise e ∧ p e = true ∧ h e = Ok a.
Proof.
  destruct m as [a'|e]; cbn; [by left|]. destruct (p e) eqn:Hp; [|done].
  right. by exists e.
Qed.

Lemma one_of_spec es e : one_of es e = true ↔ e ∈ es.
Proof. apply bool_decide_eq_true. Qed.

Lemma one_of_singleton e' e : one_of [e'] e = bool_decide (e = e').
Proof. apply bool_decide_ext, list_elem_of_singleton. Qed.

End try_except_laws.

#[export] Hint Rewrite @try_except_ok @try_except_any : res.

(** Take apart the hypotheses that say that a computation answered: a
    sequence into its steps, a [try] into its body or its handler, a
    conditional into its branches. *)
Ltac res_answered :=
  repeat match goal with
  | H : res_bind _ _ = Ok _ |- _ => apply res_bind_ok_inv in H as (?&?&H)
  | H : try_except _ _ _ = Ok _ |- _ =>
      apply try_except_ok_inv in H as [H|(?&?&?&H)]
  | H : (if ?b then _ else _) = Ok _ |- _ => destruct b eqn:?
  | H : Raise _ = Ok _ |- _ => discriminate H
  | H : Ok _ = Ok _ |- _ => injection H as H
  end; simplify_eq.

(** ** Loops: equations *)

Section loops.
Context {A B : Type}.
Implicit Types (f : A → Res B) (l : list A).

Lemma res_mapM_app f l1 l2 :
  res_mapM f (l1 ++ l2) =
    ys1 ← res_mapM f l1; ys2 ← res_mapM f l2; Ok (ys1 ++ ys2).
Proof.
  induction l1 as [|x l1 IH]; cbn.
  - by destruct (res_mapM f l2).
  - destruct (f x); cbn; [|done]. rewrite IH.
    by destruct (res_mapM f l1), (res_mapM f l2).
Qed.

(** When the loop succeeds it has one result per item, in order. *)
Lemma res_mapM_ok f l ys :
  res_mapM f l = Ok ys ↔ Forall2 (λ x y, f x = Ok y) l ys.
Proof.
  revert ys. induction l as [|x l IH]; intros ys; cbn.
  - split; [intros [= <-]; constructor|by inversion 1].
  - destruct (f x) as [y|e] eqn:Hx; cbn.
    + destruct (res_mapM f l) as [ys'|e] eqn:Hl; cbn.
      * split; [intros [= <-]; constructor; [done|by apply IH]|].
        inversion 1 as [|???? Hy Hys]; subst.
        apply IH in Hys. congruence.
      * split; [done|]. inversion 1 as [|???? Hy Hys]; subst.
        apply IH in Hys. congruence.
    + split; [done|]. inversion 1; congruence.
Qed.

Lemma res_mapM_length f l ys : res_mapM f l = Ok ys → length ys = length l.
Proof. intros ?%res_mapM_ok. symmetry. by eapply Forall2_length. Qed.

(** A body that succeeds on every item makes the loop succeed. *)
Lemma res_mapM_total f l :
  Forall (λ x, is_ok (f x) = true) l →
  ∃ ys, res_mapM f l = Ok ys ∧ length ys = length l.
Proof.
  induction 1 as [|x l [y Hy]%is_ok_true _ (ys&Hys&Hlen)]; cbn.
  - by exists [].
  - rewrite Hy, Hys. cbn. exists (y :: ys). cbn. by rewrite Hlen.
Qed.

(** A body that cannot raise makes the loop a [map]. *)
Lemma res_mapM_pure (h : A → B) l : res_mapM (λ x, Ok (h x)) l = Ok (h <$> l).
Proof. induction l as [|x l IH]; cbn; [done|]. by rewrite IH. Qed.

(** A traversal whose body answers [g x] where [w x] holds and raises [e]
    elsewhere answers the image of the list where [w] holds throughout,
    and raises [e] otherwise. *)
Lemma res_mapM_cases f (w : A → bool) (g : A → B) e l :
  Forall (λ x, f x = if w x then Ok (g x) else Raise e) l →
  res_mapM f l = if forallb w l then Ok (g <$> l) else Raise e.
Proof.
  induction 1 as [|x l Hx _ IH]; cbn; [done|]. rewrite Hx, IH.
  by destruct (w x), (forallb w l).
Qed.

(** The loop raises the exception of the first item that fails. *)
Lemma res_mapM_raise f l e :
  res_mapM f l = Raise e ↔
  ∃ l1 x l2 ys, l = l1 ++ x :: l2 ∧ res_mapM f l1 = Ok ys ∧ f x = Raise e.
Proof.
  split.
  - induction l as [|x l IH]; cbn; [done|].
    destruct (f x) as [y|e'] eqn:Hx; cbn; [|intros [= ->]; by exists [], x, l, []].
    destruct (res_mapM f l) as [ys'|e'] eqn:Hl; cbn; [done|]. intros [= ->].
    destruct (IH eq_refl) as (l1&x'&l2&ys&->&Hl1&?).
    exists (x :: l1), x', l2, (y :: ys). cbn. by rewrite Hx, Hl1.
  - intros (l1&x&l2&ys&->&Hl1&Hx). rewrite res_mapM_app, Hl1. cbn. by rewrite Hx.
Qed.

Lemma collect_ok_nil f : collect_ok f [] = [].
Proof. done. Qed.

Lemma collect_ok_cons f x l :
  collect_ok f (x :: l) =
    match f x with Ok y => y :: collect_ok f l | Raise _ => collect_ok f l end.
Proof. unfold collect_ok; cbn. by destruct (f x). Qed.

Lemma collect_ok_app f l1 l2 :
  collect_ok f (l1 ++ l2) = collect_ok f l1 ++ collect_ok f l2.
Proof. apply omap_app. Qed.

(** What the loop keeps: the results of the items whose body succeeded. *)
Lemma elem_of_collect_ok f l y :
  y ∈ collect_ok f l ↔ ∃ x, x ∈ l ∧ f x = Ok y.
Proof.
  unfold collect_ok. rewrite list_elem_of_omap.
  split; intros (x&?&Hx); exists x; (split; [done|]);
    destruct (f x); naive_solver.
Qed.

(** It never keeps more than it was given, and keeps everything when no
    body raises. *)
Lemma collect_ok_length f l : length (collect_ok f l) ≤ length l.
Proof.
  induction l as [|x l IH]; [done|]. rewrite collect_ok_cons.
  destruct (f x); cbn; lia.
Qed.

Lemma collect_ok_all f l ys : res_mapM f l = Ok ys → collect_ok f l = ys.
Proof.
  revert ys. induction l as [|x l IH]; intros ys; [by intros [= <-]|].
  rewrite collect_ok_cons. cbn. destruct (f x); cbn; [|done].
  destruct (res_mapM f l); cbn; [|done]. intros [= <-]. by rewrite (IH _ eq_refl).
Qed.

End loops.

#[export] Hint Rewrite @collect_ok_nil @collect_ok_cons : res.

(** ** Iterations: equations *)

Section iterations.
Context {A B : Type}.
Implicit Types (f : A → Res B) (it : Iter A) (l : list A).

(** An iteration that ends by itself is the list of its items. *)
Lemma iter_list_whole l : iter_list (mkIter l None) = Ok l.
Proof. done. Qed.

Lemma iter_list_ok it l :
  iter_list it = Ok l ↔ it = mkIter l None.
Proof.
  destruct it as [l' [e|]]; cbn; [by split|].
  split; [by intros [= ->]|by intros [= ->]].
Qed.

Lemma iter_list_raise it e : iter_list it = Raise e ↔ ended it = Some e.
Proof. destruct it as [l' [e'|]]; cbn; naive_solver. Qed.

(** A loop over an iteration that ends by itself is the loop over its
    items. *)
Lemma iter_mapM_whole f it l :
  iter_list it = Ok l → iter_mapM f it = res_mapM f l.
Proof.
  intros ->%iter_list_ok. unfold iter_mapM. cbn.
  by destruct (res_mapM f l).
Qed.

Lemma iter_foldM_whole {T} (g : T → A → Res T) s it l :
  iter_list it = Ok l → iter_foldM g s it = res_foldM g s l.
Proof.
  intros ->%iter_list_ok. unfold iter_foldM. cbn.
  by destruct (res_foldM g s l).
Qed.

(** A loop over an iteration that fails raises: the exception of the
    first item on which the body raised, and that of the iteration when
    the body raised on none of the items given. *)
Lemma iter_mapM_failed f it e :
  ended it = Some e →
  iter_mapM f it =
    match res_mapM f (given it) with Ok _ => Raise e | Raise e' => Raise e' end.
Proof. intros He. unfold iter_mapM. rewrite He. by destruct (res_mapM _ _). Qed.

(** The comprehension answers exactly when the iteration ends by itself
    and the body answers on every item. *)
Lemma iter_mapM_ok f it ys :
  iter_mapM f it = Ok ys ↔ ended it = None ∧ res_mapM f (given it) = Ok ys.
Proof.
  unfold iter_mapM. destruct (res_mapM f (given it)) as [ys'|e'];
    destruct (ended it) as [e|]; cbn; naive_solver.
Qed.

End iterations.

(** ** What blocks meet: equations *)

Section met.
Context {A B : Type}.
Implicit Types (it : Iter B) (f : A → Iter B) (l : list A).

Lemma iter_app_nil_l it : iter_app (mkIter [] None) it = it.
Proof. by destruct it. Qed.

Lemma iter_app_nil_r it : iter_app it (mkIter [] None) = it.
Proof.
  destruct it as [l [e|]]; unfold iter_app; cbn; [done|].
  by rewrite app_nil_r.
Qed.

Lemma iter_app_assoc it1 it2 it3 :
  iter_app (iter_app it1 it2) it3 = iter_app it1 (iter_app it2 it3).
Proof.
  destruct it1 as [l1 [e1|]], it2 as [l2 [e2|]]; unfold iter_app; cbn;
    [done..|].
  by rewrite app_assoc.
Qed.

(** Blocks that end by themselves meet what they meet one after the
    other. *)
Lemma iter_app_whole (l1 l2 : list B) ending :
  iter_app (mkIter l1 None) (mkIter l2 ending) = mkIter (l1 ++ l2) ending.
Proof. done. Qed.

(** A handler that meets nothing and ends by itself leaves what the block
    has met. *)
Lemma iter_catch_pass it :
  iter_catch it (λ _, mkIter [] None) = mkIter (given it) None.
Proof.
  destruct it as [l [e|]]; unfold iter_catch, iter_app; cbn; [|done].
  by rewrite app_nil_r.
Qed.

(** The end of the iteration comes after the loop. *)
Lemma iter_concat_end f l ending :
  iter_concat f l ending =
    iter_app (iter_concat f l None) (mkIter [] ending).
Proof.
  induction l as [|x l IH]; cbn; [done|]. by rewrite IH, iter_app_assoc.
Qed.

(** A loop whose body ends by itself on every item meets what the body
    meets on each, in order. *)
Lemma iter_concat_whole {E} (R : A → E → Prop) (g : E → list B) f l es
    ending :
  Forall2 R l es → (∀ x e, R x e → f x = mkIter (g e) None) →
  iter_concat f l ending = mkIter (es ≫= g) ending.
Proof.
  intros Hes Hf. induction Hes as [|x e l es Hx _ IH]; cbn; [done|].
  by rewrite (Hf x e Hx), IH.
Qed.

(** The first item on which the body fails ends the loop. *)
Lemma iter_concat_raise f l1 x l2 ending e :
  ended (iter_concat f l1 None) = None → ended (f x) = Some e →
  iter_concat f (l1 ++ x :: l2) ending =
    mkIter (given (iter_concat f l1 None) ++ given (f x)) (Some e).
Proof.
  intros H1 Hx. induction l1 as [|y l1 IH]; cbn in *.
  - unfold iter_app. rewrite Hx. by destruct (f x) as [? ?]; simplify_eq/=.
  - revert H1. unfold iter_app. destruct (f y) as [ly [ey|]]; [done|]. cbn.
    intros H1. rewrite IH by done. cbn. by rewrite app_assoc.
Qed.

End met.

(** A loop whose body meets its item meets the items of the
    iteration. *)
Lemma iter_bind_singletons {A} (it : Iter A) :
  iter_bind it (λ x, mkIter [x] None) = it.
Proof.
  destruct it as [l ending]. unfold iter_bind. cbn.
  induction l as [|x l IH]; cbn; [done|]. by rewrite IH.
Qed.

(** ** Lists: what is lost keeps the order *)

Section sublists.
Context {A B : Type}.

(** [omap] keeps the sublists. *)
#[export] Instance omap_sublist (f : A → option B) :
  Proper (sublist ==> sublist) (omap f).
Proof.
  intros l1 l2. induction 1 as [|x l1 l2 _ IH|x l1 l2 _ IH]; cbn; [done|..];
    destruct (f x); by try constructor.
Qed.

(** [≫=] with a smaller function on each item gives a sublist. *)
Lemma bind_sublist_Forall (f g : A → list B) (l : list A) :
  Forall (λ x, f x `sublist_of` g x) l → l ≫= f `sublist_of` l ≫= g.
Proof. induction 1; cbn; [done|by apply sublist_app]. Qed.

End sublists.
