(* ===== verification/PyStr.v ===== *)
(** * The [str] methods the sources call

    [x in s], [s.find(x)], [s.split(sep)], [sep.join(parts)],
    [s.strip(chars)], [s.strip()] and [s.lower()], on sequences first
    (Section [seq]) and then on strings.  These are Python's, not the
    repository's: they carry no source lines, and the theorems about them are
    the facts the extraction proofs use. *)

From stdpp Require Import base tactics option list strings.
From Stdlib Require Import Ascii.
From S2P Require Import Prelude.

#[global] Set Warnings "-clear-no-such-hyp".

Abbreviation chars := String.list_ascii_of_string (only parsing).
Abbreviation of_chars := String.string_of_list_ascii (only parsing).

(** ** Sequences *)

Section seq.
Context `{EqDecision A}.
Implicit Types (l p sep sub : list A) (ps : list (list A)).

(** [l.startswith(p)] *)
Fixpoint starts_with p l : bool :=
  match p, l with
  | [], _ => true
  | x :: p, y :: l => bool_decide (x = y) && starts_with p l
  | _ :: _, [] => false
  end.

(** [sub in l] *)
Fixpoint seq_contains sub l : bool :=
  starts_with sub l ||
  match l with [] => false | _ :: l => seq_contains sub l end.

(** [l.find(sub)], with [None] for -1 *)
Fixpoint seq_find sub l : option nat :=
  if starts_with sub l then Some 0
  else match l with [] => None | _ :: l => S <$> seq_find sub l end.

(** [l.split(sep)] for a separator that is not empty.  [skip] counts the
    items of a separator just found that are still to be passed over. *)
Fixpoint seq_split_go sep (skip : nat) l : list (list A) :=
  match l with
  | [] => [[]]
  | x :: l' =>
      match skip with
      | S k => seq_split_go sep k l'
      | 0 =>
          if starts_with sep l then [] :: seq_split_go sep (length sep - 1) l'
          else match seq_split_go sep 0 l' with
               | p :: ps => (x :: p) :: ps
               | [] => [[x]]
               end
      end
  end.

Definition seq_split sep l : list (list A) := seq_split_go sep 0 l.

(** [sep.join(ps)] *)
Fixpoint seq_join sep ps : list A :=
  match ps with
  | [] => []
  | [p] => p
  | p :: ps => p ++ sep ++ seq_join sep ps
  end.

(** [l.lstrip()], [l.rstrip()], [l.strip()] for a set of items to drop *)
Fixpoint seq_lstrip (away : A → bool) l : list A :=
  match l with
  | [] => []
  | x :: l' => if away x then seq_lstrip away l' else l
  end.

Definition seq_rstrip (away : A → bool) l : list A :=
  reverse (seq_lstrip away (reverse l)).

Definition seq_strip (away : A → bool) l : list A :=
  seq_rstrip away (seq_lstrip away l).

(** What comes before the first [sep] of [l], all of [l] when there is
    none; and what comes after it. *)
Definition seq_until sep l : list A :=
  match seq_find sep l with Some n => take n l | None => l end.

Definition seq_after sep l : option (list A) :=
  match seq_find sep l with
  | Some n => Some (drop (n + length sep) l)
  | None => None
  end.

(** *** Prefixes and containment *)

Lemma starts_with_spec p l : starts_with p l = true ↔ p `prefix_of` l.
Proof.
  revert l. induction p as [|x p IH]; intros [|y l]; cbn.
  - split; [intros; apply prefix_nil|done].
  - split; [intros; apply prefix_nil|done].
  - split; [done|]. by intros ?%prefix_nil_not.
  - rewrite andb_true_iff, bool_decide_eq_true, IH. split.
    + intros [-> ?]. by apply prefix_cons.
    + intros Hp. split; [by eapply prefix_cons_inv_1|by eapply prefix_cons_inv_2].
Qed.

Lemma starts_with_app p l : starts_with p (p ++ l) = true.
Proof. apply starts_with_spec. by exists l. Qed.

Lemma starts_with_refl p : starts_with p p = true.
Proof. apply starts_with_spec. done. Qed.

Lemma starts_with_length p l : starts_with p l = true → length p ≤ length l.
Proof. intros ?%starts_with_spec. by apply prefix_length. Qed.

(** [sub in l] holds exactly when [l] is [l1 ++ sub ++ l2] for some [l1],
    [l2]. *)
Lemma seq_contains_spec sub l :
  seq_contains sub l = true ↔ ∃ l1 l2, l = l1 ++ sub ++ l2.
Proof.
  induction l as [|x l IH]; cbn; rewrite orb_true_iff, starts_with_spec.
  - split.
    + intros [[k ->]|?]; [by exists [], k|done].
    + intros (l1&l2&Hl). left. symmetry in Hl.
      apply app_eq_nil in Hl as [-> [-> ->]%app_eq_nil]. done.
  - rewrite IH. split.
    + intros [[k ->]|(l1&l2&->)]; [by exists [], k|by exists (x :: l1), l2].
    + intros ([|y l1]&l2&Hl); simplify_eq/=; [left; by eexists|right; eauto].
Qed.

Lemma seq_contains_nil l : seq_contains [] l = true.
Proof. apply seq_contains_spec. by exists [], l. Qed.

Lemma seq_contains_app sub l1 l2 :
  seq_contains sub l1 = true ∨ seq_contains sub l2 = true →
  seq_contains sub (l1 ++ l2) = true.
Proof.
  rewrite !seq_contains_spec. intros [(k1&k2&->)|(k1&k2&->)].
  - exists k1, (k2 ++ l2). by rewrite <-!(assoc_L (++)).
  - exists (l1 ++ k1), k2. by rewrite <-!(assoc_L (++)).
Qed.

(** A one-item sequence is contained exactly when the item is an element. *)
Lemma seq_contains_singleton x l : seq_contains [x] l = true ↔ x ∈ l.
Proof.
  rewrite seq_contains_spec. split.
  - intros (l1&l2&->). rewrite !elem_of_app, list_elem_of_singleton. auto.
  - intros (l1&l2&->)%list_elem_of_split. by exists l1, l2.
Qed.

Lemma seq_find_contains sub l : is_Some (seq_find sub l) ↔ seq_contains sub l = true.
Proof.
  induction l as [|x l IH]; cbn; destruct (starts_with sub _); cbn.
  - split; [done|by eexists].
  - split; [by intros [??]|done].
  - split; [done|by eexists].
  - by rewrite fmap_is_Some.
Qed.

(** [find] answers the first position at which [sub] starts. *)
Lemma seq_find_Some sub l n :
  seq_find sub l = Some n →
  starts_with sub (drop n l) = true ∧
  ∀ i, i < n → starts_with sub (drop i l) = false.
Proof.
  revert n. induction l as [|x l IH]; intros n; cbn.
  - destruct (starts_with sub []) eqn:Hs; [|done]. intros [= <-].
    split; [done|lia].
  - destruct (starts_with sub (x :: l)) eqn:Hs.
    + intros [= <-]. split; [done|lia].
    + destruct (seq_find sub l) as [m|]; [|done]. intros [= <-].
      destruct (IH m eq_refl) as [? Hlt]. split; [done|].
      intros [|i] ?; [done|]. apply Hlt. lia.
Qed.

(** *** split *)

Lemma seq_join_cons sep p q ps :
  seq_join sep (p :: q :: ps) = p ++ sep ++ seq_join sep (q :: ps).
Proof. done. Qed.

Lemma seq_split_go_nonempty sep k l : seq_split_go sep k l ≠ [].
Proof.
  revert k. induction l as [|x l IH]; intros [|k]; cbn; try done.
  destruct (starts_with sep _); [done|]. by destruct (seq_split_go sep 0 l).
Qed.

(** Passing over [k] items is dropping them. *)
Lemma seq_split_go_skip sep k l :
  seq_split_go sep k l = seq_split sep (drop k l).
Proof.
  revert k. induction l as [|x l IH]; intros [|k]; by cbn.
Qed.

Lemma seq_split_nil sep : seq_split sep [] = [[]].
Proof. done. Qed.

(** At a separator: an empty piece ends here, and the split goes on after
    the separator. *)
Lemma seq_split_at_sep sep l :
  sep ≠ [] →
  seq_split sep (sep ++ l) = [] :: seq_split sep l.
Proof.
  intros Hsep. destruct sep as [|x sep]; [done|].
  pose proof (starts_with_app (x :: sep) l) as Hs.
  unfold seq_split at 1. cbn [app seq_split_go length] in *. rewrite Hs.
  rewrite Nat.sub_succ, Nat.sub_0_r, seq_split_go_skip.
  by rewrite drop_app_length.
Qed.

(** Elsewhere: the first item joins the first piece of the rest. *)
Lemma seq_split_cons sep x l :
  starts_with sep (x :: l) = false →
  ∃ p ps, seq_split sep l = p :: ps ∧ seq_split sep (x :: l) = (x :: p) :: ps.
Proof.
  intros Hs. unfold seq_split. cbn. rewrite Hs.
  destruct (seq_split_go sep 0 l) as [|p ps] eqn:Hl; [|eauto].
  by apply seq_split_go_nonempty in Hl.
Qed.

(** [sep.join(l.split(sep)) == l] *)
Lemma seq_join_split sep l : sep ≠ [] → seq_join sep (seq_split sep l) = l.
Proof.
  intros Hsep. induction l as [l IH] using (induction_ltof1 _ (@length A)).
  unfold ltof in IH.
  destruct l as [|x l]; [done|].
  destruct (starts_with sep (x :: l)) eqn:Hs.
  - apply starts_with_spec in Hs as [k Hk]. rewrite Hk.
    rewrite seq_split_at_sep by done.
    assert (seq_join sep (seq_split sep k) = k) as Hrec.
    { apply IH. apply (f_equal length) in Hk. rewrite length_app in Hk.
      destruct sep; [done|]. cbn in *. lia. }
    cbn. destruct (seq_split sep k) as [|p ps] eqn:Hsp.
    { by apply seq_split_go_nonempty in Hsp. }
    by rewrite Hrec.
  - destruct (seq_split_cons sep x l Hs) as (p&ps&Hl&->).
    assert (seq_join sep (seq_split sep l) = l) as Hrec by (apply IH; cbn; lia).
    rewrite Hl in Hrec. cbn. destruct ps; cbn in *; by rewrite <-Hrec.
Qed.

(** No separator, no cut. *)
Lemma seq_split_none sep l :
  seq_contains sep l = false → seq_split sep l = [l].
Proof.
  induction l as [|x l IH]; [done|]. cbn [seq_contains].
  intros [Hs Hl]%orb_false_iff.
  destruct (seq_split_cons sep x l Hs) as (p&ps&Hsp&->).
  rewrite (IH Hl) in Hsp. by simplify_eq.
Qed.

(** The first piece ends where [find] finds the separator, and the split
    goes on after it. *)
Lemma seq_split_find sep l n :
  sep ≠ [] → seq_find sep l = Some n →
  seq_split sep l = take n l :: seq_split sep (drop (n + length sep) l).
Proof.
  intros Hsep. revert n. induction l as [|x l IH]; intros n Hn.
  - cbn in Hn. destruct (starts_with sep []) eqn:Hs; [|done].
    by destruct sep.
  - cbn [seq_find] in Hn. destruct (starts_with sep (x :: l)) eqn:Hs.
    + injection Hn as <-. apply starts_with_spec in Hs as [k ->].
      rewrite seq_split_at_sep by done. cbn [Nat.add take].
      by rewrite drop_app_length.
    + destruct (seq_find sep l) as [m|] eqn:Hm; [|done]. injection Hn as <-.
      destruct (seq_split_cons sep x l Hs) as (p&ps&Hsp&->).
      rewrite (IH m eq_refl) in Hsp. by simplify_eq.
Qed.

Lemma seq_find_None sep l : seq_find sep l = None → seq_contains sep l = false.
Proof.
  intros Hn. apply not_true_iff_false. rewrite <-seq_find_contains, Hn.
  by intros [??].
Qed.

(** The pieces of a split, by [find]: the first is what comes before the
    first separator, the others are the pieces of what comes after it. *)
Lemma seq_split_until sep l :
  sep ≠ [] →
  seq_split sep l =
    seq_until sep l ::
    match seq_after sep l with Some l' => seq_split sep l' | None => [] end.
Proof.
  intros Hsep. unfold seq_until, seq_after.
  destruct (seq_find sep l) as [n|] eqn:Hn; [by apply seq_split_find|].
  by apply seq_split_none, seq_find_None.
Qed.

(** A piece that does not meet the separator, followed by the separator:
    the split cuts there.  [sep] has one item, which rules out a separator
    that starts inside the piece and ends outside of it. *)
Lemma seq_split_piece c p l :
  c ∉ p → seq_split [c] (p ++ c :: l) = p :: seq_split [c] l.
Proof.
  intros Hp. induction p as [|x p IH]; cbn [app].
  - by apply (seq_split_at_sep [c]).
  - apply not_elem_of_cons in Hp as [? ?].
    destruct (seq_split_cons [c] x (p ++ c :: l)) as (q&qs&Hsp&->).
    { cbn. by rewrite bool_decide_eq_false_2. }
    rewrite IH in Hsp by done. by simplify_eq.
Qed.

(** [sep.join(ps).split(sep) == ps] when no piece holds the separator (one
    item) and there is a piece. *)
Lemma seq_split_join c ps :
  ps ≠ [] → Forall (λ p, c ∉ p) ps → seq_split [c] (seq_join [c] ps) = ps.
Proof.
  intros Hne Hps. induction Hps as [|p ps Hp Hps IH]; [done|].
  destruct ps as [|q ps].
  - apply seq_split_none. apply not_true_iff_false.
    by rewrite seq_contains_singleton.
  - rewrite seq_join_cons. cbn [app]. rewrite seq_split_piece by done.
    by rewrite IH.
Qed.

(** *** strip *)

Lemma seq_lstrip_head away l x l' :
  seq_lstrip away l = x :: l' → away x = false.
Proof.
  induction l as [|y l IH]; cbn; [done|].
  destruct (away y) eqn:Hy; [done|]. by intros [= <- _].
Qed.

Lemma seq_lstrip_suffix away l : seq_lstrip away l `suffix_of` l.
Proof.
  induction l as [|y l IH]; cbn; [done|].
  destruct (away y); [by apply suffix_cons_r|done].
Qed.

(** What [lstrip] removes is a run of items to drop. *)
Lemma seq_lstrip_split away l :
  ∃ k, l = k ++ seq_lstrip away l ∧ Forall (λ x, away x = true) k.
Proof.
  induction l as [|y l (k&Hk&?)]; cbn; [by exists []|].
  destruct (away y) eqn:Hy; [|by exists []].
  exists (y :: k). split; [by rewrite Hk at 1|by constructor].
Qed.

Lemma seq_lstrip_keep away x l :
  away x = false → seq_lstrip away (x :: l) = x :: l.
Proof. intros Hx. cbn. by rewrite Hx. Qed.

Lemma seq_lstrip_idemp away l :
  seq_lstrip away (seq_lstrip away l) = seq_lstrip away l.
Proof.
  destruct (seq_lstrip away l) as [|x l'] eqn:Hl; [done|].
  cbn. by rewrite (seq_lstrip_head _ _ _ _ Hl).
Qed.

Lemma seq_rstrip_idemp away l :
  seq_rstrip away (seq_rstrip away l) = seq_rstrip away l.
Proof.
  unfold seq_rstrip. by rewrite reverse_involutive, seq_lstrip_idemp.
Qed.

Lemma seq_rstrip_last away l x :
  last (seq_rstrip away l) = Some x → away x = false.
Proof.
  unfold seq_rstrip. rewrite last_reverse.
  destruct (seq_lstrip away (reverse l)) as [|y l'] eqn:Hl; [done|].
  intros [= ->]. by eapply seq_lstrip_head.
Qed.

Lemma seq_rstrip_prefix away l : seq_rstrip away l `prefix_of` l.
Proof.
  unfold seq_rstrip. destruct (seq_lstrip_suffix away (reverse l)) as [k Hk].
  exists (reverse k). apply (inj reverse).
  by rewrite reverse_app, !reverse_involutive.
Qed.

(** [rstrip] keeps the head of a sequence that it does not empty. *)
Lemma seq_rstrip_head away l x :
  head (seq_rstrip away l) = Some x → head l = Some x.
Proof.
  destruct (seq_rstrip_prefix away l) as [k Hk].
  destruct (seq_rstrip away l); [done|]. rewrite Hk. done.
Qed.

(** After [strip] neither end is an item to drop. *)
Lemma seq_strip_ends away l x :
  head (seq_strip away l) = Some x ∨ last (seq_strip away l) = Some x →
  away x = false.
Proof.
  unfold seq_strip. intros [Hh|Hl]; [|by eapply seq_rstrip_last].
  apply seq_rstrip_head in Hh.
  destruct (seq_lstrip away l) eqn:?; simplify_eq/=. by eapply seq_lstrip_head.
Qed.

(** A sequence of items to drop strips to nothing. *)
Lemma seq_lstrip_all away l :
  Forall (λ x, away x = true) l → seq_lstrip away l = [].
Proof. induction 1 as [|x l Hx _ IH]; cbn; [done|]. by rewrite Hx. Qed.

Lemma seq_strip_all away l :
  Forall (λ x, away x = true) l → seq_strip away l = [].
Proof. intros Hl. unfold seq_strip. by rewrite seq_lstrip_all. Qed.

(** A sequence whose ends are to be kept is left alone. *)
Lemma seq_strip_id away l x y :
  head l = Some x → last l = Some y → away x = false → away y = false →
  seq_strip away l = l.
Proof.
  intros Hx Hy Hax Hay. unfold seq_strip, seq_rstrip.
  assert (seq_lstrip away l = l) as ->.
  { destruct l; simplify_eq/=. by rewrite Hax. }
  rewrite <-head_reverse in Hy.
  destruct (reverse l) eqn:Hr; simplify_eq/=. rewrite Hay, <-Hr.
  apply reverse_involutive.
Qed.

End seq.

(** ** Strings *)

(** [sub in s] *)
Definition str_contains (sub s : string) : bool :=
  seq_contains (chars sub) (chars s).

(** [s.find(sub)] *)
Definition str_find (sub s : string) : option nat :=
  seq_find (chars sub) (chars s).

(** [s.split(sep)]: [ValueError] for the empty separator. *)
Definition str_split (sep s : string) : Res (list string) :=
  if decide (sep = "") then Raise ValueError
  else Ok (of_chars <$> seq_split (chars sep) (chars s)).

(** [sep.join(parts)] *)
Definition str_join (sep : string) (parts : list string) : string :=
  of_chars (seq_join (chars sep) (chars <$> parts)).

(** [s[:s.find(sep)]], [s] when [sep] is not in it; and
    [s[s.find(sep) + len(sep):]] when it is. *)
Definition str_until (sep s : string) : string :=
  of_chars (seq_until (chars sep) (chars s)).

Definition str_after (sep s : string) : option string :=
  of_chars <$> seq_after (chars sep) (chars s).

(** [s.strip(cs)] *)
Definition str_strip_chars (cs s : string) : string :=
  of_chars (seq_strip (λ c, bool_decide (c ∈ chars cs)) (chars s)).

(** The characters [str.strip()] removes from an 8-bit string. *)
Definition is_py_space (c : ascii) : bool :=
  match c with
  | "009" | "010" | "011" | "012" | "013" | " "
  | "028" | "029" | "030" | "031" => true
  | _ => false
  end%char.

(** [s.strip()] *)
Definition str_strip (s : string) : string :=
  of_chars (seq_strip is_py_space (chars s)).

(** [c.lower()] on ASCII *)
Definition ascii_lower (c : ascii) : ascii :=
  let n := nat_of_ascii c in
  if (65 <=? n) && (n <=? 90) then ascii_of_nat (n + 32) else c.

(** [s.lower()] *)
Definition str_lower (s : string) : string :=
  of_chars (ascii_lower <$> chars s).

(** *** Strings as sequences *)

Lemma chars_app s1 s2 : chars (s1 +:+ s2) = chars s1 ++ chars s2.
Proof.
  induction s1 as [|c s1 IH]; [done|].
  change (c :: chars (s1 +:+ s2) = c :: (chars s1 ++ chars s2)). by rewrite IH.
Qed.

Lemma of_chars_app l1 l2 : of_chars (l1 ++ l2) = of_chars l1 +:+ of_chars l2.
Proof.
  induction l1 as [|c l1 IH]; [done|].
  change (String c (of_chars (l1 ++ l2)) = String c (of_chars l1 +:+ of_chars l2)).
  by rewrite IH.
Qed.

Lemma chars_inj s1 s2 : chars s1 = chars s2 → s1 = s2.
Proof.
  intros H. apply (f_equal of_chars) in H.
  by rewrite !String.string_of_list_ascii_of_string in H.
Qed.

Lemma chars_nil s : chars s = [] ↔ s = "".
Proof. by destruct s. Qed.

Lemma chars_length s : length (chars s) = String.length s.
Proof. induction s; cbn; congruence. Qed.

Lemma chars_of_chars_fmap (ls : list (list ascii)) :
  chars <$> (of_chars <$> ls) = ls.
Proof.
  induction ls as [|l ls IH]; [done|]. cbn.
  by rewrite String.list_ascii_of_string_of_list_ascii, IH.
Qed.

Lemma of_chars_chars_fmap (ps : list string) :
  of_chars <$> (chars <$> ps) = ps.
Proof.
  induction ps as [|p ps IH]; [done|]. cbn.
  by rewrite String.string_of_list_ascii_of_string, IH.
Qed.

#[export] Hint Rewrite chars_app of_chars_app
  String.string_of_list_ascii_of_string
  String.list_ascii_of_string_of_list_ascii
  chars_of_chars_fmap of_chars_chars_fmap : res.

(** *** The facts on strings *)

Lemma str_contains_spec sub s :
  str_contains sub s = true ↔ ∃ s1 s2, s = s1 +:+ sub +:+ s2.
Proof.
  unfold str_contains. rewrite seq_contains_spec. split.
  - intros (l1&l2&Hl). exists (of_chars l1), (of_chars l2).
    apply chars_inj. by autorewrite with res.
  - intros (s1&s2&->). exists (chars s1), (chars s2). by autorewrite with res.
Qed.

Lemma str_contains_empty s : str_contains "" s = true.
Proof. apply seq_contains_nil. Qed.

Lemma str_split_empty_sep s : str_split "" s = Raise ValueError.
Proof. done. Qed.

Lemma str_split_ok sep s :
  sep ≠ "" → ∃ p ps, str_split sep s = Ok (p :: ps).
Proof.
  intros ?. unfold str_split. rewrite decide_False by done.
  destruct (seq_split (chars sep) (chars s)) as [|p ps] eqn:Hsp.
  { by apply seq_split_go_nonempty in Hsp. }
  by eexists _, _.
Qed.

(** [sep.join(s.split(sep)) == s] *)
Lemma str_join_split sep s parts :
  str_split sep s = Ok parts → str_join sep parts = s.
Proof.
  unfold str_split, str_join. case_decide; [done|]. intros [= <-].
  autorewrite with res.
  rewrite seq_join_split; [by autorewrite with res|by rewrite chars_nil].
Qed.

(** A string without the separator is the one piece. *)
Lemma str_split_none sep s :
  sep ≠ "" → str_contains sep s = false → str_split sep s = Ok [s].
Proof.
  intros ? Hs. unfold str_split. rewrite decide_False by done.
  rewrite seq_split_none by done. cbn. by autorewrite with res.
Qed.

(** The first two pieces of a split, by [find]: the text before the first
    separator; and, when there is a separator, the text from there to the
    next one. *)
Lemma str_split_pieces sep s parts :
  str_split sep s = Ok parts →
  parts !! 0 = Some (str_until sep s) ∧
  parts !! 1 = str_until sep <$> str_after sep s ∧
  (1 < length parts ↔ is_Some (str_after sep s)).
Proof.
  unfold str_split, str_until, str_after. case_decide as Hsep; [done|].
  rewrite <-chars_nil in Hsep. intros [= <-].
  rewrite seq_split_until by done. split; [done|].
  destruct (seq_after (chars sep) (chars s)) as [l'|]; cbn.
  - rewrite (seq_split_until _ l') by done. cbn. autorewrite with res.
    split; [done|]. split; [by eexists|lia].
  - split; [done|]. split; [lia|by intros [??]].
Qed.

Lemma str_after_contains sep s :
  is_Some (str_after sep s) ↔ str_contains sep s = true.
Proof.
  unfold str_after, seq_after, str_contains. rewrite <-seq_find_contains.
  destruct (seq_find (chars sep) (chars s)); cbn; split; by intros [??] || eauto.
Qed.

(** [c.join(parts).split(c) == parts] for a character [c] that no part
    holds. *)
Lemma str_split_join (c : ascii) parts :
  parts ≠ [] → Forall (λ p, c ∉ chars p) parts →
  str_split (String c "") (str_join (String c "") parts) = Ok parts.
Proof.
  intros Hne Hps. unfold str_split, str_join. rewrite decide_False by done.
  autorewrite with res. cbn [String.list_ascii_of_string].
  rewrite seq_split_join; [by autorewrite with res|by destruct parts|].
  by apply Forall_fmap.
Qed.

Lemma str_strip_chars_idemp cs s :
  str_strip_chars cs (str_strip_chars cs s) = str_strip_chars cs s.
Proof.
  unfold str_strip_chars, seq_strip. autorewrite with res.
  set (away := λ c, bool_decide (c ∈ chars cs)).
  destruct (seq_rstrip_prefix away (seq_lstrip away (chars s))) as [k Hk].
  destruct (seq_rstrip away (seq_lstrip away (chars s))) as [|x l] eqn:Hl; [done|].
  assert (away x = false) as Hx.
  { eapply (seq_strip_ends away (chars s)). left. unfold seq_strip. by rewrite Hl. }
  f_equal. cbn [seq_lstrip]. rewrite Hx, <-Hl. apply seq_rstrip_idemp.
Qed.

Lemma ascii_lower_idemp c : ascii_lower (ascii_lower c) = ascii_lower c.
Proof. by destruct c as [[] [] [] [] [] [] [] []]. Qed.

Lemma str_lower_idemp s : str_lower (str_lower s) = str_lower s.
Proof.
  unfold str_lower. autorewrite with res. f_equal.
  rewrite <-list_fmap_compose. apply list_fmap_ext. intros ???. apply ascii_lower_idemp.
Qed.

Lemma str_lower_length s : String.length (str_lower s) = String.length s.
Proof.
  unfold str_lower. rewrite <-!chars_length. autorewrite with res.
  by rewrite length_fmap.
Qed.

Lemma str_lower_app s1 s2 : str_lower (s1 +:+ s2) = str_lower s1 +:+ str_lower s2.
Proof. unfold str_lower. autorewrite with res. by rewrite fmap_app, of_chars_app. Qed.

Lemma str_lower_empty s : str_lower s = "" ↔ s = "".
Proof.
  split; [|by intros ->]. intros Hs. apply (f_equal String.length) in Hs.
  rewrite str_lower_length in Hs. by destruct s.
Qed.

(** *** Joined parts: where they begin and end *)

Section joined.
Context {A : Type} `{EqDecision A}.
Implicit Types (l p sep : list A) (ps : list (list A)).

Lemma seq_join_head sep p ps x :
  head p = Some x → head (seq_join sep (p :: ps)) = Some x.
Proof.
  destruct p as [|y p]; [done|]. intros [= ->].
  destruct ps; [done|]. by rewrite seq_join_cons.
Qed.

Lemma seq_join_last sep ps p x :
  last ps = Some p → last p = Some x → last (seq_join sep ps) = Some x.
Proof.
  induction ps as [|q [|q' ps] IH]; [done|by intros [= ->]|].
  intros Hps Hp. by rewrite seq_join_cons, !last_app, (IH Hps Hp).
Qed.

(** Stripping removes a character that is to go from the front. *)
Lemma seq_strip_cons_away (away : A → bool) x l :
  away x = true → seq_strip away (x :: l) = seq_strip away l.
Proof. intros Hx. unfold seq_strip. cbn. by rewrite Hx. Qed.

End joined.

(** A path of parts that hold no separator, the first and the last not
    empty: stripping the separators in front leaves the joined parts. *)
Lemma str_strip_joined (c : ascii) parts first last_ :
  head parts = Some first → last parts = Some last_ →
  first ≠ "" → last_ ≠ "" → Forall (λ p, c ∉ chars p) parts →
  str_strip_chars (String c "")
    (String c "" +:+ String c "" +:+ str_join (String c "") parts)
  = str_join (String c "") parts.
Proof.
  intros Hhd Hlast Hf Hl Hparts. unfold str_strip_chars, str_join.
  set (away := λ x, bool_decide (x ∈ chars (String c ""))).
  assert (∀ p, p ∈ parts → ∀ x, x ∈ chars p → away x = false) as Hno.
  { intros p Hp x Hx. apply bool_decide_eq_false. cbn.
    rewrite list_elem_of_singleton. intros ->.
    by eapply (proj1 (Forall_forall _ _) Hparts). }
  assert (away c = true) as Hc by (apply bool_decide_eq_true; cbn; left).
  autorewrite with res. cbn [String.list_ascii_of_string app].
  rewrite !seq_strip_cons_away by done. f_equal.
  destruct parts as [|p0 ps]; [done|]. cbn in Hhd. simplify_eq.
  destruct (chars first) as [|x l] eqn:Hx; [by apply chars_nil in Hx|].
  destruct (chars last_) as [|y l'] eqn:Hy using rev_ind;
    [by apply chars_nil in Hy|].
  eapply (seq_strip_id away _ x y).
  - rewrite fmap_cons. apply seq_join_head. by rewrite Hx.
  - eapply seq_join_last; [by rewrite fmap_last, Hlast|].
    by rewrite Hy, last_snoc.
  - apply (Hno first); [left|]. rewrite Hx. left.
  - apply (Hno last_); [by apply last_Some_elem_of|].
    rewrite Hy, elem_of_app, list_elem_of_singleton. by right.
Qed.
