(* ===== verification/PyObj.v ===== *)
(** * The values the sources handle

    Python values and the .NET objects that pythonnet hands to Python, as one
    type [Obj], with the operations of Python the sources apply to them:
    attribute access ([getattr], [hasattr]), truthiness ([truthy]: [if x],
    [bool(x)], [x and y]), [str()] ([py_str]), [float()] ([py_float]),
    [int()] ([py_int]), [len()] ([py_len]), iteration ([iterate] for a
    [for] statement, [py_iter] for [list(x)]), and dictionaries that keep
    the order of insertion ([dict_get], [dict_set]).

    A .NET object is [ONet slots]: a slot holds the value of a property (or
    the result of a method without arguments) or the exception that reading
    it raises.  [hasattr] reads a property, and raises what the read
    raises unless that is [AttributeError]; a method it only looks up
    ([has_method]: the slot is there).  The protocol methods of Python are slots too: [__float__],
    [__int__], [__bool__], [__len__], [__iter__]; [str()] of a .NET object
    is its [ToString] slot, as pythonnet defines it.  A collection gives
    the items of its [__iter__] slot; when its [MoveNext] slot raises, the
    iteration fails with that exception after the last of them.

    The attribute names the sources ask for ([Name], [ToString], [ID], ...)
    are not attributes of Python's own values, so [getattr] on anything but
    an [ONet] raises [AttributeError]. *)

From stdpp Require Import base tactics option list strings numbers pretty.
From Stdlib Require Import Ascii.
From S2P Require Import Prelude PyStr.

#[global] Set Warnings "-clear-no-such-hyp,-register-all".

(** ** Numbers and dates *)

(** A finite float: [fl_mant] times ten to the [fl_exp]. *)
Record PyFloat : Type := mkFloat { fl_mant : Z; fl_exp : Z }.

#[export] Instance PyFloat_eq_dec : EqDecision PyFloat.
Proof. solve_decision. Defined.

(** [float(z)] for an integer *)
Definition float_of_Z (z : Z) : PyFloat := mkFloat z 0.

(** [int(f)]: truncation towards zero *)
Definition Z_of_float (f : PyFloat) : Z :=
  if decide (0 ≤ fl_exp f)%Z then (fl_mant f * 10 ^ fl_exp f)%Z
  else (fl_mant f `quot` 10 ^ (- fl_exp f))%Z.

(** [f > 0] *)
Definition float_pos (f : PyFloat) : bool := bool_decide (0 < fl_mant f)%Z.

(** A [datetime.datetime] without time zone. *)
Record DateTime : Type := mkDateTime {
  dt_year : Z; dt_month : Z; dt_day : Z;
  dt_hour : Z; dt_minute : Z; dt_second : Z; dt_microsecond : Z
}.

#[export] Instance DateTime_eq_dec : EqDecision DateTime.
Proof. solve_decision. Defined.

(** ** Objects *)

Inductive Obj : Type :=
| ONone
| OBool (b : bool)
| OInt (z : Z)
| OFloat (f : PyFloat)
| OStr (s : string)
| ODateTime (d : DateTime)
| OList (xs : list Obj)
| ODict (kvs : list (string * Obj))
| ONet (slots : list (string * Slot))
with Slot : Type :=
| SVal (v : Obj)
| SRaise (e : Exn).

(** ** Dictionaries in insertion order *)

Section dict.
Context {V : Type}.
Implicit Types (d : list (string * V)) (k : string) (v : V).

(** [d.get(k)] *)
Fixpoint dict_get k d : option V :=
  match d with
  | [] => None
  | (k', v) :: d => if decide (k = k') then Some v else dict_get k d
  end.

(** [d[k] = v]: a known key keeps its place, a new key goes last. *)
Fixpoint dict_set k v d : list (string * V) :=
  match d with
  | [] => [(k, v)]
  | (k', v') :: d =>
      if decide (k = k') then (k, v) :: d else (k', v') :: dict_set k v d
  end.

Definition dict_keys d : list string := fst <$> d.

(** [k in d] *)
Definition dict_has k d : bool := bool_decide (is_Some (dict_get k d)).

Lemma dict_get_set_eq k v d : dict_get k (dict_set k v d) = Some v.
Proof.
  induction d as [|[k' v'] d IH]; cbn; [by rewrite decide_True|].
  case_decide; cbn; [by rewrite decide_True|by rewrite decide_False].
Qed.

Lemma dict_get_set_ne k k' v d :
  k ≠ k' → dict_get k' (dict_set k v d) = dict_get k' d.
Proof.
  intros Hk. induction d as [|[k'' v''] d IH]; cbn.
  - by rewrite decide_False.
  - case_decide; subst; cbn; [by rewrite !decide_False|].
    case_decide; [done|apply IH].
Qed.

Lemma dict_get_set k k' v d :
  dict_get k' (dict_set k v d) = if decide (k = k') then Some v else dict_get k' d.
Proof.
  case_decide; subst; [apply dict_get_set_eq|by apply dict_get_set_ne].
Qed.

Lemma dict_get_Some_elem k v d : dict_get k d = Some v → (k, v) ∈ d.
Proof.
  induction d as [|[k' v'] d IH]; cbn; [done|].
  case_decide; subst; [intros [= ->]; left|right; auto].
Qed.

Lemma dict_get_None k d : dict_get k d = None ↔ k ∉ dict_keys d.
Proof.
  unfold dict_keys. induction d as [|[k' v'] d IH]; cbn.
  - split; [intros _; apply not_elem_of_nil|done].
  - rewrite not_elem_of_cons. case_decide; subst; [naive_solver|].
    rewrite IH. naive_solver.
Qed.

(** What holds of the values of a dictionary and of a new value holds
    after the assignment. *)
Lemma Forall_dict_set (P : V → Prop) k v d :
  P v → Forall (λ kv, P kv.2) d → Forall (λ kv, P kv.2) (dict_set k v d).
Proof.
  intros Hv. induction 1 as [|[k' v'] d Hv' Hd IH]; cbn.
  - by repeat constructor.
  - case_decide; constructor; auto.
Qed.

(** An assignment keeps the order of the keys; a new key goes last. *)
Lemma dict_keys_set k v d :
  dict_keys (dict_set k v d) =
    if dict_has k d then dict_keys d else dict_keys d ++ [k].
Proof.
  unfold dict_has, dict_keys. induction d as [|[k' v'] d IH]; cbn.
  - done.
  - case_decide; subst; cbn; [done|].
    rewrite IH. by destruct (bool_decide _).
Qed.

Lemma dict_set_NoDup k v d : NoDup (dict_keys d) → NoDup (dict_keys (dict_set k v d)).
Proof.
  intros Hd. rewrite dict_keys_set. unfold dict_has.
  case_bool_decide as Hk; [done|].
  apply NoDup_app. split_and!; [done| |apply NoDup_singleton].
  intros k' Hk' ->%list_elem_of_singleton. apply Hk.
  destruct (dict_get k d) eqn:Hg; [done|]. by apply dict_get_None in Hg.
Qed.

Lemma dict_set_length k v d :
  length (dict_set k v d) = if dict_has k d then length d else S (length d).
Proof.
  pose proof (dict_keys_set k v d) as H. apply (f_equal length) in H.
  unfold dict_keys in H. rewrite length_fmap in H. rewrite H.
  destruct (dict_has k d); rewrite ?length_app, length_fmap; cbn; lia.
Qed.

Lemma dict_has_keys k d : dict_has k d = true ↔ k ∈ dict_keys d.
Proof.
  unfold dict_has. rewrite bool_decide_eq_true.
  destruct (dict_get k d) eqn:Hg.
  - split; [intros _|by eauto]. apply dict_get_Some_elem in Hg.
    apply list_elem_of_fmap. by exists (k, v).
  - split; [by intros []|]. by apply dict_get_None in Hg.
Qed.

End dict.

#[export] Hint Rewrite @dict_get_set_eq : res.

(** ** Attributes *)

(** [o.name] *)
Definition getattr (o : Obj) (name : string) : Res Obj :=
  match o with
  | ONet slots =>
      match dict_get name slots with
      | Some (SVal v) => Ok v
      | Some (SRaise e) => Raise e
      | None => Raise AttributeError
      end
  | _ => Raise AttributeError
  end.

(** [hasattr(o, name)]: Python reads the attribute and answers [False] on
    [AttributeError]; any other exception of the read passes through. *)
Definition hasattr (o : Obj) (name : string) : Res bool :=
  try_except (_ ← getattr o name; Ok true)
    (one_of [AttributeError]) (λ _, Ok false).

(** ** Truthiness *)

(** [bool(o)], and the test of [if o:], [o and ...], [... if o else ...].
    A .NET object answers through [__bool__], else through [__len__] (which
    pythonnet gives to collections), else it is true. *)
Definition truthy (o : Obj) : Res bool :=
  match o with
  | ONone => Ok false
  | OBool b => Ok b
  | OInt z => Ok (bool_decide (z ≠ 0%Z))
  | OFloat f => Ok (bool_decide (fl_mant f ≠ 0%Z))
  | OStr s => Ok (bool_decide (s ≠ ""))
  | ODateTime _ => Ok true
  | OList xs => Ok (match xs with [] => false | _ => true end)
  | ODict kvs => Ok (match kvs with [] => false | _ => true end)
  | ONet slots =>
      match dict_get "__bool__" slots with
      | Some (SVal (OBool b)) => Ok b
      | Some (SVal _) => Raise TypeError
      | Some (SRaise e) => Raise e
      | None =>
          match dict_get "__len__" slots with
          | Some (SVal (OInt n)) =>
              if decide (0 ≤ n)%Z then Ok (bool_decide (n ≠ 0%Z))
              else Raise ValueError
          | Some (SVal _) => Raise TypeError
          | Some (SRaise e) => Raise e
          | None => Ok true
          end
      end
  end.

(** [hasattr(o, name) and o.name]: the guard the sources write before they
    read an optional attribute.  [Ok (Some v)] when the attribute is there
    and true. *)
Definition attr_if_true (o : Obj) (name : string) : Res (option Obj) :=
  h ← hasattr o name;
  if h then
    v ← getattr o name;
    t ← truthy v;
    Ok (if t then Some v else None)
  else Ok None.

(** ** Conversions that read text: an interface *)

(** What Python does with the text of numbers and dates, and how it prints
    compound values.  The model is parametric in these; [decimal_builtins]
    below is an instance to run it with. *)
Class Builtins : Type := {
  (** [float(s)] on a [str]; [None] is [ValueError] *)
  float_of_str : string → option PyFloat;
  (** [int(s)] on a [str]; [None] is [ValueError] *)
  int_of_str : string → option Z;
  (** [str(f)] of a float *)
  str_of_float : PyFloat → string;
  (** [str(d)] of a datetime *)
  str_of_datetime : DateTime → string;
  (** [d.isoformat()] *)
  isoformat : DateTime → string;
  (** [str()] of a list, a dict, or an object without [ToString] *)
  str_of_other : Obj → string;
  (** [str(e)] of an exception of Python's own: its message, which [Exn]
      does not hold *)
  str_of_exn : Exn → string
}.

Section conversions.
Context `{!Builtins}.

(** [str(o)] *)
Definition py_str (o : Obj) : Res string :=
  match o with
  | ONone => Ok "None"
  | OBool b => Ok (if b then "True" else "False")
  | OInt z => Ok (pretty z)
  | OFloat f => Ok (str_of_float f)
  | OStr s => Ok s
  | ODateTime d => Ok (str_of_datetime d)
  | OList _ | ODict _ => Ok (str_of_other o)
  | ONet slots =>
      match dict_get "ToString" slots with
      | Some (SVal (OStr s)) => Ok s
      | Some (SVal _) => Raise TypeError
      | Some (SRaise e) => Raise e
      | None => Ok (str_of_other o)
      end
  end.

(** [float(o)] *)
Definition py_float (o : Obj) : Res PyFloat :=
  match o with
  | OFloat f => Ok f
  | OInt z => Ok (float_of_Z z)
  | OBool b => Ok (float_of_Z (if b then 1 else 0))
  | OStr s => res_of_option ValueError (float_of_str s)
  | ONone | ODateTime _ | OList _ | ODict _ => Raise TypeError
  | ONet slots =>
      match dict_get "__float__" slots with
      | Some (SVal (OFloat f)) => Ok f
      | Some (SVal _) => Raise TypeError
      | Some (SRaise e) => Raise e
      | None => Raise TypeError
      end
  end.

(** [int(o)] *)
Definition py_int (o : Obj) : Res Z :=
  match o with
  | OInt z => Ok z
  | OBool b => Ok (if b then 1 else 0)%Z
  | OFloat f => Ok (Z_of_float f)
  | OStr s => res_of_option ValueError (int_of_str s)
  | ONone | ODateTime _ | OList _ | ODict _ => Raise TypeError
  | ONet slots =>
      match dict_get "__int__" slots with
      | Some (SVal (OInt z)) => Ok z
      | Some (SVal _) => Raise TypeError
      | Some (SRaise e) => Raise e
      | None => Raise TypeError
      end
  end.

End conversions.

(** ** Iteration *)

(** How the iteration over [o] goes.  A list, a dictionary and a string
    give their items and end.  A .NET collection gives the items of its
    slot [__iter__]; when its slot [MoveNext] raises, the enumerator raises
    that after these items, as a collection does that is fetched from the
    server while it is read.  An object that cannot be iterated gives no
    item and [TypeError]. *)
Definition iterate (o : Obj) : Iter Obj :=
  match o with
  | OList xs => mkIter xs None
  | ODict kvs => mkIter ((λ kv, OStr kv.1) <$> kvs) None
  | OStr s => mkIter ((λ c, OStr (String c "")) <$> chars s) None
  | ONet slots =>
      match dict_get "__iter__" slots with
      | Some (SVal (OList xs)) =>
          mkIter xs
            match dict_get "MoveNext" slots with
            | Some (SRaise e) => Some e
            | _ => None
            end
      | Some (SVal _) => mkIter [] (Some TypeError)
      | Some (SRaise e) => mkIter [] (Some e)
      | None => mkIter [] (Some TypeError)
      end
  | _ => mkIter [] (Some TypeError)
  end.

(** [list(o)]: the items of [o], or the exception of its iteration. *)
Definition py_iter (o : Obj) : Res (list Obj) := iter_list (iterate o).

(** [len(o)].  A .NET collection answers through [__len__], which
    pythonnet makes of its [Count]; the answer need not be the number of
    items its iteration gives. *)
Definition py_len (o : Obj) : Res Z :=
  match o with
  | OStr s => Ok (Z.of_nat (length (chars s)))
  | OList xs => Ok (Z.of_nat (length xs))
  | ODict kvs => Ok (Z.of_nat (length kvs))
  | ONet slots =>
      match dict_get "__len__" slots with
      | Some (SVal (OInt n)) =>
          if decide (0 ≤ n)%Z then Ok n else Raise ValueError
      | Some (SVal _) => Raise TypeError
      | Some (SRaise e) => Raise e
      | None => Raise TypeError
      end
  | _ => Raise TypeError
  end.

(** ** A decimal instance of the interface *)

(** Digits, most significant first, as a natural number. *)
Fixpoint digits_value (acc : N) (cs : list ascii) : option N :=
  match cs with
  | [] => Some acc
  | c :: cs =>
      match Ascii.is_nat c with
      | Some d => digits_value (acc * 10 + N.of_nat d) cs
      | None => None
      end
  end.

Definition parse_digits (cs : list ascii) : option N :=
  match cs with [] => None | _ => digits_value 0 cs end.

(** An optional sign, and the rest. *)
Definition split_sign (cs : list ascii) : bool * list ascii :=
  match cs with
  | "-"%char :: cs => (true, cs)
  | "+"%char :: cs => (false, cs)
  | _ => (false, cs)
  end.

Definition apply_sign (neg : bool) (n : N) : Z :=
  if neg then (- Z.of_N n)%Z else Z.of_N n.

(** [int(s)] for a signed decimal literal *)
Definition decimal_int (s : string) : option Z :=
  let '(neg, cs) := split_sign (chars s) in
  apply_sign neg <$> parse_digits cs.

(** [float(s)] for [digits] or [digits.digits], signed *)
Definition decimal_float (s : string) : option PyFloat :=
  let '(neg, cs) := split_sign (chars s) in
  match seq_split ["."%char] cs with
  | [ip] => (λ n, mkFloat (apply_sign neg n) 0) <$> parse_digits ip
  | [ip; fp] =>
      if decide (ip ≠ [] ∧ fp ≠ [])
      then (λ n, mkFloat (apply_sign neg n) (- Z.of_nat (length fp))) <$>
             parse_digits (ip ++ fp)
      else None
  | _ => None
  end.

Definition pad2 (z : Z) : string :=
  if decide (0 ≤ z < 10)%Z then "0" +:+ pretty z else pretty z.

Definition decimal_isoformat (d : DateTime) : string :=
  pretty (dt_year d) +:+ "-" +:+ pad2 (dt_month d) +:+ "-" +:+ pad2 (dt_day d)
  +:+ "T" +:+ pad2 (dt_hour d) +:+ ":" +:+ pad2 (dt_minute d) +:+ ":"
  +:+ pad2 (dt_second d).

#[export] Instance decimal_builtins : Builtins := {|
  float_of_str := decimal_float;
  int_of_str := decimal_int;
  str_of_float f := pretty (fl_mant f) +:+ "e" +:+ pretty (fl_exp f);
  str_of_datetime := decimal_isoformat;
  isoformat := decimal_isoformat;
  str_of_other _ := "<object>";
  str_of_exn _ := "<message>"
|}.

(** ** Dates *)

(** The Gregorian calendar of [datetime]. *)
Definition is_leap (y : Z) : bool :=
  bool_decide (y `mod` 4 = 0 ∧ (y `mod` 100 ≠ 0 ∨ y `mod` 400 = 0))%Z.

Definition days_in_month (y m : Z) : Z :=
  match m with
  | 2 => if is_leap y then 29 else 28
  | 4 | 6 | 9 | 11 => 30
  | _ => 31
  end%Z.

(** The fields [datetime(...)] accepts. *)
Definition valid_datetime (d : DateTime) : bool :=
  bool_decide
    (1 ≤ dt_year d ≤ 9999 ∧ 1 ≤ dt_month d ≤ 12 ∧
     1 ≤ dt_day d ≤ days_in_month (dt_year d) (dt_month d) ∧
     0 ≤ dt_hour d ≤ 23 ∧ 0 ≤ dt_minute d ≤ 59 ∧ 0 ≤ dt_second d ≤ 59 ∧
     0 ≤ dt_microsecond d ≤ 999999)%Z.

(** An argument where Python wants an integer: an [int] or a [bool]. *)
Definition py_index (o : Obj) : Res Z :=
  match o with
  | OInt z => Ok z
  | OBool b => Ok (if b then 1 else 0)%Z
  | _ => Raise TypeError
  end.

(** [datetime(year, month, day, hour, minute, second, microsecond)]:
    [TypeError] for an argument that is no integer, [OverflowError] for one
    that does not fit a C [int], [ValueError] for a field out of range. *)
Definition datetime_new (year month day hour minute second microsecond : Obj)
    : Res DateTime :=
  y ← py_index year; mo ← py_index month; d ← py_index day;
  h ← py_index hour; mi ← py_index minute; s ← py_index second;
  us ← py_index microsecond;
  if bool_decide (Forall (λ z, - 2 ^ 31 ≤ z < 2 ^ 31)%Z [y; mo; d; h; mi; s; us])
  then
    let dt := mkDateTime y mo d h mi s us in
    if valid_datetime dt then Ok dt else Raise ValueError
  else Raise OverflowError.

(** [o * k] for an integer [k]: a number is multiplied, a string or a list
    repeated. *)
Definition py_mul_int (o : Obj) (k : Z) : Res Obj :=
  match o with
  | OInt z => Ok (OInt (z * k))
  | OBool b => Ok (OInt ((if b then 1 else 0) * k))
  | OFloat f => Ok (OFloat (mkFloat (fl_mant f * k) (fl_exp f)))
  | OStr s => Ok (OStr (of_chars (mjoin (replicate (Z.to_nat k) (chars s)))))
  | OList xs => Ok (OList (mjoin (replicate (Z.to_nat k) xs)))
  | _ => Raise TypeError
  end.

(** [o > 0]: numbers compare, anything else raises [TypeError]. *)
Definition py_gt_zero (o : Obj) : Res bool :=
  match o with
  | OInt z => Ok (bool_decide (0 < z)%Z)
  | OFloat f => Ok (float_pos f)
  | OBool b => Ok b
  | _ => Raise TypeError
  end.

(** [hasattr(o, name)] for a method: looking a method up does not call it,
    so the method is there, whatever calling it would do, when the object
    has the slot of its result. *)
Definition has_method (o : Obj) (name : string) : bool :=
  match o with
  | ONet slots => bool_decide (is_Some (dict_get name slots))
  | _ => false
  end.

(** [len(list(o))] *)
Definition py_len_list (o : Obj) : Res Z :=
  items ← py_iter o; Ok (Z.of_nat (length items)).

(** ** The size of an object *)

(** An object is a finite tree; what it holds is smaller than it is. *)
Fixpoint obj_size (o : Obj) : nat :=
  match o with
  | OList xs =>
      S ((fix go xs :=
            match xs with [] => 0 | x :: xs => obj_size x + go xs end) xs)
  | ODict kvs =>
      S ((fix go kvs :=
            match kvs with
            | [] => 0
            | (_, v) :: kvs => obj_size v + go kvs
            end) kvs)
  | ONet slots =>
      S ((fix go slots :=
            match slots with
            | [] => 0
            | (_, SVal v) :: slots => obj_size v + go slots
            | (_, SRaise _) :: slots => go slots
            end) slots)
  | _ => 1
  end.

(** Read the attributes of objects that are written out. *)
Ltac getattr_eval :=
  repeat match goal with
  | |- context [getattr (ONet ?slots) ?n] =>
      let r := eval vm_compute in (getattr (ONet slots) n) in
      change (getattr (ONet slots) n) with r
  end.

(** ** Facts *)

Section attr_facts.
Implicit Types (o v : Obj) (n : string).

(** [hasattr] is [True] exactly when the read succeeds. *)
Lemma hasattr_true o n : hasattr o n = Ok true ↔ ∃ v, getattr o n = Ok v.
Proof.
  unfold hasattr. destruct (getattr o n) as [v|e]; cbn; [naive_solver|].
  rewrite one_of_singleton. case_bool_decide; naive_solver.
Qed.

(** It is [False] exactly when the read raises [AttributeError]. *)
Lemma hasattr_false o n :
  hasattr o n = Ok false ↔ getattr o n = Raise AttributeError.
Proof.
  unfold hasattr. destruct (getattr o n) as [v|e]; cbn; [naive_solver|].
  rewrite one_of_singleton. case_bool_decide; naive_solver.
Qed.

(** Any other exception of the read is the exception of [hasattr]. *)
Lemma hasattr_raise o n e :
  hasattr o n = Raise e ↔ getattr o n = Raise e ∧ e ≠ AttributeError.
Proof.
  unfold hasattr. destruct (getattr o n) as [v|e']; cbn; [naive_solver|].
  rewrite one_of_singleton. case_bool_decide; naive_solver.
Qed.

Lemma hasattr_never_attribute_error o n : hasattr o n ≠ Raise AttributeError.
Proof. intros [_ ?]%hasattr_raise. done. Qed.

Lemma getattr_slot slots n :
  getattr (ONet slots) n =
    match dict_get n slots with
    | Some (SVal v) => Ok v
    | Some (SRaise e) => Raise e
    | None => Raise AttributeError
    end.
Proof. done. Qed.

Lemma getattr_not_net o n :
  (∀ slots, o ≠ ONet slots) → getattr o n = Raise AttributeError.
Proof. destruct o; naive_solver. Qed.

Lemma hasattr_not_net o n : (∀ slots, o ≠ ONet slots) → hasattr o n = Ok false.
Proof. intros. by apply hasattr_false, getattr_not_net. Qed.

(** The guard [hasattr(o, n) and o.n] answers a value only if it is the
    attribute and it is true. *)
Lemma attr_if_true_Some o n v :
  attr_if_true o n = Ok (Some v) ↔ getattr o n = Ok v ∧ truthy v = Ok true.
Proof.
  unfold attr_if_true. destruct (hasattr o n) as [[]|e] eqn:Hh; cbn.
  - apply hasattr_true in Hh as [v' Hv']. rewrite Hv'. cbn.
    destruct (truthy v') as [[]|] eqn:Ht; cbn; naive_solver congruence.
  - apply hasattr_false in Hh. rewrite Hh. naive_solver.
  - apply hasattr_raise in Hh as [Hh _]. rewrite Hh. naive_solver.
Qed.

(** It answers [None] when the attribute is missing, or there and false. *)
Lemma attr_if_true_None o n :
  attr_if_true o n = Ok None ↔
  getattr o n = Raise AttributeError ∨
  ∃ v, getattr o n = Ok v ∧ truthy v = Ok false.
Proof.
  unfold attr_if_true. destruct (hasattr o n) as [[]|e] eqn:Hh; cbn.
  - apply hasattr_true in Hh as [v' Hv']. rewrite Hv'. cbn.
    destruct (truthy v') as [[]|] eqn:Ht; cbn; naive_solver congruence.
  - apply hasattr_false in Hh. rewrite Hh. naive_solver.
  - apply hasattr_raise in Hh as [Hh ?]. rewrite Hh. naive_solver.
Qed.

(** It raises what the read or the truth test raises, [AttributeError] of
    the read apart. *)
Lemma attr_if_true_raise o n e :
  attr_if_true o n = Raise e ↔
  (getattr o n = Raise e ∧ e ≠ AttributeError) ∨
  ∃ v, getattr o n = Ok v ∧ truthy v = Raise e.
Proof.
  unfold attr_if_true. destruct (hasattr o n) as [[]|e'] eqn:Hh; cbn.
  - apply hasattr_true in Hh as [v' Hv']. rewrite Hv'. cbn.
    destruct (truthy v') as [[]|] eqn:Ht; cbn; naive_solver congruence.
  - apply hasattr_false in Hh. rewrite Hh. naive_solver.
  - apply hasattr_raise in Hh as [Hh ?]. rewrite Hh. naive_solver.
Qed.

End attr_facts.

Section conversion_facts.
Context `{!Builtins}.

(** Values of Python's own types never make [truthy] raise. *)
Lemma truthy_total o :
  (∀ slots, o ≠ ONet slots) → ∃ b, truthy o = Ok b.
Proof. destruct o; cbn; eauto. naive_solver. Qed.

Lemma py_str_str s : py_str (OStr s) = Ok s.
Proof. done. Qed.

Lemma py_str_net slots s :
  dict_get "ToString" slots = Some (SVal (OStr s)) →
  py_str (ONet slots) = Ok s.
Proof. intros Hs. cbn. by rewrite Hs. Qed.

Lemma py_str_total o :
  (∀ slots, o ≠ ONet slots) → ∃ s, py_str o = Ok s.
Proof. destruct o; cbn; eauto. naive_solver. Qed.

Lemma py_float_float f : py_float (OFloat f) = Ok f.
Proof. done. Qed.

(** [float()] raises [TypeError] or [ValueError] only, unless a slot of a
    .NET object raises something else. *)
Lemma py_float_raise o e :
  (∀ slots, o ≠ ONet slots) → py_float o = Raise e →
  e = TypeError ∨ e = ValueError.
Proof.
  intros Hnet. destruct o; cbn; try naive_solver.
  destruct (float_of_str s); cbn; naive_solver.
Qed.

Lemma py_int_raise o e :
  (∀ slots, o ≠ ONet slots) → py_int o = Raise e →
  e = TypeError ∨ e = ValueError.
Proof.
  intros Hnet. destruct o; cbn; try naive_solver.
  destruct (int_of_str s); cbn; naive_solver.
Qed.

Lemma Z_of_float_of_Z z : Z_of_float (float_of_Z z) = z.
Proof.
  unfold Z_of_float, float_of_Z. cbn [fl_exp fl_mant].
  rewrite decide_True by done. rewrite Z.pow_0_r. lia.
Qed.

End conversion_facts.

(** ** Mappings, sequences and identity tests *)

(** [d.get(k, default)] on a mapping. *)
Definition py_dict_get (d : Obj) (k : string) (dflt : Obj) : Res Obj :=
  match d with
  | ODict kvs => Ok (default dflt (dict_get k kvs))
  | _ => Raise AttributeError
  end.

(** [o[i]] for a position [i]. *)
Definition py_getitem (o : Obj) (i : nat) : Res Obj :=
  match o with
  | OList xs => res_of_option IndexError (xs !! i)
  | ONet slots =>
      match dict_get "__iter__" slots with
      | Some (SVal (OList xs)) => res_of_option IndexError (xs !! i)
      | Some (SVal _) => Raise TypeError
      | Some (SRaise e) => Raise e
      | None => Raise TypeError
      end
  | _ => Raise TypeError
  end.

(** [o is False] *)
Definition is_False (o : Obj) : bool :=
  match o with OBool false => true | _ => false end.

(** [o is None] *)
Definition is_None (o : Obj) : bool :=
  match o with ONone => true | _ => false end.

Lemma py_dict_get_present kvs k v d :
  dict_get k kvs = Some v → py_dict_get (ODict kvs) k d = Ok v.
Proof. intros Hk. cbn. by rewrite Hk. Qed.

Lemma py_dict_get_absent kvs k d :
  dict_get k kvs = None → py_dict_get (ODict kvs) k d = Ok d.
Proof. intros Hk. cbn. by rewrite Hk. Qed.

Lemma py_getitem_list xs i v : xs !! i = Some v → py_getitem (OList xs) i = Ok v.
Proof. intros Hi. cbn. by rewrite Hi. Qed.

Lemma is_False_spec o : is_False o = true ↔ o = OBool false.
Proof. destruct o as [| [] | | | | | | |]; naive_solver. Qed.

Lemma is_None_spec o : is_None o = true ↔ o = ONone.
Proof. destruct o; naive_solver. Qed.

(** *** Rewriting [hasattr] from what [getattr] gives *)

Lemma hasattr_of_ok o n v : getattr o n = Ok v → hasattr o n = Ok true.
Proof. intros. apply hasattr_true. eauto. Qed.

Lemma hasattr_of_missing o n :
  getattr o n = Raise AttributeError → hasattr o n = Ok false.
Proof. apply hasattr_false. Qed.

Lemma hasattr_of_raise o n e :
  getattr o n = Raise e → e ≠ AttributeError → hasattr o n = Raise e.
Proof. intros. by apply hasattr_raise. Qed.

(** A method that answers is there, and only objects of the SDK have
    methods. *)
Lemma has_method_of_ok o n v : getattr o n = Ok v → has_method o n = true.
Proof.
  destruct o; try done. cbn. destruct (dict_get n slots) eqn:Hs; [|done].
  intros _. by apply bool_decide_eq_true_2.
Qed.

Lemma has_method_not_net o n :
  (∀ slots, o ≠ ONet slots) → has_method o n = false.
Proof. destruct o; naive_solver. Qed.

Lemma has_method_missing o n :
  has_method o n = false → getattr o n = Raise AttributeError.
Proof.
  destruct o; try done. cbn. intros Hs%bool_decide_eq_false_1.
  destruct (dict_get n slots); [|done]. by destruct Hs.
Qed.

(** [hasattr] answers, or raises what [getattr] raises. *)
Lemma hasattr_cases o n :
  (hasattr o n = Ok true ∧ ∃ v, getattr o n = Ok v) ∨
  (hasattr o n = Ok false ∧ getattr o n = Raise AttributeError) ∨
  (∃ e, hasattr o n = Raise e ∧ getattr o n = Raise e ∧ e ≠ AttributeError).
Proof.
  destruct (getattr o n) as [v|e] eqn:Hg.
  - left. split; [by eapply hasattr_of_ok|eauto].
  - destruct (decide (e = AttributeError)) as [->|].
    + right; left. split; [by apply hasattr_of_missing|done].
    + right; right. exists e. split_and!; [by apply hasattr_of_raise|done..].
Qed.

(** *** Sizes *)

Lemma obj_size_pos o : 0 < obj_size o.
Proof. destruct o; cbn; lia. Qed.

Lemma obj_size_slot (slots : list (string * Slot)) n v :
  dict_get n slots = Some (SVal v) → obj_size v < obj_size (ONet slots).
Proof.
  cbn. induction slots as [|[k [w|e]] slots IH]; cbn; [done|..];
    case_decide; intros; simplify_eq; try lia;
    specialize (IH ltac:(done)); lia.
Qed.

(** What an attribute holds is smaller than the object. *)
Lemma obj_size_getattr o n v : getattr o n = Ok v → obj_size v < obj_size o.
Proof.
  destruct o as [| | | | | | | |slots]; try done. cbn [getattr].
  destruct (dict_get n slots) as [[w|e]|] eqn:Hn; [|done..].
  intros [= <-]. by eapply obj_size_slot.
Qed.

Lemma obj_size_list_item (xs : list Obj) x :
  x ∈ xs → obj_size x < obj_size (OList xs).
Proof.
  cbn. induction 1 as [x xs|x y xs _ IH]; [lia|].
  pose proof (obj_size_pos y). lia.
Qed.

(** The items of an iteration are not larger than the object. *)
Lemma obj_size_iterate o x : x ∈ given (iterate o) → obj_size x ≤ obj_size o.
Proof.
  destruct o as [| | | |s| |xs|kvs|slots]; cbn [iterate given];
    try by intros ?%not_elem_of_nil.
  - by intros (c&->&_)%list_elem_of_fmap.
  - intros Hx. apply obj_size_list_item in Hx. lia.
  - intros (kv&->&_)%list_elem_of_fmap. cbn. lia.
  - destruct (dict_get "__iter__" slots) as [[[]|e]|] eqn:Hn;
      cbn [given]; try by intros ?%not_elem_of_nil.
    intros Hx. apply obj_size_list_item in Hx.
    apply obj_size_slot in Hn. lia.
Qed.

Lemma obj_size_iter o items x :
  py_iter o = Ok items → x ∈ items → obj_size x ≤ obj_size o.
Proof.
  intros Hi%iter_list_ok Hx. apply obj_size_iterate. by rewrite Hi.
Qed.

(** An object that [list()] accepts is iterated to its end. *)
Lemma iterate_whole o items :
  py_iter o = Ok items ↔ iterate o = mkIter items None.
Proof. apply iter_list_ok. Qed.

(** *** Induction through what an object holds *)

(** Induction on an object, with the property at hand for the items of a
    list, the values of a dictionary and the values in the slots of a .NET
    object. *)
Lemma Obj_ind_deep (P : Obj → Prop) :
  P ONone → (∀ b, P (OBool b)) → (∀ z, P (OInt z)) → (∀ f, P (OFloat f)) →
  (∀ s, P (OStr s)) → (∀ d, P (ODateTime d)) →
  (∀ xs, Forall P xs → P (OList xs)) →
  (∀ kvs, Forall (λ kv, P kv.2) kvs → P (ODict kvs)) →
  (∀ slots, Forall (λ ks, ∀ v, ks.2 = SVal v → P v) slots → P (ONet slots)) →
  ∀ o, P o.
Proof.
  intros HN HB HI HF HS HD HL HDi HNet. fix IH 1.
  intros [|b|z|f|s|d|xs|kvs|slots];
    [apply HN|apply HB|apply HI|apply HF|apply HS|apply HD| | |].
  - apply HL. revert xs.
    fix go 1. intros [|x xs]; constructor; [apply IH|apply go].
  - apply HDi. revert kvs.
    fix go 1. intros [|[k v] kvs]; constructor; [apply IH|apply go].
  - apply HNet. revert slots.
    fix go 1. intros [|[k [w|e]] slots]; constructor; try apply go.
    + intros v [= <-]. apply IH.
    + intros v [=].
Qed.
