(* ===== verification/Types.v ===== *)
(** * The records of [pipolars.core.types]

    The enumerations and data classes the extractor builds and consumes.
    The module that declares them is not among the sources; they are written
    down here from the specification (section 3) and from the unit tests that
    construct them ([tests/unit/test_types.py]), field by field, with the
    defaults the tests assert. *)

From stdpp Require Import base tactics option list strings numbers.
From S2P Require Import Prelude PyStr PyObj.

#[global] Set Warnings "-clear-no-such-hyp,-register-all".

(** ** Enumerations *)

Inductive DataQuality : Type := GOOD | BAD | SUBSTITUTED.

#[export] Instance DataQuality_eq_dec : EqDecision DataQuality.
Proof. solve_decision. Defined.

Inductive PointType : Type :=
| FLOAT16 | FLOAT32 | FLOAT64 | INT16 | INT32
| DIGITAL | TIMESTAMP | STRING | BLOB.

#[export] Instance PointType_eq_dec : EqDecision PointType.
Proof. solve_decision. Defined.

Inductive BoundaryType : Type := INSIDE | OUTSIDE | INTERPOLATED.

#[export] Instance BoundaryType_eq_dec : EqDecision BoundaryType.
Proof. solve_decision. Defined.

Inductive SummaryType : Type :=
| TOTAL | AVERAGE | MINIMUM | MAXIMUM | RANGE
| STD_DEV | POPULATION_STD_DEV | COUNT | PERCENT_GOOD.

#[export] Instance SummaryType_eq_dec : EqDecision SummaryType.
Proof. solve_decision. Defined.

(** [st.value]: one bit per summary. *)
Definition summary_value (st : SummaryType) : Z :=
  match st with
  | TOTAL => 1
  | AVERAGE => 2
  | MINIMUM => 4
  | MAXIMUM => 8
  | RANGE => 16
  | STD_DEV => 32
  | POPULATION_STD_DEV => 64
  | COUNT => 128
  | PERCENT_GOOD => 8192
  end.

Definition all_summary_types : list SummaryType :=
  [TOTAL; AVERAGE; MINIMUM; MAXIMUM; RANGE; STD_DEV; POPULATION_STD_DEV;
   COUNT; PERCENT_GOOD].

(** ** Time expressions *)

(** [AFTime]: an expression in PI time syntax, kept unevaluated. *)
Record AFTime : Type := mkAFTime { expression : string }.

#[export] Instance AFTime_eq_dec : EqDecision AFTime.
Proof. solve_decision. Defined.

(** [PITimestamp = datetime | AFTime | str] *)
Inductive PITimestamp : Type :=
| TsDateTime (d : DateTime)
| TsAFTime (t : AFTime)
| TsStr (s : string).

(** ** Values *)

(** [PIValue]: one sample.  [pv_value] is a number, a string or whatever the
    upstream gave that the extractor passes through. *)
Record PIValue : Type := mkPIValue {
  pv_timestamp : Obj;
  pv_value : Obj;
  pv_quality : DataQuality
}.

(** [PIValue.is_good] *)
Definition is_good (v : PIValue) : bool := bool_decide (pv_quality v = GOOD).

(** ** Point configuration *)

Record PointConfig : Type := mkPointConfig {
  pc_name : string;
  pc_point_id : Z;
  pc_point_type : PointType;
  pc_description : string;
  pc_engineering_units : string;
  pc_zero : PyFloat;
  pc_span : PyFloat;
  pc_display_digits : Z;
  pc_typical_value : option PyFloat;
  pc_value_high_alarm : option PyFloat;
  pc_value_low_alarm : option PyFloat;
  pc_value_high_warning : option PyFloat;
  pc_value_low_warning : option PyFloat;
  pc_roc_high_value : option PyFloat;
  pc_roc_low_value : option PyFloat;
  pc_interface_id : option Z;
  pc_interface_name : string;
  pc_scan_time : string;
  pc_source_point_id : option Z;
  pc_source_point_name : string;
  pc_conversion_factor : option PyFloat;
  pc_device_name : string;
  pc_alias : string
}.

(** [PointConfig(name=..., point_id=..., point_type=..., description=...,
    engineering_units=..., zero=..., span=..., display_digits=...,
    typical_value=...)]: the nine fields the extractor passes; every other
    field takes its default, [None] or the empty string. *)
Definition PointConfig_basic (name : string) (point_id : Z)
    (point_type : PointType) (description engineering_units : string)
    (zero span : PyFloat) (display_digits : Z)
    (typical_value : option PyFloat) : PointConfig :=
  {| pc_name := name; pc_point_id := point_id; pc_point_type := point_type;
     pc_description := description;
     pc_engineering_units := engineering_units;
     pc_zero := zero; pc_span := span; pc_display_digits := display_digits;
     pc_typical_value := typical_value;
     pc_value_high_alarm := None; pc_value_low_alarm := None;
     pc_value_high_warning := None; pc_value_low_warning := None;
     pc_roc_high_value := None; pc_roc_low_value := None;
     pc_interface_id := None; pc_interface_name := "";
     pc_scan_time := ""; pc_source_point_id := None;
     pc_source_point_name := ""; pc_conversion_factor := None;
     pc_device_name := ""; pc_alias := "" |}.

(** ** Facts *)

(** The summary values are distinct bits: no two summaries share one. *)
Lemma summary_value_inj : Inj (=) (=) summary_value.
Proof. intros [] []; cbn; congruence. Qed.

Lemma summary_value_land st1 st2 :
  st1 ≠ st2 → Z.land (summary_value st1) (summary_value st2) = 0%Z.
Proof. destruct st1, st2; intros ?; first [congruence|by vm_compute]. Qed.

Lemma summary_value_pos st : (0 < summary_value st)%Z.
Proof. by destruct st. Qed.

Lemma all_summary_types_complete st : st ∈ all_summary_types.
Proof. unfold all_summary_types. destruct st; repeat constructor. Qed.

Lemma all_summary_types_NoDup : NoDup all_summary_types.
Proof. unfold all_summary_types. by apply (bool_decide_unpack _). Qed.

Lemma is_good_spec v : is_good v = true ↔ pv_quality v = GOOD.
Proof. apply bool_decide_eq_true. Qed.
