(* ===== verification/Sdk.v ===== *)
(** * The upstream, as the extractor sees it

    Every method the sources call on an SDK object with arguments, every
    class they instantiate and every function of a module that is not among
    the sources is a [Call].  A program that makes calls is a tree [SdkM A]:
    a result, or a call and what to do with its answer.  The upstream itself
    is any state machine that answers calls ([Upstream]); [run] feeds a
    program to it and gives the result, the upstream's final state and the
    calls made, in order.

    Programs being data, what an operation asks of the upstream (how many
    calls, which, in which order, with which arguments) is a property of the
    program that holds for every upstream. *)

From stdpp Require Import base tactics option list strings numbers.
From S2P Require Import Prelude PyStr PyObj.

#[global] Set Warnings "-clear-no-such-hyp,-register-all".

(** ** Calls *)

Inductive Call : Type :=
(** [target.method(args)] *)
| CMethod (target : Obj) (method : string) (args : list Obj)
(** [cls(args)] for a class or type object of the SDK *)
| CNew (cls : Obj) (args : list Obj)
(** [name(args)] for a function of a module outside the sources *)
| CFunc (name : string) (args : list Obj).

(** ** Programs *)

Inductive SdkM (A : Type) : Type :=
| Ret (r : Res A)
| Do (c : Call) (k : Res Obj → SdkM A).
Arguments Ret {A} r.
Arguments Do {A} c k.

(** A computation without calls. *)
Definition sdk_lift {A} (r : Res A) : SdkM A := Ret r.

Definition sdk_ret {A} (a : A) : SdkM A := Ret (Ok a).

Definition sdk_raise {A} (e : Exn) : SdkM A := Ret (Raise e).

(** One call; its exception, if any, is raised here. *)
Definition sdk_call (c : Call) : SdkM Obj := Do c Ret.

Fixpoint sdk_bind {A B} (m : SdkM A) (f : A → SdkM B) : SdkM B :=
  match m with
  | Ret (Ok a) => f a
  | Ret (Raise e) => Ret (Raise e)
  | Do c k => Do c (λ r, sdk_bind (k r) f)
  end.

(** [try: body except <handles> as e: handler e] around calls. *)
Fixpoint sdk_try_except {A} (body : SdkM A) (handles : Exn → bool)
    (handler : Exn → SdkM A) : SdkM A :=
  match body with
  | Ret (Ok a) => Ret (Ok a)
  | Ret (Raise e) => if handles e then handler e else Ret (Raise e)
  | Do c k => Do c (λ r, sdk_try_except (k r) handles handler)
  end.

Declare Scope sdk_scope.
Delimit Scope sdk_scope with sdk.
Notation "x ← y ; z" := (sdk_bind y (λ x, z))
  (at level 20, y at level 100, z at level 200, only parsing) : sdk_scope.
Notation "' x ← y ; z" := (sdk_bind y (λ x, z))
  (at level 20, x pattern, y at level 100, z at level 200, only parsing)
  : sdk_scope.
Notation "x ;; z" := (sdk_bind x (λ _, z))
  (at level 100, z at level 200, only parsing, right associativity)
  : sdk_scope.

(** A [for] loop that makes calls and collects one result per item. *)
Fixpoint sdk_mapM {A B} (f : A → SdkM B) (l : list A) : SdkM (list B) :=
  match l with
  | [] => sdk_ret []
  | x :: l =>
      sdk_bind (f x) (λ y, sdk_bind (sdk_mapM f l) (λ ys, sdk_ret (y :: ys)))
  end.

(** A [for] loop that makes calls for their effect. *)
Fixpoint sdk_iter {A} (f : A → SdkM unit) (l : list A) : SdkM unit :=
  match l with
  | [] => sdk_ret tt
  | x :: l => sdk_bind (f x) (λ _, sdk_iter f l)
  end.

(** A [for] loop that threads an accumulator through calls. *)
Fixpoint sdk_foldM {A T} (f : T → A → SdkM T) (s : T) (l : list A) : SdkM T :=
  match l with
  | [] => sdk_ret s
  | x :: l => sdk_bind (f s x) (λ s', sdk_foldM f s' l)
  end.

(** ** The upstream and runs *)

Class Upstream : Type := {
  up_state : Type;
  up_step : up_state → Call → Res Obj * up_state
}.

(** The outcome of a run: the result, the upstream's state after it, and the
    calls made. *)
Record Outcome `{!Upstream} (A : Type) : Type := mkOutcome {
  out_result : Res A;
  out_state : up_state;
  out_trace : list Call
}.
Arguments mkOutcome {_ A} _ _ _.
Arguments out_result {_ A} _.
Arguments out_state {_ A} _.
Arguments out_trace {_ A} _.

Section run.
Context `{!Upstream}.

Fixpoint run {A} (m : SdkM A) (s : up_state) : Outcome A :=
  match m with
  | Ret r => mkOutcome r s []
  | Do c k =>
      let o := run (k (up_step s c).1) (up_step s c).2 in
      mkOutcome (out_result o) (out_state o) (c :: out_trace o)
  end.

(** Sequencing two outcomes. *)
Definition then_run {A B} (o : Outcome A) (f : A → up_state → Outcome B)
    : Outcome B :=
  match out_result o with
  | Ok a =>
      let o' := f a (out_state o) in
      mkOutcome (out_result o') (out_state o') (out_trace o ++ out_trace o')
  | Raise e => mkOutcome (Raise e) (out_state o) (out_trace o)
  end.

Lemma run_ret {A} (r : Res A) s : run (Ret r) s = mkOutcome r s [].
Proof. done. Qed.

Lemma run_lift {A} (r : Res A) s : run (sdk_lift r) s = mkOutcome r s [].
Proof. done. Qed.

Lemma run_call c s :
  run (sdk_call c) s = mkOutcome (up_step s c).1 (up_step s c).2 [c].
Proof. done. Qed.

(** A run of [m] then [f] is the run of [m] followed, if it succeeded, by
    the run of [f] from where [m] left the upstream; the calls add up. *)
Lemma run_bind {A B} (m : SdkM A) (f : A → SdkM B) s :
  run (sdk_bind m f) s = then_run (run m s) (λ a s', run (f a) s').
Proof.
  revert s. induction m as [[a|e]|c k IH]; intros s; cbn.
  - unfold then_run; cbn. by destruct (run (f a) s).
  - done.
  - rewrite IH. unfold then_run; cbn.
    by destruct (out_result (run (k (up_step s c).1) (up_step s c).2)).
Qed.

Lemma run_try_except {A} (m : SdkM A) p (h : Exn → SdkM A) s :
  run (sdk_try_except m p h) s =
    match out_result (run m s) with
    | Ok a => run m s
    | Raise e =>
        if p e then
          let o' := run (h e) (out_state (run m s)) in
          mkOutcome (out_result o') (out_state o')
            (out_trace (run m s) ++ out_trace o')
        else run m s
    end.
Proof.
  revert s. induction m as [[a|e]|c k IH]; intros s; cbn.
  - done.
  - destruct (p e); [|done]. by destruct (run (h e) s).
  - rewrite IH.
    destruct (run (k (up_step s c).1) (up_step s c).2) as [[a|e] st tr]; cbn;
      [done|]. by destruct (p e).
Qed.

(** *** Reading outcomes *)

Lemma then_run_ok {A B} (o : Outcome A) (f : A → up_state → Outcome B) a :
  out_result o = Ok a →
  then_run o f =
    mkOutcome (out_result (f a (out_state o))) (out_state (f a (out_state o)))
      (out_trace o ++ out_trace (f a (out_state o))).
Proof. intros Ho. unfold then_run. by rewrite Ho. Qed.

Lemma then_run_raise {A B} (o : Outcome A) (f : A → up_state → Outcome B) e :
  out_result o = Raise e →
  then_run o f = mkOutcome (Raise e) (out_state o) (out_trace o).
Proof. intros Ho. unfold then_run. by rewrite Ho. Qed.

Lemma then_run_ext {A B} (o : Outcome A) (f g : A → up_state → Outcome B) :
  (∀ a s, f a s = g a s) → then_run o f = then_run o g.
Proof. intros Hfg. unfold then_run. destruct (out_result o); by rewrite ?Hfg. Qed.

(** The calls of the first part come first in the trace of the whole. *)
Lemma then_run_trace_prefix {A B} (o : Outcome A) (f : A → up_state → Outcome B) :
  out_trace o `prefix_of` out_trace (then_run o f).
Proof.
  unfold then_run. destruct (out_result o); cbn; [by eexists|done].
Qed.

(** A whole that succeeded had a first part that succeeded. *)
Lemma then_run_ok_inv {A B} (o : Outcome A) (f : A → up_state → Outcome B) b :
  out_result (then_run o f) = Ok b →
  ∃ a, out_result o = Ok a ∧ out_result (f a (out_state o)) = Ok b.
Proof. unfold then_run. destruct (out_result o); cbn; naive_solver. Qed.

(** *** Programs without calls *)

Lemma run_lift_bind {A B} (r : Res A) (f : A → SdkM B) s :
  run (sdk_bind (sdk_lift r) f) s =
    match r with Ok a => run (f a) s | Raise e => mkOutcome (Raise e) s [] end.
Proof. by destruct r. Qed.

Lemma run_call_bind {B} c (f : Obj → SdkM B) s :
  run (sdk_bind (sdk_call c) f) s =
    match (up_step s c).1 with
    | Ok v =>
        let o := run (f v) (up_step s c).2 in
        mkOutcome (out_result o) (out_state o) (c :: out_trace o)
    | Raise e => mkOutcome (Raise e) (up_step s c).2 [c]
    end.
Proof. cbn. by destruct (up_step s c).1. Qed.

(** *** Loops *)

(** A loop over no items makes no call. *)
Lemma run_mapM_nil {A B} (f : A → SdkM B) s :
  run (sdk_mapM f []) s = mkOutcome (Ok []) s [].
Proof. done. Qed.

Lemma run_mapM_cons {A B} (f : A → SdkM B) x l s :
  run (sdk_mapM f (x :: l)) s =
    then_run (run (f x) s) (λ y s',
      then_run (run (sdk_mapM f l) s') (λ ys s'', mkOutcome (Ok (y :: ys)) s'' [])).
Proof.
  cbn [sdk_mapM]. rewrite run_bind. apply then_run_ext. intros y s'.
  by rewrite run_bind.
Qed.

End run.

(** ** Programs that make no call *)

(** [calls m n]: on every path, [m] makes at most [n] calls. *)
Fixpoint calls_le {A} (m : SdkM A) (n : nat) : Prop :=
  match m with
  | Ret _ => True
  | Do c k => match n with 0 => False | S n => ∀ r, calls_le (k r) n end
  end.

Section calls.
Context `{!Upstream}.

Lemma calls_le_mono {A} (m : SdkM A) n n' : n ≤ n' → calls_le m n → calls_le m n'.
Proof.
  revert n n'. induction m as [r|c k IH]; intros n n' Hn; cbn; [done|].
  destruct n as [|n]; [done|]. destruct n' as [|n']; [lia|].
  intros Hk r. eapply IH; [|apply Hk]. lia.
Qed.

(** The bound on the program bounds the trace of every run. *)
Lemma calls_le_run {A} (m : SdkM A) n s :
  calls_le m n → length (out_trace (run m s)) ≤ n.
Proof.
  revert n s. induction m as [r|c k IH]; intros n s; cbn; [lia|].
  destruct n as [|n]; [done|]. intros Hk. apply le_n_S, IH, Hk.
Qed.

Lemma calls_le_bind {A B} (m : SdkM A) (f : A → SdkM B) n1 n2 :
  calls_le m n1 → (∀ a, calls_le (f a) n2) → calls_le (sdk_bind m f) (n1 + n2).
Proof.
  revert n1. induction m as [[a|e]|c k IH]; intros n1; cbn.
  - intros _ Hf. eapply calls_le_mono; [|apply Hf]. lia.
  - done.
  - destruct n1 as [|n1]; [done|]. cbn. intros Hk Hf r. by apply IH.
Qed.

Lemma calls_le_lift {A} (r : Res A) n : calls_le (sdk_lift r) n.
Proof. done. Qed.

Lemma calls_le_call c : calls_le (sdk_call c) 1.
Proof. done. Qed.

Lemma calls_le_lift0 {A} (r : Res A) : calls_le (sdk_lift r) 0.
Proof. done. Qed.

Lemma calls_le_bind_le {A B} (m : SdkM A) (f : A → SdkM B) n1 n2 n :
  calls_le m n1 → (∀ a, calls_le (f a) n2) → n1 + n2 ≤ n →
  calls_le (sdk_bind m f) n.
Proof.
  intros Hm Hf Hn. eapply calls_le_mono; [done|]. by apply calls_le_bind.
Qed.

Lemma calls_le_iter {A} (f : A → SdkM unit) l n :
  (∀ x, calls_le (f x) n) → calls_le (sdk_iter f l) (length l * n).
Proof.
  intros Hf. induction l as [|x l IH]; cbn [sdk_iter length]; [done|].
  replace (S (length l) * n) with (n + length l * n) by lia.
  by apply calls_le_bind.
Qed.

Lemma calls_le_foldM {A T} (f : T → A → SdkM T) a l n :
  (∀ a x, calls_le (f a x) n) → calls_le (sdk_foldM f a l) (length l * n).
Proof.
  intros Hf. revert a. induction l as [|x l IH]; intros a;
    cbn [sdk_foldM length]; [done|].
  replace (S (length l) * n) with (n + length l * n) by lia.
  by apply calls_le_bind.
Qed.

End calls.

(** ** Scripts: what the upstream answers *)

Section replay.
Context `{!Upstream}.

(** [replay s script]: from state [s], the upstream answers the calls of
    [script], in order, as [script] says. *)
Fixpoint replay (s : up_state) (script : list (Call * Res Obj)) : Prop :=
  match script with
  | [] => True
  | (c, r) :: script => (up_step s c).1 = r ∧ replay (up_step s c).2 script
  end.

(** The state the script leaves the upstream in. *)
Fixpoint replay_state (s : up_state) (script : list (Call * Res Obj))
    : up_state :=
  match script with
  | [] => s
  | (c, _) :: script => replay_state (up_step s c).2 script
  end.

Lemma replay_app s script1 script2 :
  replay s (script1 ++ script2) ↔
  replay s script1 ∧ replay (replay_state s script1) script2.
Proof.
  revert s. induction script1 as [|[c r] script1 IH]; intros s; cbn;
    [naive_solver|]. rewrite IH. naive_solver.
Qed.

Lemma replay_state_app s script1 script2 :
  replay_state s (script1 ++ script2) =
    replay_state (replay_state s script1) script2.
Proof.
  revert s. induction script1 as [|[c r] script1 IH]; intros s; cbn; [done|].
  apply IH.
Qed.

Lemma run_bind_ok {A B} (m : SdkM A) (f : A → SdkM B) s a s' t :
  run m s = mkOutcome (Ok a) s' t →
  run (sdk_bind m f) s =
    mkOutcome (out_result (run (f a) s')) (out_state (run (f a) s'))
      (t ++ out_trace (run (f a) s')).
Proof. intros Hm. rewrite run_bind, Hm. done. Qed.

Lemma run_bind_raise {A B} (m : SdkM A) (f : A → SdkM B) s e s' t :
  run m s = mkOutcome (Raise e) s' t →
  run (sdk_bind m f) s = mkOutcome (Raise e) s' t.
Proof. intros Hm. rewrite run_bind, Hm. done. Qed.

Lemma run_call_ok c v s :
  (up_step s c).1 = Ok v →
  run (sdk_call c) s = mkOutcome (Ok v) (up_step s c).2 [c].
Proof. intros Hc. by rewrite run_call, Hc. Qed.

Lemma run_call_raise c e s :
  (up_step s c).1 = Raise e →
  run (sdk_call c) s = mkOutcome (Raise e) (up_step s c).2 [c].
Proof. intros Hc. by rewrite run_call, Hc. Qed.

(** A call the script answers with a value: the run goes on with it. *)
Lemma run_call_replay_ok {A} c v script (f : Obj → SdkM A) s :
  replay s ((c, Ok v) :: script) →
  run (sdk_bind (sdk_call c) f) s =
    mkOutcome (out_result (run (f v) (up_step s c).2))
      (out_state (run (f v) (up_step s c).2))
      (c :: out_trace (run (f v) (up_step s c).2)).
Proof. intros [Hc _]. rewrite run_call_bind. by rewrite Hc. Qed.

(** A call the script answers with an exception: the run ends there. *)
Lemma run_call_replay_raise {A} c e script (f : Obj → SdkM A) s :
  replay s ((c, Raise e) :: script) →
  run (sdk_bind (sdk_call c) f) s = mkOutcome (Raise e) (up_step s c).2 [c].
Proof. intros [Hc _]. rewrite run_call_bind. by rewrite Hc. Qed.

End replay.

(** ** Conversations: runs without an upstream *)

(** [Runs m script r]: when the calls of [m] are answered as [script] says,
    [m] makes exactly the calls of [script], in that order, and ends with
    [r].  This is what a program does, said without an upstream; [run]
    implements it for every upstream that answers so. *)
Inductive Runs {A} : SdkM A → list (Call * Res Obj) → Res A → Prop :=
| Runs_ret r : Runs (Ret r) [] r
| Runs_do c k v script r :
    Runs (k v) script r → Runs (Do c k) ((c, v) :: script) r.

(** The conversation of a run: each call with the answer it got. *)
Fixpoint run_script `{!Upstream} {A} (m : SdkM A) (s : up_state)
    : list (Call * Res Obj) :=
  match m with
  | Ret _ => []
  | Do c k => (c, (up_step s c).1) :: run_script (k (up_step s c).1) (up_step s c).2
  end.

Section runs.
Context {A B : Type}.
Implicit Types (m : SdkM A) (f : A → SdkM B) (script : list (Call * Res Obj)).

Lemma Runs_lift (r : Res A) : Runs (sdk_lift r) [] r.
Proof. constructor. Qed.

Lemma Runs_call c v : Runs (sdk_call c) [(c, v)] v.
Proof. repeat constructor. Qed.

(** A program, a script: one result. *)
Lemma Runs_functional m script r r' :
  Runs m script r → Runs m script r' → r = r'.
Proof.
  intros Hr. revert r'. induction Hr; intros r' Hr'; inv Hr'; [done|].
  apply IHHr. by simplify_eq.
Qed.

(** A program that is given the same answers makes the same calls. *)
Lemma Runs_same_answers m script script' r r' :
  Runs m script r → Runs m script' r' → script.*2 = script'.*2 →
  script = script'.
Proof.
  intros Hr. revert script' r'.
  induction Hr as [|c k v script r _ IH]; intros script' r' Hr' Ha; inv Hr'.
  - done.
  - simplify_eq/=. f_equal. by eapply IH.
Qed.

(** Sequencing: the scripts follow one another. *)
Lemma Runs_bind_ok m f script1 script2 a r :
  Runs m script1 (Ok a) → Runs (f a) script2 r →
  Runs (sdk_bind m f) (script1 ++ script2) r.
Proof.
  intros Hm Hf. remember (Ok a) as ra eqn:Hra.
  induction Hm as [r0|c k v script r0 Hk IH]; subst; cbn; [done|].
  constructor. by apply IH.
Qed.

(** An exception in the first part ends the whole: nothing of the second
    part is called. *)
Lemma Runs_bind_raise m f script e :
  Runs m script (Raise e) → Runs (sdk_bind m f) script (Raise e).
Proof.
  intros Hm. remember (Raise e) as ra eqn:Hra.
  induction Hm as [r0|c k v script r0 Hk IH]; subst; cbn; constructor.
  by apply IH.
Qed.

Lemma Runs_bind_inv m f script r :
  Runs (sdk_bind m f) script r →
  (∃ script1 script2 a, script = script1 ++ script2 ∧
     Runs m script1 (Ok a) ∧ Runs (f a) script2 r) ∨
  (∃ e, r = Raise e ∧ Runs m script (Raise e)).
Proof.
  revert script. induction m as [[a|e]|c k IH]; intros script; cbn.
  - intros Hf. left. exists [], script, a. repeat split; [constructor|done].
  - intros Hf. inv Hf. right. exists e. split; [done|constructor].
  - intros Hf. inv Hf. simplify_eq.
    match goal with H : Runs (sdk_bind _ _) _ _ |- _ => apply IH in H as
      [(s1&s2&a&->&Hm&Hf)|(e&->&Hm)] end.
    + left. exists ((c, v) :: s1), s2, a. repeat split; [by constructor|done].
    + right. exists e. split; [done|by constructor].
Qed.

(** The four ways a sequence begins. *)
Lemma Runs_call_ok c v (k : Obj → SdkM B) script r :
  Runs (k v) script r → Runs (sdk_bind (sdk_call c) k) ((c, Ok v) :: script) r.
Proof. intros Hf. by constructor. Qed.

Lemma Runs_call_raise c e (k : Obj → SdkM B) :
  Runs (sdk_bind (sdk_call c) k) [(c, Raise e)] (Raise e).
Proof. repeat constructor. Qed.

Lemma Runs_lift_ok a f script r :
  Runs (f a) script r → Runs (sdk_bind (sdk_lift (Ok a)) f) script r.
Proof. done. Qed.

Lemma Runs_lift_raise e f : Runs (sdk_bind (sdk_lift (Raise e)) f) [] (Raise e).
Proof. constructor. Qed.

End runs.

(** A [try] around calls: the conversation of the body, followed by that of
    the handler when the body raises what the [try] handles. *)
Lemma Runs_try_except_ok {A} (m : SdkM A) p h script a :
  Runs m script (Ok a) → Runs (sdk_try_except m p h) script (Ok a).
Proof.
  intros Hm. remember (Ok a) as r eqn:Hr.
  induction Hm; subst; cbn; by constructor; auto.
Qed.

Lemma Runs_try_except_handled {A} (m : SdkM A) p h script e script' r :
  Runs m script (Raise e) → p e = true → Runs (h e) script' r →
  Runs (sdk_try_except m p h) (script ++ script') r.
Proof.
  intros Hm Hp Hh. remember (Raise e) as r0 eqn:Hr.
  induction Hm; subst; cbn; [by rewrite Hp|]. constructor. auto.
Qed.

(** A loop for effect: the conversations of the items follow one another. *)
Lemma Runs_iter_ok {A} (f : A → SdkM unit) (g : A → list (Call * Res Obj)) l :
  (∀ x, x ∈ l → Runs (f x) (g x) (Ok tt)) →
  Runs (sdk_iter f l) (l ≫= g) (Ok tt).
Proof.
  induction l as [|x l IH]; intros Hf; cbn; [constructor|].
  eapply Runs_bind_ok; [apply Hf; left|]. apply IH. intros y Hy.
  apply Hf. by right.
Qed.

Lemma sdk_iter_fmap {A X} (f : A → SdkM unit) (h : X → A) l :
  sdk_iter f (h <$> l) = sdk_iter (f ∘ h) l.
Proof. induction l as [|x l IH]; cbn; [done|]. by rewrite IH. Qed.

(** The loop stops at the first item that raises. *)
Lemma Runs_iter_raise {A} (f : A → SdkM unit) (g : A → list (Call * Res Obj))
    l1 x l2 script e :
  (∀ y, y ∈ l1 → Runs (f y) (g y) (Ok tt)) → Runs (f x) script (Raise e) →
  Runs (sdk_iter f (l1 ++ x :: l2)) ((l1 ≫= g) ++ script) (Raise e).
Proof.
  induction l1 as [|y l1 IH]; intros Hf Hx; cbn.
  - by apply Runs_bind_raise.
  - rewrite <-(assoc_L (++)).
    eapply Runs_bind_ok; [apply Hf; left|]. apply IH; [|done]. intros z Hz.
    apply Hf. by right.
Qed.

Section runs_run.
Context `{!Upstream} {A : Type}.
Implicit Types (m : SdkM A) (script : list (Call * Res Obj)).

(** [run] implements [Runs]: against an upstream that answers as the script
    says, the run ends with the script's result, after the script's
    calls. *)
Lemma Runs_run m script r s :
  Runs m script r → replay s script →
  run m s = mkOutcome r (replay_state s script) script.*1.
Proof.
  intros Hr. revert s. induction Hr as [r|c k v script r Hk IH]; intros s;
    cbn; [done|]. intros [<- Hs]. by rewrite (IH _ Hs).
Qed.

(** And every run is a conversation: the one [run_script] records. *)
Lemma run_Runs m s : Runs m (run_script m s) (out_result (run m s)).
Proof.
  revert s. induction m as [r|c k IH]; intros s; cbn; constructor. apply IH.
Qed.

Lemma run_script_replay m s : replay s (run_script m s).
Proof. revert s. induction m as [r|c k IH]; intros s; cbn; auto. Qed.

Lemma run_script_trace m s : (run_script m s).*1 = out_trace (run m s).
Proof.
  revert s. induction m as [r|c k IH]; intros s; cbn; [done|]. by rewrite IH.
Qed.

(** A bound on the calls of a program bounds every conversation. *)
Lemma calls_le_Runs m script r n :
  calls_le m n → Runs m script r → length script ≤ n.
Proof.
  intros Hn Hr. revert n Hn. induction Hr as [r|c k v script r Hk IH];
    intros n; cbn; [lia|]. destruct n as [|n]; [done|].
  intros Hn. apply le_n_S, IH, Hn.
Qed.

End runs_run.

(** ** An upstream for running the model *)

(** The upstream that answers from a list, one answer per call, whatever
    the call; when the list is used up it raises. *)
Definition scripted_step (s : list (Res Obj)) (c : Call)
    : Res Obj * list (Res Obj) :=
  match s with
  | r :: s => (r, s)
  | [] => (Raise (NetError "no answer"), [])
  end.

Definition scripted_upstream : Upstream :=
  {| up_state := list (Res Obj); up_step := scripted_step |}.

(** ** Tactics for runs *)

(** Push [run] through binds, lifts and calls. *)
Ltac run_simpl :=
  repeat first
    [ rewrite run_lift_bind
    | rewrite run_call_bind
    | rewrite run_bind
    | rewrite run_lift
    | rewrite run_call
    | rewrite run_ret ].

(** Count the calls of a sequence: each bind adds the bounds of its two
    parts; the database [calls] holds the bounds of the parts already
    counted. *)
Create HintDb calls discriminated.
#[export] Hint Resolve calls_le_lift0 calls_le_call : calls.

Ltac calls_le_side := first [apply le_n | cbn; lia].

Ltac calls_le_tac :=
  lazymatch goal with
  | |- calls_le (sdk_bind _ _) _ =>
      eapply calls_le_bind_le;
        [calls_le_tac | intros ?; calls_le_tac | calls_le_side]
  | |- calls_le (match ?x with _ => _ end) _ => destruct x; calls_le_tac
  | |- calls_le _ _ =>
      first [ apply calls_le_lift0 | apply calls_le_call
            | solve [eauto with calls] ]
  end.

(** Follow a program along a script, one step at a time. *)
Ltac runs :=
  repeat first
    [ apply Runs_ret
    | apply Runs_lift
    | apply Runs_call
    | apply Runs_call_raise
    | apply Runs_lift_raise
    | apply Runs_call_ok
    | apply Runs_lift_ok ].
