(* ===== verification/Points.v ===== *)
(** * [PIPointExtractor]: [src/pipolars/extraction/points.py]

    One definition per method of the class, under the method's name.  The
    conversion of one upstream value ([_convert_value]) and the name of a
    summary ([_get_summary_name]) make no call and live in [Res]; the
    queries are programs of [SdkM].

    Where the code reads an attribute of an SDK object the model reads a
    slot; where it calls a method, a class or [get_type] the model makes a
    [Call], with the arguments in the order of the code.  The theorems follow
    the definitions. *)

From stdpp Require Import base tactics option list strings numbers pretty.
From S2P Require Import Prelude PyStr PyObj Types Sdk.

#[global] Set Warnings "-clear-no-such-hyp,-register-all".

(** ** Options *)

(** [RecordedValuesOptions] *)
Record RecordedValuesOptions : Type := mkRecordedValuesOptions {
  rv_boundary_type : BoundaryType;
  rv_filter_expression : option string;
  rv_include_filtered_values : bool;
  rv_max_count : Z
}.

(** [RecordedValuesOptions()]; a [max_count] of 0 is no limit. *)
Definition RecordedValuesOptions_default : RecordedValuesOptions :=
  mkRecordedValuesOptions INSIDE None false 0.

(** [InterpolatedValuesOptions] *)
Record InterpolatedValuesOptions : Type := mkInterpolatedValuesOptions {
  iv_interval : string;
  iv_filter_expression : option string;
  iv_include_filtered_values : bool
}.

Definition InterpolatedValuesOptions_default : InterpolatedValuesOptions :=
  mkInterpolatedValuesOptions "1h" None false.

(** [PlotValuesOptions] *)
Record PlotValuesOptions : Type := mkPlotValuesOptions {
  plot_intervals : Z;
  plot_include_min_max : bool
}.

Definition PlotValuesOptions_default : PlotValuesOptions :=
  mkPlotValuesOptions 640 true.

(** ** The extractor *)

(** The two fields [__init__] sets. *)
Record PIPointExtractor : Type := mkPIPointExtractor {
  _connection : Obj;
  _sdk : Obj
}.

(** [filter_expression: str | None] as a value *)
Definition obj_of_filter (f : option string) : Obj :=
  match f with Some s => OStr s | None => ONone end.

(** ** Well-formed upstream values *)

(** An upstream value as the SDK documents it: a timestamp with a local
    time, a value, a Boolean [IsGood], and, if present, a Boolean
    [Substituted]; whose value is a number, a string or nothing (pythonnet
    has turned it into Python's), or a digital state with a text name, or
    another object of the SDK: one without a name, whose [ToString] gives
    text, and whose [float()] answers or is refused with [ValueError] or
    [TypeError]. *)
Definition is_python_value (v : Obj) : bool :=
  match v with ONet _ => false | _ => true end.

Definition is_digital_state (v : Obj) : bool :=
  match getattr v "Name" with Ok (OStr _) => true | _ => false end.

Definition is_sdk_value (v : Obj) : bool :=
  match v with
  | ONet slots =>
      match dict_get "Name" slots, dict_get "ToString" slots with
      | None, Some (SVal (OStr _)) =>
          match dict_get "__float__" slots with
          | Some (SRaise e) => bool_decide (e ∈ [ValueError; TypeError])
          | _ => true
          end
      | _, _ => false
      end
  | _ => false
  end.

Definition wf_af_value (af_value : Obj) : bool :=
  match getattr af_value "Timestamp" with
  | Ok ts => is_ok (getattr ts "LocalTime")
  | Raise _ => false
  end &&
  match getattr af_value "Value" with
  | Ok v => is_python_value v || is_digital_state v || is_sdk_value v
  | Raise _ => false
  end &&
  match getattr af_value "IsGood" with Ok (OBool _) => true | _ => false end &&
  match getattr af_value "Substituted" with
  | Ok (OBool _) | Raise AttributeError => true
  | _ => false
  end.

Section pure.
Context `{!Builtins}.

(** *** [_convert_value] *)

(** Lines 136-146: the value.  A digital state gives its name; another SDK
    object is coerced to a float, or to its text when that fails; a value
    Python already owns passes through.  [Name] is a property, and
    [hasattr] reads it; [ToString] is a method, and [hasattr] looks it up
    without calling it: the call is in the handler, line 146. *)
Definition _convert_value_value (value : Obj) : Res Obj :=
  has_name ← hasattr value "Name";
  if has_name then
    name ← getattr value "Name";
    s ← py_str name;
    Ok (OStr s)
  else
    if has_method value "ToString" then
      try_except (f ← py_float value; Ok (OFloat f))
        (one_of [ValueError; TypeError])
        (λ _, t ← getattr value "ToString"; s ← py_str t; Ok (OStr s))
    else Ok value.

(** Lines 148-153: the quality. *)
Definition _convert_value_quality (af_value : Obj) : Res DataQuality :=
  is_good ← getattr af_value "IsGood";
  if is_False is_good then Ok BAD
  else
    has_substituted ← hasattr af_value "Substituted";
    if has_substituted then
      substituted ← getattr af_value "Substituted";
      t ← truthy substituted;
      Ok (if t then SUBSTITUTED else GOOD)
    else Ok GOOD.

Definition _convert_value (af_value : Obj) : Res PIValue :=
  ts ← getattr af_value "Timestamp";
  timestamp ← getattr ts "LocalTime";
  value ← getattr af_value "Value";
  value ← _convert_value_value value;
  quality ← _convert_value_quality af_value;
  Ok (mkPIValue timestamp value quality).

(** The time the upstream gives a sample: what line 134 reads. *)
Definition sample_time (af_value : Obj) : Res Obj :=
  ts ← getattr af_value "Timestamp";
  getattr ts "LocalTime".

(** *** Summary names *)

(** A dictionary with integer keys, as a literal lists them, and its
    [get]. *)
Fixpoint int_dict_get (d : list (Z * string)) (k : Z) : option string :=
  match d with
  | [] => None
  | (k', v) :: d => if decide (k = k') then Some v else int_dict_get d k
  end.

(** The dictionary [summary_name_map] written out in [summary] (lines
    448-458). *)
Definition summary_name_map_inline : list (Z * string) :=
  [(1, "total"); (2, "average"); (4, "minimum"); (8, "maximum");
   (16, "range"); (32, "std_dev"); (64, "pop_std_dev"); (128, "count");
   (8192, "percent_good")]%Z.

(** The dictionary [summary_name_map] of [_get_summary_name] (lines
    530-540). *)
Definition summary_name_map : list (Z * string) :=
  [(1, "total"); (2, "average"); (4, "minimum"); (8, "maximum");
   (16, "range"); (32, "std_dev"); (64, "pop_std_dev"); (128, "count");
   (8192, "percent_good")]%Z.

(** [summary_name_map.get(v, str(v))] *)
Definition _get_summary_name (summary_type_value : Z) : string :=
  default (pretty summary_type_value)
    (int_dict_get summary_name_map summary_type_value).

(** Lines 460-463, the body of the loop of [summary]: one entry of the
    result. *)
Definition summary_entry (result : list (string * Obj)) (summary : Obj)
    : Res (list (string * Obj)) :=
  st ← getattr summary "SummaryType";
  summary_type_value ← py_int st;
  let name := default (pretty summary_type_value)
                (int_dict_get summary_name_map_inline summary_type_value) in
  v ← getattr summary "Value";
  vv ← getattr v "Value";
  Ok (dict_set name vv result).

(** What lines 461 and 463 read of one summary: the number of its type
    and the value inside its [AFValue]. *)
Definition summary_read (summary : Obj) : Res (Z * Obj) :=
  st ← getattr summary "SummaryType";
  summary_type_value ← py_int st;
  v ← getattr summary "Value";
  vv ← getattr v "Value";
  Ok (summary_type_value, vv).

(** Lines 520-523, the body of the inner loop of [summaries]. *)
Definition summaries_entry (interval_results : list (string * Obj))
    (summary : Obj) : Res (list (string * Obj)) :=
  st ← getattr summary "SummaryType";
  summary_type_value ← py_int st;
  let name := _get_summary_name summary_type_value in
  v ← getattr summary "Value";
  vv ← getattr v "Value";
  Ok (dict_set name vv interval_results).

(** Lines 516-524, the body of the outer loop of [summaries]: the
    dictionary of one interval. *)
Definition summaries_interval (summary_dict : Obj)
    : Res (list (string * Obj)) :=
  key ← getattr summary_dict "Key";
  local_time ← getattr key "LocalTime";
  value ← getattr summary_dict "Value";
  iter_foldM summaries_entry [("timestamp", local_time)] (iterate value).

(** *** Point types *)

(** The dictionary [point_type_map] of [get_point_config]. *)
Definition point_type_map (s : string) : option PointType :=
  if decide (s = "Float16") then Some FLOAT16
  else if decide (s = "Float32") then Some FLOAT32
  else if decide (s = "Float64") then Some FLOAT64
  else if decide (s = "Int16") then Some INT16
  else if decide (s = "Int32") then Some INT32
  else if decide (s = "Digital") then Some DIGITAL
  else if decide (s = "Timestamp") then Some TIMESTAMP
  else if decide (s = "String") then Some STRING
  else if decide (s = "Blob") then Some BLOB
  else None.

(** The attribute names [get_point_config] asks for. *)
Definition point_config_attributes : list string :=
  ["pointid"; "pointtype"; "descriptor"; "engunits"; "zero"; "span";
   "displaydigits"; "typicalvalue"].

(** Lines 197-210: the record, from the attributes.  The arguments of
    [PointConfig(...)] are evaluated in the order they are written. *)
Definition point_config_of_attrs (tag_name : string) (attrs : Obj)
    : Res PointConfig :=
  pt ← py_dict_get attrs "pointtype" (OStr "Float32");
  point_type_str ← py_str pt;
  let point_type := default FLOAT64 (point_type_map point_type_str) in
  pid ← py_dict_get attrs "pointid" (OInt 0);
  point_id ← py_int pid;
  d ← py_dict_get attrs "descriptor" (OStr "");
  description ← py_str d;
  u ← py_dict_get attrs "engunits" (OStr "");
  engineering_units ← py_str u;
  z ← py_dict_get attrs "zero" (OFloat (float_of_Z 0));
  zero ← py_float z;
  sp ← py_dict_get attrs "span" (OFloat (float_of_Z 100));
  span ← py_float sp;
  dd ← py_dict_get attrs "displaydigits" (OInt (-5));
  display_digits ← py_int dd;
  tv ← py_dict_get attrs "typicalvalue" ONone;
  has_typical ← truthy tv;
  typical_value ←
    (if has_typical then
       tv' ← py_dict_get attrs "typicalvalue" ONone;
       f ← py_float tv';
       Ok (Some f)
     else Ok None);
  Ok (PointConfig_basic tag_name point_id point_type description
        engineering_units zero span display_digits typical_value).

(** Two fields of the record, each by itself: what
    [point_type_map.get(attrs.get("pointtype", "Float32"), FLOAT64)] and
    [float(attrs.get("typicalvalue")) if attrs.get("typicalvalue") else None]
    give. *)
Definition point_type_of_attrs (attrs : Obj) : Res PointType :=
  pt ← py_dict_get attrs "pointtype" (OStr "Float32");
  point_type_str ← py_str pt;
  Ok (default FLOAT64 (point_type_map point_type_str)).

Definition typical_value_of_attrs (attrs : Obj) : Res (option PyFloat) :=
  tv ← py_dict_get attrs "typicalvalue" ONone;
  has_typical ← truthy tv;
  if has_typical then f ← py_float tv; Ok (Some f) else Ok None.

End pure.

(** ** The queries *)

#[local] Open Scope sdk_scope.

Section queries.
Context `{!Builtins}.
Implicit Types (self : PIPointExtractor).

(** [PIPointExtractor(connection)] *)
Definition PIPointExtractor_init (connection : Obj) : SdkM PIPointExtractor :=
  sdk ← sdk_call (CFunc "get_sdk_manager" []);
  sdk_ret (mkPIPointExtractor connection sdk).

(** [self._connection.get_point(tag_name)] *)
Definition get_point self (tag_name : string) : SdkM Obj :=
  sdk_call (CMethod (_connection self) "get_point" [OStr tag_name]).

(** [self._sdk.get_type(namespace, name)] *)
Definition get_type self (namespace name : string) : SdkM Obj :=
  sdk_call (CMethod (_sdk self) "get_type" [OStr namespace; OStr name]).

Definition _parse_time self (time : PITimestamp) : SdkM Obj :=
  AFTime_class ← sdk_lift (getattr (_sdk self) "af_time_class");
  match time with
  | TsDateTime d => sdk_call (CNew AFTime_class [OStr (isoformat d)])
  | TsAFTime t => sdk_call (CNew AFTime_class [OStr (expression t)])
  | TsStr s => sdk_call (CNew AFTime_class [OStr s])
  end.

Definition _create_time_range self (start end_ : PITimestamp) : SdkM Obj :=
  AFTimeRange ← sdk_lift (getattr (_sdk self) "af_time_range_class");
  start_time ← _parse_time self start;
  end_time ← _parse_time self end_;
  sdk_call (CNew AFTimeRange [start_time; end_time]).

(** [[self._convert_value(v) for v in af_values]] *)
Definition convert_all (af_values : Obj) : Res (list PIValue) :=
  iter_mapM _convert_value (iterate af_values).

Definition get_point_config self (tag_name : string) : SdkM PointConfig :=
  point ← get_point self tag_name;
  attrs ← sdk_call (CMethod point "GetAttributes"
                      [OList (OStr <$> point_config_attributes)]);
  sdk_lift (point_config_of_attrs tag_name attrs).

Definition snapshot self (tag_name : string) : SdkM PIValue :=
  point ← get_point self tag_name;
  af_value ← sdk_call (CMethod point "CurrentValue" []);
  sdk_lift (_convert_value af_value).

(** Lines 237-239: the loop that fills the point list. *)
Definition snapshots_add self (point_list : Obj) (tag_name : string)
    : SdkM unit :=
  point ← get_point self tag_name;
  _ ← sdk_call (CMethod point_list "Add" [point]);
  sdk_ret tt.

(** Lines 244-246: the loop that fills the result, over
    [enumerate(tag_names)]. *)
Definition snapshots_result (af_values : Obj)
    (result : list (string * PIValue)) (it : nat * string)
    : Res (list (string * PIValue)) :=
  (v ← py_getitem af_values it.1;
   pv ← _convert_value v;
   Ok (dict_set it.2 pv result))%py.

Definition snapshots self (tag_names : list string)
    : SdkM (list (string * PIValue)) :=
  PIPointList ← sdk_lift (getattr (_sdk self) "pi_point_list_class");
  point_list ← sdk_call (CNew PIPointList []);
  _ ← sdk_iter (snapshots_add self point_list) tag_names;
  af_values ← sdk_call (CMethod point_list "CurrentValue" []);
  sdk_lift (res_foldM (snapshots_result af_values) []
              (imap (λ i t, (i, t)) tag_names)).

(** Lines 274-279: [boundary_map.get(options.boundary_type, ...)]; the
    dictionary literal reads the three members first. *)
Definition boundary_of (AFBoundaryType : Obj) (bt : BoundaryType) : Res Obj :=
  (inside ← getattr AFBoundaryType "Inside";
   outside ← getattr AFBoundaryType "Outside";
   interpolated ← getattr AFBoundaryType "Interpolated";
   Ok (match bt with
       | INSIDE => inside
       | OUTSIDE => outside
       | INTERPOLATED => interpolated
       end))%py.

Definition recorded_values self (tag_name : string) (start end_ : PITimestamp)
    (options : option RecordedValuesOptions) : SdkM (list PIValue) :=
  let options := default RecordedValuesOptions_default options in
  point ← get_point self tag_name;
  time_range ← _create_time_range self start end_;
  AFBoundaryType ← get_type self "OSIsoft.AF.Data" "AFBoundaryType";
  boundary ← sdk_lift (boundary_of AFBoundaryType (rv_boundary_type options));
  af_values ← sdk_call (CMethod point "RecordedValues"
    [time_range; boundary; obj_of_filter (rv_filter_expression options);
     OBool (rv_include_filtered_values options); OInt (rv_max_count options)]);
  sdk_lift (convert_all af_values).

(** What a generator gives to a consumer that reads it to the end: the
    items, then the exception that ended it, if one did. *)
Record Yielded (A : Type) : Type := mkYielded {
  yielded : list A;
  ended_by : option Exn
}.
#[global] Arguments mkYielded {A} _ _.
#[global] Arguments yielded {A} _.
#[global] Arguments ended_by {A} _.

(** [for x in l: yield f(x)] *)
Fixpoint yield_each {A B} (f : A → Res B) (l : list A) : Yielded B :=
  match l with
  | [] => mkYielded [] None
  | x :: l =>
      match f x with
      | Ok y =>
          let r := yield_each f l in mkYielded (y :: yielded r) (ended_by r)
      | Raise e => mkYielded [] (Some e)
      end
  end.

(** [for x in it: yield f(x)], the collection read while the generator
    runs: what the collection gives is converted and yielded item by item,
    and the exception of the iteration ends the generator after them. *)
Definition yield_iter {A B} (f : A → Res B) (it : Iter A) : Yielded B :=
  let r := yield_each f (given it) in
  mkYielded (yielded r)
    (match ended_by r with Some e => Some e | None => ended it end).

(** The code of [recorded_values_iterator] before its loop: the query,
    with paging, and the collection it answers. *)
Definition recorded_values_pages self (tag_name : string)
    (start end_ : PITimestamp) (page_size : Z) : SdkM Obj :=
  point ← get_point self tag_name;
  time_range ← _create_time_range self start end_;
  AFBoundaryType ← get_type self "OSIsoft.AF.Data" "AFBoundaryType";
  PIPagingConfiguration ← get_type self "OSIsoft.AF.PI" "PIPagingConfiguration";
  event_count ← sdk_lift
    (page_type ← getattr PIPagingConfiguration "PageType";
     getattr page_type "EventCount")%py;
  paging_config ← sdk_call
    (CNew PIPagingConfiguration [event_count; OInt page_size]);
  inside ← sdk_lift (getattr AFBoundaryType "Inside");
  sdk_call (CMethod point "RecordedValues"
    [time_range; inside; ONone; OBool false; paging_config]).

(** The generator [recorded_values_iterator], read to its end.  The code
    before the loop runs when the first item is asked for; an exception
    there is the result [Raise]. *)
Definition recorded_values_iterator self (tag_name : string)
    (start end_ : PITimestamp) (page_size : Z) : SdkM (Yielded PIValue) :=
  af_values ← recorded_values_pages self tag_name start end_ page_size;
  sdk_ret (yield_iter _convert_value (iterate af_values)).

Definition interpolated_values self (tag_name : string)
    (start end_ : PITimestamp) (interval : string)
    (options : option InterpolatedValuesOptions) : SdkM (list PIValue) :=
  let options := default InterpolatedValuesOptions_default options in
  point ← get_point self tag_name;
  time_range ← _create_time_range self start end_;
  AFTimeSpan ← get_type self "OSIsoft.AF.Time" "AFTimeSpan";
  time_interval ← sdk_call (CMethod AFTimeSpan "Parse" [OStr interval]);
  af_values ← sdk_call (CMethod point "InterpolatedValues"
    [time_range; time_interval; obj_of_filter (iv_filter_expression options);
     OBool (iv_include_filtered_values options)]);
  sdk_lift (convert_all af_values).

Definition plot_values self (tag_name : string) (start end_ : PITimestamp)
    (intervals : Z) : SdkM (list PIValue) :=
  point ← get_point self tag_name;
  time_range ← _create_time_range self start end_;
  af_values ← sdk_call (CMethod point "PlotValues" [time_range; OInt intervals]);
  sdk_lift (convert_all af_values).

(** Lines 426-431 and 499-504: the SDK's flags from the summary types.  A
    list is folded with [|=] from [AFSummaryTypes.None_]; a single type is
    converted alone. *)
Definition sdk_summary_or (AFSummaryTypes : Obj) (sdk_summary : Obj)
    (st : SummaryType) : SdkM Obj :=
  flag ← sdk_call (CNew AFSummaryTypes [OInt (summary_value st)]);
  sdk_call (CMethod sdk_summary "__or__" [flag]).

Definition sdk_summary_of (AFSummaryTypes : Obj)
    (summary_types : SummaryType + list SummaryType) : SdkM Obj :=
  match summary_types with
  | inr l =>
      none ← sdk_lift (getattr AFSummaryTypes "None_");
      sdk_foldM (sdk_summary_or AFSummaryTypes) none l
  | inl st => sdk_call (CNew AFSummaryTypes [OInt (summary_value st)])
  end.

Definition summary self (tag_name : string) (start end_ : PITimestamp)
    (summary_types : SummaryType + list SummaryType)
    : SdkM (list (string * Obj)) :=
  point ← get_point self tag_name;
  time_range ← _create_time_range self start end_;
  AFSummaryTypes ← get_type self "OSIsoft.AF.Data" "AFSummaryTypes";
  sdk_summary ← sdk_summary_of AFSummaryTypes summary_types;
  AFCalculationBasis ← get_type self "OSIsoft.AF.Data" "AFCalculationBasis";
  AFTimestampCalculation ←
    get_type self "OSIsoft.AF.Data" "AFTimestampCalculation";
  time_weighted ← sdk_lift (getattr AFCalculationBasis "TimeWeighted");
  auto ← sdk_lift (getattr AFTimestampCalculation "Auto");
  summaries ← sdk_call (CMethod point "Summary"
    [time_range; sdk_summary; time_weighted; auto]);
  sdk_lift (iter_foldM summary_entry [] (iterate summaries)).

Definition summaries self (tag_name : string) (start end_ : PITimestamp)
    (interval : string) (summary_types : SummaryType + list SummaryType)
    : SdkM (list (list (string * Obj))) :=
  point ← get_point self tag_name;
  time_range ← _create_time_range self start end_;
  AFSummaryTypes ← get_type self "OSIsoft.AF.Data" "AFSummaryTypes";
  AFTimeSpan ← get_type self "OSIsoft.AF.Time" "AFTimeSpan";
  AFCalculationBasis ← get_type self "OSIsoft.AF.Data" "AFCalculationBasis";
  AFTimestampCalculation ←
    get_type self "OSIsoft.AF.Data" "AFTimestampCalculation";
  time_interval ← sdk_call (CMethod AFTimeSpan "Parse" [OStr interval]);
  sdk_summary ← sdk_summary_of AFSummaryTypes summary_types;
  time_weighted ← sdk_lift (getattr AFCalculationBasis "TimeWeighted");
  auto ← sdk_lift (getattr AFTimestampCalculation "Auto");
  summaries ← sdk_call (CMethod point "Summaries"
    [time_range; time_interval; sdk_summary; time_weighted; auto]);
  sdk_lift (values ← getattr summaries "Values";
            iter_mapM summaries_interval (iterate values))%py.

Definition value_at self (tag_name : string) (time : PITimestamp)
    : SdkM PIValue :=
  point ← get_point self tag_name;
  af_time ← _parse_time self time;
  AFRetrievalMode ← get_type self "OSIsoft.AF.Data" "AFRetrievalMode";
  at_or_before ← sdk_lift (getattr AFRetrievalMode "AtOrBefore");
  af_value ← sdk_call (CMethod point "RecordedValue" [af_time; at_or_before]);
  sdk_lift (_convert_value af_value).

End queries.

#[local] Close Scope sdk_scope.

(** ** The calls of the queries, for the statements *)

Section calls.
Context `{!Builtins}.
Implicit Types (self : PIPointExtractor).

(** The lookup of a tag and the request for an SDK type, as calls. *)
Definition get_point_call self (tag_name : string) : Call :=
  CMethod (_connection self) "get_point" [OStr tag_name].

Definition get_type_call self (namespace name : string) : Call :=
  CMethod (_sdk self) "get_type" [OStr namespace; OStr name].

(** The text [_parse_time] gives to [AFTime]. *)
Definition time_text (time : PITimestamp) : string :=
  match time with
  | TsDateTime d => isoformat d
  | TsAFTime t => expression t
  | TsStr s => s
  end.

(** The three calls of [_create_time_range], answered with [st], [et] and
    [tr]. *)
Definition time_range_script (AFTime_class AFTimeRange : Obj)
    (start end_ : PITimestamp) (st et tr : Obj) : list (Call * Res Obj) :=
  [(CNew AFTime_class [OStr (time_text start)], Ok st);
   (CNew AFTime_class [OStr (time_text end_)], Ok et);
   (CNew AFTimeRange [st; et], Ok tr)].

(** The conversation of [recorded_values] with an upstream that finds the
    point: the lookup, the time range, the request for [AFBoundaryType],
    and one [RecordedValues] call with the boundary, the filter, the flag
    and the limit of the options, answered with [af_values]. *)
Definition recorded_values_script self (AFTime_class AFTimeRange : Obj)
    (tag_name : string) (start end_ : PITimestamp)
    (options : RecordedValuesOptions) (point st et tr bt boundary : Obj)
    (af_values : Res Obj) : list (Call * Res Obj) :=
  (get_point_call self tag_name, Ok point) ::
  time_range_script AFTime_class AFTimeRange start end_ st et tr ++
  [(get_type_call self "OSIsoft.AF.Data" "AFBoundaryType", Ok bt);
   (CMethod point "RecordedValues"
      [tr; boundary; obj_of_filter (rv_filter_expression options);
       OBool (rv_include_filtered_values options);
       OInt (rv_max_count options)],
    af_values)].

(** The conversation of [recorded_values_iterator] before its loop: the
    lookup, the time range, the requests for [AFBoundaryType] and
    [PIPagingConfiguration], the paging configuration made of the page
    type [event_count] and the page size, and one [RecordedValues] call
    with the boundary [inside], no filter, filtered values left out, and
    the paging configuration where [recorded_values] hands the limit. *)
Definition recorded_values_pages_script self (AFTime_class AFTimeRange : Obj)
    (tag_name : string) (start end_ : PITimestamp) (page_size : Z)
    (point st et tr bt paging event_count inside paging_config : Obj)
    (af_values : Res Obj) : list (Call * Res Obj) :=
  (get_point_call self tag_name, Ok point) ::
  time_range_script AFTime_class AFTimeRange start end_ st et tr ++
  [(get_type_call self "OSIsoft.AF.Data" "AFBoundaryType", Ok bt);
   (get_type_call self "OSIsoft.AF.PI" "PIPagingConfiguration", Ok paging);
   (CNew paging [event_count; OInt page_size], Ok paging_config);
   (CMethod point "RecordedValues"
      [tr; inside; ONone; OBool false; paging_config],
    af_values)].

(** The two calls [snapshots] makes for one tag, answered with the point
    [p] and the result [r] of [Add]. *)
Definition snapshots_add_script self (point_list : Obj)
    (it : string * (Obj * Obj)) : list (Call * Res Obj) :=
  [(get_point_call self it.1, Ok it.2.1);
   (CMethod point_list "Add" [it.2.1], Ok it.2.2)].

(** The calls that fold a list of summary types into the SDK's flags from
    [acc]: for each type a flag is made and or-ed in.  An answer is the
    type, the flag made, and the result of the [|=]. *)
Fixpoint sdk_summary_script (AFSummaryTypes acc : Obj)
    (answers : list (SummaryType * (Obj * Obj))) : list (Call * Res Obj) :=
  match answers with
  | [] => []
  | (st, (flag, acc')) :: answers =>
      (CNew AFSummaryTypes [OInt (summary_value st)], Ok flag) ::
      (CMethod acc "__or__" [flag], Ok acc') ::
      sdk_summary_script AFSummaryTypes acc' answers
  end.

(** The flags after the fold. *)
Definition sdk_summary_flags (acc : Obj)
    (answers : list (SummaryType * (Obj * Obj))) : Obj :=
  foldl (λ _ a, a.2.2) acc answers.

(** How many calls [sdk_summary_of] makes. *)
Definition sdk_summary_calls (summary_types : SummaryType + list SummaryType)
    : nat :=
  match summary_types with inl _ => 1 | inr l => 2 * length l end.

(** One summary of an answer, as the SDK gives it: the type, and the value
    inside an [AFValue]. *)
Definition summary_item (it : Z * Obj) : Obj :=
  ONet [("SummaryType", SVal (OInt it.1));
        ("Value", SVal (ONet [("Value", SVal it.2)]))].

(** The dictionary that holds, after [result], what was read of the
    summaries of an answer, each under the name of its type. *)
Definition summary_dict (result : list (string * Obj)) (items : list (Z * Obj))
    : list (string * Obj) :=
  foldl (λ d it, dict_set (_get_summary_name it.1) it.2 d) result items.

(** The last summary of an answer that goes by a name. *)
Definition summary_named (name : string) (reads : list (Z * Obj))
    : option (Z * Obj) :=
  list.last (filter (λ r, _get_summary_name r.1 = name) reads).

(** A sample that converts. *)
Definition converts (af_value : Obj) : bool := is_ok (_convert_value af_value).

End calls.

(** ** Objects to run the model on *)

(** The SDK manager with the three classes the extractor reads from it,
    and an extractor on it. *)
Definition ex_sdk : Obj :=
  ONet [("af_time_class", SVal (OStr "AFTime"));
        ("af_time_range_class", SVal (OStr "AFTimeRange"));
        ("pi_point_list_class", SVal (OStr "PIPointList"))].

Definition ex_self : PIPointExtractor :=
  mkPIPointExtractor (OStr "connection") ex_sdk.

Definition ex_time : DateTime := mkDateTime 2024 1 15 10 30 0 0.

(** An upstream value: a local time, a value, [IsGood] and
    [Substituted]. *)
Definition ex_af_value (value : Obj) (good substituted : bool) : Obj :=
  ONet [("Timestamp", SVal (ONet [("LocalTime", SVal (ODateTime ex_time))]));
        ("Value", SVal value);
        ("IsGood", SVal (OBool good));
        ("Substituted", SVal (OBool substituted))].

(** A sample whose timestamp cannot be read. *)
Definition ex_broken_value : Obj :=
  ONet [("Timestamp", SRaise (NetError "no timestamp"));
        ("Value", SVal (OInt 1)); ("IsGood", SVal (OBool true))].

(** A digital state, a .NET number, a .NET value that is no number, and
    one whose conversion overflows. *)
Definition ex_digital : Obj :=
  ONet [("Name", SVal (OStr "Running")); ("ToString", SVal (OStr "Running"))].

Definition ex_number : Obj :=
  ONet [("ToString", SVal (OStr "21.5"));
        ("__float__", SVal (OFloat (mkFloat 215 (-1))))].

Definition ex_text : Obj :=
  ONet [("ToString", SVal (OStr "Shutdown")); ("__float__", SRaise TypeError)].

Definition ex_overflow : Obj :=
  ONet [("ToString", SVal (OStr "1e999")); ("__float__", SRaise OverflowError)].

(** [AFBoundaryType] and the other enumerations, as objects whose members
    are their names. *)
Definition ex_enum (members : list string) : Obj :=
  ONet ((λ m, (m, SVal (OStr m))) <$> members).

Definition ex_boundary_type : Obj :=
  ex_enum ["Inside"; "Outside"; "Interpolated"].

(** * Theorems *)

(** ** [_convert_value]: the value *)

Section convert_value_facts.
Context `{!Builtins}.
Implicit Types (value af_value v : Obj).

(** A value with a [Name] is a digital state: the result is the text of the
    name, whatever else the value has. *)
Lemma convert_value_digital value name s :
  getattr value "Name" = Ok name → py_str name = Ok s →
  _convert_value_value value = Ok (OStr s).
Proof.
  intros Hn Hs. unfold _convert_value_value.
  rewrite (hasattr_of_ok _ _ _ Hn). cbn. rewrite Hn. cbn. by rewrite Hs.
Qed.

(** Without a [Name] and with a [ToString], a value that [float()] accepts
    becomes that float. *)
Lemma convert_value_numeric value f :
  getattr value "Name" = Raise AttributeError →
  has_method value "ToString" = true → py_float value = Ok f →
  _convert_value_value value = Ok (OFloat f).
Proof.
  intros Hn Ht Hf. unfold _convert_value_value.
  rewrite (hasattr_of_missing _ _ Hn). cbn. by rewrite Ht, Hf.
Qed.

(** What the handler of line 145 gives: the text of [ToString], or what
    calling it raises. *)
Lemma convert_value_handled value e :
  getattr value "Name" = Raise AttributeError →
  has_method value "ToString" = true → py_float value = Raise e →
  e = ValueError ∨ e = TypeError →
  _convert_value_value value =
    (t ← getattr value "ToString"; s ← py_str t; Ok (OStr s)).
Proof.
  intros Hn Ht Hf He. unfold _convert_value_value.
  rewrite (hasattr_of_missing _ _ Hn). cbn. rewrite Ht, Hf.
  by destruct He as [-> | ->].
Qed.

(** When [float()] of an SDK value without a [Name] raises [ValueError]
    or [TypeError], [_convert_value] does not fail: the value becomes the
    text its [ToString] gives. *)
Theorem convert_value_text value t s e :
  getattr value "Name" = Raise AttributeError →
  getattr value "ToString" = Ok t → py_float value = Raise e →
  e = ValueError ∨ e = TypeError → py_str t = Ok s →
  _convert_value_value value = Ok (OStr s).
Proof.
  intros Hn Ht Hf He Hs.
  rewrite (convert_value_handled _ e), Ht by eauto using has_method_of_ok.
  cbn. by rewrite Hs.
Qed.

(** A [ToString] that raises is found by [hasattr] all the same: the value
    is a float when [float()] accepts it, and the exception of [ToString]
    leaves the conversion when [float()] refuses. *)
Lemma convert_value_to_string_raises value e e' :
  getattr value "Name" = Raise AttributeError →
  has_method value "ToString" = true → getattr value "ToString" = Raise e' →
  py_float value = Raise e → e = ValueError ∨ e = TypeError →
  _convert_value_value value = Raise e'.
Proof.
  intros Hn Ht Hs Hf He. by rewrite (convert_value_handled _ e), Hs.
Qed.

(** Any other exception of [float()] is not caught: the conversion of
    the value raises it. *)
Theorem convert_value_float_raises value t e :
  getattr value "Name" = Raise AttributeError →
  getattr value "ToString" = Ok t → py_float value = Raise e →
  e ≠ ValueError → e ≠ TypeError →
  _convert_value_value value = Raise e.
Proof.
  intros Hn Ht Hf He1 He2. unfold _convert_value_value.
  rewrite (hasattr_of_missing _ _ Hn). cbn.
  rewrite (has_method_of_ok _ _ _ Ht), Hf. cbn.
  unfold one_of. rewrite bool_decide_eq_false_2; [done|].
  rewrite !elem_of_cons, elem_of_nil. naive_solver.
Qed.

(** A value with neither attribute passes through; so does every value that
    is not an SDK object. *)
Lemma convert_value_plain value :
  getattr value "Name" = Raise AttributeError →
  has_method value "ToString" = false →
  _convert_value_value value = Ok value.
Proof.
  intros Hn Ht. unfold _convert_value_value.
  rewrite (hasattr_of_missing _ _ Hn). cbn. by rewrite Ht.
Qed.

Lemma convert_value_python value :
  (∀ slots, value ≠ ONet slots) → _convert_value_value value = Ok value.
Proof.
  intros. apply convert_value_plain;
    [by apply getattr_not_net|by apply has_method_not_net].
Qed.

(** The value of a converted sample is in normal form: a string, a
    float, or the upstream value itself when it had neither a [Name] nor a
    [ToString]. *)
Theorem convert_value_normal value r :
  _convert_value_value value = Ok r →
  (∃ s, r = OStr s) ∨ (∃ f, r = OFloat f) ∨
  (r = value ∧ hasattr value "Name" = Ok false
             ∧ has_method value "ToString" = false).
Proof.
  unfold _convert_value_value.
  destruct (hasattr value "Name") as [[]|] eqn:Hn; cbn; [|  |done].
  - destruct (getattr value "Name"); cbn; [|done].
    destruct (py_str _); cbn; [|done]. intros [= <-]. eauto.
  - destruct (has_method value "ToString") eqn:Ht; cbn.
    + destruct (py_float value) as [f|e]; cbn; [intros [= <-]; eauto|].
      destruct (one_of _ e); [|done].
      destruct (getattr value "ToString"); cbn; [|done].
      destruct (py_str _); cbn; [|done]. intros [= <-]. eauto.
    + intros [= <-]. eauto.
Qed.

(** ** [_convert_value]: the quality *)

(** [IsGood is False] gives [BAD], whatever [Substituted] says. *)
Lemma convert_quality_bad af_value :
  getattr af_value "IsGood" = Ok (OBool false) →
  _convert_value_quality af_value = Ok BAD.
Proof. intros Hg. unfold _convert_value_quality. by rewrite Hg. Qed.

(** Otherwise a true [Substituted] gives [SUBSTITUTED]. *)
Lemma convert_quality_substituted af_value g sub :
  getattr af_value "IsGood" = Ok g → is_False g = false →
  getattr af_value "Substituted" = Ok sub → truthy sub = Ok true →
  _convert_value_quality af_value = Ok SUBSTITUTED.
Proof.
  intros Hg Hf Hs Ht. unfold _convert_value_quality. rewrite Hg. cbn.
  rewrite Hf, (hasattr_of_ok _ _ _ Hs). cbn. rewrite Hs. cbn. by rewrite Ht.
Qed.

(** And [GOOD] is what remains: no [Substituted], or a false one. *)
Lemma convert_quality_good af_value g :
  getattr af_value "IsGood" = Ok g → is_False g = false →
  (getattr af_value "Substituted" = Raise AttributeError ∨
   ∃ sub, getattr af_value "Substituted" = Ok sub ∧ truthy sub = Ok false) →
  _convert_value_quality af_value = Ok GOOD.
Proof.
  intros Hg Hf Hs. unfold _convert_value_quality. rewrite Hg. cbn. rewrite Hf.
  destruct Hs as [Hs|(sub&Hs&Ht)].
  - by rewrite (hasattr_of_missing _ _ Hs).
  - rewrite (hasattr_of_ok _ _ _ Hs). cbn. rewrite Hs. cbn. by rewrite Ht.
Qed.

(** [BAD] comes from nowhere else. *)
Lemma convert_quality_bad_only af_value :
  _convert_value_quality af_value = Ok BAD →
  getattr af_value "IsGood" = Ok (OBool false).
Proof.
  unfold _convert_value_quality.
  destruct (getattr af_value "IsGood") as [g|] eqn:Hg; cbn; [|done].
  destruct (is_False g) eqn:Hf; [by apply is_False_spec in Hf as ->|].
  destruct (hasattr _ _) as [[]|]; cbn; [|done..].
  destruct (getattr af_value "Substituted"); cbn; [|done].
  by destruct (truthy _) as [[]|].
Qed.

(** C15: the quality of a sample is [BAD] exactly when its [IsGood] is the
    object [False]; a substituted sample that is not good is [BAD], not
    [SUBSTITUTED]. *)
Theorem convert_quality_bad_iff af_value :
  _convert_value_quality af_value = Ok BAD ↔
  getattr af_value "IsGood" = Ok (OBool false).
Proof. split; [apply convert_quality_bad_only|apply convert_quality_bad]. Qed.

(** ** [_convert_value] *)

(** The record is made of the local time of the timestamp, the converted
    value and the quality. *)
Lemma convert_value_ok af_value ts timestamp value value' quality :
  getattr af_value "Timestamp" = Ok ts →
  getattr ts "LocalTime" = Ok timestamp →
  getattr af_value "Value" = Ok value →
  _convert_value_value value = Ok value' →
  _convert_value_quality af_value = Ok quality →
  _convert_value af_value = Ok (mkPIValue timestamp value' quality).
Proof.
  intros Hts Hlt Hv Hv' Hq. unfold _convert_value.
  rewrite Hts; cbn. rewrite Hlt; cbn. rewrite Hv; cbn. rewrite Hv'; cbn.
  by rewrite Hq.
Qed.

(** Conversely a record that was made came from such parts. *)
Lemma convert_value_ok_inv af_value pv :
  _convert_value af_value = Ok pv →
  ∃ ts value,
    getattr af_value "Timestamp" = Ok ts ∧
    getattr ts "LocalTime" = Ok (pv_timestamp pv) ∧
    getattr af_value "Value" = Ok value ∧
    _convert_value_value value = Ok (pv_value pv) ∧
    _convert_value_quality af_value = Ok (pv_quality pv).
Proof.
  unfold _convert_value.
  destruct (getattr af_value "Timestamp") as [ts|]; cbn; [|done].
  destruct (getattr ts "LocalTime") as [t|] eqn:?; cbn; [|done].
  destruct (getattr af_value "Value") as [value|]; cbn; [|done].
  destruct (_convert_value_value value) as [v'|] eqn:?; cbn; [|done].
  destruct (_convert_value_quality af_value) as [q|]; cbn; [|done].
  intros [= <-]. by exists ts, value.
Qed.

(** A converted sample is good ([PIValue.is_good]) exactly when the
    upstream value was not flagged bad and not substituted. *)
Theorem convert_value_is_good af_value pv :
  _convert_value af_value = Ok pv →
  is_good pv = true ↔
  getattr af_value "IsGood" ≠ Ok (OBool false) ∧
  _convert_value_quality af_value ≠ Ok SUBSTITUTED.
Proof.
  intros (ts&value&_&_&_&_&Hq)%convert_value_ok_inv.
  rewrite is_good_spec. split.
  - intros Hg. rewrite Hq, Hg. split; [|done].
    intros Hb%convert_quality_bad. congruence.
  - intros [Hb Hs]. destruct (pv_quality pv) eqn:Hpv; [done| |done].
    by apply convert_quality_bad_only in Hq.
Qed.

(** ** Well-formed upstream values *)

Lemma is_python_value_spec v :
  is_python_value v = true ↔ ∀ slots, v ≠ ONet slots.
Proof. destruct v; naive_solver. Qed.

(** An object of the SDK without a name converts: to a float, or to the
    text of its [ToString]. *)
Lemma convert_value_sdk v : is_sdk_value v = true → is_ok (_convert_value_value v) = true.
Proof.
  destruct v as [| | | | | | | |slots]; try done. cbn [is_sdk_value].
  destruct (dict_get "Name" slots) eqn:Hn; [done|].
  destruct (dict_get "ToString" slots) as [[[]|]|] eqn:Ht; try done.
  assert (getattr (ONet slots) "Name" = Raise AttributeError)
    by (cbn; by rewrite Hn).
  assert (getattr (ONet slots) "ToString" = Ok (OStr s)) as Hs
    by (cbn; by rewrite Ht).
  pose proof (has_method_of_ok _ _ _ Hs). intros Hf.
  destruct (py_float (ONet slots)) as [f|e] eqn:Hfl;
    [by erewrite convert_value_numeric|].
  assert (e = ValueError ∨ e = TypeError).
  { cbn in Hfl. destruct (dict_get "__float__" slots) as [[[]|]|];
      simplify_eq; try (by right).
    apply bool_decide_eq_true_1 in Hf.
    rewrite !elem_of_cons, elem_of_nil in Hf. naive_solver. }
  by erewrite (convert_value_text _ _ s).
Qed.

Lemma convert_value_value_wf v :
  is_python_value v || is_digital_state v || is_sdk_value v = true →
  ∃ r, _convert_value_value v = Ok r.
Proof.
  intros [[Hp|Hd]%orb_true_iff|Hs]%orb_true_iff.
  - exists v. by apply convert_value_python, is_python_value_spec.
  - unfold is_digital_state in Hd.
    destruct (getattr v "Name") as [[]|] eqn:Hn; try done.
    eexists. by eapply convert_value_digital.
  - by apply is_ok_true, convert_value_sdk.
Qed.

Lemma convert_value_quality_wf af_value :
  match getattr af_value "IsGood" with Ok (OBool _) => true | _ => false end
    = true →
  match getattr af_value "Substituted" with
  | Ok (OBool _) | Raise AttributeError => true
  | _ => false
  end = true →
  ∃ q, _convert_value_quality af_value = Ok q.
Proof.
  intros Hg Hs.
  destruct (getattr af_value "IsGood") as [[| [] | | | | | | |]|] eqn:Hg';
    try done; [|eexists; by apply convert_quality_bad].
  destruct (getattr af_value "Substituted") as [[| [] | | | | | | |]|[]] eqn:Hs';
    try done.
  - eexists. by eapply convert_quality_substituted.
  - eexists. eapply convert_quality_good; eauto.
  - eexists. eapply convert_quality_good; eauto.
Qed.

Lemma converts_wf af_value : wf_af_value af_value = true → converts af_value = true.
Proof.
  unfold wf_af_value. rewrite !andb_true_iff. intros [[[Hts Hv] Hg] Hs].
  destruct (getattr af_value "Timestamp") as [ts|] eqn:Ets; [|done].
  destruct (getattr ts "LocalTime") as [t|] eqn:Et; [|done].
  destruct (getattr af_value "Value") as [v|] eqn:Ev; [|done].
  destruct (convert_value_value_wf v Hv) as [v' Hv'].
  destruct (convert_value_quality_wf af_value Hg Hs) as [q Hq].
  unfold converts. by erewrite convert_value_ok.
Qed.

(** C14: a well-formed upstream value always converts: [_convert_value]
    raises nothing on a value with a readable local time, a Python value,
    a digital state or another object of the SDK that gives its text, a
    Boolean [IsGood] and, if present, a Boolean [Substituted]. *)
Theorem convert_value_wf af_value :
  wf_af_value af_value = true → ∃ pv, _convert_value af_value = Ok pv.
Proof. intros Hwf%converts_wf. by apply is_ok_true. Qed.

(** ** Lists of samples *)

(** The samples of a query convert one by one, in order: the result has
    one record per sample. *)
Lemma convert_all_list xs :
  convert_all (OList xs) = res_mapM _convert_value xs.
Proof. by apply iter_mapM_whole. Qed.

Lemma convert_all_ok xs pvs :
  convert_all (OList xs) = Ok pvs ↔
  Forall2 (λ x pv, _convert_value x = Ok pv) xs pvs.
Proof. rewrite convert_all_list. apply res_mapM_ok. Qed.

(** C2: one sample that does not convert loses the whole answer of a
    query: the conversion of the answer raises what that sample raised,
    and the samples before it, which converted, are not returned,
    however the iteration over the answer would have ended. *)
Theorem convert_all_raise af_values l1 x l2 e :
  given (iterate af_values) = l1 ++ x :: l2 →
  Forall (λ y, converts y = true) l1 → _convert_value x = Raise e →
  convert_all af_values = Raise e.
Proof.
  intros Hit (ys&Hys&_)%res_mapM_total Hx. unfold convert_all, iter_mapM.
  rewrite Hit, (proj2 (res_mapM_raise _ _ e)); [done|].
  by exists l1, x, l2, ys.
Qed.

(** An answer that fails while it is read loses the samples it had
    given: when they all convert, the conversion of the answer raises the
    exception of the iteration. *)
Theorem convert_all_cut af_values e :
  ended (iterate af_values) = Some e →
  Forall (λ y, converts y = true) (given (iterate af_values)) →
  convert_all af_values = Raise e.
Proof.
  intros He (ys&Hys&_)%res_mapM_total. unfold convert_all.
  by rewrite (iter_mapM_failed _ _ e He), Hys.
Qed.

(** An answer of well-formed samples converts, to one record per
    sample. *)
Theorem convert_all_wf xs :
  Forall (λ x, wf_af_value x = true) xs →
  ∃ pvs, convert_all (OList xs) = Ok pvs ∧ length pvs = length xs.
Proof.
  intros Hwf. rewrite convert_all_list. apply res_mapM_total.
  eapply Forall_impl; [done|]. apply converts_wf.
Qed.

(** The record of a sample carries the time the upstream gave it. *)
Lemma convert_value_time af_value pv :
  _convert_value af_value = Ok pv → sample_time af_value = Ok (pv_timestamp pv).
Proof.
  unfold _convert_value, sample_time. intros Hpv.
  destruct (getattr af_value "Timestamp") as [ts|]; [cbn in *|done].
  destruct (getattr ts "LocalTime") as [timestamp|]; [cbn in *|done].
  by res_binds Hpv.
Qed.

(** C16: the records of an answer are in the order of the answer, one per
    sample, each with the time the upstream gave its sample: nothing is
    sorted and nothing is left out, so that the times of the result
    ascend, and have no duplicates, exactly when those of the answer
    do. *)
Theorem convert_all_times af_values pvs :
  convert_all af_values = Ok pvs →
  iter_mapM sample_time (iterate af_values) = Ok (pv_timestamp <$> pvs).
Proof.
  unfold convert_all. rewrite !iter_mapM_ok, !res_mapM_ok.
  intros [He Hpvs]. split; [done|]. apply Forall2_fmap_r.
  eapply Forall2_impl; [done|]. apply convert_value_time.
Qed.

(** ** The generator *)

Section yield_each_facts.
Context {A B : Type} (f : A → Res B).

(** A loop that ends normally yields what the list comprehension
    returns. *)
Lemma yield_each_ok l ys : res_mapM f l = Ok ys → yield_each f l = mkYielded ys None.
Proof.
  revert ys. induction l as [|x l IH]; intros ys; cbn; [by intros [= <-]|].
  destruct (f x) as [y|]; cbn; [|done].
  destruct (res_mapM f l) as [ys'|]; cbn; [|done]. intros [= <-].
  by rewrite (IH ys').
Qed.

(** The generator of [recorded_values_iterator] that a sample ends
    with an exception has yielded the samples before it: unlike the list of
    [recorded_values], they reach the consumer. *)
Theorem yield_each_raise l1 x l2 ys e :
  res_mapM f l1 = Ok ys → f x = Raise e →
  yield_each f (l1 ++ x :: l2) = mkYielded ys (Some e).
Proof.
  revert ys. induction l1 as [|y l1 IH]; intros ys; cbn.
  - intros [= <-] ->. done.
  - destruct (f y) as [y'|]; cbn; [|done].
    destruct (res_mapM f l1) as [ys'|]; cbn; [|done]. intros [= <-] Hx.
    by rewrite (IH ys').
Qed.

(** The generator and the list comprehension end the same way: the
    generator ends with the exception the comprehension raises, and
    normally when the comprehension returns. *)
Theorem yield_each_ended_by l :
  ended_by (yield_each f l) =
    match res_mapM f l with Ok _ => None | Raise e => Some e end.
Proof.
  induction l as [|x l IH]; cbn; [done|]. destruct (f x); cbn; [|done].
  rewrite IH. by destruct (res_mapM f l).
Qed.

(** What was yielded are results of the items, in order. *)
Lemma yield_each_yielded l :
  ∃ l1 l2, l = l1 ++ l2 ∧ res_mapM f l1 = Ok (yielded (yield_each f l)).
Proof.
  induction l as [|x l (l1&l2&->&IH)]; cbn; [by exists [], []|].
  destruct (f x) as [y|e] eqn:Hx; cbn.
  - exists (x :: l1), l2. split; [done|]. cbn. by rewrite Hx, IH.
  - by exists [], (x :: l1 ++ l2).
Qed.

(** Over a collection that ends by itself, the generator of the list. *)
Lemma yield_iter_whole l : yield_iter f (mkIter l None) = yield_each f l.
Proof.
  unfold yield_iter. cbn. by destruct (yield_each f l) as [ys [e|]].
Qed.

(** The generator, item by item. *)
Lemma yield_iter_nil ending : yield_iter f (mkIter [] ending) = mkYielded [] ending.
Proof. done. Qed.

Lemma yield_iter_cons x l ending :
  yield_iter f (mkIter (x :: l) ending) =
    match f x with
    | Ok y =>
        let r := yield_iter f (mkIter l ending) in
        mkYielded (y :: yielded r) (ended_by r)
    | Raise e => mkYielded [] (Some e)
    end.
Proof. unfold yield_iter. cbn. by destruct (f x). Qed.

(** The generator over a collection that fails while it is read has
    yielded every item the collection gave, when they convert, and ends
    with the exception of the collection: where the list comprehension
    returns nothing, the consumer of the generator has the items. *)
Lemma yield_iter_cut (it : Iter A) ys e :
  res_mapM f (given it) = Ok ys → ended it = Some e →
  yield_iter f it = mkYielded ys (Some e).
Proof.
  intros Hys He. unfold yield_iter. by rewrite (yield_each_ok _ _ Hys), He.
Qed.

(** The generator and the comprehension end the same way over any
    collection. *)
Lemma yield_iter_ended_by (it : Iter A) :
  ended_by (yield_iter f it) =
    match iter_mapM f it with Ok _ => None | Raise e => Some e end.
Proof.
  unfold yield_iter, iter_mapM. cbn. rewrite yield_each_ended_by.
  by destruct (res_mapM f (given it)), (ended it).
Qed.

End yield_each_facts.

End convert_value_facts.

(** ** Summaries: names and results *)

Section summary_name_facts.
Context `{!Builtins}.

(** Every summary type has a name in the map: none falls back to the
    number. *)
Lemma summary_name_map_total st :
  is_Some (int_dict_get summary_name_map (summary_value st)).
Proof. by destruct st. Qed.

(** The names [_get_summary_name] gives to the summary types are
    distinct: two summaries of one answer never share a key of the
    result. *)
Theorem get_summary_name_types_inj st1 st2 :
  _get_summary_name (summary_value st1) = _get_summary_name (summary_value st2) →
  st1 = st2.
Proof. by destruct st1, st2. Qed.

(** [summary] names its entries as [summaries] does: the map written
    out in [summary] and the one of [_get_summary_name] agree on every
    value, so the loop bodies of the two methods are the same function. *)
Theorem summary_entry_summaries_entry result item :
  summary_entry result item = summaries_entry result item.
Proof. done. Qed.

(** One step of the loop of [summary] on a summary of the SDK's shape. *)
Lemma summary_entry_item result it :
  summary_entry result (summary_item it) =
    Ok (dict_set (_get_summary_name it.1) it.2 result).
Proof. done. Qed.

(** The loop of [summary] over an answer of the SDK's shape cannot
    raise, and builds the dictionary that maps the name of each summary to
    its value, in the order of the answer. *)
Theorem summary_fold_items result items :
  res_foldM summary_entry result (summary_item <$> items) =
    Ok (summary_dict result items).
Proof.
  revert result. induction items as [|it items IH]; intros result; [done|].
  cbn [fmap list_fmap res_foldM]. rewrite summary_entry_item. apply IH.
Qed.

Lemma summary_dict_snoc result items it :
  summary_dict result (items ++ [it]) =
    dict_set (_get_summary_name it.1) it.2 (summary_dict result items).
Proof. unfold summary_dict. by rewrite foldl_app. Qed.

(** The body of the loop of [summary] reads the summary and sets one
    key: the name that [_get_summary_name] gives the type. *)
Lemma summary_entry_read result summary :
  summary_entry result summary =
    (r ← summary_read summary;
     Ok (dict_set (_get_summary_name r.1) r.2 result)).
Proof.
  unfold summary_entry, summary_read.
  destruct (getattr summary "SummaryType") as [st|]; [cbn|done].
  destruct (py_int st); [cbn|done].
  destruct (getattr summary "Value") as [v|]; [cbn|done].
  by destruct (getattr v "Value").
Qed.

(** The loop over summaries that can all be read. *)
Lemma summary_fold_reads result items reads :
  res_mapM summary_read items = Ok reads →
  res_foldM summary_entry result items = Ok (summary_dict result reads).
Proof.
  revert result reads.
  induction items as [|x items IH]; intros result reads;
    cbn [res_mapM res_foldM]; [by intros [= <-]|].
  rewrite summary_entry_read.
  destruct (summary_read x) as [r|]; [cbn [res_bind]|done].
  destruct (res_mapM summary_read items) as [rs|]; [cbn [res_bind]|done].
  intros [= <-]. by rewrite (IH _ rs).
Qed.

(** A key of the dictionary holds the value of the last summary that goes
    by it. *)
Lemma summary_dict_get result reads name :
  dict_get name (summary_dict result reads) =
    match summary_named name reads with
    | Some r => Some r.2
    | None => dict_get name result
    end.
Proof.
  unfold summary_named.
  induction reads as [|r reads IH] using rev_ind; [done|].
  rewrite summary_dict_snoc, dict_get_set, filter_app, filter_cons, filter_nil.
  case_decide; [by rewrite last_snoc|]. by rewrite app_nil_r.
Qed.

(** C19: what [summary] returns holds each summary of the answer under the
    name of its type: when every summary of the answer gives its type and
    the value inside its [Value], the loop ends with a dictionary in which
    a name is bound to the value of the last summary whose type goes by
    that name, and to nothing when there is none.  The names are those of
    [_get_summary_name], the helper [summaries] calls: the two methods name
    their entries alike. *)
Theorem summary_result_lookup summaries reads :
  iter_mapM summary_read (iterate summaries) = Ok reads →
  ∃ result,
    iter_foldM summary_entry [] (iterate summaries) = Ok result ∧
    ∀ name, dict_get name result = snd <$> summary_named name reads.
Proof.
  intros [He Hr]%iter_mapM_ok. exists (summary_dict [] reads). split.
  - unfold iter_foldM. by rewrite (summary_fold_reads _ _ _ Hr), He.
  - intros name. rewrite summary_dict_get. by destruct (summary_named _ _).
Qed.

(** With one summary per name, each is found under its name. *)
Lemma summary_dict_lookup result items v x :
  NoDup (_get_summary_name <$> items.*1) → (v, x) ∈ items →
  dict_get (_get_summary_name v) (summary_dict result items) = Some x.
Proof.
  induction items as [|[v' x'] items IH] using rev_ind; [by intros _ ?%elem_of_nil|].
  rewrite !fmap_app, NoDup_app. cbn. intros (Hnd&Hnot&_).
  rewrite summary_dict_snoc, dict_get_set, elem_of_app, list_elem_of_singleton.
  cbn. intros [Hin|[= -> ->]]; [|by rewrite decide_True].
  rewrite decide_False; [by apply IH|]. intros Heq.
  apply (Hnot (_get_summary_name v)); [|rewrite Heq; left].
  apply list_elem_of_fmap. exists v. split; [done|].
  apply list_elem_of_fmap. by exists (v, x).
Qed.

(** The result of [summary] has exactly one key per summary of the
    answer, in the order of the answer: asked for four aggregates and
    answered with four, it returns those four names and no others. *)
Theorem summary_dict_keys items :
  NoDup (_get_summary_name <$> items.*1) →
  dict_keys (summary_dict [] items) = _get_summary_name <$> items.*1.
Proof.
  induction items as [|[v x] items IH] using rev_ind; [done|].
  rewrite !fmap_app, NoDup_app. cbn. intros (Hnd&Hnot&_).
  rewrite summary_dict_snoc, dict_keys_set, IH by done. cbn.
  destruct (dict_has _ _) eqn:Hh; [|done].
  apply dict_has_keys in Hh. rewrite IH in Hh by done.
  destruct (Hnot _ Hh). left.
Qed.

(** A name that occurs twice keeps the later value. *)
Lemma summary_dict_last result items v x :
  dict_get (_get_summary_name v) (summary_dict result (items ++ [(v, x)]))
    = Some x.
Proof. by rewrite summary_dict_snoc, dict_get_set_eq. Qed.

End summary_name_facts.

(** ** [get_point_config]: the record *)

Section point_config_facts.
Context `{!Builtins}.

(** With no attribute given, the record of [get_point_config] holds
    the defaults written in the method: id 0, type [FLOAT32], empty texts,
    zero 0, span 100, display digits -5, no typical value. *)
Theorem point_config_defaults tag :
  point_config_of_attrs tag (ODict []) =
    Ok (PointConfig_basic tag 0 FLOAT32 "" "" (float_of_Z 0) (float_of_Z 100)
          (-5) None).
Proof. done. Qed.

(** The record [get_point_config] makes: its name is the tag that was
    asked for, its type and its typical value are what the attributes
    give, and the fields the attributes do not cover are empty. *)
Theorem point_config_fields tag attrs pc :
  point_config_of_attrs tag attrs = Ok pc →
  pc_name pc = tag ∧
  point_type_of_attrs attrs = Ok (pc_point_type pc) ∧
  typical_value_of_attrs attrs = Ok (pc_typical_value pc) ∧
  pc_value_high_alarm pc = None ∧ pc_interface_id pc = None ∧ pc_alias pc = "".
Proof.
  unfold point_config_of_attrs, point_type_of_attrs, typical_value_of_attrs.
  intros Hpc. destruct attrs as [| | | | | | |kvs|]; try done.
  cbn [py_dict_get res_bind] in *. res_binds Hpc. cbn.
  repeat match goal with
    | H : ?m = Ok _ |- context [res_bind ?m _] => rewrite H; cbn end.
  by split_and!.
Qed.

(** A point without a [pointtype] attribute is reported as [FLOAT32];
    one whose type is not in the map is reported as [FLOAT64]. *)
Theorem point_type_of_attrs_cases kvs :
  point_type_of_attrs (ODict kvs) =
    match dict_get "pointtype" kvs with
    | None => Ok FLOAT32
    | Some pt => res_bind (py_str pt) (λ s,
                   Ok (default FLOAT64 (point_type_map s)))
    end.
Proof.
  unfold point_type_of_attrs. cbn. by destruct (dict_get "pointtype" kvs).
Qed.

(** A typical value of zero is reported as no typical value: the
    test is [if attrs.get("typicalvalue")], and zero is false. *)
Theorem typical_value_zero kvs f :
  dict_get "typicalvalue" kvs = Some (OFloat f) → fl_mant f = 0%Z →
  typical_value_of_attrs (ODict kvs) = Ok None.
Proof.
  intros Hk Hf. unfold typical_value_of_attrs. cbn. rewrite Hk. cbn.
  by rewrite bool_decide_eq_false_2 by naive_solver.
Qed.

(** Any other float is reported. *)
Lemma typical_value_nonzero kvs f :
  dict_get "typicalvalue" kvs = Some (OFloat f) → fl_mant f ≠ 0%Z →
  typical_value_of_attrs (ODict kvs) = Ok (Some f).
Proof.
  intros Hk Hf. unfold typical_value_of_attrs. cbn. rewrite Hk. cbn.
  by rewrite bool_decide_eq_true_2.
Qed.

End point_config_facts.

(** ** The queries as conversations *)

Section query_facts.
Context `{!Builtins}.
Implicit Types (self : PIPointExtractor).

(** C13: a failed lookup is the whole conversation of every query on one
    tag: the exception of [get_point] is the result of the query, and
    nothing else is called. *)
Theorem lookup_failure_ends_query self tag e :
  let failed {A} (m : SdkM A) :=
    Runs m [(get_point_call self tag, Raise e)] (Raise e) in
  failed (get_point_config self tag) ∧
  failed (snapshot self tag) ∧
  (∀ start end_ options, failed (recorded_values self tag start end_ options)) ∧
  (∀ start end_ n, failed (recorded_values_iterator self tag start end_ n)) ∧
  (∀ start end_ i options,
     failed (interpolated_values self tag start end_ i options)) ∧
  (∀ start end_ n, failed (plot_values self tag start end_ n)) ∧
  (∀ start end_ sts, failed (summary self tag start end_ sts)) ∧
  (∀ start end_ i sts, failed (summaries self tag start end_ i sts)) ∧
  (∀ time, failed (value_at self tag time)).
Proof.
  cbn zeta. repeat split; intros;
    first [apply Runs_call_raise|apply Runs_bind_raise, Runs_call_raise].
Qed.

(** *** How many calls a query makes *)

Lemma parse_time_calls self time : calls_le (_parse_time self time) 1.
Proof. unfold _parse_time. calls_le_tac. Qed.

Lemma create_time_range_calls self start end_ :
  calls_le (_create_time_range self start end_) 3.
Proof.
  pose proof (parse_time_calls self). unfold _create_time_range.
  calls_le_tac.
Qed.

Lemma get_point_calls self tag : calls_le (get_point self tag) 1.
Proof. apply calls_le_call. Qed.

Lemma get_type_calls self ns name : calls_le (get_type self ns name) 1.
Proof. apply calls_le_call. Qed.

#[local] Hint Resolve parse_time_calls create_time_range_calls
  get_point_calls get_type_calls : calls.

Lemma recorded_values_pages_calls self tag start end_ n :
  calls_le (recorded_values_pages self tag start end_ n) 8.
Proof. unfold recorded_values_pages. calls_le_tac. Qed.

#[local] Hint Resolve recorded_values_pages_calls : calls.

(** Every query on a time range makes a bounded number of calls (6,
    8, 7 and 5), whatever the upstream answers and however many samples
    come back: the samples arrive in the answer of one call. *)
Theorem range_queries_calls self tag start end_ :
  (∀ options, calls_le (recorded_values self tag start end_ options) 6) ∧
  (∀ n, calls_le (recorded_values_iterator self tag start end_ n) 8) ∧
  (∀ i options,
     calls_le (interpolated_values self tag start end_ i options) 7) ∧
  (∀ n, calls_le (plot_values self tag start end_ n) 5).
Proof.
  repeat split; intros;
    unfold recorded_values, recorded_values_iterator, interpolated_values,
      plot_values; cbn zeta; calls_le_tac.
Qed.

(** The queries on one instant make two, two and four calls at most. *)
Lemma point_queries_calls self tag :
  calls_le (get_point_config self tag) 2 ∧
  calls_le (snapshot self tag) 2 ∧
  (∀ time, calls_le (value_at self tag time) 4).
Proof.
  repeat split; intros; unfold get_point_config, snapshot, value_at;
    calls_le_tac.
Qed.

(** [snapshots] makes two calls per tag and two more, the point list
    and the one [CurrentValue]: one round trip for the values of all
    tags. *)
Theorem snapshots_calls self tags :
  calls_le (snapshots self tags) (2 + 2 * length tags).
Proof.
  assert (∀ pl t, calls_le (snapshots_add self pl t) 2)
    by (intros; unfold snapshots_add; calls_le_tac).
  assert (∀ pl, calls_le (sdk_iter (snapshots_add self pl) tags)
                  (length tags * 2)) by (intros; by apply calls_le_iter).
  unfold snapshots. calls_le_tac.
Qed.

Section with_sdk.
Context (self : PIPointExtractor) (AFTime_class AFTimeRange : Obj).
Hypothesis Htime : getattr (_sdk self) "af_time_class" = Ok AFTime_class.
Hypothesis Hrange : getattr (_sdk self) "af_time_range_class" = Ok AFTimeRange.

(** [_parse_time] makes one [AFTime] from the text of the timestamp: the ISO
    form of a [datetime], the expression of an [AFTime], a string as it
    is. *)
Lemma parse_time_runs time v :
  Runs (_parse_time self time) [(CNew AFTime_class [OStr (time_text time)], v)] v.
Proof. unfold _parse_time. rewrite Htime. destruct time; apply Runs_call. Qed.

(** [_create_time_range] parses the start, then the end, then makes the
    range of the two. *)
Lemma create_time_range_runs start end_ st et tr :
  Runs (_create_time_range self start end_)
    (time_range_script AFTime_class AFTimeRange start end_ st et tr) (Ok tr).
Proof.
  unfold _create_time_range. rewrite Hrange. apply Runs_lift_ok.
  apply (Runs_bind_ok _ _ [_] _ st); [apply parse_time_runs|].
  apply (Runs_bind_ok _ _ [_] _ et); [apply parse_time_runs|].
  apply Runs_call.
Qed.

(** The conversation of [recorded_values]; the result is the conversion of
    what the [RecordedValues] call answers. *)
Lemma recorded_values_runs tag start end_ options point st et tr bt boundary
    af_values :
  let opts := default RecordedValuesOptions_default options in
  boundary_of bt (rv_boundary_type opts) = Ok boundary →
  Runs (recorded_values self tag start end_ options)
    (recorded_values_script self AFTime_class AFTimeRange tag start end_ opts
       point st et tr bt boundary af_values)
    (res_bind af_values convert_all).
Proof.
  intros opts Hb. unfold recorded_values, recorded_values_script.
  apply Runs_call_ok. eapply Runs_bind_ok; [apply create_time_range_runs|].
  apply Runs_call_ok. fold opts. rewrite Hb. apply Runs_lift_ok.
  destruct af_values; runs.
Qed.

(** The conversation of the code of [recorded_values_iterator] before its
    loop; the result is what the [RecordedValues] call answers. *)
Lemma recorded_values_pages_runs tag start end_ page_size point st et tr bt
    paging page_type event_count inside paging_config af_values :
  getattr paging "PageType" = Ok page_type →
  getattr page_type "EventCount" = Ok event_count →
  getattr bt "Inside" = Ok inside →
  Runs (recorded_values_pages self tag start end_ page_size)
    (recorded_values_pages_script self AFTime_class AFTimeRange tag start end_
       page_size point st et tr bt paging event_count inside paging_config
       af_values)
    af_values.
Proof.
  intros Hp He Hi. unfold recorded_values_pages, recorded_values_pages_script.
  apply Runs_call_ok. eapply Runs_bind_ok; [apply create_time_range_runs|].
  do 2 apply Runs_call_ok. rewrite Hp. cbn [res_bind]. rewrite He.
  apply Runs_lift_ok, Runs_call_ok. rewrite Hi. apply Runs_lift_ok.
  apply Runs_call.
Qed.

(** C1: against every upstream that finds the point and answers as the
    script says, [recorded_values] makes exactly six calls: the lookup, the
    three of the time range, the request for [AFBoundaryType], and one
    [RecordedValues] call that carries the boundary, the filter, the flag
    and the limit of the options (the defaults when none are given).  Its
    result is the conversion of what that call answers, or the exception
    it raises. *)
Theorem recorded_values_run `{!Upstream} s tag start end_ options point st et
    tr bt boundary af_values :
  let opts := default RecordedValuesOptions_default options in
  let script :=
    recorded_values_script self AFTime_class AFTimeRange tag start end_ opts
      point st et tr bt boundary af_values in
  boundary_of bt (rv_boundary_type opts) = Ok boundary →
  replay s script →
  run (recorded_values self tag start end_ options) s =
    mkOutcome (res_bind af_values convert_all) (replay_state s script)
      script.*1.
Proof.
  intros opts script Hb Hs. apply Runs_run; [|done].
  by apply recorded_values_runs.
Qed.

(** C17: the conversation of [interpolated_values].  The interval that
    reaches the SDK is the parameter [interval]; the [interval] field of
    the options is not read. *)
Theorem interpolated_values_runs tag start end_ interval options point st et tr
    ts_class time_interval af_values :
  let opts := default InterpolatedValuesOptions_default options in
  Runs (interpolated_values self tag start end_ interval options)
    ((get_point_call self tag, Ok point) ::
     time_range_script AFTime_class AFTimeRange start end_ st et tr ++
     [(get_type_call self "OSIsoft.AF.Time" "AFTimeSpan", Ok ts_class);
      (CMethod ts_class "Parse" [OStr interval], Ok time_interval);
      (CMethod point "InterpolatedValues"
         [tr; time_interval; obj_of_filter (iv_filter_expression opts);
          OBool (iv_include_filtered_values opts)],
       af_values)])
    (res_bind af_values convert_all).
Proof.
  intros opts. unfold interpolated_values. apply Runs_call_ok.
  eapply Runs_bind_ok; [apply create_time_range_runs|].
  do 2 apply Runs_call_ok. destruct af_values; runs.
Qed.

(** The conversation of [plot_values]. *)
Lemma plot_values_runs tag start end_ intervals point st et tr af_values :
  Runs (plot_values self tag start end_ intervals)
    ((get_point_call self tag, Ok point) ::
     time_range_script AFTime_class AFTimeRange start end_ st et tr ++
     [(CMethod point "PlotValues" [tr; OInt intervals], af_values)])
    (res_bind af_values convert_all).
Proof.
  unfold plot_values. apply Runs_call_ok.
  eapply Runs_bind_ok; [apply create_time_range_runs|].
  destruct af_values; runs.
Qed.

(** The conversation of [value_at]: the lookup, the time, the request
    for [AFRetrievalMode], and one [RecordedValue] call in the mode
    [AtOrBefore]. *)
Theorem value_at_runs tag time point t mode at_or_before af_value :
  getattr mode "AtOrBefore" = Ok at_or_before →
  Runs (value_at self tag time)
    [(get_point_call self tag, Ok point);
     (CNew AFTime_class [OStr (time_text time)], Ok t);
     (get_type_call self "OSIsoft.AF.Data" "AFRetrievalMode", Ok mode);
     (CMethod point "RecordedValue" [t; at_or_before], af_value)]
    (res_bind af_value _convert_value).
Proof.
  intros Hm. unfold value_at. apply Runs_call_ok.
  apply (Runs_bind_ok _ _ [_] _ t); [apply parse_time_runs|].
  apply Runs_call_ok. rewrite Hm. apply Runs_lift_ok.
  destruct af_value; runs.
Qed.

End with_sdk.

(** The conversation of [snapshot]: the lookup and one [CurrentValue]. *)
Lemma snapshot_runs self tag point af_value :
  Runs (snapshot self tag)
    [(get_point_call self tag, Ok point);
     (CMethod point "CurrentValue" [], af_value)]
    (res_bind af_value _convert_value).
Proof. unfold snapshot. apply Runs_call_ok. destruct af_value; runs. Qed.

(** The conversation of [get_point_config]: the lookup and one
    [GetAttributes] for the eight attributes. *)
Lemma get_point_config_runs self tag point attrs :
  Runs (get_point_config self tag)
    [(get_point_call self tag, Ok point);
     (CMethod point "GetAttributes" [OList (OStr <$> point_config_attributes)],
      attrs)]
    (res_bind attrs (point_config_of_attrs tag)).
Proof. unfold get_point_config. apply Runs_call_ok. destruct attrs; runs. Qed.

(** *** [snapshots] *)

Section snapshots_facts.
Context (self : PIPointExtractor) (PIPointList point_list : Obj).
Hypothesis Hlist : getattr (_sdk self) "pi_point_list_class" = Ok PIPointList.

Lemma snapshots_add_runs it :
  Runs (snapshots_add self point_list it.1)
    (snapshots_add_script self point_list it) (Ok tt).
Proof. unfold snapshots_add, snapshots_add_script. runs. Qed.

(** The conversation of [snapshots]: one point list, a lookup and an
    [Add] per tag in the order of the tags, then a single [CurrentValue] on
    the list for all of them.  The result is built from what that one call
    answers. *)
Theorem snapshots_runs (answers : list (string * (Obj * Obj))) af_values :
  Runs (snapshots self answers.*1)
    ((CNew PIPointList [], Ok point_list) ::
     (answers ≫= snapshots_add_script self point_list) ++
     [(CMethod point_list "CurrentValue" [], af_values)])
    (res_bind af_values (λ vs,
       res_foldM (snapshots_result vs) [] (imap (λ i t, (i, t)) answers.*1))).
Proof.
  unfold snapshots. rewrite Hlist. apply Runs_lift_ok, Runs_call_ok.
  eapply Runs_bind_ok.
  - rewrite sdk_iter_fmap. apply Runs_iter_ok. intros it _.
    apply snapshots_add_runs.
  - destruct af_values; runs.
Qed.

(** C8: one tag that is not found ends [snapshots]: the tags before it
    have been looked up and added, [CurrentValue] is never called, and no
    value of any tag is returned. *)
Theorem snapshots_lookup_failure (answers : list (string * (Obj * Obj)))
    tag rest e :
  Runs (snapshots self (answers.*1 ++ tag :: rest))
    ((CNew PIPointList [], Ok point_list) ::
     (answers ≫= snapshots_add_script self point_list) ++
     [(get_point_call self tag, Raise e)])
    (Raise e).
Proof.
  unfold snapshots. rewrite Hlist. apply Runs_lift_ok, Runs_call_ok.
  apply Runs_bind_raise.
  replace (answers.*1 ++ tag :: rest)
    with (fst <$> (answers ++ (tag, (ONone, ONone)) :: ((., (ONone, ONone)) <$> rest))).
  - rewrite sdk_iter_fmap. apply Runs_iter_raise.
    + intros it _. apply snapshots_add_runs.
    + apply Runs_call_raise.
  - rewrite fmap_app, fmap_cons, <-list_fmap_compose. cbn.
    by rewrite list_fmap_id.
Qed.

End snapshots_facts.

(** *** [summary] and [summaries] *)

(** A list of summary types is folded from [acc], one flag and one [|=]
    per type, in the order of the list. *)
Lemma sdk_summary_or_runs cls acc (answers : list (SummaryType * (Obj * Obj))) :
  Runs (sdk_foldM (sdk_summary_or cls) acc answers.*1)
    (sdk_summary_script cls acc answers) (Ok (sdk_summary_flags acc answers)).
Proof.
  revert acc. induction answers as [|[st [flag acc']] answers IH]; intros acc;
    cbn; [constructor|]. do 2 constructor. apply IH.
Qed.

(** A list of types starts from [AFSummaryTypes.None_]. *)
Lemma sdk_summary_of_list_runs cls none answers :
  getattr cls "None_" = Ok none →
  Runs (sdk_summary_of cls (inr answers.*1))
    (sdk_summary_script cls none answers) (Ok (sdk_summary_flags none answers)).
Proof.
  intros Hn. unfold sdk_summary_of. rewrite Hn. apply Runs_lift_ok.
  apply sdk_summary_or_runs.
Qed.

(** A single type is converted alone. *)
Lemma sdk_summary_of_single_runs cls st flags :
  Runs (sdk_summary_of cls (inl st))
    [(CNew cls [OInt (summary_value st)], flags)] flags.
Proof. apply Runs_call. Qed.

Lemma sdk_summary_of_calls cls sts :
  calls_le (sdk_summary_of cls sts) (sdk_summary_calls sts).
Proof.
  destruct sts as [st|l]; [apply calls_le_call|].
  unfold sdk_summary_of, sdk_summary_calls.
  assert (∀ acc st, calls_le (sdk_summary_or cls acc st) 2)
    by (intros; unfold sdk_summary_or; calls_le_tac).
  assert (∀ acc, calls_le (sdk_foldM (sdk_summary_or cls) acc l) (length l * 2))
    by (intros; by apply calls_le_foldM).
  calls_le_tac.
Qed.

#[local] Hint Resolve sdk_summary_of_calls : calls.

(** [summary] and [summaries] make a bounded number of calls: eight
    and ten, and those that make the flags (one for a single type, two per
    type of a list). *)
Theorem summary_queries_calls self tag start end_ sts :
  calls_le (summary self tag start end_ sts) (8 + sdk_summary_calls sts) ∧
  (∀ i, calls_le (summaries self tag start end_ i sts)
          (10 + sdk_summary_calls sts)).
Proof. split; intros; unfold summary, summaries; calls_le_tac. Qed.

Section summary_facts.
Context (self : PIPointExtractor) (AFTime_class AFTimeRange : Obj).
Context (basis calc time_weighted auto : Obj).
Hypothesis Htime : getattr (_sdk self) "af_time_class" = Ok AFTime_class.
Hypothesis Hrange : getattr (_sdk self) "af_time_range_class" = Ok AFTimeRange.
Hypothesis Hbasis : getattr basis "TimeWeighted" = Ok time_weighted.
Hypothesis Hcalc : getattr calc "Auto" = Ok auto.

(** C18: the conversation of [summary]: the lookup, the time range, the
    flags, and one [Summary] call, time weighted, with automatic
    timestamps; the result is the dictionary built from its answer. *)
Theorem summary_runs tag start end_ sts point st et tr cls flag_script flags
    answer :
  Runs (sdk_summary_of cls sts) flag_script (Ok flags) →
  Runs (summary self tag start end_ sts)
    ((get_point_call self tag, Ok point) ::
     time_range_script AFTime_class AFTimeRange start end_ st et tr ++
     (get_type_call self "OSIsoft.AF.Data" "AFSummaryTypes", Ok cls) ::
     flag_script ++
     [(get_type_call self "OSIsoft.AF.Data" "AFCalculationBasis", Ok basis);
      (get_type_call self "OSIsoft.AF.Data" "AFTimestampCalculation", Ok calc);
      (CMethod point "Summary" [tr; flags; time_weighted; auto], answer)])
    (res_bind answer (λ s, iter_foldM summary_entry [] (iterate s))).
Proof.
  intros Hflags. unfold summary. apply Runs_call_ok.
  eapply Runs_bind_ok; [by apply create_time_range_runs|].
  apply Runs_call_ok. eapply Runs_bind_ok; [done|].
  do 2 apply Runs_call_ok. rewrite Hbasis, Hcalc. do 2 apply Runs_lift_ok.
  destruct answer; runs.
Qed.

(** The conversation of [summaries]: the interval is parsed before
    the flags are made, and one [Summaries] call carries both; the result
    is one dictionary per interval of its answer. *)
Theorem summaries_runs tag start end_ interval sts point st et tr cls ts_class
    time_interval flag_script flags answer :
  Runs (sdk_summary_of cls sts) flag_script (Ok flags) →
  Runs (summaries self tag start end_ interval sts)
    ((get_point_call self tag, Ok point) ::
     time_range_script AFTime_class AFTimeRange start end_ st et tr ++
     [(get_type_call self "OSIsoft.AF.Data" "AFSummaryTypes", Ok cls);
      (get_type_call self "OSIsoft.AF.Time" "AFTimeSpan", Ok ts_class);
      (get_type_call self "OSIsoft.AF.Data" "AFCalculationBasis", Ok basis);
      (get_type_call self "OSIsoft.AF.Data" "AFTimestampCalculation", Ok calc);
      (CMethod ts_class "Parse" [OStr interval], Ok time_interval)] ++
     flag_script ++
     [(CMethod point "Summaries"
         [tr; time_interval; flags; time_weighted; auto], answer)])
    (res_bind answer (λ s,
       res_bind (getattr s "Values") (λ values,
         iter_mapM summaries_interval (iterate values)))).
Proof.
  intros Hflags. unfold summaries. apply Runs_call_ok.
  eapply Runs_bind_ok; [by apply create_time_range_runs|].
  do 5 apply Runs_call_ok. eapply Runs_bind_ok; [done|].
  rewrite Hbasis, Hcalc. do 2 apply Runs_lift_ok.
  destruct answer; runs.
Qed.

End summary_facts.

End query_facts.

(** * The theorems at work

    Each theorem that has a hypothesis, applied to objects that are written
    out, with the decimal builtins and, for runs, the upstream that answers
    from a list. *)

Lemma convert_value_text_witness :
  _convert_value_value ex_text = Ok (OStr "Shutdown").
Proof.
  apply (convert_value_text ex_text (OStr "Shutdown") "Shutdown" TypeError);
    [reflexivity..|by right|reflexivity].
Defined.

Lemma convert_value_float_raises_witness :
  _convert_value_value ex_overflow = Raise OverflowError.
Proof.
  by apply (convert_value_float_raises ex_overflow (OStr "1e999")).
Defined.

Lemma convert_value_normal_witness :
  let r := OFloat (mkFloat 215 (-1)) in
  (∃ s, r = OStr s) ∨ (∃ f, r = OFloat f) ∨
  (r = ex_number ∧ hasattr ex_number "Name" = Ok false
                 ∧ has_method ex_number "ToString" = false).
Proof. intros r. by apply (convert_value_normal ex_number r). Defined.

Lemma convert_value_wf_witness :
  ∃ pv, _convert_value (ex_af_value ex_digital true false) = Ok pv.
Proof. by apply convert_value_wf. Defined.

Lemma convert_value_is_good_witness :
  let af_value := ex_af_value (OInt 1) true false in
  is_good (mkPIValue (ODateTime ex_time) (OInt 1) GOOD) = true ↔
  getattr af_value "IsGood" ≠ Ok (OBool false) ∧
  _convert_value_quality af_value ≠ Ok SUBSTITUTED.
Proof. intros af_value. by apply convert_value_is_good. Defined.

Lemma convert_all_raise_witness :
  convert_all
    (OList ([ex_af_value (OInt 1) true false] ++
            ex_broken_value :: [ex_af_value (OInt 2) true false]))
  = Raise (NetError "no timestamp").
Proof.
  apply (convert_all_raise _ [ex_af_value (OInt 1) true false]
    ex_broken_value [ex_af_value (OInt 2) true false]);
    [done|by repeat constructor|done].
Defined.

(** A collection that gave one good sample of two and lost the
    connection. *)
Lemma convert_all_cut_witness :
  convert_all
    (ONet [("__iter__", SVal (OList [ex_af_value (OInt 1) true false]));
           ("MoveNext", SRaise (NetError "connection lost"))])
  = Raise (NetError "connection lost").
Proof. apply convert_all_cut; [done|by repeat constructor]. Defined.

(** An answer that gives the same sample twice: the result has the time
    twice. *)
Lemma convert_all_times_witness :
  let af_value := ex_af_value (OInt 1) true false in
  iter_mapM sample_time (iterate (OList [af_value; af_value])) =
    Ok [ODateTime ex_time; ODateTime ex_time].
Proof.
  intros af_value.
  by apply (convert_all_times (OList [af_value; af_value])
              [mkPIValue (ODateTime ex_time) (OInt 1) GOOD;
               mkPIValue (ODateTime ex_time) (OInt 1) GOOD]).
Defined.

Lemma convert_all_wf_witness :
  let xs := [ex_af_value (OInt 1) true false; ex_af_value ex_digital false true] in
  ∃ pvs, convert_all (OList xs) = Ok pvs ∧ length pvs = length xs.
Proof. intros xs. apply convert_all_wf. by repeat constructor. Defined.

Lemma yield_each_raise_witness :
  yield_each _convert_value
    ([ex_af_value (OInt 1) true false] ++
     ex_broken_value :: [ex_af_value (OInt 2) true false])
  = mkYielded [mkPIValue (ODateTime ex_time) (OInt 1) GOOD]
      (Some (NetError "no timestamp")).
Proof. by apply yield_each_raise. Defined.

Lemma get_summary_name_types_inj_witness : MAXIMUM = MAXIMUM.
Proof. by apply get_summary_name_types_inj. Defined.

(** An answer with the average twice: the later value is kept. *)
Lemma summary_result_lookup_witness :
  ∃ result,
    iter_foldM summary_entry []
      (iterate (OList [summary_item (2%Z, OInt 20); summary_item (8%Z, OInt 80);
                       summary_item (2%Z, OInt 21)])) = Ok result ∧
    ∀ name,
      dict_get name result =
        snd <$> summary_named name
                  [(2%Z, OInt 20); (8%Z, OInt 80); (2%Z, OInt 21)].
Proof.
  by apply (summary_result_lookup
    (OList [summary_item (2%Z, OInt 20); summary_item (8%Z, OInt 80);
            summary_item (2%Z, OInt 21)])).
Defined.

(** The four aggregates of a dashboard: average, minimum, maximum and
    count. *)
Lemma summary_dict_keys_witness :
  dict_keys (summary_dict []
    [(summary_value AVERAGE, OInt 20); (summary_value MINIMUM, OInt 1);
     (summary_value MAXIMUM, OInt 80); (summary_value COUNT, OInt 4)])
  = ["average"; "minimum"; "maximum"; "count"].
Proof.
  by rewrite summary_dict_keys; [|apply (bool_decide_unpack _)].
Defined.

Lemma point_config_fields_witness :
  let attrs := ODict [("pointtype", OStr "Int32"); ("pointid", OInt 7);
                      ("typicalvalue", OFloat (mkFloat 5 0))] in
  let pc := PointConfig_basic "TAG" 7 INT32 "" "" (float_of_Z 0)
              (float_of_Z 100) (-5) (Some (mkFloat 5 0)) in
  pc_name pc = "TAG" ∧
  point_type_of_attrs attrs = Ok (pc_point_type pc) ∧
  typical_value_of_attrs attrs = Ok (pc_typical_value pc) ∧
  pc_value_high_alarm pc = None ∧ pc_interface_id pc = None ∧ pc_alias pc = "".
Proof. intros attrs pc. by apply (point_config_fields "TAG" attrs pc). Defined.

Lemma typical_value_zero_witness :
  typical_value_of_attrs (ODict [("typicalvalue", OFloat (mkFloat 0 0))])
  = Ok None.
Proof. by apply (typical_value_zero _ (mkFloat 0 0)). Defined.

(** A run of [recorded_values] against the upstream that answers from a
    list: one good sample comes back as one record. *)
Lemma recorded_values_run_witness :
  let answers :=
    [Ok (OStr "point"); Ok (OStr "t0"); Ok (OStr "t1"); Ok (OStr "range");
     Ok ex_boundary_type;
     Ok (OList [ex_af_value ex_number true false])] in
  out_result
    (@run scripted_upstream _
       (recorded_values ex_self "TAG" (TsStr "*-1h") (TsStr "*")
          (Some (mkRecordedValuesOptions OUTSIDE (Some "'TAG' > 0") true 10)))
       answers)
  = Ok [mkPIValue (ODateTime ex_time) (OFloat (mkFloat 215 (-1))) GOOD].
Proof.
  intros answers.
  by rewrite (recorded_values_run (H0 := scripted_upstream) ex_self
    (OStr "AFTime") (OStr "AFTimeRange") eq_refl eq_refl answers "TAG"
    (TsStr "*-1h") (TsStr "*") _ (OStr "point") (OStr "t0") (OStr "t1")
    (OStr "range") ex_boundary_type (OStr "Outside")
    (Ok (OList [ex_af_value ex_number true false]))).
Defined.

Lemma snapshots_runs_witness :
  let answers := [("A", (OStr "pA", ONone)); ("B", (OStr "pB", ONone))] in
  let values := OList [ex_af_value (OInt 1) true false;
                       ex_af_value (OInt 2) false false] in
  Runs (snapshots ex_self ["A"; "B"])
    ((CNew (OStr "PIPointList") [], Ok (OStr "list")) ::
     (answers ≫= snapshots_add_script ex_self (OStr "list")) ++
     [(CMethod (OStr "list") "CurrentValue" [], Ok values)])
    (Ok [("A", mkPIValue (ODateTime ex_time) (OInt 1) GOOD);
         ("B", mkPIValue (ODateTime ex_time) (OInt 2) BAD)]).
Proof.
  intros answers values.
  by apply (snapshots_runs ex_self (OStr "PIPointList") (OStr "list") eq_refl
    answers (Ok values)).
Defined.

Lemma snapshots_lookup_failure_witness :
  let answers := [("A", (OStr "pA", ONone))] in
  Runs (snapshots ex_self ["A"; "MISSING"; "C"])
    ((CNew (OStr "PIPointList") [], Ok (OStr "list")) ::
     (answers ≫= snapshots_add_script ex_self (OStr "list")) ++
     [(get_point_call ex_self "MISSING",
       Raise (PIPointNotFoundError "MISSING"))])
    (Raise (PIPointNotFoundError "MISSING")).
Proof.
  intros answers.
  by apply (snapshots_lookup_failure ex_self (OStr "PIPointList") (OStr "list")
    eq_refl answers "MISSING" ["C"]).
Defined.

Lemma interpolated_values_runs_witness :
  Runs (interpolated_values ex_self "TAG" (TsStr "*-1d") (TsStr "*") "15m"
          (Some (mkInterpolatedValuesOptions "1h" None false)))
    ((get_point_call ex_self "TAG", Ok (OStr "point")) ::
     time_range_script (OStr "AFTime") (OStr "AFTimeRange") (TsStr "*-1d")
       (TsStr "*") (OStr "t0") (OStr "t1") (OStr "range") ++
     [(get_type_call ex_self "OSIsoft.AF.Time" "AFTimeSpan", Ok (OStr "span"));
      (CMethod (OStr "span") "Parse" [OStr "15m"], Ok (OStr "interval"));
      (CMethod (OStr "point") "InterpolatedValues"
         [OStr "range"; OStr "interval"; ONone; OBool false],
       Ok (OList []))])
    (Ok []).
Proof.
  by apply (interpolated_values_runs ex_self (OStr "AFTime")
    (OStr "AFTimeRange") eq_refl eq_refl "TAG" _ _ "15m"
    (Some (mkInterpolatedValuesOptions "1h" None false)) _ _ _ _ _ _
    (Ok (OList []))).
Defined.

Lemma value_at_runs_witness :
  Runs (value_at ex_self "TAG" (TsDateTime ex_time))
    [(get_point_call ex_self "TAG", Ok (OStr "point"));
     (CNew (OStr "AFTime") [OStr "2024-01-15T10:30:00"], Ok (OStr "t"));
     (get_type_call ex_self "OSIsoft.AF.Data" "AFRetrievalMode",
      Ok (ex_enum ["Auto"; "AtOrBefore"; "Exact"]));
     (CMethod (OStr "point") "RecordedValue" [OStr "t"; OStr "AtOrBefore"],
      Ok (ex_af_value ex_text true true))]
    (Ok (mkPIValue (ODateTime ex_time) (OStr "Shutdown") SUBSTITUTED)).
Proof.
  pose proof (value_at_runs ex_self (OStr "AFTime") eq_refl "TAG"
    (TsDateTime ex_time) (OStr "point") (OStr "t")
    (ex_enum ["Auto"; "AtOrBefore"; "Exact"]) (OStr "AtOrBefore")
    (Ok (ex_af_value ex_text true true)) eq_refl) as Hruns.
  vm_compute in Hruns. vm_compute. exact Hruns.
Defined.

Lemma summary_runs_witness :
  let basis := ex_enum ["TimeWeighted"; "EventWeighted"] in
  let calc := ex_enum ["Auto"; "EarliestTime"] in
  Runs (summary ex_self "TAG" (TsStr "*-1d") (TsStr "*") (inl AVERAGE))
    ((get_point_call ex_self "TAG", Ok (OStr "point")) ::
     time_range_script (OStr "AFTime") (OStr "AFTimeRange") (TsStr "*-1d")
       (TsStr "*") (OStr "t0") (OStr "t1") (OStr "range") ++
     (get_type_call ex_self "OSIsoft.AF.Data" "AFSummaryTypes",
      Ok (OStr "AFSummaryTypes")) ::
     [(CNew (OStr "AFSummaryTypes") [OInt 2], Ok (OStr "flags"))] ++
     [(get_type_call ex_self "OSIsoft.AF.Data" "AFCalculationBasis", Ok basis);
      (get_type_call ex_self "OSIsoft.AF.Data" "AFTimestampCalculation",
       Ok calc);
      (CMethod (OStr "point") "Summary"
         [OStr "range"; OStr "flags"; OStr "TimeWeighted"; OStr "Auto"],
       Ok (OList [summary_item (2%Z, OInt 42)]))])
    (Ok [("average", OInt 42)]).
Proof.
  intros basis calc.
  by apply (summary_runs ex_self (OStr "AFTime") (OStr "AFTimeRange") basis
    calc (OStr "TimeWeighted") (OStr "Auto") eq_refl eq_refl eq_refl eq_refl
    "TAG" _ _ (inl AVERAGE) _ _ _ _ (OStr "AFSummaryTypes") _ (OStr "flags")
    (Ok (OList [summary_item (2%Z, OInt 42)]))
    (sdk_summary_of_single_runs _ AVERAGE (Ok (OStr "flags")))).
Defined.

Lemma summaries_runs_witness :
  let basis := ex_enum ["TimeWeighted"; "EventWeighted"] in
  let calc := ex_enum ["Auto"; "EarliestTime"] in
  let interval :=
    ONet [("Key", SVal (ONet [("LocalTime", SVal (ODateTime ex_time))]));
          ("Value", SVal (OList [summary_item (4%Z, OInt 1);
                                 summary_item (8%Z, OInt 9)]))] in
  Runs (summaries ex_self "TAG" (TsStr "*-1d") (TsStr "*") "1h" (inl RANGE))
    ((get_point_call ex_self "TAG", Ok (OStr "point")) ::
     time_range_script (OStr "AFTime") (OStr "AFTimeRange") (TsStr "*-1d")
       (TsStr "*") (OStr "t0") (OStr "t1") (OStr "range") ++
     [(get_type_call ex_self "OSIsoft.AF.Data" "AFSummaryTypes",
       Ok (OStr "AFSummaryTypes"));
      (get_type_call ex_self "OSIsoft.AF.Time" "AFTimeSpan", Ok (OStr "span"));
      (get_type_call ex_self "OSIsoft.AF.Data" "AFCalculationBasis", Ok basis);
      (get_type_call ex_self "OSIsoft.AF.Data" "AFTimestampCalculation",
       Ok calc);
      (CMethod (OStr "span") "Parse" [OStr "1h"], Ok (OStr "interval"))] ++
     [(CNew (OStr "AFSummaryTypes") [OInt 16], Ok (OStr "flags"))] ++
     [(CMethod (OStr "point") "Summaries"
         [OStr "range"; OStr "interval"; OStr "flags"; OStr "TimeWeighted";
          OStr "Auto"],
       Ok (ONet [("Values", SVal (OList [interval]))]))])
    (Ok [[("timestamp", ODateTime ex_time); ("minimum", OInt 1);
          ("maximum", OInt 9)]]).
Proof.
  intros basis calc interval.
  by apply (summaries_runs ex_self (OStr "AFTime") (OStr "AFTimeRange") basis
    calc (OStr "TimeWeighted") (OStr "Auto") eq_refl eq_refl eq_refl eq_refl
    "TAG" _ _ "1h" (inl RANGE) _ _ _ _ (OStr "AFSummaryTypes") (OStr "span")
    (OStr "interval") _ (OStr "flags")
    (Ok (ONet [("Values", SVal (OList [interval]))]))
    (sdk_summary_of_single_runs _ RANGE (Ok (OStr "flags")))).
Defined.
