(* ===== verification/Iterator.v ===== *)
(** * The generator of [recorded_values_iterator], pull by pull

    [recorded_values_iterator] is a generator function: calling it runs
    nothing.  The first [next()] runs the code before the loop (the lookup
    of the point, the time range, the paging configuration, the query) and
    the loop up to its first [yield]; each later [next()] resumes the loop
    for one sample; a generator that has returned or raised is finished,
    and [next()] on it raises [StopIteration].

    [Generator] is the state of the generator object and [iterator_next]
    one [next()] on it, a program of [SdkM] like the methods of [Points].
    [iterator_resume] is the same step for a query that has been answered.
    The answer is read while the generator runs: a suspended generator
    holds the iteration that is left ([Iter]), the samples still to come
    and the exception that ends them, if the collection fails.

    The calls of the model are those the source writes: a pull that
    resumes the loop reads the next sample of the collection, and what the
    collection does to have it, a page it fetches included, is inside the
    SDK and makes no [Call].  A page that does not arrive is the exception
    that ends the iteration.  So the model says nothing of when pages
    travel; it says what the source asks for ([first_pull_runs]) and what
    a consumer sees.

    [Points.recorded_values_iterator] says what a consumer gets who reads
    the generator to its end; the theorems below connect the two and bound
    the number of pulls. *)

From stdpp Require Import base tactics numbers option list strings.
From S2P Require Import Prelude PyStr PyObj Types Sdk Points.

#[global] Set Warnings "-clear-no-such-hyp,-register-all".

(** The generator object: not started, suspended at the [yield] with the
    iteration that is left, or finished. *)
Inductive Generator : Type :=
| Created
| Suspended (rest : Iter Obj)
| Finished.

Section generator.
Context `{!Builtins}.

(** Lines 333-334, from the head of the loop.  [Ok None] is
    [StopIteration]; an exception of the conversion or of the iteration
    ends the generator. *)
Definition iterator_loop (rest : Iter Obj)
    : Res (option PIValue) * Generator :=
  match given rest with
  | [] =>
      (match ended rest with None => Ok None | Some e => Raise e end,
       Finished)
  | af_value :: items =>
      match _convert_value af_value with
      | Ok value => (Ok (Some value), Suspended (mkIter items (ended rest)))
      | Raise e => (Raise e, Finished)
      end
  end.

(** One [next()], given what the code before the loop did ([opened]). *)
Definition iterator_resume (opened : Res (Iter Obj)) (g : Generator)
    : Res (option PIValue) * Generator :=
  match g with
  | Created =>
      match opened with
      | Ok it => iterator_loop it
      | Raise e => (Raise e, Finished)
      end
  | Suspended rest => iterator_loop rest
  | Finished => (Ok None, Finished)
  end.

(** One [next()] on the generator of
    [recorded_values_iterator(tag_name, start, end, page_size)]: the first
    runs lines 310-334 up to the first [yield], a later one lines 333-334
    from the [yield] it stopped at. *)
Definition iterator_next (self : PIPointExtractor) (tag_name : string)
    (start end_ : PITimestamp) (page_size : Z) (g : Generator)
    : SdkM (Res (option PIValue) * Generator) :=
  match g with
  | Created =>
      sdk_try_except
        (af_values ← recorded_values_pages self tag_name start end_ page_size;
         sdk_ret (iterator_loop (iterate af_values)))%sdk
        any_exception (λ e, sdk_ret (Raise e, Finished))
  | _ => sdk_ret (iterator_resume (Ok (mkIter [] None)) g)
  end.

(** ** Consumers *)

(** The generator after [n] pulls. *)
Fixpoint after_pulls (opened : Res (Iter Obj)) (n : nat) (g : Generator)
    : Generator :=
  match n with
  | 0 => g
  | S n => after_pulls opened n (iterator_resume opened g).2
  end.

(** [for value in it: ...] with a body that does not raise: pull until the
    generator stops or raises.  [fuel] bounds the pulls; [None] is a loop
    that has not ended within the bound. *)
Fixpoint read_all (opened : Res (Iter Obj)) (fuel : nat) (g : Generator)
    : option (Yielded PIValue) :=
  match fuel with
  | 0 => None
  | S fuel =>
      match iterator_resume opened g with
      | (Ok (Some value), g') =>
          (λ y, mkYielded (value :: yielded y) (ended_by y)) <$>
            read_all opened fuel g'
      | (Ok None, _) => Some (mkYielded [] None)
      | (Raise e, _) => Some (mkYielded [] (Some e))
      end
  end.

(** The pulls a generator has left in it, at most. *)
Definition pulls_left (opened : Res (Iter Obj)) (g : Generator) : nat :=
  match g with
  | Created =>
      match opened with Ok it => S (length (given it)) | Raise _ => 1 end
  | Suspended rest => S (length (given rest))
  | Finished => 0
  end.

(** What a consumer who reads to the end gets, from what the code before
    the loop did. *)
Definition read_to_end (opened : Res (Iter Obj)) : Yielded PIValue :=
  match opened with
  | Ok it => yield_iter _convert_value it
  | Raise e => mkYielded [] (Some e)
  end.

End generator.

(** ** An upstream to run the generator against *)

(** The answers to the eight calls of the query: the point, the two times
    and their range, the two types, the paging configuration, and the
    samples. *)
Definition ex_paging_type : Obj :=
  ONet [("PageType", SVal (ex_enum ["EventCount"; "TagCount"]))].

Definition ex_answers (af_values : Obj) : list (Res Obj) :=
  [Ok (OStr "point"); Ok (OStr "t0"); Ok (OStr "t1"); Ok (OStr "range");
   Ok ex_boundary_type; Ok ex_paging_type; Ok (OStr "paging");
   Ok af_values].

(** An answer that gives its first page and loses the connection. *)
Definition ex_cut_answer (page : list Obj) : Obj :=
  ONet [("__iter__", SVal (OList page));
        ("MoveNext", SRaise (NetError "connection lost"))].

(** * Theorems *)

Section generator_facts.
Context `{!Builtins}.
Implicit Types (opened : Res (Iter Obj)) (g : Generator) (rest it : Iter Obj).

(** ** Each pull uses up the generator *)

Lemma iterator_loop_left opened rest :
  pulls_left opened (iterator_loop rest).2 ≤ length (given rest).
Proof.
  destruct rest as [[|x items] ending]; cbn; [done|].
  destruct (_convert_value x); cbn; lia.
Qed.

Lemma iterator_resume_left opened g :
  g ≠ Finished →
  pulls_left opened (iterator_resume opened g).2 < pulls_left opened g.
Proof.
  destruct g as [|rest|]; [|cbn..|done]; intros _.
  - destruct opened as [it|e]; cbn; [|lia].
    pose proof (iterator_loop_left (Ok it) it). cbn in *. lia.
  - pose proof (iterator_loop_left opened rest). lia.
Qed.

Lemma after_pulls_finished opened n : after_pulls opened n Finished = Finished.
Proof. induction n; cbn; auto. Qed.

(** The samples that a suspended generator has consumed were converted,
    and what is to come is the rest of the answer, in order, with its
    end. *)
Lemma after_pulls_suspended opened n it rest :
  after_pulls opened n (Suspended it) = Suspended rest →
  ∃ consumed values,
    given it = consumed ++ given rest ∧ ended rest = ended it ∧
    length consumed = n ∧ res_mapM _convert_value consumed = Ok values.
Proof.
  revert it. induction n as [|n IH]; intros [items ending]; cbn.
  - intros [= <-]. by exists [], [].
  - destruct items as [|x items]; cbn; [by rewrite after_pulls_finished|].
    destruct (_convert_value x) as [v|e] eqn:Hx; cbn;
      [|by rewrite after_pulls_finished].
    intros (consumed&values&Hg&He&<-&Hc)%IH. cbn in Hg, He.
    exists (x :: consumed), (v :: values). cbn. by rewrite Hg, Hx, Hc.
Qed.

(** Reading a suspended generator to its end is the loop of the source. *)
Lemma read_all_suspended opened rest fuel :
  length (given rest) < fuel →
  read_all opened fuel (Suspended rest) =
    Some (yield_iter _convert_value rest).
Proof.
  revert rest. induction fuel as [|fuel IH]; intros [items ending] Hf; [lia|].
  destruct items as [|x items]; cbn in *; [by destruct ending|].
  rewrite yield_iter_cons. destruct (_convert_value x); cbn; [|done].
  by rewrite IH by (cbn; lia).
Qed.

Lemma read_all_created opened fuel :
  pulls_left opened Created ≤ fuel →
  read_all opened fuel Created = Some (read_to_end opened).
Proof.
  destruct opened as [it|e]; cbn [pulls_left]; intros Hf;
    (destruct fuel as [|fuel]; [lia|]); [|done].
  change (read_all (Ok it) (S fuel) Created)
    with (read_all (Ok it) (S fuel) (Suspended it)).
  by rewrite read_all_suspended by lia.
Qed.

(** ** The life of a generator *)

(** C7: a generator does not go on for ever: after one pull more than the
    answer gives samples, and after one pull when the query failed, it is
    finished, whatever the samples are and however the answer ends; and a
    finished generator stays finished. *)
Theorem generator_finishes opened g n :
  pulls_left opened g ≤ n → after_pulls opened n g = Finished.
Proof.
  revert g. induction n as [|n IH]; intros g Hn.
  - destruct g as [|rest|]; [destruct opened|..]; cbn in *; done || lia.
  - assert (g = Finished ∨ g ≠ Finished) as [->|Hg]
      by (destruct g; auto); [apply after_pulls_finished|].
    apply IH. pose proof (iterator_resume_left opened g Hg). lia.
Qed.

(** The generator goes forward only: when it is suspended after [n]
    pulls, the first [n] samples of the answer have been converted, and the
    rest of the answer is what is still to come. *)
Theorem generator_forward_only it n rest :
  after_pulls (Ok it) n Created = Suspended rest →
  ∃ consumed values,
    given it = consumed ++ given rest ∧ ended rest = ended it ∧
    length consumed = n ∧ res_mapM _convert_value consumed = Ok values.
Proof.
  destruct n as [|n]; [done|].
  change (after_pulls (Ok it) (S n) Created)
    with (after_pulls (Ok it) (S n) (Suspended it)).
  apply after_pulls_suspended.
Qed.

(** C9: an answer that fails while it is read reaches the consumer of the
    generator as far as it was given: the samples of the pages that
    arrived are yielded, then the exception of the collection is raised.
    The list query on the same answer raises and returns none of them. *)
Theorem cut_answer_reaches_consumer af_values values e fuel :
  res_mapM _convert_value (given (iterate af_values)) = Ok values →
  ended (iterate af_values) = Some e →
  length values < fuel →
  read_all (Ok (iterate af_values)) fuel Created =
    Some (mkYielded values (Some e)) ∧
  convert_all af_values = Raise e.
Proof.
  intros Hv He Hf. split.
  - rewrite read_all_created by (cbn; rewrite <-(res_mapM_length _ _ _ Hv); lia).
    cbn. f_equal. by apply yield_iter_cut.
  - unfold convert_all. by rewrite (iter_mapM_failed _ _ e He), Hv.
Qed.

End generator_facts.

(** ** The generator and the upstream *)

Section generator_runs.
Context `{!Builtins} `{!Upstream}.
Implicit Types (self : PIPointExtractor) (g : Generator) (s : up_state).

(** A pull against an upstream is [iterator_resume] on what the code
    before the loop gets from that upstream; the first pull is the one that
    runs that code. *)
Lemma iterator_next_run self tag start end_ page_size g s :
  let opened := run (recorded_values_pages self tag start end_ page_size) s in
  run (iterator_next self tag start end_ page_size g) s =
    match g with
    | Created =>
        mkOutcome
          (Ok (iterator_resume (iterate <$> out_result opened) Created))
          (out_state opened) (out_trace opened)
    | _ =>
        mkOutcome (Ok (iterator_resume (iterate <$> out_result opened) g)) s []
    end.
Proof.
  intros opened. destruct g as [|rest|]; cbn [iterator_next]; [|done..].
  rewrite run_try_except, run_bind. unfold then_run. fold opened.
  destruct opened as [[af_values|e] s' calls]; cbn; by rewrite app_nil_r.
Qed.

(** C20: reading the generator to its end, pull by pull, gives what
    [recorded_values_iterator] says: the samples converted up to the first
    that fails, and the exception that ended the generator, if one did.
    One pull more than there are samples is enough. *)
Theorem read_all_iterator self tag start end_ page_size s fuel :
  let opened :=
    iterate <$>
      out_result (run (recorded_values_pages self tag start end_ page_size) s)
  in
  pulls_left opened Created ≤ fuel →
  read_all opened fuel Created =
    Some match out_result
                 (run (recorded_values_iterator self tag start end_ page_size)
                    s) with
         | Ok y => y
         | Raise e => mkYielded [] (Some e)
         end.
Proof.
  intros opened Hf. rewrite read_all_created by done.
  unfold recorded_values_iterator. rewrite run_bind.
  unfold then_run, opened.
  by destruct (out_result (run _ s)).
Qed.

End generator_runs.

(** ** The first pull *)

Section first_pull.
Context `{!Builtins}.
Context (self : PIPointExtractor) (AFTime_class AFTimeRange : Obj).
Hypothesis Htime : getattr (_sdk self) "af_time_class" = Ok AFTime_class.
Hypothesis Hrange : getattr (_sdk self) "af_time_range_class" = Ok AFTimeRange.

(** C21: making the generator calls nothing; its first [next()] has the
    whole conversation of the query: the lookup, the time range, the two
    types, the paging configuration made of [EventCount] and the page size,
    and one [RecordedValues] call that asks for the values inside the
    range, unfiltered, and carries the paging configuration in the place of
    the limit.  What the call answers decides the pull: its exception is
    raised by this [next()] and finishes the generator, and its collection
    is read up to the first sample, which is yielded converted. *)
Theorem first_pull_runs tag start end_ page_size point st et tr bt paging
    page_type event_count inside paging_config af_values :
  getattr paging "PageType" = Ok page_type →
  getattr page_type "EventCount" = Ok event_count →
  getattr bt "Inside" = Ok inside →
  Runs (iterator_next self tag start end_ page_size Created)
    (recorded_values_pages_script self AFTime_class AFTimeRange tag start end_
       page_size point st et tr bt paging event_count inside paging_config
       af_values)
    (Ok match af_values with
        | Ok af_values => iterator_loop (iterate af_values)
        | Raise e => (Raise e, Finished)
        end).
Proof.
  intros Hp He Hi. cbn [iterator_next].
  pose proof (recorded_values_pages_runs self _ _ Htime Hrange tag start end_
    page_size point st et tr bt paging page_type event_count inside
    paging_config af_values Hp He Hi) as Hruns.
  destruct af_values as [answer|e].
  - apply Runs_try_except_ok.
    rewrite <-(app_nil_r (recorded_values_pages_script _ _ _ _ _ _ _ _ _ _ _
      _ _ _ _ _ _)).
    eapply Runs_bind_ok; [done|]. constructor.
  - rewrite <-(app_nil_r (recorded_values_pages_script _ _ _ _ _ _ _ _ _ _ _
      _ _ _ _ _ _)).
    eapply Runs_try_except_handled; [by apply Runs_bind_raise|done|].
    constructor.
Qed.

End first_pull.

(** * The theorems on values that are written out *)

Lemma generator_finishes_witness :
  after_pulls
    (Ok (iterate (OList [ex_af_value ex_number true false; ex_broken_value;
                         ex_af_value ex_text true false]))) 4 Created
  = Finished.
Proof. apply generator_finishes. cbn. lia. Defined.

Lemma generator_forward_only_witness :
  ∃ consumed values,
    [ex_af_value ex_number true false; ex_af_value ex_text true false] =
      consumed ++ [ex_af_value ex_text true false] ∧
    None = @None Exn ∧
    length consumed = 1 ∧ res_mapM _convert_value consumed = Ok values.
Proof.
  apply (generator_forward_only
    (mkIter [ex_af_value ex_number true false; ex_af_value ex_text true false]
       None) 1 (mkIter [ex_af_value ex_text true false] None)).
  vm_compute. reflexivity.
Defined.

Lemma cut_answer_reaches_consumer_witness :
  read_all (Ok (iterate (ex_cut_answer [ex_af_value ex_number true false])))
    2 Created =
    Some (mkYielded
            [mkPIValue (ODateTime ex_time) (OFloat (mkFloat 215 (-1))) GOOD]
            (Some (NetError "connection lost"))) ∧
  convert_all (ex_cut_answer [ex_af_value ex_number true false]) =
    Raise (NetError "connection lost").
Proof.
  apply (cut_answer_reaches_consumer
    (ex_cut_answer [ex_af_value ex_number true false])); [done..|cbn; lia].
Defined.

Lemma first_pull_runs_witness :
  Runs (iterator_next ex_self "TAG" (TsStr "*-1h") (TsStr "*") 1000 Created)
    (recorded_values_pages_script ex_self (OStr "AFTime") (OStr "AFTimeRange")
       "TAG" (TsStr "*-1h") (TsStr "*") 1000 (OStr "point") (OStr "t0")
       (OStr "t1") (OStr "range") ex_boundary_type ex_paging_type
       (OStr "EventCount") (OStr "Inside") (OStr "paging")
       (Ok (OList [ex_af_value ex_number true false; ex_broken_value])))
    (Ok (Ok (Some (mkPIValue (ODateTime ex_time) (OFloat (mkFloat 215 (-1)))
                     GOOD)),
         Suspended (mkIter [ex_broken_value] None))).
Proof.
  by apply (first_pull_runs ex_self (OStr "AFTime") (OStr "AFTimeRange")
    eq_refl eq_refl "TAG" (TsStr "*-1h") (TsStr "*") 1000 (OStr "point")
    (OStr "t0") (OStr "t1") (OStr "range") ex_boundary_type ex_paging_type
    (ex_enum ["EventCount"; "TagCount"]) (OStr "EventCount") (OStr "Inside")
    (OStr "paging")
    (Ok (OList [ex_af_value ex_number true false; ex_broken_value]))).
Defined.

Lemma read_all_iterator_witness :
  let samples := [ex_af_value ex_number true false; ex_broken_value;
                  ex_af_value ex_text true false] in
  read_all (Ok (iterate (OList samples))) 4 Created =
    Some (mkYielded
            [mkPIValue (ODateTime ex_time) (OFloat (mkFloat 215 (-1))) GOOD]
            (Some (NetError "no timestamp"))).
Proof.
  intros samples.
  apply (read_all_iterator (H0 := scripted_upstream) ex_self "TAG"
           (TsStr "*-1h") (TsStr "*") 1000 (ex_answers (OList samples)) 4).
  vm_compute. lia.
Defined.
