(* ===== verification/Analyses.v ===== *)
(** * The helpers of [examples/extract_analyses.py]

    The functions the extraction of analyses is written with: the
    serializer of dates, the conversion of a .NET [DateTime], [safe_str],
    and the two readings of an element path ([extract_plant_name],
    [determine_plant_category]).  Each is written as the source has it, its
    [try ... except Exception] included, and returns in [Res]; that none of
    them raises is a theorem below, not part of the type. *)

From Stdlib Require Import Ascii.
From stdpp Require Import base tactics option list strings numbers.
From S2P Require Import Prelude PyStr PyObj.

#[global] Set Warnings "-clear-no-such-hyp,-register-all".

Section helpers.
Context `{!Builtins}.

(** [serialize_datetime]: the [default=] of [json.dump]. *)
Definition serialize_datetime (obj : Obj) : Res string :=
  match obj with
  | ODateTime d => Ok (isoformat d)
  | _ => Raise TypeError
  end.

(** The body of the [try] of [convert_net_datetime] (lines 49-58 of
    [extract_analyses.py], lines 47-56 of [extract_pipoints.py], the same
    text): the seven properties are read in the order of the arguments. *)
Definition convert_net_datetime_body (net_datetime : Obj) : Res DateTime :=
  year ← getattr net_datetime "Year";
  month ← getattr net_datetime "Month";
  day ← getattr net_datetime "Day";
  hour ← getattr net_datetime "Hour";
  minute ← getattr net_datetime "Minute";
  second ← getattr net_datetime "Second";
  millisecond ← getattr net_datetime "Millisecond";
  microsecond ← py_mul_int millisecond 1000;
  datetime_new year month day hour minute second microsecond.

Definition convert_net_datetime (net_datetime : Obj) : Res (option DateTime) :=
  try_except (d ← convert_net_datetime_body net_datetime; Ok (Some d))
    any_exception (λ _, Ok None).

Definition safe_str (value : Obj) : Res (option string) :=
  if is_None value then Ok None
  else try_except (s ← py_str value; Ok (Some s))
         any_exception (λ _, Ok None).

(** The backslash that separates the parts of a path. *)
Definition backslash : string := String "\"%char "".

(** The choice among the parts of a path: the fourth, else the third. *)
Definition plant_part (parts : list string) : option string :=
  if decide (4 ≤ length parts) then parts !! 3
  else if decide (3 ≤ length parts) then parts !! 2
  else None.

Definition extract_plant_name (element_path : string)
    : Res (option string) :=
  if decide (element_path = "") then Ok None
  else try_except
         (parts ← str_split backslash (str_strip_chars backslash element_path);
          Ok (plant_part parts))
         any_exception (λ _, Ok None).

(** The chain of tests of [determine_plant_category], on the path in lower
    case. *)
Definition plant_category_of (path_lower : string) : Z :=
  if str_contains "hydro" path_lower then 1
  else if str_contains "thermal" path_lower || str_contains "coal" path_lower
  then 2
  else if str_contains "solar" path_lower || str_contains "ges" path_lower
  then 3
  else if str_contains "wind" path_lower || str_contains "res" path_lower
  then 4
  else if str_contains "gas" path_lower then 5
  else 0.

Definition determine_plant_category (element_path : string)
    : Res (option Z) :=
  if decide (element_path = "") then Ok None
  else try_except (Ok (Some (plant_category_of (str_lower element_path))))
         any_exception (λ _, Ok None).

End helpers.

(** A .NET [DateTime] with the seven properties the conversion reads. *)
Definition net_datetime_of (y mo d h mi s ms : Z) : Obj :=
  ONet [("Year", SVal (OInt y)); ("Month", SVal (OInt mo));
        ("Day", SVal (OInt d)); ("Hour", SVal (OInt h));
        ("Minute", SVal (OInt mi)); ("Second", SVal (OInt s));
        ("Millisecond", SVal (OInt ms))].

(** * Theorems *)

Section helper_facts.
Context `{!Builtins}.

(** ** [convert_net_datetime] *)

(** [convert_net_datetime] never raises: whatever the object is, the
    answer is a date or [None]. *)
Theorem convert_net_datetime_total net_datetime :
  ∃ r, convert_net_datetime net_datetime = Ok r.
Proof.
  unfold convert_net_datetime.
  destruct (try_except_any_total
    (d ← convert_net_datetime_body net_datetime; Ok (Some d))
    (λ _, None)) as [r Hr]; eauto.
Qed.

(** A date that [convert_net_datetime] returns has passed the checks
    of [datetime]: its fields are in the ranges of the calendar. *)
Theorem convert_net_datetime_valid net_datetime d :
  convert_net_datetime net_datetime = Ok (Some d) → valid_datetime d = true.
Proof.
  unfold convert_net_datetime.
  destruct (convert_net_datetime_body net_datetime) as [d'|e] eqn:Hb;
    cbn; [|done]. intros [= <-].
  unfold convert_net_datetime_body in Hb. res_binds Hb.
  unfold datetime_new in Hb. res_binds Hb.
  destruct (bool_decide _); [|done].
  by destruct (valid_datetime _) eqn:?; simplify_eq.
Qed.

(** The fields of a date that [datetime] accepts fit a C [int]. *)
Lemma valid_datetime_fits dt :
  valid_datetime dt = true →
  Forall (λ z, - 2 ^ 31 ≤ z < 2 ^ 31)%Z
    [dt_year dt; dt_month dt; dt_day dt; dt_hour dt; dt_minute dt;
     dt_second dt; dt_microsecond dt].
Proof.
  intros (?&?&[? Hd]&?&?&?&?)%bool_decide_eq_true.
  assert (days_in_month (dt_year dt) (dt_month dt) ≤ 31)%Z.
  { unfold days_in_month. repeat case_match; lia. }
  repeat constructor; lia.
Qed.

(** C38: On a .NET [DateTime], whatever integers its seven properties
    hold, [convert_net_datetime] turns the milliseconds into microseconds,
    and returns the date when its fields are in the ranges of the calendar
    and [None] when they are not; a field or a product that does not fit
    a C [int] makes [datetime] raise [OverflowError], and that is [None]
    as well. *)
Theorem convert_net_datetime_of y mo d h mi s ms :
  convert_net_datetime (net_datetime_of y mo d h mi s ms) =
    Ok (let dt := mkDateTime y mo d h mi s (ms * 1000) in
        if valid_datetime dt then Some dt else None).
Proof.
  unfold convert_net_datetime, convert_net_datetime_body, net_datetime_of.
  getattr_eval. cbn. unfold datetime_new. cbn.
  case_bool_decide as Hfit; [by destruct (valid_datetime _)|].
  destruct (valid_datetime _) eqn:Hv; [|done].
  by apply valid_datetime_fits in Hv.
Qed.

(** The body of the [try] on milliseconds whose microseconds do not fit a
    C [int]: [datetime] raises [OverflowError]. *)
Lemma convert_net_datetime_body_overflow y mo d h mi s ms :
  (2 ^ 31 ≤ ms * 1000)%Z →
  convert_net_datetime_body (net_datetime_of y mo d h mi s ms) =
    Raise OverflowError.
Proof.
  intros Hms. unfold convert_net_datetime_body, net_datetime_of.
  getattr_eval. cbn. unfold datetime_new. cbn.
  rewrite bool_decide_eq_false_2; [done|].
  intros Hfit. repeat apply Forall_cons_1 in Hfit as [? Hfit]. lia.
Qed.

(** ** [safe_str] *)

(** [safe_str] never raises. *)
Lemma safe_str_total value : ∃ r, safe_str value = Ok r.
Proof.
  unfold safe_str. destruct (is_None value); [eauto|].
  destruct (try_except_any_total (s ← py_str value; Ok (Some s))
    (λ _, None)) as [r Hr]; eauto.
Qed.

Lemma extract_plant_name_total element_path :
  ∃ r, extract_plant_name element_path = Ok r.
Proof.
  unfold extract_plant_name. case_decide; [eauto|].
  destruct (try_except_any_total
    (parts ← str_split backslash (str_strip_chars backslash element_path);
     Ok (plant_part parts))
    (λ _, None)) as [r Hr]; eauto.
Qed.

(** [safe_str] never raises: it is [None] for [None] and for a value
    whose [str()] raises, and the text of the value otherwise. *)
Theorem safe_str_spec value :
  safe_str value =
    Ok (if is_None value then None else res_to_option (py_str value)).
Proof.
  unfold safe_str. destruct (is_None value); [done|].
  by destruct (py_str value).
Qed.

(** ** [extract_plant_name] *)

Lemma backslash_ne : backslash ≠ "".
Proof. done. Qed.

(** [extract_plant_name] never raises, and its handler is never
    entered: the result is [None] for the empty path and the chosen part
    of the stripped path otherwise. *)
Theorem extract_plant_name_spec element_path :
  ∃ p ps,
    str_split backslash (str_strip_chars backslash element_path) = Ok (p :: ps) ∧
    extract_plant_name element_path =
      Ok (if decide (element_path = "") then None else plant_part (p :: ps)).
Proof.
  destruct (str_split_ok backslash
    (str_strip_chars backslash element_path) backslash_ne) as (p&ps&Hsp).
  exists p, ps. split; [done|]. unfold extract_plant_name.
  case_decide; [done|]. by rewrite Hsp.
Qed.

(** The plant is the fourth part of the path, the third when there are
    only three, and nothing when there are fewer. *)
Lemma plant_part_cases parts :
  plant_part parts =
    match parts with
    | _ :: _ :: _ :: p :: _ => Some p
    | [_; _; p] => Some p
    | _ => None
    end.
Proof.
  unfold plant_part. by destruct parts as [|a [|b [|c [|d ?]]]].
Qed.

(** On a path [\\part\part\...] whose parts hold no backslash, the
    first and the last of them not empty, [extract_plant_name] finds the
    parts again and returns the fourth, or the third when there are only
    three. *)
Theorem extract_plant_name_joined parts first last_ :
  head parts = Some first → list.last parts = Some last_ →
  first ≠ "" → last_ ≠ "" → Forall (λ p, "\"%char ∉ chars p) parts →
  extract_plant_name (backslash +:+ backslash +:+ str_join backslash parts) =
    Ok (plant_part parts).
Proof.
  intros Hhd Hlast Hf Hl Hparts. unfold extract_plant_name.
  rewrite decide_False by done. unfold backslash.
  rewrite (str_strip_joined _ _ _ _ Hhd Hlast Hf Hl Hparts).
  rewrite str_split_join; [done|by destruct parts|done].
Qed.

(** ** [determine_plant_category] *)

(** [determine_plant_category] never raises: the category of the path in
    lower case, or [None] for the empty path. *)
Lemma determine_plant_category_spec element_path :
  determine_plant_category element_path =
    Ok (if decide (element_path = "") then None
        else Some (plant_category_of (str_lower element_path))).
Proof. unfold determine_plant_category. by case_decide. Qed.

(** The category [determine_plant_category] computes is one of the
    six codes, 0 to 5. *)
Theorem plant_category_of_range s : (0 ≤ plant_category_of s ≤ 5)%Z.
Proof.
  unfold plant_category_of.
  repeat match goal with
  | |- context [if ?b then _ else _] => destruct b
  end; lia.
Qed.

(** For [determine_plant_category] the case of the letters of the
    path does not matter. *)
Theorem determine_plant_category_lower element_path :
  determine_plant_category (str_lower element_path) =
    determine_plant_category element_path.
Proof.
  rewrite !determine_plant_category_spec, str_lower_idemp.
  destruct (decide (element_path = "")) as [->|Hne]; [done|].
  rewrite decide_False; [done|]. by rewrite str_lower_empty.
Qed.

(** The keywords are looked for anywhere in the path, in the order of the
    tests: a path that holds [hydro] is hydro whatever else it holds. *)
Lemma plant_category_hydro s1 s2 :
  plant_category_of (s1 +:+ "hydro" +:+ s2) = 1%Z.
Proof.
  unfold plant_category_of.
  rewrite (proj2 (str_contains_spec "hydro" _)); [done|by exists s1, s2].
Qed.

(** C37: [determine_plant_category] makes a path wind (4) as soon as the
    letters [res] occur in it, in a word or in the name of the server,
    unless an earlier test applies. *)
Theorem plant_category_res s1 s2 :
  let s := s1 +:+ "res" +:+ s2 in
  str_contains "hydro" s = false → str_contains "thermal" s = false →
  str_contains "coal" s = false → str_contains "solar" s = false →
  str_contains "ges" s = false →
  plant_category_of s = 4%Z.
Proof.
  intros s H1 H2 H3 H4 H5. unfold plant_category_of.
  rewrite H1, H2, H3, H4, H5. cbn.
  rewrite (proj2 (str_contains_spec "res" s)); [|by exists s1, s2].
  by rewrite orb_true_r.
Qed.

End helper_facts.

(** * The theorems at work *)

(** The last day of February of a leap year, at 999 milliseconds. *)
Lemma convert_net_datetime_of_witness :
  convert_net_datetime (net_datetime_of 2024 2 29 23 59 59 999) =
    Ok (Some (mkDateTime 2024 2 29 23 59 59 999000)).
Proof. by rewrite (convert_net_datetime_of 2024 2 29 23 59 59 999). Defined.

(** Thirty-six minutes in milliseconds: the microseconds overflow. *)
Lemma convert_net_datetime_body_overflow_witness :
  convert_net_datetime_body (net_datetime_of 2024 2 29 23 59 59 2147484) =
    Raise OverflowError.
Proof. by apply convert_net_datetime_body_overflow. Defined.

Lemma convert_net_datetime_valid_witness :
  valid_datetime (mkDateTime 2023 12 31 0 0 0 0) = true.
Proof.
  by apply (convert_net_datetime_valid (net_datetime_of 2023 12 31 0 0 0 0)).
Defined.

Lemma extract_plant_name_joined_witness :
  extract_plant_name "\\SRV01\Fleet\Hydro\Plant7\Unit1" = Ok (Some "Plant7").
Proof.
  by apply (extract_plant_name_joined
    ["SRV01"; "Fleet"; "Hydro"; "Plant7"; "Unit1"] "SRV01" "Unit1");
    [..|apply (bool_decide_unpack _)].
Defined.

(** A pressure sensor of a gas plant is filed under wind. *)
Lemma plant_category_res_witness :
  plant_category_of "\\srv01\fleet\gas\plant7\pressure" = 4%Z.
Proof.
  by apply (plant_category_res "\\srv01\fleet\gas\plant7\p" "sure").
Defined.
