(* ===== verification/State.v ===== *)
(** * Code that fills a mutable object and can raise

    The example scripts build their results in place: a dictionary that
    gets its keys one by one, a list that gets a record per item.  The
    assignments are made inside [try] blocks, and what was assigned before
    an exception is still there when the handler runs and when the
    function returns.  [StM S] is the monad of such code: the state [S] is
    the object under construction, and every outcome carries it, the
    raised one included.

    [st_try] is [try ... except]: the handler starts from the state the
    body left.  [st_for] is a [for] loop over a list that is already at
    hand, [st_for_in] one over a collection that is read while the loop
    runs and may fail after some items ([Iter]).

    Three predicates describe a block without running it: it cannot
    raise ([st_total]), it keeps a property of the state ([st_keeps]),
    it appends the records of given items and ends in a given way
    ([st_meets]).  Each has a rule per construct of the code. *)

From stdpp Require Import base tactics numbers option list.
From S2P Require Import Prelude.

#[global] Set Warnings "-clear-no-such-hyp,-register-all".

(** ** The monad *)

Definition StM (S A : Type) : Type := S → Res A * S.

Definition st_ret {S A} (a : A) : StM S A := λ s, (Ok a, s).

(** An expression that does not touch the state. *)
Definition st_lift {S A} (r : Res A) : StM S A := λ s, (r, s).

Definition st_bind {S A B} (m : StM S A) (f : A → StM S B) : StM S B :=
  λ s,
    match m s with
    | (Ok a, s') => f a s'
    | (Raise e, s') => (Raise e, s')
    end.

(** [pass] *)
Definition st_pass {S} : StM S unit := st_ret tt.

(** [try: body except ...: handler]: the handler starts from the state as
    the body left it. *)
Definition st_try {S A} (body : StM S A) (handles : Exn → bool)
    (handler : Exn → StM S A) : StM S A :=
  λ s,
    match body s with
    | (Ok a, s') => (Ok a, s')
    | (Raise e, s') => if handles e then handler e s' else (Raise e, s')
    end.

(** [for x in items: body] *)
Fixpoint st_for {S A} (items : list A) (body : A → StM S unit)
    : StM S unit :=
  match items with
  | [] => st_ret tt
  | x :: rest => st_bind (body x) (λ _, st_for rest body)
  end.

(** [for x in collection: body], the collection read while the loop runs:
    the body runs on the items the iteration gives, and the exception of
    the iteration, when it has one, leaves the loop after them. *)
Definition st_for_in {S A} (it : Iter A) (body : A → StM S unit)
    : StM S unit :=
  st_bind (st_for (given it) body) (λ _, st_lift (iter_end (ended it))).

(** [try: body finally: final]: [final] runs however [body] ends; what
    it raises replaces the outcome of [body]. *)
Definition st_finally {S A} (body : StM S A) (final : StM S unit)
    : StM S A :=
  λ s,
    match body s with
    | (r, s') =>
        match final s' with
        | (Ok _, s'') => (r, s'')
        | (Raise e, s'') => (Raise e, s'')
        end
    end.

(** The state read, and replaced. *)
Definition st_get {S} : StM S S := λ s, (Ok s, s).

Definition st_modify {S} (f : S → S) : StM S unit := λ s, (Ok tt, f s).

(** [xs.append(x)] on a list that is the state *)
Definition st_append {A} (x : A) : StM (list A) unit :=
  st_modify (λ xs, xs ++ [x]).

(** [s = s0; ...; return s]: a function that builds its result in place
    returns it when its code ends normally. *)
Definition st_run {S} (m : StM S unit) (s0 : S) : Res S :=
  match m s0 with
  | (Ok _, s) => Ok s
  | (Raise e, _) => Raise e
  end.

Declare Scope st_scope.
Delimit Scope st_scope with st.
Notation "x ← y ; z" := (st_bind y (λ x, z))
  (at level 20, y at level 100, z at level 200, only parsing) : st_scope.
Notation "x ⇐ y ; z" := (st_bind (st_lift y) (λ x, z))
  (at level 20, y at level 100, z at level 200, only parsing) : st_scope.
Notation "x ;; z" := (st_bind x (λ _, z))
  (at level 100, z at level 200, only parsing, right associativity)
  : st_scope.

(** The code cannot raise. *)
Definition st_total {S A} (m : StM S A) : Prop :=
  ∀ s, is_ok (m s).1 = true.

(** What the code does keeps [P] true of the state, however it ends. *)
Definition st_keeps {S A} (P : S → Prop) (m : StM S A) : Prop :=
  ∀ s, P s → P (m s).2.

(** The code goes through the items of [it] and ends as [it] does: it
    appends to the list the record of each item that has one, in order,
    and does nothing else to it. *)
Definition st_meets {B C} (g : B → option C) (m : StM (list C) unit)
    (it : Iter B) : Prop :=
  ∀ xs, m xs = (iter_end (ended it), xs ++ omap g (given it)).

(** * Facts *)

Section laws.
Context {S A B : Type}.
Implicit Types (m : StM S A) (f : A → StM S B) (s : S).

Lemma st_bind_lift_ok a f s : st_bind (st_lift (Ok a)) f s = f a s.
Proof. done. Qed.

Lemma st_bind_lift_raise e f s :
  st_bind (st_lift (Raise e : Res A)) f s = (Raise e, s).
Proof. done. Qed.

Lemma st_bind_ok m f s a s' :
  m s = (Ok a, s') → st_bind m f s = f a s'.
Proof. intros Hm. unfold st_bind. by rewrite Hm. Qed.

Lemma st_bind_raise m f s e s' :
  m s = (Raise e, s') → st_bind m f s = (Raise e, s').
Proof. intros Hm. unfold st_bind. by rewrite Hm. Qed.

Lemma st_try_ok m p (h : Exn → StM S A) s a s' :
  m s = (Ok a, s') → st_try m p h s = (Ok a, s').
Proof. intros Hm. unfold st_try. by rewrite Hm. Qed.

(** The handler runs on what the body had done. *)
Lemma st_try_caught m p (h : Exn → StM S A) s e s' :
  m s = (Raise e, s') → p e = true → st_try m p h s = h e s'.
Proof. intros Hm Hp. unfold st_try. by rewrite Hm, Hp. Qed.

Lemma st_try_passed m p (h : Exn → StM S A) s e s' :
  m s = (Raise e, s') → p e = false → st_try m p h s = (Raise e, s').
Proof. intros Hm Hp. unfold st_try. by rewrite Hm, Hp. Qed.

Lemma st_bind_assoc {C} m f (g : B → StM S C) s :
  st_bind (st_bind m f) g s = st_bind m (λ a, st_bind (f a) g) s.
Proof. unfold st_bind. by destruct (m s) as [[a|e] s']. Qed.

Lemma st_bind_ext m f f' s :
  (∀ a s', f a s' = f' a s') → st_bind m f s = st_bind m f' s.
Proof. intros Hf. unfold st_bind. by destruct (m s) as [[a|e] s']. Qed.

End laws.

(** ** Code that cannot raise *)

Section total.
Context {S A B : Type}.
Implicit Types (m : StM S A) (f : A → StM S B).

Lemma st_total_ret (a : A) : st_total (st_ret a : StM S A).
Proof. by intros s. Qed.

Lemma st_total_modify (g : S → S) : st_total (st_modify g).
Proof. by intros s. Qed.

Lemma st_total_bind m f :
  st_total m → (∀ a, st_total (f a)) → st_total (st_bind m f).
Proof.
  intros Hm Hf s. unfold st_bind. pose proof (Hm s) as Hs.
  destruct (m s) as [[a|e] s']; [apply Hf|done].
Qed.

(** A [try] that handles every exception with a handler that cannot
    raise. *)
Lemma st_total_try m (h : Exn → StM S A) :
  (∀ e, st_total (h e)) → st_total (st_try m any_exception h).
Proof.
  intros Hh s. unfold st_try.
  destruct (m s) as [[a|e] s']; [done|apply Hh].
Qed.

(** What a block that cannot raise leaves. *)
Lemma st_total_run m s : st_total m → ∃ a, m s = (Ok a, (m s).2).
Proof.
  intros Hm. pose proof (Hm s) as Hs.
  destruct (m s) as [[a|e] s']; [by exists a|done].
Qed.

End total.

(** ** An invariant of the state *)

Section keeps.
Context {S A B : Type} (P : S → Prop).
Implicit Types (m : StM S A) (f : A → StM S B).

Lemma st_keeps_ret (a : A) : st_keeps P (st_ret a).
Proof. by intros s. Qed.

Lemma st_keeps_lift (r : Res A) : st_keeps P (st_lift r).
Proof. by intros s. Qed.

Lemma st_keeps_modify (g : S → S) :
  (∀ s, P s → P (g s)) → st_keeps P (st_modify g).
Proof. intros Hg s. apply Hg. Qed.

Lemma st_keeps_bind m f :
  st_keeps P m → (∀ a, st_keeps P (f a)) → st_keeps P (st_bind m f).
Proof.
  intros Hm Hf s Hs. unfold st_bind. specialize (Hm s Hs).
  destruct (m s) as [[a|e] s']; [by apply Hf|done].
Qed.

(** After an expression, what follows knows its value. *)
Lemma st_keeps_bind_lift (r : Res A) f :
  (∀ a, r = Ok a → st_keeps P (f a)) → st_keeps P (st_bind (st_lift r) f).
Proof. intros Hf s Hs. destruct r as [a|e]; [by apply Hf|done]. Qed.

Lemma st_keeps_try m p (h : Exn → StM S A) :
  st_keeps P m → (∀ e, st_keeps P (h e)) → st_keeps P (st_try m p h).
Proof.
  intros Hm Hh s Hs. unfold st_try. specialize (Hm s Hs).
  destruct (m s) as [[a|e] s']; [done|]. destruct (p e); [by apply Hh|done].
Qed.

Lemma st_keeps_finally m (final : StM S unit) :
  st_keeps P m → st_keeps P final → st_keeps P (st_finally m final).
Proof.
  intros Hm Hf s Hs. unfold st_finally. specialize (Hm s Hs).
  destruct (m s) as [r s']. specialize (Hf s' Hm).
  by destruct (final s') as [[[]|e] s''].
Qed.

(** What a function returns has the invariant. *)
Lemma st_keeps_run (m : StM S unit) s0 s :
  st_keeps P m → P s0 → st_run m s0 = Ok s → P s.
Proof.
  intros Hm H0. unfold st_run. specialize (Hm s0 H0).
  destruct (m s0) as [[[]|e] s']; [|done]. by intros [= <-].
Qed.

End keeps.

Lemma st_keeps_for {S A} (P : S → Prop) (items : list A)
    (body : A → StM S unit) :
  (∀ x, x ∈ items → st_keeps P (body x)) → st_keeps P (st_for items body).
Proof.
  induction items as [|x items IH]; intros Hb; [apply st_keeps_ret|].
  apply st_keeps_bind; [apply Hb; left|]. intros _. apply IH.
  intros y Hy. apply Hb. by right.
Qed.

(** Appending an item that has the property of the items. *)
Lemma st_keeps_append {A} (Q : A → Prop) (x : A) :
  Q x → st_keeps (Forall Q) (st_append x).
Proof.
  intros Hx. apply st_keeps_modify. intros xs Hxs.
  apply Forall_app. by split; [|constructor].
Qed.

(** ** Loops *)

Section loops.
Context {S A : Type}.
Implicit Types (body : A → StM S unit) (items : list A).

Lemma st_for_app items1 items2 body s :
  st_for (items1 ++ items2) body s =
    st_bind (st_for items1 body) (λ _, st_for items2 body) s.
Proof.
  revert s. induction items1 as [|x items1 IH]; intros s; [done|].
  cbn [app st_for]. rewrite st_bind_assoc. apply st_bind_ext. intros _ s'.
  apply IH.
Qed.

(** Bodies that do the same on the items do the same in the loop. *)
Lemma st_for_ext items body body' s :
  (∀ x, x ∈ items → ∀ s, body x s = body' x s) →
  st_for items body s = st_for items body' s.
Proof.
  revert s. induction items as [|x items IH]; intros s Hb; [done|]. cbn.
  unfold st_bind. rewrite (Hb x) by left.
  destruct (body' x s) as [[[]|e] s']; [|done].
  apply IH. intros y Hy. apply Hb. by right.
Qed.

(** A loop whose body cannot raise cannot raise. *)
Lemma st_total_for items body :
  (∀ x, st_total (body x)) → st_total (st_for items body).
Proof.
  intros Hb. induction items as [|x items IH]; cbn;
    [apply st_total_ret|by apply st_total_bind].
Qed.

(** A loop whose body cannot raise is a fold of what the body does to the
    state. *)
Lemma st_for_foldl items body s :
  (∀ x, st_total (body x)) →
  st_for items body s = (Ok tt, foldl (λ s x, (body x s).2) s items).
Proof.
  intros Hb. revert s. induction items as [|x items IH]; intros s; [done|].
  cbn. destruct (st_total_run (body x) s (Hb x)) as [[] Hx].
  by rewrite (st_bind_ok _ _ _ _ _ Hx), IH.
Qed.

(** The loop [for x in items: try: xs.append(f(x)) except Exception: pass]
    appends the results of the items on which [f] does not raise, in
    order. *)
Lemma st_for_collect {B} (f : A → Res B) items (xs : list B) :
  st_for items
    (λ x, st_try (st_bind (st_lift (f x)) st_append)
            any_exception (λ _, st_pass)) xs =
    (Ok tt, xs ++ omap (λ x, res_to_option (f x)) items).
Proof.
  revert xs. induction items as [|x items IH]; intros xs; cbn.
  - by rewrite app_nil_r.
  - unfold st_bind at 1, st_try, st_lift. destruct (f x) as [b|e]; cbn.
    + by rewrite IH, <-app_assoc.
    + by rewrite IH.
Qed.

(** The first item whose body raises ends the loop. *)
Lemma st_for_raise items1 x items2 body s s1 e s2 :
  st_for items1 body s = (Ok tt, s1) → body x s1 = (Raise e, s2) →
  st_for (items1 ++ x :: items2) body s = (Raise e, s2).
Proof.
  intros H1 Hx. rewrite st_for_app, (st_bind_ok _ _ _ _ _ H1). cbn.
  by rewrite (st_bind_raise _ _ _ _ _ Hx).
Qed.

(** *** Loops over a collection that is read while the loop runs *)

(** Over an iteration that ends by itself, the loop over its items. *)
Lemma st_for_in_whole (it : Iter A) items body s :
  iter_list it = Ok items → st_for_in it body s = st_for items body s.
Proof.
  intros ->%iter_list_ok. unfold st_for_in, st_bind. cbn.
  by destruct (st_for items body s) as [[[]|e] s'].
Qed.

(** A body that cannot raise has run on every item given when the loop
    ends, and the loop ends as the iteration does. *)
Lemma st_for_in_total (it : Iter A) body s :
  (∀ x, st_total (body x)) →
  st_for_in it body s =
    (iter_end (ended it), foldl (λ s x, (body x s).2) s (given it)).
Proof.
  intros Hb. unfold st_for_in.
  by rewrite (st_bind_ok _ _ _ _ _ (st_for_foldl _ _ s Hb)).
Qed.

(** The loop [for x in it: try: xs.append(f(x)) except Exception: pass]
    has appended the results of the items given when it ends, also when
    the iteration ends it with an exception. *)
Lemma st_for_in_collect {B} (f : A → Res B) (it : Iter A) (xs : list B) :
  st_for_in it
    (λ x, st_try (st_bind (st_lift (f x)) st_append)
            any_exception (λ _, st_pass)) xs =
    (iter_end (ended it), xs ++ omap (λ x, res_to_option (f x)) (given it)).
Proof.
  unfold st_for_in. by rewrite (st_bind_ok _ _ _ _ _ (st_for_collect f _ xs)).
Qed.

Lemma st_for_in_ext (it : Iter A) body body' s :
  (∀ x, x ∈ given it → ∀ s, body x s = body' x s) →
  st_for_in it body s = st_for_in it body' s.
Proof. intros Hb. unfold st_for_in, st_bind. by rewrite (st_for_ext _ _ body'). Qed.

(** The items given before the body raises are all the loop has seen. *)
Lemma st_for_in_raise (it : Iter A) items1 x items2 body s s1 e s2 :
  given it = items1 ++ x :: items2 →
  st_for items1 body s = (Ok tt, s1) → body x s1 = (Raise e, s2) →
  st_for_in it body s = (Raise e, s2).
Proof.
  intros Hit H1 Hx. unfold st_for_in. rewrite Hit.
  by rewrite (st_bind_raise _ _ _ _ _ (st_for_raise _ _ _ _ _ _ _ _ H1 Hx)).
Qed.

End loops.

Lemma st_keeps_for_in {S A} (P : S → Prop) (it : Iter A)
    (body : A → StM S unit) :
  (∀ x, x ∈ given it → st_keeps P (body x)) → st_keeps P (st_for_in it body).
Proof.
  intros Hb. apply st_keeps_bind; [by apply st_keeps_for|].
  intros _. apply st_keeps_lift.
Qed.

(** ** What a block meets *)

(** The rules of [st_meets] follow the code: what a block meets is made of
    what its statements meet with [iter_app], [iter_catch] and
    [iter_bind]. *)
Section meets.
Context {B C : Type} (g : B → option C).
Implicit Types (m : StM (list C) unit) (it : Iter B).

Lemma st_meets_pass : st_meets g st_pass (mkIter [] None).
Proof. intros xs. cbn. by rewrite app_nil_r. Qed.

(** An expression that does not touch the list. *)
Lemma st_meets_lift {A} (r : Res A) :
  st_meets g (st_bind (st_lift r) (λ _, st_pass)) (iter_of_res r).
Proof. intros xs. destruct r; cbn; by rewrite app_nil_r. Qed.

Lemma st_meets_end ending :
  st_meets g (st_lift (iter_end ending)) (mkIter [] ending).
Proof. intros xs. cbn. by rewrite app_nil_r. Qed.

(** [xs.append(c)] of the record of an item *)
Lemma st_meets_append x c : g x = Some c → st_meets g (st_append c) (mkIter [x] None).
Proof. intros Hx xs. cbn. by rewrite Hx. Qed.

Lemma st_meets_seq m1 m2 it1 it2 :
  st_meets g m1 it1 → st_meets g m2 it2 →
  st_meets g (st_bind m1 (λ _, m2)) (iter_app it1 it2).
Proof.
  intros H1 H2 xs. unfold st_bind, iter_app. rewrite H1.
  destruct it1 as [l1 [e|]]; cbn; [done|].
  by rewrite H2, omap_app, app_assoc.
Qed.

(** [try: m except Exception as e: h(e)] *)
Lemma st_meets_try m (h : Exn → StM (list C) unit) it (hit : Exn → Iter B) :
  st_meets g m it → (∀ e, st_meets g (h e) (hit e)) →
  st_meets g (st_try m any_exception h) (iter_catch it hit).
Proof.
  intros Hm Hh xs. unfold st_try, iter_catch. rewrite Hm.
  destruct it as [l [e|]]; cbn; [|done].
  rewrite Hh. unfold iter_app. cbn. by rewrite omap_app, app_assoc.
Qed.

(** [try: m except Exception: pass] *)
Lemma st_meets_try_pass m it :
  st_meets g m it →
  st_meets g (st_try m any_exception (λ _, st_pass)) (mkIter (given it) None).
Proof.
  intros Hm. rewrite <-iter_catch_pass.
  apply st_meets_try; [done|]. intros _. apply st_meets_pass.
Qed.

Lemma st_meets_for {A} (f : A → Iter B) items
    (step : A → StM (list C) unit) :
  (∀ x, x ∈ items → st_meets g (step x) (f x)) →
  st_meets g (st_for items step) (iter_concat f items None).
Proof.
  induction items as [|x items IH]; intros Hs; [apply st_meets_pass|].
  cbn. apply st_meets_seq; [apply Hs; left|].
  apply IH. intros y Hy. apply Hs. by right.
Qed.

(** [for x in collection: step(x)] *)
Lemma st_meets_for_in {A} (f : A → Iter B) (it : Iter A)
    (step : A → StM (list C) unit) :
  (∀ x, x ∈ given it → st_meets g (step x) (f x)) →
  st_meets g (st_for_in it step) (iter_bind it f).
Proof.
  intros Hs. unfold st_for_in, iter_bind. rewrite iter_concat_end.
  apply st_meets_seq; [by apply st_meets_for|apply st_meets_end].
Qed.

(** A function that builds its list in place returns the records of what
    it has met, when it ends by itself. *)
Lemma st_meets_run m it :
  st_meets g m it →
  st_run m [] = (_ ← iter_end (ended it); Ok (omap g (given it)))%py.
Proof. intros Hm. unfold st_run. rewrite Hm. by destruct it as [l [e|]]. Qed.

End meets.

(** * Tactics *)

(** [st_keeps], along the structure of the code; what is left are the
    statements that change the state. *)
Ltac st_keeps_tac :=
  repeat lazymatch goal with
  | H : st_keeps ?P ?m |- st_keeps ?P ?m => exact H
  | |- st_keeps _ (st_ret _) => apply st_keeps_ret
  | |- st_keeps _ st_pass => apply st_keeps_ret
  | |- st_keeps _ (st_lift _) => apply st_keeps_lift
  | |- st_keeps _ (st_bind (st_lift _) _) =>
      apply st_keeps_bind_lift; intros ? ?
  | |- st_keeps _ (st_bind _ _) => apply st_keeps_bind; [|intros ?]
  | |- st_keeps _ (st_try _ _ _) => apply st_keeps_try; [|intros ?]
  | |- st_keeps _ (st_finally _ _) => apply st_keeps_finally
  | |- st_keeps _ (st_for _ _) => apply st_keeps_for; intros ? ?
  | |- st_keeps _ (st_for_in _ _) => apply st_keeps_for_in; intros ? ?
  | |- st_keeps _ (match ?x with _ => _ end) => destruct x
  end.

(** [st_total] of a sequence of [try] blocks that handle everything. *)
Ltac st_total_tac :=
  repeat lazymatch goal with
  | |- st_total (st_ret _) => apply st_total_ret
  | |- st_total st_pass => apply st_total_ret
  | |- st_total (st_modify _) => apply st_total_modify
  | |- st_total (st_try _ any_exception _) => apply st_total_try; intros ?
  | |- st_total (st_bind _ _) => apply st_total_bind; [|intros ?]
  | |- st_total (st_for _ _) => apply st_total_for; intros ?
  | |- st_total (match ?x with _ => _ end) => destruct x
  end.
