(* ===== verification/Info.v ===== *)
(** * Records under construction

    The extraction scripts build a dictionary [info] key by key, inside
    [try] blocks whose handlers leave in place what was assigned before the
    exception.  [InfoM] is the monad of such code: [StM] of [State] with
    the dictionary as its state; [info_set] and [info_get] are the
    assignment and the lookup, [info_run] runs a block on the empty
    dictionary.

    Predicates describe a block without running it: [info_total] (it never
    raises), [info_writes ks] (it assigns serialisable values, to no key
    outside [ks]), [info_assigns k] and [info_sets ks] (when it ends
    normally it has assigned to [k], to every key of [ks]) and
    [info_holds k v] (it ends with [v] under [k]).  They compose along the
    structure of the code; [info_adds_given pre ks] puts them together: run
    on a dictionary with the keys [pre], the block never raises and adds
    exactly the keys [ks], in that order.

    [agree_off ks] is the equivalence of records that hold the same
    outside the keys [ks]; [info_sim ks] relates two blocks that stay in
    step up to it: from equivalent records they end the same way and leave
    equivalent records.  It is a partial equivalence, the blocks related
    to themselves being those that read no key of [ks] back, and the
    constructs of the monad respect it ([Proper] instances of [st_bind]
    and [st_try]), so that a proof that two functions agree goes along the
    code of the two ([f_equiv]). *)

From stdpp Require Import base tactics numbers option list strings.
From S2P Require Import Prelude PyStr PyObj State.

#[global] Set Warnings "-clear-no-such-hyp,-register-all".

(** ** The monad *)

Definition Info : Type := list (string * Obj).

Abbreviation InfoM := (StM Info).

(** [info[k] = v] *)
Definition info_set (k : string) (v : Obj) : InfoM unit :=
  λ info, (Ok tt, dict_set k v info).

(** [info.get(k)] *)
Definition info_get (k : string) : InfoM Obj :=
  λ info, (Ok (default ONone (dict_get k info)), info).

(** [info = {}; ...; return info] *)
Definition info_run (m : InfoM unit) : Res Info :=
  match m [] with
  | (Ok _, info) => Ok info
  | (Raise e, _) => Raise e
  end.

(** ** Values of a record *)

(** [str | None], [int | None] and [datetime | None] as values. *)
Definition opt_str (s : option string) : Obj :=
  match s with Some s => OStr s | None => ONone end.

Definition opt_int (z : option Z) : Obj :=
  match z with Some z => OInt z | None => ONone end.

Definition opt_datetime (d : option DateTime) : Obj :=
  match d with Some d => ODateTime d | None => ONone end.

(** ** Keys *)

(** Several assignments, the first first. *)
Definition set_all (vs : list (string * Obj)) (info : Info) : Info :=
  foldl (λ d kv, dict_set kv.1 kv.2 d) info vs.

(** The keys after assignments to [ks]: a new key goes last. *)
Definition add_keys (ks : list string) (l : list string) : list string :=
  foldl (λ l k, if bool_decide (k ∈ l) then l else l ++ [k]) l ks.

(** ** The values a record may hold *)

(** What [json.dump] writes with [serialize_datetime] as its default:
    [None], a Boolean, an integer, a string, a date. *)
Definition plain (v : Obj) : bool :=
  match v with
  | ONone | OBool _ | OInt _ | OStr _ | ODateTime _ => true
  | _ => false
  end.

Definition info_plain (info : Info) : Prop :=
  Forall (λ kv, plain kv.2 = true) info.

(** ** What a block does to the dictionary *)

Abbreviation info_total := st_total.

(** The block assigns plain values, to keys of [ks] only. *)
Definition info_writes (ks : list string) {A} (m : InfoM A) : Prop :=
  ∀ info, ∃ vs,
    Forall (λ kv, kv.1 ∈ ks ∧ plain kv.2 = true) vs ∧
    (m info).2 = set_all vs info.

Definition info_assigns (k : string) {A} (m : InfoM A) : Prop :=
  ∀ info a info', m info = (Ok a, info') → k ∈ dict_keys info'.

(** Code outside any [try]: when it ends normally it has assigned plain
    values to the keys [ks], in that order. *)
Definition info_sets (ks : list string) {A} (m : InfoM A) : Prop :=
  ∀ info a info', m info = (Ok a, info') → ∃ vs,
    vs.*1 = ks ∧ Forall (λ kv, plain kv.2 = true) vs ∧ info' = set_all vs info.

(** On a plain record that has the keys [pre], the block ends normally,
    with a plain record that has the keys [ks] more. *)
Definition info_adds_given (pre ks : list string) (m : InfoM unit) : Prop :=
  ∀ info, info_plain info → Forall (λ k, k ∈ dict_keys info) pre → ∃ info',
    m info = (Ok tt, info') ∧
    dict_keys info' = add_keys ks (dict_keys info) ∧ info_plain info'.

Definition info_adds (ks : list string) (m : InfoM unit) : Prop :=
  ∀ info, info_plain info → ∃ info',
    m info = (Ok tt, info') ∧
    dict_keys info' = add_keys ks (dict_keys info) ∧ info_plain info'.

(** When the block ends normally, the record holds [v] under [k]. *)
Definition info_holds (k : string) (v : Obj) {A} (m : InfoM A) : Prop :=
  ∀ info a info', m info = (Ok a, info') → dict_get k info' = Some v.

(** ** Two runs side by side *)

(** Records that hold the same outside the keys [ks]. *)
Definition agree_off (ks : list string) (i1 i2 : Info) : Prop :=
  ∀ k, k ∉ ks → dict_get k i1 = dict_get k i2.

(** From records that agree outside [ks], the two blocks end the same way
    and leave records that agree outside [ks]. *)
Definition info_sim (ks : list string) {A} (m1 m2 : InfoM A) : Prop :=
  ∀ i1 i2, agree_off ks i1 i2 →
    (m1 i1).1 = (m2 i2).1 ∧ agree_off ks (m1 i1).2 (m2 i2).2.

(** * Facts *)

(** ** Keys *)

Lemma add_keys_app ks1 ks2 l :
  add_keys (ks1 ++ ks2) l = add_keys ks2 (add_keys ks1 l).
Proof. apply foldl_app. Qed.

Lemma add_keys_incl ks l k : k ∈ l → k ∈ add_keys ks l.
Proof.
  revert l. induction ks as [|k' ks IH]; intros l Hk; [done|]. cbn.
  apply IH. case_bool_decide; [done|]. apply elem_of_app. by left.
Qed.

Lemma add_keys_elem ks l k : k ∈ ks → k ∈ add_keys ks l.
Proof.
  revert l. induction ks as [|k' ks IH]; intros l; [by intros ?%elem_of_nil|].
  intros [->|Hk]%elem_of_cons; cbn; [|by apply IH]. apply add_keys_incl.
  case_bool_decide; [done|]. apply elem_of_app. right. left.
Qed.

Lemma add_keys_present ks l : Forall (λ k, k ∈ l) ks → add_keys ks l = l.
Proof.
  induction 1 as [|k ks Hk _ IH]; [done|]. cbn.
  by rewrite bool_decide_eq_true_2.
Qed.

(** Assignments to one key, once or many times. *)
Lemma add_keys_repeat k ks l :
  Forall (λ k', k' ∈ [k]) ks → k ∈ l ∨ ks ≠ [] →
  add_keys ks l = add_keys [k] l.
Proof.
  intros Hks Hor. destruct ks as [|k' ks].
  - destruct Hor as [Hin|]; [|done].
    by rewrite (add_keys_present [k]) by (by repeat constructor).
  - apply Forall_cons in Hks as [->%list_elem_of_singleton Hks].
    change (add_keys (k :: ks) l) with (add_keys ks (add_keys [k] l)).
    apply add_keys_present. eapply Forall_impl; [done|].
    intros k' ->%list_elem_of_singleton. apply add_keys_elem. left.
Qed.

Lemma dict_keys_set_add k v (info : Info) :
  dict_keys (dict_set k v info) = add_keys [k] (dict_keys info).
Proof.
  rewrite dict_keys_set. cbn. destruct (dict_has k info) eqn:Hh.
  - apply dict_has_keys in Hh. by rewrite bool_decide_eq_true_2.
  - rewrite bool_decide_eq_false_2; [done|]. intros Hk%dict_has_keys.
    congruence.
Qed.

Lemma dict_keys_set_all vs info :
  dict_keys (set_all vs info) = add_keys vs.*1 (dict_keys info).
Proof.
  revert info. induction vs as [|[k v] vs IH]; intros info; [done|].
  change (set_all ((k, v) :: vs) info) with (set_all vs (dict_set k v info)).
  by rewrite IH, dict_keys_set_add.
Qed.

Lemma set_all_app vs1 vs2 info :
  set_all (vs1 ++ vs2) info = set_all vs2 (set_all vs1 info).
Proof. apply foldl_app. Qed.

(** An assignment to other keys leaves a key as it was. *)
Lemma dict_get_set_all vs info k :
  k ∉ vs.*1 → dict_get k (set_all vs info) = dict_get k info.
Proof.
  revert info. induction vs as [|[k' v] vs IH]; intros info; [done|].
  rewrite fmap_cons. intros [Hk Hvs]%not_elem_of_cons.
  change (set_all ((k', v) :: vs) info) with (set_all vs (dict_set k' v info)).
  rewrite IH by done. by apply dict_get_set_ne.
Qed.

(** ** Plain records *)

(** What holds of the values assigned and of the values of the record holds
    of the values of the record after the assignments. *)
Lemma Forall_set_all (P : Obj → Prop) vs info :
  Forall (λ kv, P kv.2) vs → Forall (λ kv, P kv.2) info →
  Forall (λ kv, P kv.2) (set_all vs info).
Proof.
  intros Hvs. revert info. induction Hvs as [|[k v] vs Hv _ IH]; intros info;
    [done|]. intros Hinfo. apply IH. by apply Forall_dict_set.
Qed.

Lemma info_plain_set k v info :
  plain v = true → info_plain info → info_plain (dict_set k v info).
Proof. apply (Forall_dict_set (λ v, plain v = true)). Qed.

Lemma info_plain_set_all vs info :
  Forall (λ kv, plain kv.2 = true) vs → info_plain info →
  info_plain (set_all vs info).
Proof. apply (Forall_set_all (λ v, plain v = true)). Qed.

Lemma info_plain_get k v info :
  info_plain info → dict_get k info = Some v → plain v = true.
Proof.
  intros Hinfo Hk%dict_get_Some_elem.
  apply (proj1 (Forall_forall _ _) Hinfo (k, v) Hk).
Qed.

(** Truthiness of a plain value cannot raise. *)
Lemma plain_truthy v : plain v = true → ∃ b, truthy v = Ok b.
Proof. destruct v; cbn; eauto; done. Qed.

(** ** The monad's equations *)


(** ** Totality *)

Lemma info_total_set k v : info_total (info_set k v).
Proof. done. Qed.

Lemma info_total_get k : info_total (info_get k).
Proof. done. Qed.

(** ** Writes *)

Section writes.
Context {A B : Type}.
Implicit Types (m : InfoM A) (f : A → InfoM B) (ks : list string).

Lemma info_writes_ret ks (a : A) : info_writes ks (st_ret a).
Proof. intros info. by exists []. Qed.

Lemma info_writes_lift ks (r : Res A) : info_writes ks (st_lift r).
Proof. intros info. by exists []. Qed.

Lemma info_writes_get ks k : info_writes ks (info_get k).
Proof. intros info. by exists []. Qed.

Lemma info_writes_set ks k v :
  k ∈ ks → plain v = true → info_writes ks (info_set k v).
Proof.
  intros Hk Hv info. exists [(k, v)]. split; [by repeat constructor|done].
Qed.

Lemma info_writes_bind ks m f :
  info_writes ks m → (∀ a, info_writes ks (f a)) → info_writes ks (st_bind m f).
Proof.
  intros Hm Hf info. unfold st_bind. destruct (Hm info) as (vs1&H1&E1).
  destruct (m info) as [[a|e] info']; cbn in E1; subst; [|by exists vs1].
  destruct (Hf a (set_all vs1 info)) as (vs2&H2&E2). exists (vs1 ++ vs2).
  split; [by apply Forall_app|]. by rewrite set_all_app.
Qed.

(** After an expression, what follows knows its value. *)
Lemma info_writes_bind_lift ks (r : Res A) f :
  (∀ a, r = Ok a → info_writes ks (f a)) →
  info_writes ks (st_bind (st_lift r) f).
Proof.
  intros Hf info. destruct r as [a|e]; [by apply Hf|]. by exists [].
Qed.

Lemma info_writes_try ks m p (h : Exn → InfoM A) :
  info_writes ks m → (∀ e, info_writes ks (h e)) →
  info_writes ks (st_try m p h).
Proof.
  intros Hm Hh info. unfold st_try. destruct (Hm info) as (vs1&H1&E1).
  destruct (m info) as [[a|e] info']; cbn in E1; subst; [by exists vs1|].
  destruct (p e); [|by exists vs1].
  destruct (Hh e (set_all vs1 info)) as (vs2&H2&E2). exists (vs1 ++ vs2).
  split; [by apply Forall_app|]. by rewrite set_all_app.
Qed.

Lemma info_writes_mono ks ks' m :
  info_writes ks m → Forall (λ k, k ∈ ks') ks → info_writes ks' m.
Proof.
  intros Hm Hks info. destruct (Hm info) as (vs&Hvs&E). exists vs.
  split; [|done]. eapply Forall_impl; [done|]. intros kv [Hk ?].
  split; [|done]. apply (proj1 (Forall_forall _ _) Hks _ Hk).
Qed.

(** A block that writes only keys that are there leaves the keys as they
    are; and it leaves every other key with its value. *)
Lemma info_writes_keys ks m info :
  info_writes ks m → Forall (λ k, k ∈ dict_keys info) ks →
  dict_keys (m info).2 = dict_keys info.
Proof.
  intros Hm Hks. destruct (Hm info) as (vs&Hvs&->).
  rewrite dict_keys_set_all. apply add_keys_present.
  apply Forall_forall. intros k (kv&->&Hkv)%list_elem_of_fmap.
  apply (proj1 (Forall_forall _ _) Hks), (proj1 (Forall_forall _ _) Hvs kv Hkv).
Qed.

Lemma info_writes_frame ks m info k :
  info_writes ks m → k ∉ ks → dict_get k (m info).2 = dict_get k info.
Proof.
  intros Hm Hk. destruct (Hm info) as (vs&Hvs&->).
  apply dict_get_set_all. intros (kv&->&Hkv)%list_elem_of_fmap.
  by apply Hk, (proj1 (Forall_forall _ _) Hvs kv).
Qed.

(** It keeps a plain record plain, however it ends. *)
Lemma info_writes_plain ks m info :
  info_writes ks m → info_plain info → info_plain (m info).2.
Proof.
  intros Hm Hinfo. destruct (Hm info) as (vs&Hvs&->).
  apply info_plain_set_all; [|done]. eapply Forall_impl; [done|].
  by intros kv [_ ?].
Qed.

End writes.

(** ** Assignments *)

Section assigns.
Context {A B : Type}.
Implicit Types (m : InfoM A) (f : A → InfoM B).

Lemma info_assigns_set k v : info_assigns k (info_set k v).
Proof.
  intros info a info'. unfold info_set. intros [= <- <-].
  rewrite dict_keys_set_add. apply add_keys_elem. left.
Qed.

(** The last statement assigns. *)
Lemma info_assigns_bind k m f :
  (∀ a, info_assigns k (f a)) → info_assigns k (st_bind m f).
Proof.
  intros Hf info b info'. unfold st_bind.
  destruct (m info) as [[a|e] info1]; [apply Hf|done].
Qed.

(** The body assigns, and the handler does. *)
Lemma info_assigns_try k m p (h : Exn → InfoM A) :
  info_assigns k m → (∀ e, info_assigns k (h e)) →
  info_assigns k (st_try m p h).
Proof.
  intros Hm Hh info a info'. unfold st_try.
  destruct (m info) as [[a'|e] info1] eqn:Em.
  - intros [= <- <-]. by eapply Hm.
  - destruct (p e); [apply Hh|done].
Qed.

End assigns.

(** ** Blocks that add keys *)

Lemma info_adds_set k v : plain v = true → info_adds [k] (info_set k v).
Proof.
  intros Hv info Hinfo. eexists. split; [done|].
  split; [apply dict_keys_set_add|by apply info_plain_set].
Qed.

(** One block after the other. *)
Lemma info_adds_seq ks1 ks2 (m1 m2 : InfoM unit) :
  info_adds ks1 m1 → info_adds ks2 m2 →
  info_adds (ks1 ++ ks2) (st_bind m1 (λ _, m2)).
Proof.
  intros H1 H2 info Hinfo. destruct (H1 info Hinfo) as (info1&E1&K1&P1).
  destruct (H2 info1 P1) as (info2&E2&K2&P2). exists info2.
  split; [by rewrite (st_bind_ok _ _ _ _ _ E1)|].
  split; [|done]. by rewrite add_keys_app, <-K1.
Qed.

(** *** Blocks that need keys to be there *)

Lemma info_adds_given_nil ks m : info_adds_given [] ks m ↔ info_adds ks m.
Proof.
  split; intros Hm info Hinfo; [by apply Hm|]. intros _. by apply Hm.
Qed.

(** More keys do no harm. *)
Lemma info_adds_given_weaken pre pre' ks m :
  info_adds_given pre ks m → Forall (λ k, k ∈ pre') pre →
  info_adds_given pre' ks m.
Proof.
  intros Hm Hpre info Hinfo Hkeys. apply Hm; [done|].
  eapply Forall_impl; [done|]. intros k Hk.
  apply (proj1 (Forall_forall _ _) Hkeys k Hk).
Qed.

(** A block that cannot raise and assigns only to keys that are there. *)
Lemma info_adds_given_writes pre m :
  info_total m → info_writes pre m → info_adds_given pre [] m.
Proof.
  intros Ht Hw info Hinfo Hkeys. pose proof (Ht info) as Hok.
  pose proof (info_writes_keys pre m info Hw Hkeys) as Hk.
  pose proof (info_writes_plain pre m info Hw Hinfo) as Hp.
  destruct (m info) as [[[]|e] info']; [|done]. by exists info'.
Qed.

(** An assignment, then a block that may count on its key. *)
Lemma info_adds_given_set pre k v ks m :
  plain v = true → info_adds_given (k :: pre) ks m →
  info_adds_given pre (k :: ks) (st_bind (info_set k v) (λ _, m)).
Proof.
  intros Hv Hm info Hinfo Hkeys. unfold st_bind, info_set.
  destruct (Hm (dict_set k v info)) as (info'&E&K&P).
  - by apply info_plain_set.
  - rewrite dict_keys_set_add. constructor; [apply add_keys_elem; left|].
    eapply Forall_impl; [done|]. intros k'. apply add_keys_incl.
  - exists info'. split; [done|]. split; [|done].
    by rewrite K, dict_keys_set_add.
Qed.

(** One block after the other: the second may count on the keys of the
    first. *)
Lemma info_adds_given_seq pre ks1 ks2 (m1 m2 : InfoM unit) :
  info_adds_given pre ks1 m1 → info_adds_given (ks1 ++ pre) ks2 m2 →
  info_adds_given pre (ks1 ++ ks2) (st_bind m1 (λ _, m2)).
Proof.
  intros H1 H2 info Hinfo Hkeys.
  destruct (H1 info Hinfo Hkeys) as (info1&E1&K1&P1).
  destruct (H2 info1 P1) as (info2&E2&K2&P2).
  - rewrite K1. apply Forall_app. split.
    + apply Forall_forall. intros k Hk. by apply add_keys_elem.
    + eapply Forall_impl; [done|]. intros k. apply add_keys_incl.
  - exists info2. split; [by rewrite (st_bind_ok _ _ _ _ _ E1)|].
    split; [|done]. by rewrite add_keys_app, <-K1.
Qed.

(** What [info.get(k)] gives on a plain record is plain. *)
Lemma info_adds_given_get pre ks k (f : Obj → InfoM unit) :
  (∀ v, plain v = true → info_adds_given pre ks (f v)) →
  info_adds_given pre ks (st_bind (info_get k) f).
Proof.
  intros Hf info Hinfo Hkeys. unfold st_bind, info_get.
  apply Hf; [|done..]. destruct (dict_get k info) as [v|] eqn:Hk; [|done].
  by eapply info_plain_get.
Qed.

(** A block that cannot raise, assigns to [k] only, and has assigned to it
    when it ends. *)
Lemma info_adds_single k (m : InfoM unit) :
  info_total m → info_writes [k] m → info_assigns k m → info_adds [k] m.
Proof.
  intros Ht Hw Ha info Hinfo. pose proof (Ht info) as Hok.
  pose proof (info_writes_plain [k] m info Hw Hinfo) as Hp.
  destruct (Hw info) as (vs&Hvs&E). pose proof (Ha info) as Hk.
  destruct (m info) as [[[]|e] info']; [|done]. exists info'.
  split; [done|]. split; [|done].
  specialize (Hk tt info' eq_refl). cbn in E. subst.
  rewrite dict_keys_set_all in *. apply add_keys_repeat.
  - apply Forall_fmap. eapply Forall_impl; [done|]. by intros kv [? _].
  - destruct vs; [by left|by right].
Qed.

Lemma info_adds_given_single pre k (m : InfoM unit) :
  info_total m → info_writes [k] m → info_assigns k m →
  info_adds_given pre [k] m.
Proof.
  intros Ht Hw Ha. eapply info_adds_given_weaken; [|by apply Forall_nil].
  by apply info_adds_given_nil, info_adds_single.
Qed.

Lemma info_adds_given_last pre k v :
  plain v = true → info_adds_given pre [k] (info_set k v).
Proof.
  intros Hv. eapply info_adds_given_weaken; [|by apply Forall_nil].
  by apply info_adds_given_nil, info_adds_set.
Qed.

Lemma info_adds_given_keys pre ks ks' m :
  info_adds_given pre ks m → ks = ks' → info_adds_given pre ks' m.
Proof. by intros ? <-. Qed.

(** ** Code outside any [try] *)

Section sets.
Context {A B : Type}.

Lemma info_sets_set k v : plain v = true → info_sets [k] (info_set k v).
Proof.
  intros Hv info a info' [= <-]. exists [(k, v)]. by repeat constructor.
Qed.

Lemma info_sets_set_bind k v ks (m : InfoM B) :
  plain v = true → info_sets ks m →
  info_sets (k :: ks) (st_bind (info_set k v) (λ _, m)).
Proof.
  intros Hv Hm info a info' Hrun.
  destruct (Hm _ _ _ Hrun) as (vs&<-&Hvs&->). exists ((k, v) :: vs).
  by repeat constructor.
Qed.

Lemma info_sets_lift_bind ks (r : Res A) (f : A → InfoM B) :
  (∀ a, r = Ok a → info_sets ks (f a)) →
  info_sets ks (st_bind (st_lift r) f).
Proof.
  intros Hf info b info'. destruct r as [a|e]; [|by intros [=]].
  apply (Hf a eq_refl info b info').
Qed.

End sets.

(** The keys and the values after such code. *)
Lemma info_sets_keys ks (m : InfoM unit) info info' :
  info_sets ks m → m info = (Ok tt, info') → info_plain info →
  dict_keys info' = add_keys ks (dict_keys info) ∧ info_plain info'.
Proof.
  intros Hm Hrun Hinfo. destruct (Hm _ _ _ Hrun) as (vs&<-&Hvs&->).
  split; [apply dict_keys_set_all|by apply info_plain_set_all].
Qed.

(** ** A function that builds a record *)

(** The function starts from the empty record, runs code outside any
    [try], and then blocks that cannot raise: it raises what the first part
    raises; otherwise it returns a plain record with the keys of both
    parts. *)
Lemma info_run_sets_adds ks1 ks2 (m1 m2 : InfoM unit) :
  info_sets ks1 m1 → info_adds_given ks1 ks2 m2 →
  match (m1 []).1 with
  | Ok _ => ∃ info, info_run (st_bind m1 (λ _, m2)) = Ok info ∧
      dict_keys info = add_keys (ks1 ++ ks2) [] ∧ info_plain info
  | Raise e => info_run (st_bind m1 (λ _, m2)) = Raise e
  end.
Proof.
  intros H1 H2. unfold info_run, st_bind.
  destruct (m1 []) as [[[]|e] info1] eqn:E1; [|done]. cbn.
  destruct (info_sets_keys ks1 m1 [] info1 H1 E1) as [K1 P1]; [by constructor|].
  destruct (H2 info1 P1) as (info&->&K&P).
  - rewrite K1. apply Forall_forall. intros k Hk. by apply add_keys_elem.
  - exists info. rewrite add_keys_app. change (dict_keys []) with (@nil string) in K1.
    by rewrite <-K1.
Qed.

(** ** Tactics *)

(** ** A value that stays *)

Section holds.
Context {A B : Type}.
Implicit Types (m : InfoM A) (f : A → InfoM B).

Lemma info_holds_set k v : info_holds k v (info_set k v).
Proof. intros info a info' [= <- <-]. apply dict_get_set_eq. Qed.

(** The value is assigned in what follows. *)
Lemma info_holds_later k v m f :
  (∀ a, info_holds k v (f a)) → info_holds k v (st_bind m f).
Proof.
  intros Hf info b info'. unfold st_bind.
  destruct (m info) as [[a|e] info1]; [apply Hf|done].
Qed.

(** The value is there, and what follows assigns to other keys. *)
Lemma info_holds_then k v ks m f :
  info_holds k v m → (∀ a, info_writes ks (f a)) → k ∉ ks →
  info_holds k v (st_bind m f).
Proof.
  intros Hm Hf Hk info b info'. unfold st_bind.
  destruct (m info) as [[a|e] info1] eqn:Em; [|done]. intros Hrun.
  pose proof (info_writes_frame ks (f a) info1 k (Hf a) Hk) as Hfr.
  rewrite Hrun in Hfr. cbn in Hfr. rewrite Hfr. by eapply Hm.
Qed.

End holds.

Lemma info_holds_run k v (m : InfoM unit) info :
  info_holds k v m → info_run m = Ok info → dict_get k info = Some v.
Proof.
  intros Hm. unfold info_run. destruct (m []) as [[[]|e] info'] eqn:Em; [|done].
  intros [= <-]. by eapply Hm.
Qed.

(** ** Two runs side by side *)

Lemma agree_off_refl ks info : agree_off ks info info.
Proof. done. Qed.

(** An equivalence coarser than equality: it sees neither the values under
    [ks] nor the order of the keys. *)
#[export] Instance agree_off_equivalence ks : Equivalence (agree_off ks).
Proof.
  split; [by intros info k|..].
  - intros i1 i2 Hi k Hk. symmetry. by apply Hi.
  - intros i1 i2 i3 H12 H23 k Hk. etrans; [by apply H12|by apply H23].
Qed.

(** The more keys are set apart, the coarser. *)
Lemma agree_off_mono ks ks' i1 i2 :
  ks ⊆ ks' → agree_off ks i1 i2 → agree_off ks' i1 i2.
Proof. intros Hks Hi k Hk. apply Hi. intros ?. by apply Hk, Hks. Qed.


Lemma agree_off_set ks k v1 v2 i1 i2 :
  agree_off ks i1 i2 → k ∈ ks ∨ v1 = v2 →
  agree_off ks (dict_set k v1 i1) (dict_set k v2 i2).
Proof.
  intros Hi Hk k' Hk'. rewrite !dict_get_set. case_decide; [|by apply Hi].
  destruct Hk as [Hk| ->]; [by subst|done].
Qed.

Lemma agree_off_set_r ks k v i1 i2 :
  agree_off ks i1 i2 → k ∈ ks → agree_off ks i1 (dict_set k v i2).
Proof.
  intros Hi Hk k' Hk'. rewrite dict_get_set_ne; [by apply Hi|]. by intros ->.
Qed.

(** An assignment respects the equivalence, whatever its key. *)
#[export] Instance dict_set_agree_off ks k v :
  Proper (agree_off ks ==> agree_off ks) (dict_set k v).
Proof. intros i1 i2 Hi. apply agree_off_set; auto. Qed.

Section sim.
Context {A B : Type}.
Implicit Types (ks : list string).

Lemma info_sim_ret ks (a : A) : info_sim ks (st_ret a) (st_ret a).
Proof. by intros i1 i2 Hi. Qed.

Lemma info_sim_lift ks (r : Res A) : info_sim ks (st_lift r) (st_lift r).
Proof. by intros i1 i2 Hi. Qed.

Lemma info_sim_set ks k v : info_sim ks (info_set k v) (info_set k v).
Proof. intros i1 i2 Hi. split; [done|]. apply agree_off_set; auto. Qed.

(** Reading a key outside [ks] gives the same in both. *)
Lemma info_sim_get ks k : k ∉ ks → info_sim ks (info_get k) (info_get k).
Proof. intros Hk i1 i2 Hi. split; [cbn; by rewrite (Hi k Hk)|done]. Qed.

Lemma info_sim_bind ks (m1 m2 : InfoM A) (f1 f2 : A → InfoM B) :
  info_sim ks m1 m2 → (∀ a, info_sim ks (f1 a) (f2 a)) →
  info_sim ks (st_bind m1 f1) (st_bind m2 f2).
Proof.
  intros Hm Hf i1 i2 Hi. unfold st_bind. destruct (Hm i1 i2 Hi) as [E1 E2].
  destruct (m1 i1) as [r1 j1], (m2 i2) as [r2 j2]. cbn in *. subst r2.
  destruct r1 as [a|e]; [by apply Hf|done].
Qed.

Lemma info_sim_try ks (m1 m2 : InfoM A) p (h1 h2 : Exn → InfoM A) :
  info_sim ks m1 m2 → (∀ e, info_sim ks (h1 e) (h2 e)) →
  info_sim ks (st_try m1 p h1) (st_try m2 p h2).
Proof.
  intros Hm Hh i1 i2 Hi. unfold st_try. destruct (Hm i1 i2 Hi) as [E1 E2].
  destruct (m1 i1) as [r1 j1], (m2 i2) as [r2 j2]. cbn in *. subst r2.
  destruct r1 as [a|e]; [done|]. destruct (p e); [by apply Hh|done].
Qed.

(** An assignment to a key of [ks], in one of the two. *)
Lemma info_sim_set_r ks k v (m1 m2 : InfoM A) :
  k ∈ ks → info_sim ks m1 m2 →
  info_sim ks m1 (st_bind (info_set k v) (λ _, m2)).
Proof. intros Hk Hm i1 i2 Hi. by apply Hm, agree_off_set_r. Qed.

(** Assignments of two values to a key of [ks]. *)
Lemma info_sim_set_in ks k v1 v2 :
  k ∈ ks → info_sim ks (info_set k v1) (info_set k v2).
Proof. intros Hk i1 i2 Hi. split; [done|]. apply agree_off_set; auto. Qed.

(** [info_sim ks] is a partial equivalence, and the constructs of the
    monad respect it. *)
#[export] Instance info_sim_symmetric ks : Symmetric (@info_sim ks A).
Proof.
  intros m1 m2 Hm i2 i1 Hi. symmetry in Hi.
  destruct (Hm i1 i2 Hi) as [E1 E2]. by split.
Qed.

#[export] Instance info_sim_transitive ks : Transitive (@info_sim ks A).
Proof.
  intros m1 m2 m3 H12 H23 i1 i3 Hi.
  destruct (H12 i1 i3 Hi) as [E1 E2], (H23 i3 i3 (agree_off_refl _ _)) as [E3 E4].
  split; [congruence|by etrans].
Qed.

#[export] Instance st_bind_info_sim ks :
  Proper (info_sim ks ==> pointwise_relation A (info_sim ks) ==> info_sim ks)
    (@st_bind Info A B).
Proof. intros m1 m2 Hm f1 f2 Hf. by apply info_sim_bind. Qed.

#[export] Instance st_try_info_sim ks :
  Proper (info_sim ks ==> eq ==> pointwise_relation Exn (info_sim ks)
            ==> info_sim ks) (@st_try Info A).
Proof. intros m1 m2 Hm p ? <- h1 h2 Hh. by apply info_sim_try. Qed.

End sim.

(** A block that cannot raise and assigns only to keys of [ks], against
    nothing at all. *)
Lemma info_sim_pass ks (m : InfoM unit) :
  info_total m → info_writes ks m → info_sim ks m st_pass.
Proof.
  intros Ht Hw i1 i2 Hi. pose proof (Ht i1) as Hok. split.
  - destruct (m i1) as [[[]|e] j1]; by cbn in *.
  - intros k Hk. rewrite (info_writes_frame ks m i1 k Hw Hk). by apply Hi.
Qed.

(** The functions of two blocks that go side by side raise the same
    exception or return records that agree outside [ks]. *)
Lemma info_sim_run_cases ks (m1 m2 : InfoM unit) :
  info_sim ks m1 m2 →
  match info_run m1, info_run m2 with
  | Ok info1, Ok info2 => agree_off ks info1 info2
  | Raise e1, Raise e2 => e1 = e2
  | _, _ => False
  end.
Proof.
  intros Hm. unfold info_run. destruct (Hm [] [] (agree_off_refl _ _)) as [E1 E2].
  destruct (m1 []) as [r1 j1], (m2 []) as [r2 j2]. cbn in *. subst r2.
  by destruct r1 as [[]|e].
Qed.

Lemma info_sim_run ks (m1 m2 : InfoM unit) info1 :
  info_sim ks m1 m2 → info_run m1 = Ok info1 →
  ∃ info2, info_run m2 = Ok info2 ∧ agree_off ks info1 info2.
Proof.
  intros Hc%info_sim_run_cases Hr. rewrite Hr in Hc.
  destruct (info_run m2) as [info2|]; [by exists info2|done].
Qed.

(** Membership in a list of keys that is written out. *)
Ltac key_in :=
  first [ by apply (bool_decide_unpack _)
        | by repeat first [apply list_elem_of_here | apply list_elem_of_further] ].

(** The database [plain]: what makes a value plain. *)
Create HintDb plain discriminated.

Lemma plain_opt_str s : plain (opt_str s) = true.
Proof. by destruct s. Qed.

Lemma plain_opt_int z : plain (opt_int z) = true.
Proof. by destruct z. Qed.

Lemma plain_opt_datetime d : plain (opt_datetime d) = true.
Proof. by destruct d. Qed.

#[export] Hint Resolve plain_opt_str plain_opt_int plain_opt_datetime : plain.

(** The value of a conditional expression: the value of one of its
    branches. *)
Ltac plain_hyp :=
  repeat match goal with
  | H : (if ?b then _ else _) = Ok _ |- _ => destruct b
  | H : res_bind _ _ = Ok _ |- _ =>
      apply res_bind_ok_inv in H as (? & ? & H); cbv beta in H
  end;
  simplify_eq.

Ltac plain_tac :=
  first [ done | solve [eauto with plain]
        | solve [plain_hyp; first [done | eauto with plain]] ].

(** [info_writes]: along the structure of the block. *)
Ltac info_writes_tac :=
  repeat first
    [ assumption
    | apply info_writes_ret
    | apply info_writes_lift
    | apply info_writes_get
    | apply info_writes_set; [key_in|plain_tac]
    | apply info_writes_bind_lift; intros ? ?
    | apply info_writes_bind; [|intros ?]
    | apply info_writes_try; [|intros ?]
    | match goal with
      | |- info_writes _ (match ?x with _ => _ end) => destruct x
      end ].

(** [info_total] of a sequence of assignments and [try] blocks. *)
Ltac info_total_tac :=
  repeat first
    [ apply st_total_ret
    | apply info_total_set
    | apply info_total_get
    | apply st_total_try; intros ?
    | apply st_total_bind; [|intros ?]
    | match goal with
      | |- info_total (match ?x with _ => _ end) => destruct x
      end ].

(** [info_assigns]: every branch ends with the assignment. *)
Ltac info_assigns_tac :=
  repeat first
    [ apply info_assigns_set
    | apply info_assigns_try; [|intros ?]
    | apply info_assigns_bind; intros ?
    | match goal with
      | |- info_assigns _ (match ?x with _ => _ end) => destruct x
      end ].

(** [info_sim] of a block with itself: it reads no key of [ks]. *)
Ltac info_sim_tac :=
  repeat lazymatch goal with
  | H : info_sim ?ks ?m1 ?m2 |- info_sim ?ks ?m1 ?m2 => exact H
  | |- info_sim _ (st_ret _) _ => apply info_sim_ret
  | |- info_sim _ st_pass _ => apply info_sim_ret
  | |- info_sim _ (st_lift _) _ => apply info_sim_lift
  | |- info_sim _ (info_set _ _) _ => apply info_sim_set
  | |- info_sim _ (info_get _) _ =>
      apply info_sim_get; first [assumption|by apply (bool_decide_unpack _)]
  | |- info_sim _ (st_try _ _ _) _ => apply info_sim_try; [|intros ?]
  | |- info_sim _ (st_bind _ _) _ => apply info_sim_bind; [|intros ?]
  | |- info_sim _ (match ?x with _ => _ end) _ => destruct x
  end.

(** [info_sets]: assignments and expressions in a row. *)
Ltac info_sets_tac :=
  repeat first
    [ apply info_sets_set; plain_tac
    | apply info_sets_lift_bind; intros ? ?
    | apply info_sets_set_bind; [plain_tac|] ].

(** One block after the other, the keys of each from its lemma. *)
Ltac info_seq_tac block :=
  repeat lazymatch goal with
  | |- info_adds_given _ _ (st_bind _ _) =>
      eapply info_adds_given_seq; [solve [block]|]
  end;
  solve [block].

(** The keys a block counts on are among those written out. *)
Ltac keys_in :=
  repeat first [apply Forall_nil_2 | apply Forall_cons_2; [key_in|]].

(** A [try] block that assigns to one key on every path. *)
Ltac info_single_tac :=
  apply info_adds_given_single;
  [info_total_tac | info_writes_tac | info_assigns_tac].

(** Defaults, then a [try] block that assigns to their keys. *)
Ltac info_defaults_tac :=
  repeat (apply info_adds_given_set; [plain_tac|]);
  apply info_adds_given_writes; [info_total_tac | info_writes_tac].
