(* ===== verification/AnalysisInfo.v ===== *)
(** * The record of one analysis: [extract_analysis_info]

    [examples/extract_analyses.py] turns an [AFAnalysis] object into a
    dictionary, field by field.  Each group of fields is a block of the
    source, an assignment of defaults followed by a [try] whose handler
    keeps what was assigned; each block is one definition here, in [InfoM],
    statement by statement.  [extract_analysis_info] and
    [extract_analysis_info_raw] are the two sequences of these blocks: the
    text of the blocks is the same in both functions, the raw one adds the
    name of the database and leaves the roll-up fields empty.

    A property of an SDK object is a slot; a method without arguments
    ([GetPath()], [GetConfiguration()]) is a slot under its name, holding
    what the call returns or raises.  An argument of a log line is
    formatted before [log_verbose] is called, verbose or not: formatting an
    SDK object calls its [ToString] and can raise ([log_fmt]); formatting a
    string, a number or [None] cannot, and such lines are left out. *)

From stdpp Require Import base tactics numbers option list strings.
From S2P Require Import Prelude PyStr PyObj State Info Analyses.

#[global] Set Warnings "-clear-no-such-hyp,-register-all".

#[local] Open Scope st_scope.

Section blocks.
Context `{!Builtins}.

(** [safe_str(v)] as a value of the record *)
Definition safe_str_obj (v : Obj) : Res Obj :=
  (s ← safe_str v; Ok (opt_str s))%py.

(** An argument of an f-string *)
Definition log_fmt (v : Obj) : Res unit := (_ ← py_str v; Ok tt)%py.

(** [x or ""] for a field that holds a string or [None] *)
Definition str_or_empty (v : Obj) : string :=
  match v with OStr s => s | _ => "" end.

(** Lines 478-480: the three fields read outside any [try]. *)
Definition basic_identification (analysis : Obj) : InfoM unit :=
  name ⇐ getattr analysis "Name";
  name ⇐ safe_str_obj name;
  info_set "Name" name;;
  has_id ⇐ hasattr analysis "ID";
  id ⇐ (if has_id then (v ← getattr analysis "ID"; safe_str_obj v)%py
        else Ok ONone);
  info_set "Id" id;;
  d ⇐ getattr analysis "Description";
  t ⇐ truthy d;
  description ⇐ (if t then (d ← getattr analysis "Description"; safe_str_obj d)%py
                 else Ok ONone);
  info_set "Description" description.

(** The shape of three blocks: the name of a linked object, under a key.
    [try: if hasattr(analysis, link) and analysis.link:
            info[key] = safe_str(analysis.link.attr)
          else: info[key] = None
     except Exception: info[key] = None] *)
Definition linked_name_block (analysis : Obj) (link attr key : string)
    : InfoM unit :=
  st_try
    (l ⇐ attr_if_true analysis link;
     if l is Some _ then
       linked ⇐ getattr analysis link;
       v ⇐ getattr linked attr;
       s ⇐ safe_str_obj v;
       info_set key s
     else info_set key ONone)
    any_exception (λ _, info_set key ONone).

(** Lines 483-489 *)
Definition plugin_name_block (analysis : Obj) : InfoM unit :=
  linked_name_block analysis "AnalysisRulePlugIn" "Name" "AnalysisRulePlugInName".

(** Line 492 *)
Definition analysis_type_step : InfoM unit :=
  v ← info_get "AnalysisRulePlugInName";
  info_set "AnalysisType" v.

(** Lines 495-501; [GetPath()] is a call. *)
Definition element_path_block (analysis : Obj) : InfoM unit :=
  linked_name_block analysis "Target" "GetPath" "ElementPath".

(** Lines 504-506 *)
Definition plant_step : InfoM unit :=
  ep ← info_get "ElementPath";
  t ⇐ truthy ep;
  let element_path := str_or_empty (if t then ep else OStr "") in
  plant_name ⇐ extract_plant_name element_path;
  info_set "PlantName" (opt_str plant_name);;
  plant_category ⇐ determine_plant_category element_path;
  info_set "PlantCategory" (opt_int plant_category).

(** Lines 509-515 *)
Definition template_name_block (analysis : Obj) : InfoM unit :=
  linked_name_block analysis "Template" "Name" "TemplateName".

(** Lines 524-530: the template name inside a configuration string. *)
Definition eft_name_of (config_str : option string) : InfoM unit :=
  match config_str with
  | Some s =>
      if bool_decide (s ≠ "") && str_contains "EFTNAME=" s then
        parts ⇐ str_split "EFTNAME=" s;
        if decide (1 < length parts) then
          p1 ⇐ res_of_option IndexError (parts !! 1);
          sub ⇐ str_split ";" p1;
          eft_name ⇐ res_of_option IndexError (sub !! 0);
          info_set "EventFrameTemplateName" (OStr eft_name)
        else st_pass
      else st_pass
  | None => st_pass
  end.

(** Lines 518-532 *)
Definition eft_name_block (analysis : Obj) : InfoM unit :=
  info_set "EventFrameTemplateName" ONone;;
  st_try
    (r ⇐ attr_if_true analysis "AnalysisRule";
     if r is Some _ then
       ar ⇐ getattr analysis "AnalysisRule";
       has ⇐ hasattr ar "ConfigString";
       if has then
         cs ⇐ getattr ar "ConfigString";
         config_str ⇐ safe_str cs;
         eft_name_of config_str
       else st_pass
     else st_pass)
    any_exception (λ _, st_pass).

(** Lines 535-541 *)
Definition config_expression_block (analysis : Obj) : InfoM unit :=
  st_try
    (r ⇐ attr_if_true analysis "AnalysisRule";
     if r is Some _ then
       ar ⇐ getattr analysis "AnalysisRule";
       has ⇐ hasattr ar "ConfigString";
       v ⇐ (if has then
              (ar ← getattr analysis "AnalysisRule";
               cs ← getattr ar "ConfigString";
               safe_str_obj cs)%py
            else Ok ONone);
       info_set "ConfigExpression" v
     else info_set "ConfigExpression" ONone)
    any_exception (λ _, info_set "ConfigExpression" ONone).

(** [status_str == "Enabled" if status_str else None] *)
Definition is_enabled_of (status_str : option string) : Obj :=
  match status_str with
  | Some s => if bool_decide (s ≠ "") then OBool (bool_decide (s = "Enabled"))
              else ONone
  | None => ONone
  end.

(** Lines 544-556 *)
Definition is_enabled_block (analysis : Obj) : InfoM unit :=
  st_try
    (has ⇐ hasattr analysis "Status";
     if has then
       status ⇐ getattr analysis "Status";
       status_str ⇐ safe_str status;
       info_set "IsEnabled" (is_enabled_of status_str)
     else info_set "IsEnabled" ONone)
    any_exception (λ _, info_set "IsEnabled" ONone).

(** Lines 559-570 *)
Definition schedule_type_block (analysis : Obj) : InfoM unit :=
  st_try
    (r ⇐ attr_if_true analysis "TimeRule";
     if r is Some _ then
       tr ⇐ getattr analysis "TimeRule";
       p ⇐ attr_if_true tr "TimeRulePlugIn";
       if p is Some _ then
         plugin ⇐ getattr tr "TimeRulePlugIn";
         name ⇐ getattr plugin "Name";
         s ⇐ safe_str_obj name;
         info_set "ScheduleType" s
       else
         has ⇐ hasattr tr "Name";
         s ⇐ (if has then (name ← getattr tr "Name"; safe_str_obj name)%py
              else Ok ONone);
         info_set "ScheduleType" s
     else info_set "ScheduleType" ONone)
    any_exception (λ _, info_set "ScheduleType" ONone).

(** Lines 598-604 and 610-615: a duration is kept when it is true and, if
    it has [TotalSeconds], when they are positive.  [logged] says whether
    the source formats the total into a log line. *)
Definition duration_step (key : string) (raw : Obj) (logged : bool)
    : InfoM unit :=
  has ⇐ hasattr raw "TotalSeconds";
  if has then
    total_seconds ⇐ getattr raw "TotalSeconds";
    _ ⇐ (if logged then log_fmt total_seconds else Ok tt);
    positive ⇐ py_gt_zero total_seconds;
    if positive then (s ⇐ safe_str_obj raw; info_set key s) else st_pass
  else (s ⇐ safe_str_obj raw; info_set key s).

(** Lines 593-606: [TrueFor] *)
Definition true_for_step (ar : Obj) : InfoM unit :=
  has ⇐ hasattr ar "TrueFor";
  if has then
    true_for_raw ⇐ getattr ar "TrueFor";
    _ ⇐ log_fmt true_for_raw;
    t ⇐ truthy true_for_raw;
    if t then duration_step "TrueFor" true_for_raw true else st_pass
  else st_pass.

(** Lines 608-615: [TrueForEnding] *)
Definition true_for_ending_step (ar : Obj) : InfoM unit :=
  e ⇐ attr_if_true ar "TrueForEnding";
  if e is Some _ then
    true_for_ending ⇐ getattr ar "TrueForEnding";
    duration_step "TrueForEnding" true_for_ending false
  else st_pass.

(** Lines 622-628, and 352-358 in the raw function: [Severity] of the
    rule *)
Definition rule_severity_step (ar : Obj) : InfoM unit :=
  has ⇐ hasattr ar "Severity";
  if has then
    severity_raw ⇐ getattr ar "Severity";
    _ ⇐ log_fmt severity_raw;
    t ⇐ truthy severity_raw;
    if t then (s ⇐ safe_str_obj severity_raw; info_set "Severity" s)
    else st_pass
  else st_pass.

(** Lines 638-648, and 368-378 in the raw function: the configuration of
    an event frame rule, in a [try] of its own. *)
Definition rule_configuration_step (ar : Obj) : InfoM unit :=
  st_try
    (config ⇐ getattr ar "GetConfiguration";
     t ⇐ truthy config;
     has ⇐ (if t then hasattr config "TrueFor" else Ok false);
     (if has then
        v ⇐ getattr config "TrueFor";
        s ⇐ safe_str_obj v;
        info_set "TrueFor" s
      else st_pass);;
     t ⇐ truthy config;
     has ⇐ (if t then hasattr config "Severity" else Ok false);
     if has then
       v ⇐ getattr config "Severity";
       s ⇐ safe_str_obj v;
       info_set "Severity" s
     else st_pass)
    any_exception (λ _, st_pass).

(** Lines 631-648, and 361-378 in the raw function: the plug-in of the
    rule *)
Definition rule_plugin_step (ar : Obj) : InfoM unit :=
  p ⇐ attr_if_true ar "PlugIn";
  if p is Some _ then
    plugin ⇐ getattr ar "PlugIn";
    has ⇐ hasattr plugin "Name";
    plugin_name ⇐ (if has then (n ← getattr plugin "Name"; safe_str n)%py
                   else Ok None);
    match plugin_name with
    | Some s =>
        if bool_decide (s ≠ "") && str_contains "EventFrame" s then
          if has_method ar "GetConfiguration" then rule_configuration_step ar
          else st_pass
        else st_pass
    | None => st_pass
    end
  else st_pass.

(** Lines 573-652 *)
Definition rule_properties_block (analysis : Obj) : InfoM unit :=
  info_set "StartTrigger" ONone;;
  info_set "EndTrigger" ONone;;
  info_set "TrueFor" ONone;;
  info_set "TrueForEnding" ONone;;
  info_set "Severity" ONone;;
  st_try
    (r ⇐ attr_if_true analysis "AnalysisRule";
     if r is Some _ then
       ar ⇐ getattr analysis "AnalysisRule";
       has ⇐ hasattr ar "Expression";
       (if has then
          v ⇐ getattr ar "Expression";
          s ⇐ safe_str_obj v;
          info_set "StartTrigger" s
        else st_pass);;
       true_for_step ar;;
       true_for_ending_step ar;;
       has ⇐ hasattr ar "EndExpression";
       (if has then
          v ⇐ getattr ar "EndExpression";
          s ⇐ safe_str_obj v;
          info_set "EndTrigger" s
        else st_pass);;
       rule_severity_step ar;;
       rule_plugin_step ar
     else st_pass)
    any_exception (λ _, st_pass).

(** Lines 662-665, and 392-395 in the raw function:
    [len(list(x)) if x else 0] under [key], when the rule has [attr]. *)
Definition count_step (ar : Obj) (attr key : string) : InfoM unit :=
  has ⇐ hasattr ar attr;
  if has then
    v ⇐ getattr ar attr;
    t ⇐ truthy v;
    n ⇐ (if t then (v ← getattr ar attr; py_len_list v)%py else Ok 0%Z);
    info_set key (OInt n)
  else st_pass.

(** Lines 657-667 *)
Definition counts_block (analysis : Obj) : InfoM unit :=
  info_set "InputCount" (OInt 0);;
  info_set "OutputCount" (OInt 0);;
  st_try
    (r ⇐ attr_if_true analysis "AnalysisRule";
     if r is Some _ then
       ar ⇐ getattr analysis "AnalysisRule";
       count_step ar "VariableMapping" "InputCount";;
       count_step ar "Outputs" "OutputCount"
     else st_pass)
    any_exception (λ _, st_pass).

(** [if hasattr(o, attr): info[key] = safe_str(o.attr)] *)
Definition copy_step (o : Obj) (attr key : string) : InfoM unit :=
  has ⇐ hasattr o attr;
  if has then (v ⇐ getattr o attr; s ⇐ safe_str_obj v; info_set key s)
  else st_pass.

(** Lines 670-673, and 400-403 in the raw function: the roll-up fields,
    empty. *)
Definition rollup_defaults : InfoM unit :=
  info_set "RollupType" ONone;;
  info_set "RollupSource" ONone;;
  info_set "RollupInputAttribute" ONone;;
  info_set "RollupOutputAttribute" ONone.

(** Lines 674-682: the roll-up fields of the rule; not in the raw
    function. *)
Definition rollup_block (analysis : Obj) : InfoM unit :=
  st_try
    (r ⇐ attr_if_true analysis "AnalysisRule";
     if r is Some _ then
       ar ⇐ getattr analysis "AnalysisRule";
       copy_step ar "RollupType" "RollupType";;
       copy_step ar "RollupSource" "RollupSource"
     else st_pass)
    any_exception (λ _, st_pass).

(** Lines 685-690: the severity of the analysis, when the rule gave
    none. *)
Definition severity_fallback_block (analysis : Obj) : InfoM unit :=
  sev ← info_get "Severity";
  if is_None sev then
    st_try
      (s ⇐ attr_if_true analysis "Severity";
       if s is Some _ then
         v ⇐ getattr analysis "Severity";
         s ⇐ safe_str_obj v;
         info_set "Severity" s
       else st_pass)
      any_exception (λ _, st_pass)
  else st_pass.

(** Lines 693-696 *)
Definition version_block (analysis : Obj) : InfoM unit :=
  st_try
    (has ⇐ hasattr analysis "Version";
     n ⇐ (if has then (v ← getattr analysis "Version"; py_int v)%py
          else Ok 0%Z);
     info_set "Version" (OInt n))
    any_exception (λ _, info_set "Version" (OInt 0)).

(** [if hasattr(analysis, attr) and analysis.attr:
       info[key] = convert_net_datetime(analysis.attr.LocalTime)] *)
Definition date_step (analysis : Obj) (attr key : string) : InfoM unit :=
  d ⇐ attr_if_true analysis attr;
  if d is Some _ then
    date ⇐ getattr analysis attr;
    local_time ⇐ getattr date "LocalTime";
    converted ⇐ convert_net_datetime local_time;
    info_set key (opt_datetime converted)
  else st_pass.

(** Lines 699-710 *)
Definition checkout_block (analysis : Obj) : InfoM unit :=
  info_set "IsCheckedOut" (OBool false);;
  info_set "CheckedOutBy" ONone;;
  info_set "CheckedInDate" ONone;;
  st_try
    (has ⇐ hasattr analysis "IsCheckedOut";
     (if has then
        v ⇐ getattr analysis "IsCheckedOut";
        b ⇐ truthy v;
        info_set "IsCheckedOut" (OBool b)
      else st_pass);;
     copy_step analysis "CheckedOutBy" "CheckedOutBy";;
     date_step analysis "CheckedInDate" "CheckedInDate")
    any_exception (λ _, st_pass).

(** Lines 713-716 *)
Definition is_dirty_block (analysis : Obj) : InfoM unit :=
  st_try
    (has ⇐ hasattr analysis "IsDirty";
     b ⇐ (if has then (v ← getattr analysis "IsDirty"; truthy v)%py
          else Ok false);
     info_set "IsDirty" (OBool b))
    any_exception (λ _, info_set "IsDirty" (OBool false)).

(** Lines 719-733 *)
Definition creation_block (analysis : Obj) : InfoM unit :=
  info_set "CreateDate" ONone;;
  info_set "CreatedBy" ONone;;
  info_set "ModifyDate" ONone;;
  info_set "ModifiedBy" ONone;;
  st_try
    (date_step analysis "CreationDate" "CreateDate";;
     copy_step analysis "CreatedBy" "CreatedBy";;
     date_step analysis "ModifyDate" "ModifyDate";;
     copy_step analysis "ModifiedBy" "ModifiedBy")
    any_exception (λ _, st_pass).

(** Lines 685-733, and 406-454 in the raw function: the blocks that follow
    the roll-up fields. *)
Definition late_blocks (analysis : Obj) : InfoM unit :=
  severity_fallback_block analysis;;
  version_block analysis;;
  checkout_block analysis;;
  is_dirty_block analysis;;
  creation_block analysis.

(** The blocks between the identification and the time of extraction, as
    both functions have them; [rollup] is the roll-up block of the full
    function, and nothing in the raw one. *)
Definition analysis_blocks (analysis : Obj) (rollup : InfoM unit)
    : InfoM unit :=
  plugin_name_block analysis;;
  analysis_type_step;;
  element_path_block analysis;;
  plant_step;;
  template_name_block analysis;;
  eft_name_block analysis;;
  config_expression_block analysis;;
  is_enabled_block analysis;;
  schedule_type_block analysis;;
  rule_properties_block analysis;;
  counts_block analysis;;
  rollup_defaults;;
  rollup;;
  late_blocks analysis.

(** [extract_analysis_info(analysis, sdk, extraction_time, conn)]; [sdk]
    and [conn] are not used by the function. *)
Definition extract_analysis_info (analysis : Obj) (extraction_time : string)
    : Res Info :=
  info_run
    (basic_identification analysis;;
     analysis_blocks analysis (rollup_block analysis);;
     info_set "ExtractedAt" (OStr extraction_time)).

(** [extract_analysis_info_raw(analysis, sdk, extraction_time,
    database_name)] *)
Definition extract_analysis_info_raw (analysis : Obj)
    (extraction_time database_name : string) : Res Info :=
  info_run
    (basic_identification analysis;;
     info_set "DatabaseName" (OStr database_name);;
     analysis_blocks analysis st_pass;;
     info_set "ExtractedAt" (OStr extraction_time)).

End blocks.

(** The keys of the record, in the order of the first assignment. *)
Definition identification_keys : list string := ["Name"; "Id"; "Description"].

Definition block_keys : list string :=
  ["AnalysisRulePlugInName"; "AnalysisType"; "ElementPath"; "PlantName";
   "PlantCategory"; "TemplateName"; "EventFrameTemplateName";
   "ConfigExpression"; "IsEnabled"; "ScheduleType"; "StartTrigger";
   "EndTrigger"; "TrueFor"; "TrueForEnding"; "Severity"; "InputCount";
   "OutputCount"; "RollupType"; "RollupSource"; "RollupInputAttribute";
   "RollupOutputAttribute"; "Version"; "IsCheckedOut"; "CheckedOutBy";
   "CheckedInDate"; "IsDirty"; "CreateDate"; "CreatedBy"; "ModifyDate";
   "ModifiedBy"].

Definition analysis_info_keys : list string :=
  identification_keys ++ block_keys ++ ["ExtractedAt"].

Definition analysis_info_raw_keys : list string :=
  identification_keys ++ ["DatabaseName"] ++ block_keys ++ ["ExtractedAt"].

(** ** What the blocks assign, said directly *)

(** The name of the event frame template in a configuration string, by
    [find]: the text after the first [EFTNAME=], up to the next [;] or the
    next [EFTNAME=] or the end. *)
Definition eft_name_ref (config_str : string) : option string :=
  (λ rest, str_until ";" (str_until "EFTNAME=" rest))
    <$> str_after "EFTNAME=" config_str.

Section values_said.
Context `{!Builtins}.

(** The name of a linked object: [None] unless the link is there and true
    and the name can be read. *)
Definition linked_name (analysis : Obj) (link attr : string) : Obj :=
  match attr_if_true analysis link with
  | Ok (Some linked) =>
      match getattr linked attr with
      | Ok v => if is_None v then ONone
                else match py_str v with Ok s => OStr s | Raise _ => ONone end
      | Raise _ => ONone
      end
  | _ => ONone
  end.

End values_said.

(** The keys of the blocks that follow the roll-up fields. *)
Definition late_keys : list string :=
  ["Severity"; "Version"; "IsCheckedOut"; "CheckedOutBy"; "CheckedInDate";
   "IsDirty"; "CreateDate"; "CreatedBy"; "ModifyDate"; "ModifiedBy"].

Definition rollup_keys : list string :=
  ["RollupType"; "RollupSource"; "RollupInputAttribute";
   "RollupOutputAttribute"].

(** The keys on which the two functions may differ. *)
Definition raw_differs : list string :=
  ["DatabaseName"; "RollupType"; "RollupSource"].

(** The keys that the blocks read back from the record ([info.get]). *)
Definition keys_read : list string :=
  ["AnalysisRulePlugInName"; "ElementPath"; "Severity"].

(** The keys that hold the arguments of a run: the database and the time
    of extraction. *)
Definition run_keys : list string := ["DatabaseName"; "ExtractedAt"].

(** ** An analysis to run the functions on *)

(** A .NET object whose text is [s]. *)
Definition ex_net (s : string) : Obj := ONet [("ToString", SVal (OStr s))].

Definition ex_named (name : string) : Obj := ONet [("Name", SVal (OStr name))].

(** An event frame rule; its plug-in has no [GetConfiguration]. *)
Definition ex_rule : Obj :=
  ONet [("ConfigString", SVal (OStr "MODE=AUTO;EFTNAME=Trip;SEVERITY=2"));
        ("Expression", SVal (OStr "'Power' > 100"));
        ("TrueFor", SVal (ONet [("ToString", SVal (OStr "00:05:00"));
                                ("TotalSeconds", SVal (OInt 300))]));
        ("EndExpression", SVal (OStr "'Power' < 90"));
        ("Severity", SVal (ex_net "Warning"));
        ("PlugIn", SVal (ex_named "EventFrame"));
        ("VariableMapping", SVal (OList [OStr "Power"; OStr "Speed"]));
        ("Outputs", SVal (OList [OStr "Trip"]))].

(** An analysis whose [ModifiedBy] cannot be read: the server answers with
    an error. *)
Definition ex_analysis : Obj :=
  ONet [("Name", SVal (OStr "Turbine trip"));
        ("ID", SVal (ex_net "6f1c2d3e"));
        ("Description", SVal (OStr ""));
        ("AnalysisRulePlugIn", SVal (ex_named "EventFrame"));
        ("Target", SVal (ONet [("GetPath",
            SVal (OStr "\\SRV\DB\Hydro\Plant A\Unit 1"))]));
        ("AnalysisRule", SVal ex_rule);
        ("Status", SVal (ex_net "Enabled"));
        ("TimeRule", SVal (ONet [("TimeRulePlugIn", SVal (ex_named "Periodic"))]));
        ("Version", SVal (OInt 3));
        ("IsCheckedOut", SVal (OBool false));
        ("CreationDate", SVal (ONet [("LocalTime",
            SVal (net_datetime_of 2024 3 5 10 30 0 0))]));
        ("CreatedBy", SVal (OStr "admin"));
        ("ModifiedBy", SRaise (NetError "timeout"))].

(** A rule whose [TrueFor] has no text: [ToString] raises. *)
Definition ex_span_no_text : Obj :=
  ONet [("ToString", SRaise (NetError "format"));
        ("TotalSeconds", SVal (OInt 300))].

Definition ex_rule_no_text : Obj :=
  ONet [("Expression", SVal (OStr "'Power' > 100"));
        ("TrueFor", SVal ex_span_no_text);
        ("EndExpression", SVal (OStr "'Power' < 90"));
        ("Severity", SVal (ex_net "Warning"))].

Definition ex_analysis_no_text : Obj :=
  ONet [("Name", SVal (OStr "Turbine trip"));
        ("Description", SVal (OStr "Trip of the turbine"));
        ("AnalysisRule", SVal ex_rule_no_text)].

(** An analysis without a name. *)
Definition ex_nameless : Obj := ONet [("ID", SVal (ex_net "6f1c2d3e"))].

(** * Facts *)

(** ** The values the blocks assign are plain *)

Section values.
Context `{!Builtins}.

Lemma safe_str_obj_plain v s : safe_str_obj v = Ok s → plain s = true.
Proof.
  unfold safe_str_obj. destruct (safe_str_total v) as [r ->]. cbn.
  intros [= <-]. apply plain_opt_str.
Qed.

Lemma safe_str_obj_total v : ∃ s, safe_str_obj v = Ok s.
Proof.
  unfold safe_str_obj. destruct (safe_str_total v) as [r ->]. by eexists.
Qed.

Lemma is_enabled_of_plain s : plain (is_enabled_of s) = true.
Proof. destruct s as [s|]; [|done]. cbn. by case_bool_decide. Qed.

End values.

#[export] Hint Resolve safe_str_obj_plain is_enabled_of_plain : plain.

(** ** The keys each block adds *)

Section block_keys.
Context `{!Builtins}.
Implicit Types (analysis : Obj) (pre : list string).

Lemma linked_name_block_adds analysis link attr key pre :
  info_adds_given pre [key] (linked_name_block analysis link attr key).
Proof. unfold linked_name_block. info_single_tac. Qed.

Lemma analysis_type_step_adds pre :
  info_adds_given pre ["AnalysisType"] analysis_type_step.
Proof.
  apply info_adds_given_get. intros v Hv. by apply info_adds_given_last.
Qed.

(** The path read back from the record is a string or [None]: its truth
    value and the two functions of the path cannot raise. *)
Lemma plant_step_adds pre :
  info_adds_given pre ["PlantName"; "PlantCategory"] plant_step.
Proof.
  apply info_adds_given_get. intros ep Hep.
  destruct (plain_truthy ep Hep) as [t ->]. intros info Hinfo Hpre.
  rewrite st_bind_lift_ok. cbv zeta.
  destruct (extract_plant_name_total (str_or_empty (if t then ep else OStr "")))
    as [name ->].
  rewrite st_bind_lift_ok, determine_plant_category_spec.
  apply (info_adds_given_set pre _ _ ["PlantCategory"]); [plain_tac| |done..].
  intros info1 Hinfo1 Hpre1. rewrite st_bind_lift_ok.
  apply (info_adds_given_last ("PlantName" :: pre)); [plain_tac|done..].
Qed.

Lemma eft_name_block_adds analysis pre :
  info_adds_given pre ["EventFrameTemplateName"] (eft_name_block analysis).
Proof. unfold eft_name_block, eft_name_of. info_defaults_tac. Qed.

Lemma config_expression_block_adds analysis pre :
  info_adds_given pre ["ConfigExpression"] (config_expression_block analysis).
Proof. unfold config_expression_block. info_single_tac. Qed.

Lemma is_enabled_block_adds analysis pre :
  info_adds_given pre ["IsEnabled"] (is_enabled_block analysis).
Proof. unfold is_enabled_block. info_single_tac. Qed.

Lemma schedule_type_block_adds analysis pre :
  info_adds_given pre ["ScheduleType"] (schedule_type_block analysis).
Proof. unfold schedule_type_block. info_single_tac. Qed.

Lemma rule_properties_block_adds analysis pre :
  info_adds_given pre
    ["StartTrigger"; "EndTrigger"; "TrueFor"; "TrueForEnding"; "Severity"]
    (rule_properties_block analysis).
Proof.
  unfold rule_properties_block, true_for_step, true_for_ending_step,
    rule_severity_step, rule_plugin_step, rule_configuration_step,
    duration_step.
  info_defaults_tac.
Qed.

Lemma counts_block_adds analysis pre :
  info_adds_given pre ["InputCount"; "OutputCount"] (counts_block analysis).
Proof. unfold counts_block, count_step. info_defaults_tac. Qed.

Lemma rollup_defaults_adds pre :
  info_adds_given pre
    ["RollupType"; "RollupSource"; "RollupInputAttribute";
     "RollupOutputAttribute"] rollup_defaults.
Proof.
  unfold rollup_defaults.
  do 3 (apply info_adds_given_set; [plain_tac|]).
  by apply info_adds_given_last.
Qed.

Lemma rollup_block_adds analysis :
  info_adds_given ["RollupType"; "RollupSource"] [] (rollup_block analysis).
Proof.
  unfold rollup_block, copy_step.
  apply info_adds_given_writes; [info_total_tac | info_writes_tac].
Qed.

Lemma severity_fallback_block_adds analysis :
  info_adds_given ["Severity"] [] (severity_fallback_block analysis).
Proof.
  apply info_adds_given_get. intros sev _.
  apply info_adds_given_writes; [info_total_tac | info_writes_tac].
Qed.

Lemma version_block_adds analysis pre :
  info_adds_given pre ["Version"] (version_block analysis).
Proof. unfold version_block. info_single_tac. Qed.

Lemma checkout_block_adds analysis pre :
  info_adds_given pre ["IsCheckedOut"; "CheckedOutBy"; "CheckedInDate"]
    (checkout_block analysis).
Proof. unfold checkout_block, copy_step, date_step. info_defaults_tac. Qed.

Lemma is_dirty_block_adds analysis pre :
  info_adds_given pre ["IsDirty"] (is_dirty_block analysis).
Proof. unfold is_dirty_block. info_single_tac. Qed.

Lemma creation_block_adds analysis pre :
  info_adds_given pre ["CreateDate"; "CreatedBy"; "ModifyDate"; "ModifiedBy"]
    (creation_block analysis).
Proof. unfold creation_block, copy_step, date_step. info_defaults_tac. Qed.

(** A block that counts on keys: they have been added before it. *)
Lemma block_follows pre ks m pre' :
  info_adds_given pre ks m → Forall (λ k, k ∈ pre') pre →
  info_adds_given pre' ks m.
Proof. apply info_adds_given_weaken. Qed.

End block_keys.

(** The keys of a block, from its lemma. *)
Ltac block_adds :=
  idtac;
  lazymatch goal with
  | |- info_adds_given _ _ (plugin_name_block _) => apply linked_name_block_adds
  | |- info_adds_given _ _ (element_path_block _) => apply linked_name_block_adds
  | |- info_adds_given _ _ (template_name_block _) => apply linked_name_block_adds
  | |- info_adds_given _ _ analysis_type_step => apply analysis_type_step_adds
  | |- info_adds_given _ _ plant_step => apply plant_step_adds
  | |- info_adds_given _ _ (eft_name_block _) => apply eft_name_block_adds
  | |- info_adds_given _ _ (config_expression_block _) =>
      apply config_expression_block_adds
  | |- info_adds_given _ _ (is_enabled_block _) => apply is_enabled_block_adds
  | |- info_adds_given _ _ (schedule_type_block _) =>
      apply schedule_type_block_adds
  | |- info_adds_given _ _ (rule_properties_block _) =>
      apply rule_properties_block_adds
  | |- info_adds_given _ _ (counts_block _) => apply counts_block_adds
  | |- info_adds_given _ _ rollup_defaults => apply rollup_defaults_adds
  | |- info_adds_given _ _ (version_block _) => apply version_block_adds
  | |- info_adds_given _ _ (checkout_block _) => apply checkout_block_adds
  | |- info_adds_given _ _ (is_dirty_block _) => apply is_dirty_block_adds
  | |- info_adds_given _ _ (creation_block _) => apply creation_block_adds
  | |- info_adds_given _ _ (severity_fallback_block _) =>
      eapply block_follows; [apply severity_fallback_block_adds|keys_in]
  | |- info_adds_given _ _ (info_set _ _) =>
      apply info_adds_given_last; plain_tac
  | |- _ => eapply block_follows; [eassumption|keys_in]
  end.

Section record.
Context `{!Builtins}.
Implicit Types (analysis : Obj).

(** The blocks of both functions add [block_keys]; the roll-up block, whatever
    it is, counts on the two keys it may assign to. *)
Lemma analysis_blocks_adds analysis rollup :
  info_adds_given ["RollupType"; "RollupSource"] [] rollup →
  info_adds_given [] block_keys (analysis_blocks analysis rollup).
Proof.
  intros Hrollup. unfold analysis_blocks, late_blocks.
  eapply info_adds_given_keys; [info_seq_tac block_adds|reflexivity].
Qed.

Lemma basic_identification_sets analysis :
  info_sets identification_keys (basic_identification analysis).
Proof. unfold basic_identification. info_sets_tac. Qed.

(** Both functions: what the identification raises, or a plain record with
    the keys of the function. *)
Lemma extract_analysis_info_cases analysis extraction_time :
  match (basic_identification analysis []).1 with
  | Ok _ => ∃ info,
      extract_analysis_info analysis extraction_time = Ok info ∧
      dict_keys info = analysis_info_keys ∧ info_plain info
  | Raise e => extract_analysis_info analysis extraction_time = Raise e
  end.
Proof.
  apply (info_run_sets_adds identification_keys (block_keys ++ ["ExtractedAt"]));
    [apply basic_identification_sets|].
  eapply info_adds_given_seq; [|block_adds].
  eapply block_follows; [|keys_in]. apply analysis_blocks_adds.
  apply rollup_block_adds.
Qed.

Lemma extract_analysis_info_raw_cases analysis extraction_time database_name :
  match (basic_identification analysis []).1 with
  | Ok _ => ∃ info,
      extract_analysis_info_raw analysis extraction_time database_name
        = Ok info ∧
      dict_keys info = analysis_info_raw_keys ∧ info_plain info
  | Raise e =>
      extract_analysis_info_raw analysis extraction_time database_name
        = Raise e
  end.
Proof.
  apply (info_run_sets_adds identification_keys
    ("DatabaseName" :: block_keys ++ ["ExtractedAt"]));
    [apply basic_identification_sets|].
  apply info_adds_given_set; [done|].
  eapply info_adds_given_seq; [|block_adds].
  eapply block_follows; [|keys_in]. apply analysis_blocks_adds.
  apply info_adds_given_writes; [info_total_tac|info_writes_tac].
Qed.

(** The blocks read three keys back and no other: when [ks] holds none of
    them, with roll-up blocks that go side by side, the sequences do. *)
Lemma analysis_blocks_sim ks analysis rollup1 rollup2 :
  Forall (λ k, k ∉ ks) keys_read →
  info_sim ks rollup1 rollup2 →
  info_sim ks (analysis_blocks analysis rollup1)
    (analysis_blocks analysis rollup2).
Proof.
  intros Hread Hrollup.
  repeat (apply Forall_cons in Hread as [? Hread]).
  unfold analysis_blocks, late_blocks, plugin_name_block, element_path_block,
    template_name_block, linked_name_block, analysis_type_step, plant_step,
    eft_name_block, eft_name_of, config_expression_block, is_enabled_block,
    schedule_type_block, rule_properties_block, true_for_step,
    true_for_ending_step, rule_severity_step, rule_plugin_step,
    rule_configuration_step, duration_step, counts_block, count_step,
    rollup_defaults, severity_fallback_block, version_block, checkout_block,
    is_dirty_block, creation_block, copy_step, date_step.
  info_sim_tac.
Qed.

Lemma rollup_block_sim analysis :
  info_sim raw_differs (rollup_block analysis) st_pass.
Proof.
  apply info_sim_pass; unfold rollup_block, copy_step;
    [info_total_tac|info_writes_tac].
Qed.

(** The two functions side by side. *)
Lemma extract_analysis_info_sim analysis extraction_time database_name :
  info_sim raw_differs
    (basic_identification analysis;;
     analysis_blocks analysis (rollup_block analysis);;
     info_set "ExtractedAt" (OStr extraction_time))
    (basic_identification analysis;;
     info_set "DatabaseName" (OStr database_name);;
     analysis_blocks analysis st_pass;;
     info_set "ExtractedAt" (OStr extraction_time)).
Proof.
  f_equiv; [unfold basic_identification; info_sim_tac|intros _].
  apply info_sim_set_r; [key_in|].
  f_equiv; [|intros _; apply info_sim_set].
  apply analysis_blocks_sim; [|apply rollup_block_sim].
  by apply (bool_decide_unpack _).
Qed.

(** Two runs of the raw function on one analysis, side by side: the
    database and the time are assigned under their keys and read by no
    block. *)
Lemma extract_analysis_info_raw_sim ks analysis time1 time2 db1 db2 :
  Forall (λ k, k ∉ ks) keys_read → "ExtractedAt" ∈ ks →
  db1 = db2 ∨ "DatabaseName" ∈ ks →
  info_sim ks
    (basic_identification analysis;;
     info_set "DatabaseName" (OStr db1);;
     analysis_blocks analysis st_pass;;
     info_set "ExtractedAt" (OStr time1))
    (basic_identification analysis;;
     info_set "DatabaseName" (OStr db2);;
     analysis_blocks analysis st_pass;;
     info_set "ExtractedAt" (OStr time2)).
Proof.
  intros Hread Htime Hdb.
  f_equiv; [unfold basic_identification; info_sim_tac|intros _].
  f_equiv; [|intros _].
  { destruct Hdb as [->|?]; [apply info_sim_set|by apply info_sim_set_in]. }
  f_equiv; [|intros _; by apply info_sim_set_in].
  apply analysis_blocks_sim; [done|info_sim_tac].
Qed.

(** Two runs on one analysis under one database name, at two times. *)
Lemma raw_record_times analysis time1 time2 database_name :
  match extract_analysis_info_raw analysis time1 database_name,
        extract_analysis_info_raw analysis time2 database_name with
  | Ok info1, Ok info2 => agree_off ["ExtractedAt"] info1 info2
  | Raise e1, Raise e2 => e1 = e2
  | _, _ => False
  end.
Proof.
  apply info_sim_run_cases, extract_analysis_info_raw_sim;
    [by apply (bool_decide_unpack _)|key_in|by left].
Qed.

(** Two runs of the full function on one analysis, side by side: the
    roll-up block reads the analysis and no key. *)
Lemma extract_analysis_info_times_sim ks analysis time1 time2 :
  Forall (λ k, k ∉ ks) keys_read → "ExtractedAt" ∈ ks →
  info_sim ks
    (basic_identification analysis;;
     analysis_blocks analysis (rollup_block analysis);;
     info_set "ExtractedAt" (OStr time1))
    (basic_identification analysis;;
     analysis_blocks analysis (rollup_block analysis);;
     info_set "ExtractedAt" (OStr time2)).
Proof.
  intros Hread Htime.
  f_equiv; [unfold basic_identification; info_sim_tac|intros _].
  f_equiv; [|intros _; by apply info_sim_set_in].
  apply analysis_blocks_sim; [done|].
  unfold rollup_block, copy_step. info_sim_tac.
Qed.

(** The same for the full function: the record of an analysis at another
    time differs under [ExtractedAt] only, and an analysis that cannot be
    identified cannot at any time. *)
Lemma record_times analysis time1 time2 :
  match extract_analysis_info analysis time1,
        extract_analysis_info analysis time2 with
  | Ok info1, Ok info2 => agree_off ["ExtractedAt"] info1 info2
  | Raise e1, Raise e2 => e1 = e2
  | _, _ => False
  end.
Proof.
  apply info_sim_run_cases, extract_analysis_info_times_sim;
    [by apply (bool_decide_unpack _)|key_in].
Qed.

(** *** The roll-up fields *)

Lemma rollup_block_writes analysis :
  info_writes ["RollupType"; "RollupSource"] (rollup_block analysis).
Proof. unfold rollup_block, copy_step. info_writes_tac. Qed.

Lemma late_blocks_writes analysis : info_writes late_keys (late_blocks analysis).
Proof.
  unfold late_blocks, severity_fallback_block, version_block, checkout_block,
    is_dirty_block, creation_block, copy_step, date_step.
  info_writes_tac.
Qed.

Lemma rollup_defaults_holds k :
  k ∈ rollup_keys → info_holds k ONone rollup_defaults.
Proof.
  unfold rollup_keys. rewrite !elem_of_cons, elem_of_nil.
  intros [->|[->|[->|[->|[]]]]] info a info' [= <- <-];
    repeat first [apply dict_get_set_eq | rewrite dict_get_set_ne by done].
Qed.

Lemma rollup_keys_not_late : Forall (λ k, k ∉ late_keys) rollup_keys.
Proof. by apply (bool_decide_unpack _). Qed.

(** A roll-up field that the roll-up block leaves alone is [None] after
    the blocks: nothing else assigns to it. *)
Lemma analysis_blocks_rollup_none analysis rollup ks k :
  info_writes ks rollup → k ∈ rollup_keys → k ∉ ks →
  info_holds k ONone (analysis_blocks analysis rollup).
Proof.
  intros Hrollup Hk Hks. unfold analysis_blocks.
  do 11 (apply info_holds_later; intros _).
  eapply (info_holds_then _ _ (ks ++ late_keys));
    [by apply rollup_defaults_holds|intros _|].
  - apply info_writes_bind; [|intros _].
    + eapply info_writes_mono; [done|]. apply Forall_forall.
      intros k' ?. apply elem_of_app. by left.
    + eapply info_writes_mono; [apply late_blocks_writes|].
      apply Forall_forall. intros k' ?. apply elem_of_app. by right.
  - intros [?|Hl]%elem_of_app; [done|].
    by apply (proj1 (Forall_forall _ _) rollup_keys_not_late k Hk).
Qed.

Lemma blocks_then_time_rollup_none analysis rollup ks k extraction_time :
  info_writes ks rollup → k ∈ rollup_keys → k ∉ ks →
  info_holds k ONone
    (analysis_blocks analysis rollup;;
     info_set "ExtractedAt" (OStr extraction_time)).
Proof.
  intros Hrollup Hk Hks. eapply (info_holds_then _ _ ["ExtractedAt"]);
    [by eapply analysis_blocks_rollup_none|intros _; info_writes_tac|].
  clear Hks. revert k Hk. apply Forall_forall. by apply (bool_decide_unpack _).
Qed.

End record.

(** ** The record of an analysis *)

Section record_theorems.
Context `{!Builtins}.
Implicit Types (analysis : Obj).

(** C6: once the name, the id and the description of the analysis have
    been read, [extract_analysis_info] returns: no property of the analysis,
    however it fails, makes it raise.  The record has the 34 keys of
    [analysis_info_keys] in that order, whatever the analysis lacks, and each
    value is [None], a Boolean, an integer, a string or a date: what
    [json.dump] with [serialize_datetime] can write. *)
Theorem extract_analysis_info_schema analysis extraction_time :
  is_ok (basic_identification analysis []).1 = true →
  ∃ info,
    extract_analysis_info analysis extraction_time = Ok info ∧
    dict_keys info = analysis_info_keys ∧ info_plain info.
Proof.
  intros Hid. pose proof (extract_analysis_info_cases analysis extraction_time).
  by destruct (basic_identification analysis []).1.
Qed.

(** C22: [extract_analysis_info] raises exactly when reading [Name], [ID]
    or [Description] does, the three reads outside any [try], and it raises
    that exception. *)
Theorem extract_analysis_info_raises analysis extraction_time e :
  extract_analysis_info analysis extraction_time = Raise e ↔
  (basic_identification analysis []).1 = Raise e.
Proof.
  pose proof (extract_analysis_info_cases analysis extraction_time) as Hc.
  destruct (basic_identification analysis []).1 as [[]|e'].
  - destruct Hc as (info&->&_). split; intros [=].
  - rewrite Hc. split; by intros [= ->].
Qed.

(** [extract_analysis_info_raw] returns under the same condition, with
    the same keys and [DatabaseName] after the description. *)
Theorem extract_analysis_info_raw_schema analysis extraction_time database_name :
  is_ok (basic_identification analysis []).1 = true →
  ∃ info,
    extract_analysis_info_raw analysis extraction_time database_name
      = Ok info ∧
    dict_keys info = analysis_info_raw_keys ∧ info_plain info.
Proof.
  intros Hid.
  pose proof (extract_analysis_info_raw_cases analysis extraction_time
    database_name).
  by destruct (basic_identification analysis []).1.
Qed.

(** C33: the two functions agree.  Where [extract_analysis_info] returns a
    record, [extract_analysis_info_raw] returns one that holds the same
    under every key other than [DatabaseName], [RollupType] and
    [RollupSource]. *)
Theorem extract_analysis_info_raw_agrees analysis extraction_time
    database_name info :
  extract_analysis_info analysis extraction_time = Ok info →
  ∃ info_raw,
    extract_analysis_info_raw analysis extraction_time database_name
      = Ok info_raw ∧
    agree_off raw_differs info info_raw.
Proof. apply (info_sim_run raw_differs), extract_analysis_info_sim. Qed.

(** The record of [extract_analysis_info] never has a roll-up input
    or output attribute: the two keys are assigned [None] and no statement
    of the function assigns to them again, whatever the analysis holds. *)
Theorem rollup_attributes_none analysis extraction_time info :
  extract_analysis_info analysis extraction_time = Ok info →
  dict_get "RollupInputAttribute" info = Some ONone ∧
  dict_get "RollupOutputAttribute" info = Some ONone.
Proof.
  intros Hrun.
  split; (eapply info_holds_run; [|exact Hrun]);
    apply info_holds_later; intros _;
    (eapply blocks_then_time_rollup_none;
      [apply rollup_block_writes|key_in|by apply (bool_decide_unpack _)]).
Qed.

(** The record of [extract_analysis_info_raw] has no roll-up field at
    all: the four keys hold [None], also for an analysis whose rule has a
    roll-up type and source. *)
Theorem raw_rollup_none analysis extraction_time database_name info k :
  extract_analysis_info_raw analysis extraction_time database_name = Ok info →
  k ∈ rollup_keys → dict_get k info = Some ONone.
Proof.
  intros Hrun Hk. eapply info_holds_run; [|exact Hrun].
  do 2 (apply info_holds_later; intros _).
  eapply (blocks_then_time_rollup_none _ _ []);
    [info_writes_tac|done|apply not_elem_of_nil].
Qed.

(** The arguments of a run reach the record under their own keys only:
    extracted at another time or under another database name, an analysis
    gives a record exactly when it gave one before, and the two hold the
    same under every key other than [DatabaseName] and [ExtractedAt],
    whichever reads of the analysis fail. *)
Theorem raw_record_of_analysis analysis time1 time2 db1 db2 info1 :
  extract_analysis_info_raw analysis time1 db1 = Ok info1 →
  ∃ info2,
    extract_analysis_info_raw analysis time2 db2 = Ok info2 ∧
    agree_off run_keys info1 info2.
Proof.
  apply (info_sim_run run_keys), extract_analysis_info_raw_sim;
    [by apply (bool_decide_unpack _)|key_in|right; key_in].
Qed.

(** A run on one database and a later run on all databases: the record
    of an analysis in the second holds the same as its record in the first
    outside the time, the database and the two roll-up fields. *)
Theorem records_of_two_runs analysis time1 time2 database_name info :
  extract_analysis_info analysis time1 = Ok info →
  ∃ info_raw,
    extract_analysis_info_raw analysis time2 database_name = Ok info_raw ∧
    agree_off ("ExtractedAt" :: raw_differs) info info_raw.
Proof.
  intros Hinfo.
  destruct (info_sim_run raw_differs _ _ _
    (extract_analysis_info_sim analysis time1 database_name) Hinfo)
    as (info1&Hraw1&H1).
  change (extract_analysis_info_raw analysis time1 database_name = Ok info1)
    in Hraw1.
  pose proof (raw_record_times analysis time1 time2 database_name) as H2.
  rewrite Hraw1 in H2.
  destruct (extract_analysis_info_raw analysis time2 _) as [info2|]; [|done].
  exists info2. split; [done|].
  trans info1; (eapply agree_off_mono; [|done]);
    by apply (bool_decide_unpack _).
Qed.

End record_theorems.

(** ** The fields *)

Section fields.
Context `{!Builtins}.
Implicit Types (analysis : Obj) (info : Info).

Lemma safe_str_obj_eq v :
  safe_str_obj v =
    Ok (if is_None v then ONone
        else match py_str v with Ok s => OStr s | Raise _ => ONone end).
Proof.
  unfold safe_str_obj, safe_str. destruct (is_None v); [done|].
  by destruct (py_str v).
Qed.

(** A block that records the name of a linked object (the plug-in of
    the rule, the target element, the template) is one assignment: of the
    text of the name when the link is there, is true and its name can be
    read and turned into text, of [None] in every other case, an exception
    of any of the reads included. *)
Theorem linked_name_block_value analysis link attr key info :
  linked_name_block analysis link attr key info =
    (Ok tt, dict_set key (linked_name analysis link attr) info).
Proof.
  unfold linked_name_block, linked_name, st_try, st_bind, st_lift.
  destruct (attr_if_true analysis link) as [[linked|]|e] eqn:Hl; [|done..].
  apply attr_if_true_Some in Hl as [-> _].
  destruct (getattr linked attr) as [v|e]; [|done].
  by rewrite safe_str_obj_eq.
Qed.

(** The template name that [eft_name_of] reads from a configuration
    string with [split] is the one [find] gives: the text after the first
    [EFTNAME=] up to the next [;], the next [EFTNAME=] or the end; a string
    without [EFTNAME=] assigns nothing. *)
Theorem eft_name_of_ref config_str info :
  eft_name_of (Some config_str) info =
    (Ok tt,
     match eft_name_ref config_str with
     | Some name => dict_set "EventFrameTemplateName" (OStr name) info
     | None => info
     end).
Proof.
  unfold eft_name_of, eft_name_ref.
  pose proof (str_after_contains "EFTNAME=" config_str) as Hc.
  destruct (str_contains "EFTNAME=" config_str).
  2: { rewrite andb_false_r.
       destruct (str_after _ _) as [rest|]; [|done].
       by assert (false = true) by (apply Hc; by exists rest). }
  destruct (proj2 Hc eq_refl) as [rest Hrest]. rewrite Hrest.
  rewrite bool_decide_eq_true_2 by (intros ->; by vm_compute in Hrest).
  cbn [andb fmap option_fmap option_map].
  destruct (str_split_ok "EFTNAME=" config_str) as (p&ps&Hsp); [done|].
  destruct (str_split_pieces _ _ _ Hsp) as (_&H1&Hlen).
  rewrite Hrest in H1, Hlen. unfold st_bind, st_lift. rewrite Hsp.
  rewrite decide_True by (by apply Hlen). rewrite H1. cbn.
  destruct (str_split_ok ";" (str_until "EFTNAME=" rest)) as (q&qs&Hsq); [done|].
  destruct (str_split_pieces _ _ _ Hsq) as (H0&_). rewrite Hsq. cbn.
  by injection H0 as ->.
Qed.

(** What the rule properties block leaves when the log line of [TrueFor]
    raises: the defaults, and the start trigger if it was read. *)
Lemma rule_properties_block_no_text analysis ar raw e info :
  attr_if_true analysis "AnalysisRule" = Ok (Some ar) →
  getattr ar "TrueFor" = Ok raw → py_str raw = Raise e →
  ∃ vs, Forall (λ kv, kv.1 ∈ ["StartTrigger"]) vs ∧
    rule_properties_block analysis info =
      (Ok tt,
       set_all ([("StartTrigger", ONone); ("EndTrigger", ONone);
                 ("TrueFor", ONone); ("TrueForEnding", ONone);
                 ("Severity", ONone)] ++ vs) info).
Proof.
  intros Hrule Hraw Hstr. pose proof (hasattr_of_ok _ _ _ Hraw) as Hhas.
  apply attr_if_true_Some in Hrule as Hget. destruct Hget as [Hget _].
  unfold rule_properties_block, true_for_step, st_try, st_bind, st_lift,
    info_set, log_fmt.
  rewrite Hrule, Hget. destruct (hasattr ar "Expression") as [[|]|e'] eqn:He.
  - apply hasattr_true in He as [v Hv]. rewrite Hv, safe_str_obj_eq.
    rewrite Hhas, Hraw, Hstr. cbn. eexists [(_, _)]. split; [|done].
    repeat constructor.
  - rewrite Hhas, Hraw, Hstr. cbn. by exists [].
  - cbn. by exists [].
Qed.

(** C39: a rule whose [TrueFor] cannot be turned into text loses its end
    trigger and its severity.  The log line that formats the raw value
    raises inside the [try] of the rule properties, before [safe_str], which
    would have stored [None] and gone on, is called: the block ends there,
    and the four fields after the start trigger are [None] whatever the rule
    holds. *)
Theorem true_for_text_aborts analysis ar raw e info k :
  attr_if_true analysis "AnalysisRule" = Ok (Some ar) →
  getattr ar "TrueFor" = Ok raw → py_str raw = Raise e →
  k ∈ ["EndTrigger"; "TrueFor"; "TrueForEnding"; "Severity"] →
  (rule_properties_block analysis info).1 = Ok tt ∧
  dict_get k (rule_properties_block analysis info).2 = Some ONone.
Proof.
  intros Hrule Hraw Hstr Hk.
  destruct (rule_properties_block_no_text analysis ar raw e info)
    as (vs&Hvs&->); [done..|].
  split; [done|]. cbn [snd]. rewrite set_all_app, dict_get_set_all.
  - rewrite !elem_of_cons, elem_of_nil in Hk.
    destruct Hk as [->|[->|[->|[->|[]]]]]; cbn;
      repeat first [apply dict_get_set_eq | rewrite dict_get_set_ne by done].
  - intros (kv&->&Hkv)%list_elem_of_fmap.
    apply (proj1 (Forall_forall _ _) Hvs), list_elem_of_singleton in Hkv.
    rewrite Hkv in Hk. by apply (bool_decide_pack _) in Hk.
Qed.

End fields.

(** ** The functions on an analysis that is written out *)

(** The record of [ex_analysis], an event frame analysis of a hydro
    plant whose [ModifiedBy] the server refuses to give.  The creation
    fields read before the failure are kept, [ModifyDate] and [ModifiedBy]
    stay [None]; the template name comes out of the configuration string;
    the plant is the fourth part of the path. *)
Example extract_analysis_info_ex_analysis :
  extract_analysis_info ex_analysis "2024-03-05T12:00:00" =
    Ok [("Name", OStr "Turbine trip"); ("Id", OStr "6f1c2d3e");
        ("Description", ONone); ("AnalysisRulePlugInName", OStr "EventFrame");
        ("AnalysisType", OStr "EventFrame");
        ("ElementPath", OStr "\\SRV\DB\Hydro\Plant A\Unit 1");
        ("PlantName", OStr "Plant A"); ("PlantCategory", OInt 1);
        ("TemplateName", ONone); ("EventFrameTemplateName", OStr "Trip");
        ("ConfigExpression", OStr "MODE=AUTO;EFTNAME=Trip;SEVERITY=2");
        ("IsEnabled", OBool true); ("ScheduleType", OStr "Periodic");
        ("StartTrigger", OStr "'Power' > 100");
        ("EndTrigger", OStr "'Power' < 90"); ("TrueFor", OStr "00:05:00");
        ("TrueForEnding", ONone); ("Severity", OStr "Warning");
        ("InputCount", OInt 2); ("OutputCount", OInt 1);
        ("RollupType", ONone); ("RollupSource", ONone);
        ("RollupInputAttribute", ONone); ("RollupOutputAttribute", ONone);
        ("Version", OInt 3); ("IsCheckedOut", OBool false);
        ("CheckedOutBy", ONone); ("CheckedInDate", ONone);
        ("IsDirty", OBool false);
        ("CreateDate", ODateTime (mkDateTime 2024 3 5 10 30 0 0));
        ("CreatedBy", OStr "admin"); ("ModifyDate", ONone);
        ("ModifiedBy", ONone); ("ExtractedAt", OStr "2024-03-05T12:00:00")].
Proof. vm_compute. reflexivity. Qed.

(** ** Witnesses *)

Lemma extract_analysis_info_schema_witness :
  ∃ info,
    extract_analysis_info ex_analysis "2024-03-05T12:00:00" = Ok info ∧
    dict_keys info = analysis_info_keys ∧ info_plain info.
Proof.
  apply (extract_analysis_info_schema ex_analysis). vm_compute. reflexivity.
Defined.

Lemma extract_analysis_info_raw_schema_witness :
  ∃ info,
    extract_analysis_info_raw ex_analysis "2024-03-05T12:00:00" "Plants"
      = Ok info ∧
    dict_keys info = analysis_info_raw_keys ∧ info_plain info.
Proof.
  apply (extract_analysis_info_raw_schema ex_analysis). vm_compute.
  reflexivity.
Defined.

Lemma extract_analysis_info_raw_agrees_witness :
  ∃ info,
    extract_analysis_info ex_analysis "2024-03-05T12:00:00" = Ok info ∧
    ∃ info_raw,
      extract_analysis_info_raw ex_analysis "2024-03-05T12:00:00" "Plants"
        = Ok info_raw ∧
      agree_off raw_differs info info_raw.
Proof.
  eexists. split; [vm_compute; reflexivity|].
  apply (extract_analysis_info_raw_agrees ex_analysis). vm_compute.
  reflexivity.
Defined.

Lemma raw_record_of_analysis_witness :
  ∃ info1,
    extract_analysis_info_raw ex_analysis_no_text "2024-03-05T12:00:00"
      "Plants" = Ok info1 ∧
    ∃ info2,
      extract_analysis_info_raw ex_analysis_no_text "2025-01-01T00:00:00"
        "Archive" = Ok info2 ∧
      agree_off run_keys info1 info2.
Proof.
  eexists. split; [vm_compute; reflexivity|].
  apply (raw_record_of_analysis ex_analysis_no_text "2024-03-05T12:00:00"
           "2025-01-01T00:00:00" "Plants" "Archive").
  vm_compute. reflexivity.
Defined.

Lemma rollup_attributes_none_witness :
  ∃ info,
    extract_analysis_info ex_analysis "2024-03-05T12:00:00" = Ok info ∧
    dict_get "RollupInputAttribute" info = Some ONone ∧
    dict_get "RollupOutputAttribute" info = Some ONone.
Proof.
  eexists. split; [vm_compute; reflexivity|].
  apply (rollup_attributes_none ex_analysis "2024-03-05T12:00:00").
  vm_compute. reflexivity.
Defined.

Lemma raw_rollup_none_witness :
  ∃ info,
    extract_analysis_info_raw ex_analysis "2024-03-05T12:00:00" "Plants"
      = Ok info ∧
    dict_get "RollupType" info = Some ONone.
Proof.
  eexists. split; [vm_compute; reflexivity|].
  apply (raw_rollup_none ex_analysis "2024-03-05T12:00:00" "Plants");
    [vm_compute; reflexivity|key_in].
Defined.

Lemma true_for_text_aborts_witness :
  (rule_properties_block ex_analysis_no_text []).1 = Ok tt ∧
  dict_get "Severity" (rule_properties_block ex_analysis_no_text []).2
    = Some ONone.
Proof.
  apply (true_for_text_aborts ex_analysis_no_text ex_rule_no_text
    ex_span_no_text (NetError "format") [] "Severity");
    [vm_compute; reflexivity..|key_in].
Defined.
