(* ===== verification/AnalysisBatch.v ===== *)
(** * The lists of analyses: [extract_analyses]

    [examples/extract_analyses.py] collects the records of the analyses in
    a list, [analyses_list], that grows by [append] inside nested [try]
    blocks: per analysis, per database or element, per function.  The list
    is the state of [StM]; each loop body and each function is one
    definition.

    What happens before the first object is at hand is a parameter: the
    time of the extraction (the clock), [found] (what [systems[af_server]]
    gives after [sdk.initialize()] and the construction of [PISystems], or
    the exception of one of these), [conn] (what entering
    [AFDatabaseConnection] gives) and [initialized] (what
    [sdk.initialize()] gives).  Leaving the [with] block is taken not to
    raise.  A [print] is modelled where its f-string reads a property of an
    SDK object, by that read and [log_fmt]; the [depth] of
    [traverse_elements] only indents the output and is left out.

    The collections of the SDK are read while the loops run
    ([st_for_in] over [iterate]): a collection that fails after some items
    has had the body run on them, and the exception meets the [try] that
    encloses the loop.  For the analyses of a database that is the [try]
    of the database, which swallows it ([cut_collection_unseen]); for the
    databases of the server there is only the [finally]
    ([cut_databases_lose_all]).

    The time of the extraction is a parameter, and it reaches the records
    under [ExtractedAt] only: two runs at two times against the same
    objects go side by side ([all_databases_reproducible], over
    [agree_off] of [Info]).

    [traverse_elements] calls itself on the children of an element.  The
    interpreter bounds the depth of a recursion and raises [RecursionError]
    beyond it; [fuel] is that bound.  An object is a finite tree, and the
    recursion goes from an element to what its [Elements] holds: a bound
    larger than the size of the object is never reached
    ([traverse_elements_fuel]).  What the search returns under a bound,
    said on the hierarchy as a tree, is in [ElementTree]. *)

From stdpp Require Import base tactics numbers option list strings.
From S2P Require Import Prelude PyStr PyObj State Info Analyses AnalysisInfo.

#[global] Set Warnings "-clear-no-such-hyp,-register-all".

#[local] Open Scope st_scope.

(** The list of records under construction. *)
Abbreviation Records := (list Info).

Section batch.
Context `{!Builtins}.

(** ** All databases of a server *)

(** Lines 116-120: one analysis of a database. *)
Definition raw_analysis_step (extraction_time db_name : string)
    (analysis : Obj) : StM Records unit :=
  st_try
    (analysis_info ⇐
       extract_analysis_info_raw analysis extraction_time db_name;
     st_append analysis_info)
    any_exception (λ _, st_pass).

(** Lines 106-123: one database.  Its name is read before the [try]. *)
Definition database_step (extraction_time : string) (db : Obj)
    : StM Records unit :=
  name ⇐ getattr db "Name";
  db_name ⇐ py_str name;
  st_try
    (analyses_collection ⇐ getattr db "Analyses";
     count ⇐ getattr analyses_collection "Count";
     _ ⇐ log_fmt count;
     st_for_in (iterate analyses_collection)
       (raw_analysis_step extraction_time db_name))
    any_exception (λ _, st_pass).

(** Lines 128-134: the [finally] of the function. *)
Definition disconnect (pi_system : Obj) : StM Records unit :=
  st_try (_ ⇐ getattr pi_system "Disconnect"; st_pass)
    any_exception (λ _, st_pass).

(** Lines 97-134: the [try ... finally] of the function. *)
Definition all_databases_body (extraction_time : string) (pi_system : Obj)
    : StM Records unit :=
  st_finally
    (_ ⇐ getattr pi_system "Connect";
     name ⇐ getattr pi_system "Name";
     _ ⇐ log_fmt name;
     databases ⇐ getattr pi_system "Databases";
     count ⇐ getattr databases "Count";
     _ ⇐ log_fmt count;
     st_for_in (iterate databases) (database_step extraction_time))
    (disconnect pi_system).

(** Lines 73-134 *)
Definition extract_analyses_from_all_databases (extraction_time : string)
    (found : Res Obj) : Res Records :=
  (pi_system ← found;
   if is_None pi_system then Raise ValueError
   else st_run (all_databases_body extraction_time pi_system) [])%py.

(** ** The elements of a database *)

(** Lines 800-805: one analysis of an element.  The record is appended
    before the line that reads the name of the element. *)
Definition found_analysis_step (extraction_time : string)
    (element analysis : Obj) : StM Records unit :=
  st_try
    (analysis_info ⇐ extract_analysis_info analysis extraction_time;
     st_append analysis_info;;
     name ⇐ getattr element "Name";
     _ ⇐ log_fmt name;
     st_pass)
    any_exception (λ _, st_pass).

(** Lines 797-807: the analyses of an element.  The handler reads the name
    of the element. *)
Definition element_analyses_step (extraction_time : string) (element : Obj)
    : StM Records unit :=
  st_try
    (a ⇐ attr_if_true element "Analyses";
     if a is Some _ then
       analyses_collection ⇐ getattr element "Analyses";
       st_for_in (iterate analyses_collection)
         (found_analysis_step extraction_time element)
     else st_pass)
    any_exception
    (λ _, name ⇐ getattr element "Name"; _ ⇐ log_fmt name; st_pass).

(** Lines 810-814: the children of an element; [traverse] is the recursive
    call. *)
Definition element_children_step (traverse : Obj → StM Records unit)
    (element : Obj) : StM Records unit :=
  st_try
    (elements ⇐ getattr element "Elements";
     t ⇐ truthy elements;
     some ⇐ (if t then
               (elements ← getattr element "Elements";
                count ← getattr elements "Count";
                py_gt_zero count)%py
             else Ok false);
     if some then (elements ⇐ getattr element "Elements"; traverse elements)
     else st_pass)
    any_exception (λ _, st_pass).

(** Lines 793-814: [traverse_elements] *)
Fixpoint traverse_elements (fuel : nat) (extraction_time : string)
    (elements : Obj) : StM Records unit :=
  match fuel with
  | 0 => st_lift (Raise RecursionError)
  | S fuel =>
      st_for_in (iterate elements) (λ element,
        element_analyses_step extraction_time element;;
        element_children_step (traverse_elements fuel extraction_time)
          element)
  end.

(** Lines 817-822: the [try] of [search_analyses_in_elements]. *)
Definition search_body (fuel : nat) (conn : Obj) (extraction_time : string)
    : StM Records unit :=
  st_try
    (database ⇐ getattr conn "database";
     root_elements ⇐ getattr database "Elements";
     count ⇐ getattr root_elements "Count";
     _ ⇐ log_fmt count;
     traverse_elements fuel extraction_time root_elements)
    any_exception (λ _, st_pass).

(** Lines 777-824 *)
Definition search_analyses_in_elements (fuel : nat) (conn : Obj)
    (extraction_time : string) : Res Records :=
  st_run (search_body fuel conn extraction_time) [].

(** ** One database *)

(** Lines 174-180: one analysis of the database. *)
Definition analysis_step (extraction_time : string) (analysis : Obj)
    : StM Records unit :=
  st_try
    (analysis_info ⇐ extract_analysis_info analysis extraction_time;
     st_append analysis_info)
    any_exception (λ _, st_pass).

(** Lines 169-185: the collection of the database, or the search when the
    database has no [Analyses]. *)
Definition database_analyses (fuel : nat) (conn af_database : Obj)
    (extraction_time : string) : StM Records unit :=
  st_try
    (analyses_collection ⇐ getattr af_database "Analyses";
     count ⇐ getattr analyses_collection "Count";
     _ ⇐ log_fmt count;
     st_for_in (iterate analyses_collection) (analysis_step extraction_time))
    (one_of [AttributeError])
    (λ _, analyses_list ⇐
            search_analyses_in_elements fuel conn extraction_time;
          st_modify (λ _, analyses_list)).

(** Lines 136-187 *)
Definition extract_analyses (fuel : nat) (extraction_time : string)
    (database : option string) (found conn : Res Obj)
    (initialized : Res unit) : Res Records :=
  match database with
  | None => extract_analyses_from_all_databases extraction_time found
  | Some _ =>
      (conn ← conn;
       pi_system ← getattr conn "pi_system";
       name ← getattr pi_system "Name";
       _ ← log_fmt name;
       db ← getattr conn "database";
       name ← getattr db "Name";
       _ ← log_fmt name;
       _ ← initialized;
       af_database ← getattr conn "database";
       st_run (database_analyses fuel conn af_database extraction_time) [])%py
  end.

End batch.

(** ** What the loops collect, said directly *)

Section collected.
Context `{!Builtins}.

(** The records of the analyses that can be identified, in order. *)
Definition records_of (extraction_time : string) (analyses : list Obj)
    : Records :=
  omap (λ a, res_to_option (extract_analysis_info a extraction_time))
    analyses.

Definition raw_records_of (extraction_time db_name : string)
    (analyses : list Obj) : Records :=
  omap (λ a, res_to_option
               (extract_analysis_info_raw a extraction_time db_name))
    analyses.

(** The analyses of a database, when its collection can be read, counted
    and iterated to its end. *)
Definition analyses_of (db : Obj) : Res (list Obj) :=
  (analyses_collection ← getattr db "Analyses";
   count ← getattr analyses_collection "Count";
   _ ← log_fmt count;
   py_iter analyses_collection)%py.

(** The analyses of a database as the loop over them meets them, when the
    collection can be read and counted: those the iteration gives, and how
    it ends. *)
Definition analyses_met (db : Obj) : Res (Iter Obj) :=
  (analyses_collection ← getattr db "Analyses";
   count ← getattr analyses_collection "Count";
   _ ← log_fmt count;
   Ok (iterate analyses_collection))%py.

(** The records a database contributes: those of the analyses that the
    iteration gives, also when it fails after them, and none when the
    collection cannot be read. *)
Definition database_records (extraction_time db_name : string) (db : Obj)
    : Records :=
  match analyses_met db with
  | Ok it => raw_records_of extraction_time db_name (given it)
  | Raise _ => []
  end.

(** The databases of a server as the loop over them meets them, when it
    connects and its collection can be read and counted. *)
Definition databases_of (pi_system : Obj) : Res (Iter Obj) :=
  (_ ← getattr pi_system "Connect";
   name ← getattr pi_system "Name";
   _ ← log_fmt name;
   databases ← getattr pi_system "Databases";
   count ← getattr databases "Count";
   _ ← log_fmt count;
   Ok (iterate databases))%py.

(** The name of a database, as text. *)
Definition database_name (db : Obj) : Res string :=
  (name ← getattr db "Name"; py_str name)%py.

(** The records of the databases, one after the other. *)
Fixpoint databases_records (extraction_time : string) (dbs : list Obj)
    : Res Records :=
  match dbs with
  | [] => Ok []
  | db :: dbs =>
      (db_name ← database_name db;
       rest ← databases_records extraction_time dbs;
       Ok (database_records extraction_time db_name db ++ rest))%py
  end.

(** The database of a connection, once the two names have been printed
    and the SDK is initialised. *)
Definition database_of (conn : Obj) (initialized : Res unit) : Res Obj :=
  (pi_system ← getattr conn "pi_system";
   name ← getattr pi_system "Name";
   _ ← log_fmt name;
   db ← getattr conn "database";
   name ← getattr db "Name";
   _ ← log_fmt name;
   _ ← initialized;
   getattr conn "database")%py.

End collected.

(** ** Objects to run the functions on *)

(** A collection, with its [Count]. *)
Definition ex_collection (items : list Obj) : Obj :=
  ONet [("Count", SVal (OInt (Z.of_nat (length items))));
        ("__iter__", SVal (OList items))].

(** A collection of [count] items of which the server gives the first
    ones and then fails. *)
Definition ex_collection_cut (count : Z) (items : list Obj) : Obj :=
  ONet [("Count", SVal (OInt count));
        ("__iter__", SVal (OList items));
        ("MoveNext", SRaise (NetError "connection lost"))].

Definition ex_database (name : string) (analyses : list Obj) : Obj :=
  ONet [("Name", SVal (OStr name));
        ("Analyses", SVal (ex_collection analyses))].

(** A database that announces [count] analyses and fails after the first
    ones. *)
Definition ex_database_cut (name : string) (count : Z) (analyses : list Obj)
    : Obj :=
  ONet [("Name", SVal (OStr name));
        ("Analyses", SVal (ex_collection_cut count analyses))].

(** A database whose name the server does not give. *)
Definition ex_database_unnamed (analyses : list Obj) : Obj :=
  ONet [("Name", SRaise (NetError "timeout"));
        ("Analyses", SVal (ex_collection analyses))].

Definition ex_server (dbs : list Obj) : Obj :=
  ONet [("Connect", SVal ONone); ("Name", SVal (OStr "GENCOPI"));
        ("Databases", SVal (ex_collection dbs));
        ("Disconnect", SRaise (NetError "closed"))].

Definition ex_analysis_named (name : string) : Obj :=
  ONet [("Name", SVal (OStr name)); ("Description", SVal (OStr ""))].

(** An element with analyses and children. *)
Definition ex_element (name : string) (analyses children : list Obj) : Obj :=
  ONet [("Name", SVal (OStr name));
        ("Analyses", SVal (ex_collection analyses));
        ("Elements", SVal (ex_collection children))].

(** A plant with one unit, which has one analysis. *)
Definition ex_roots : Obj :=
  ex_collection
    [ex_element "Plant A" []
       [ex_element "Unit 1" [ex_analysis_named "Trip"] []]].

(** An element that gives neither its analyses nor its name. *)
Definition ex_element_closed : Obj :=
  ONet [("Name", SRaise (NetError "denied"));
        ("Analyses", SRaise (NetError "denied"))].

(** A connection to a database that has elements and no [Analyses]. *)
Definition ex_conn_elements (roots : list Obj) : Obj :=
  ONet [("pi_system", SVal (ONet [("Name", SVal (OStr "GENCOPI"))]));
        ("database", SVal (ONet [("Name", SVal (OStr "Plants"));
                                 ("Elements", SVal (ex_collection roots))]))].

(** * Facts *)

Section batch_facts.
Context `{!Builtins}.
Implicit Types (records : Records) (analyses dbs : list Obj).

(** ** The loops over analyses *)

Lemma raw_analyses_loop extraction_time db_name (it : Iter Obj) records :
  st_for_in it (raw_analysis_step extraction_time db_name) records =
    (iter_end (ended it),
     records ++ raw_records_of extraction_time db_name (given it)).
Proof. apply st_for_in_collect. Qed.

Lemma analyses_loop extraction_time (it : Iter Obj) records :
  st_for_in it (analysis_step extraction_time) records =
    (iter_end (ended it), records ++ records_of extraction_time (given it)).
Proof. apply st_for_in_collect. Qed.

(** ** One database of the server *)

Lemma database_step_named extraction_time db db_name records :
  database_name db = Ok db_name →
  database_step extraction_time db records =
    (Ok tt, records ++ database_records extraction_time db_name db).
Proof.
  unfold database_name, database_step, database_records, analyses_met.
  intros Hn. res_binds Hn. unfold st_bind at 1 2, st_lift.
  rewrite H0, Hn. unfold st_try, st_bind, st_lift.
  destruct (getattr db "Analyses") as [c|e]; cbn; [|by rewrite app_nil_r].
  destruct (getattr c "Count") as [n|e]; cbn; [|by rewrite app_nil_r].
  destruct (log_fmt n) as [[]|e]; cbn; [|by rewrite app_nil_r].
  rewrite raw_analyses_loop. by destruct (ended (iterate c)).
Qed.

Lemma database_step_unnamed extraction_time db e records :
  database_name db = Raise e →
  database_step extraction_time db records = (Raise e, records).
Proof.
  unfold database_name, database_step. unfold st_bind, st_lift.
  destruct (getattr db "Name") as [n|e']; cbn; [|by intros [= ->]].
  by intros ->.
Qed.

(** The loop over the databases: the records of each, or the exception
    of the first name that cannot be read. *)
Lemma databases_loop extraction_time dbs records :
  st_for dbs (database_step extraction_time) records =
    match databases_records extraction_time dbs with
    | Ok rs => (Ok tt, records ++ rs)
    | Raise e => (Raise e, (st_for dbs (database_step extraction_time) records).2)
    end.
Proof.
  revert records. induction dbs as [|db dbs IH]; intros records; cbn.
  { by rewrite app_nil_r. }
  destruct (database_name db) as [db_name|e] eqn:Hn; cbn.
  - rewrite (st_bind_ok _ _ _ _ _ (database_step_named _ _ _ _ Hn)).
    rewrite IH. destruct (databases_records extraction_time dbs); cbn; [|done].
    by rewrite app_assoc.
  - by rewrite (st_bind_raise _ _ _ _ _ (database_step_unnamed _ _ _ _ Hn)).
Qed.

Lemma disconnect_spec pi_system records :
  disconnect pi_system records = (Ok tt, records).
Proof.
  unfold disconnect, st_try, st_bind, st_lift.
  by destruct (getattr pi_system "Disconnect").
Qed.

(** The [try ... finally] of the function, as a function of the server. *)
Lemma all_databases_run extraction_time pi_system :
  st_run (all_databases_body extraction_time pi_system) [] =
    (dbs ← databases_of pi_system;
     records ← databases_records extraction_time (given dbs);
     _ ← iter_end (ended dbs);
     Ok records)%py.
Proof.
  unfold st_run, all_databases_body, st_finally, databases_of.
  unfold st_for_in, st_bind, st_lift.
  repeat match goal with
  | |- context [res_bind ?m _] =>
      lazymatch m with
      | databases_records _ _ => fail
      | iter_end _ => fail
      | _ => destruct m as [?|?]; cbn; [|by rewrite disconnect_spec]
      end
  end.
  rewrite databases_loop.
  destruct (databases_records _ _); cbn; [|by rewrite disconnect_spec].
  destruct (ended _); cbn; by rewrite disconnect_spec.
Qed.

(** Two runs at two times: the records of a collection and of the
    databases go side by side. *)
Lemma raw_records_of_times time1 time2 db_name analyses :
  Forall2 (agree_off ["ExtractedAt"])
    (raw_records_of time1 db_name analyses)
    (raw_records_of time2 db_name analyses).
Proof.
  induction analyses as [|analysis analyses IH]; [constructor|]. cbn.
  pose proof (raw_record_times analysis time1 time2 db_name) as Hr.
  destruct (extract_analysis_info_raw analysis time1 db_name),
    (extract_analysis_info_raw analysis time2 db_name); cbn; try done.
  by constructor.
Qed.

Lemma databases_records_times time1 time2 dbs records1 :
  databases_records time1 dbs = Ok records1 →
  ∃ records2,
    databases_records time2 dbs = Ok records2 ∧
    Forall2 (agree_off ["ExtractedAt"]) records1 records2.
Proof.
  revert records1. induction dbs as [|db dbs IH]; intros records1; cbn.
  { intros [= <-]. by exists []. }
  destruct (database_name db) as [db_name|]; [cbn|done].
  destruct (databases_records time1 dbs) as [rest1|] eqn:H1; [cbn|done].
  intros [= <-]. destruct (IH _ eq_refl) as (rest2&->&Hrest). cbn.
  eexists. split; [done|]. apply Forall2_app; [|done].
  unfold database_records.
  destruct (analyses_met db); [apply raw_records_of_times|constructor].
Qed.

(** A record of the raw function has the keys of the output format. *)
Lemma raw_record_schema analysis extraction_time db_name info :
  extract_analysis_info_raw analysis extraction_time db_name = Ok info →
  dict_keys info = analysis_info_raw_keys ∧ info_plain info.
Proof.
  pose proof (extract_analysis_info_raw_cases analysis extraction_time
    db_name) as Hc.
  destruct (basic_identification analysis []).1; [|by rewrite Hc].
  destruct Hc as (info'&->&?). by intros [= <-].
Qed.

Lemma record_schema analysis extraction_time info :
  extract_analysis_info analysis extraction_time = Ok info →
  dict_keys info = analysis_info_keys ∧ info_plain info.
Proof.
  pose proof (extract_analysis_info_cases analysis extraction_time) as Hc.
  destruct (basic_identification analysis []).1; [|by rewrite Hc].
  destruct Hc as (info'&->&?). by intros [= <-].
Qed.

Lemma raw_records_schema extraction_time db_name analyses :
  Forall (λ info, dict_keys info = analysis_info_raw_keys ∧ info_plain info)
    (raw_records_of extraction_time db_name analyses).
Proof.
  apply Forall_forall. intros info (a&_&Ha)%list_elem_of_omap.
  destruct (extract_analysis_info_raw a extraction_time db_name) eqn:Hr;
    simplify_eq/=. by eapply raw_record_schema.
Qed.

Lemma databases_records_schema extraction_time dbs rs :
  databases_records extraction_time dbs = Ok rs →
  Forall (λ info, dict_keys info = analysis_info_raw_keys ∧ info_plain info) rs.
Proof.
  revert rs. induction dbs as [|db dbs IH]; intros rs; cbn.
  - by intros [= <-].
  - intros Hrs. res_binds Hrs. apply Forall_app. split; [|by apply IH].
    unfold database_records. destruct (analyses_met db); [|done].
    apply raw_records_schema.
Qed.

(** Databases that all give their names give their records. *)
Lemma databases_records_named extraction_time dbs :
  Forall (λ db, is_ok (database_name db) = true) dbs →
  ∃ rs, databases_records extraction_time dbs = Ok rs.
Proof.
  induction 1 as [|db dbs [n Hn]%is_ok_true _ [rs IH]]; cbn; [by eexists|].
  rewrite Hn, IH. cbn. by eexists.
Qed.

(** The first database whose name cannot be read. *)
Lemma databases_records_raise extraction_time dbs1 db dbs2 e :
  Forall (λ db, is_ok (database_name db) = true) dbs1 →
  database_name db = Raise e →
  databases_records extraction_time (dbs1 ++ db :: dbs2) = Raise e.
Proof.
  intros H1 Hdb. induction H1 as [|db1 dbs1 Hn _ IH]; cbn; [by rewrite Hdb|].
  destruct (database_name db1); [|done]. cbn. by rewrite IH.
Qed.

End batch_facts.

(** ** All databases *)

Section all_databases.
Context `{!Builtins}.

(** C3: [extract_analyses_from_all_databases] is a function of what the
    server holds: with its [try ... finally], its two nested [try] blocks
    and the list it appends to, it returns the records of the databases one
    after the other, where a database whose collection cannot be read gives
    none and an analysis that cannot be identified is left out; it raises
    what connecting, reading the databases or reading the name of a database
    raises.  What [Disconnect] does has no part in the result. *)
Theorem extract_analyses_from_all_databases_spec extraction_time found :
  extract_analyses_from_all_databases extraction_time found =
    (pi_system ← found;
     if is_None pi_system then Raise ValueError
     else dbs ← databases_of pi_system;
          records ← databases_records extraction_time (given dbs);
          _ ← iter_end (ended dbs);
          Ok records)%py.
Proof.
  unfold extract_analyses_from_all_databases.
  destruct found as [pi_system|e]; [cbn|done].
  destruct (is_None pi_system); [done|apply all_databases_run].
Qed.

(** C23: one database whose name cannot be read loses the records of all
    databases: the name is read in the loop, outside the [try] of the
    database, so the exception leaves the function and the list collected
    so far is not returned. *)
Theorem unnamed_database_loses_all extraction_time pi_system dbs1 db dbs2
    ending e :
  is_None pi_system = false →
  databases_of pi_system = Ok (mkIter (dbs1 ++ db :: dbs2) ending) →
  Forall (λ db, is_ok (database_name db) = true) dbs1 →
  database_name db = Raise e →
  extract_analyses_from_all_databases extraction_time (Ok pi_system) = Raise e.
Proof.
  intros Hp Hdbs H1 Hdb. unfold extract_analyses_from_all_databases. cbn.
  rewrite Hp, all_databases_run, Hdbs. cbn.
  by rewrite (databases_records_raise _ _ _ _ _ H1 Hdb).
Qed.

(** C24: a collection of analyses that fails while it is read is not told
    from one that ends there: the loop over the analyses is inside the
    [try] of the database, so what the database contributes depends on the
    analyses the iteration gave and not on how it ended.  The list that
    comes back is short without a sign. *)
Theorem cut_collection_unseen extraction_time db db' records :
  database_name db = database_name db' →
  given <$> analyses_met db = given <$> analyses_met db' →
  database_step extraction_time db records =
    database_step extraction_time db' records.
Proof.
  intros Hn Hit. destruct (database_name db) as [db_name|e] eqn:Hdb.
  - rewrite !(database_step_named _ _ db_name) by done.
    unfold database_records.
    destruct (analyses_met db), (analyses_met db'); cbn in Hit; try done.
    by injection Hit as ->.
  - by rewrite !(database_step_unnamed _ _ e).
Qed.

(** C25: the collection of the databases is read outside any [try] but the
    one with [finally]: when it fails after some databases, the function
    raises and the records of the databases it had gone through are
    lost. *)
Theorem cut_databases_lose_all extraction_time pi_system dbs e :
  is_None pi_system = false →
  databases_of pi_system = Ok (mkIter dbs (Some e)) →
  Forall (λ db, is_ok (database_name db) = true) dbs →
  extract_analyses_from_all_databases extraction_time (Ok pi_system) = Raise e.
Proof.
  intros Hp Hdbs Hnames. unfold extract_analyses_from_all_databases. cbn.
  rewrite Hp, all_databases_run, Hdbs. cbn.
  by destruct (databases_records_named extraction_time dbs Hnames) as [rs ->].
Qed.

(** C26: the extraction is reproducible up to its time stamp: run again
    at another time against a server that holds and answers the same, it
    returns again, with as many records in the same order, and each record
    holds what it held before under every key but [ExtractedAt].  The
    time reaches nothing else: no record, no count and no failure depends
    on it. *)
Theorem all_databases_reproducible time1 time2 found records1 :
  extract_analyses_from_all_databases time1 found = Ok records1 →
  ∃ records2,
    extract_analyses_from_all_databases time2 found = Ok records2 ∧
    Forall2 (agree_off ["ExtractedAt"]) records1 records2.
Proof.
  unfold extract_analyses_from_all_databases.
  destruct found as [pi_system|e]; [cbn|done].
  destruct (is_None pi_system); [done|]. rewrite !all_databases_run.
  destruct (databases_of pi_system) as [dbs|]; [cbn|done].
  destruct (databases_records time1 _) as [rs1|] eqn:H1; [cbn|done].
  destruct (databases_records_times _ time2 _ _ H1) as (rs2&->&Hrs). cbn.
  destruct (ended dbs); [done|]. intros [= <-]. by exists rs2.
Qed.

(** Every record that [extract_analyses_from_all_databases] returns
    has the 35 keys of the raw output format, in order, with values that
    [json.dump] can write. *)
Theorem all_databases_schema extraction_time found records :
  extract_analyses_from_all_databases extraction_time found = Ok records →
  Forall (λ info, dict_keys info = analysis_info_raw_keys ∧ info_plain info)
    records.
Proof.
  unfold extract_analyses_from_all_databases.
  destruct found as [pi_system|e]; [cbn|done].
  destruct (is_None pi_system); [done|]. rewrite all_databases_run.
  intros Hrun. res_binds Hrun. by eapply databases_records_schema.
Qed.

End all_databases.

(** ** The search through the elements *)

Section search.
Context `{!Builtins}.
Implicit Types (records : Records) (element elements : Obj).

(** The recursive call is made on what [Elements] holds, and only there. *)
Lemma element_children_step_ext traverse traverse' element records :
  (∀ elements records,
     getattr element "Elements" = Ok elements →
     traverse elements records = traverse' elements records) →
  element_children_step traverse element records =
    element_children_step traverse' element records.
Proof.
  intros Hrec. unfold element_children_step, st_try, st_bind, st_lift.
  destruct (getattr element "Elements") as [elements|e] eqn:He; [|done].
  destruct (truthy elements) as [[|]|e]; cbn; [|done..].
  destruct (res_bind (getattr elements "Count") _) as [[|]|e]; [|done..].
  by rewrite (Hrec elements records eq_refl).
Qed.

(** C35: the recursion of [traverse_elements] ends: a bound on the depth
    that is larger than the size of the object is never reached, and the
    traversal does the same under every such bound. *)
Theorem traverse_elements_fuel fuel fuel' extraction_time elements records :
  obj_size elements < fuel → obj_size elements < fuel' →
  traverse_elements fuel extraction_time elements records =
    traverse_elements fuel' extraction_time elements records.
Proof.
  revert fuel' elements records.
  induction fuel as [|fuel IH]; intros [|fuel'] elements records H1 H2;
    [lia..|].
  cbn [traverse_elements].
  apply st_for_in_ext. intros element Hel records'.
  apply st_bind_ext. intros _ records''.
  apply element_children_step_ext. intros sub records3 Hsub.
  pose proof (obj_size_iterate _ _ Hel).
  pose proof (obj_size_getattr _ _ _ Hsub). apply IH; lia.
Qed.

Lemma search_body_total fuel conn extraction_time :
  st_total (search_body fuel conn extraction_time).
Proof. unfold search_body. st_total_tac. Qed.

Lemma search_returns fuel conn extraction_time :
  ∃ records, search_analyses_in_elements fuel conn extraction_time = Ok records.
Proof.
  unfold search_analyses_in_elements, st_run.
  destruct (st_total_run _ [] (search_body_total fuel conn extraction_time))
    as [[] ->].
  eauto.
Qed.

(** Every statement of the search keeps the records well-formed. *)
Lemma traverse_elements_keeps fuel extraction_time elements :
  st_keeps
    (Forall (λ info, dict_keys info = analysis_info_keys ∧ info_plain info))
    (traverse_elements fuel extraction_time elements).
Proof.
  revert elements. induction fuel as [|fuel IH]; intros elements;
    [apply st_keeps_lift|].
  cbn [traverse_elements].
  unfold element_analyses_step, found_analysis_step, element_children_step.
  st_keeps_tac; try apply IH.
  apply st_keeps_append. by eapply record_schema.
Qed.

Lemma search_returns_schema fuel conn extraction_time :
  ∃ records,
    search_analyses_in_elements fuel conn extraction_time = Ok records ∧
    Forall (λ info, dict_keys info = analysis_info_keys ∧ info_plain info)
      records.
Proof.
  destruct (search_returns fuel conn extraction_time) as [records Hr].
  exists records. split; [done|].
  eapply st_keeps_run; [|apply Forall_nil_2|exact Hr].
  unfold search_body. st_keeps_tac. apply traverse_elements_keeps.
Qed.

(** [search_analyses_in_elements] never raises, whatever the elements
    do; and each record it returns has the 34 keys of the output format
    with values that [json.dump] can write. *)
Theorem search_analyses_in_elements_schema fuel conn extraction_time :
  ∃ records,
    search_analyses_in_elements fuel conn extraction_time = Ok records ∧
    Forall (λ info, dict_keys info = analysis_info_keys ∧ info_plain info)
      records.
Proof. apply search_returns_schema. Qed.

(** C36: an element that gives neither its analyses nor its name ends the
    traversal of its level: the handler of the first [try] formats the name
    of the element, and what that raises leaves [traverse_elements] before
    the elements after it are looked at. *)
Theorem closed_element_ends_traversal fuel extraction_time elements element
    rest e0 e records :
  given (iterate elements) = element :: rest →
  attr_if_true element "Analyses" = Raise e0 →
  getattr element "Name" = Raise e →
  traverse_elements (S fuel) extraction_time elements records =
    (Raise e, records).
Proof.
  intros Hi Ha Hn. cbn [traverse_elements].
  apply (st_for_in_raise _ [] element rest _ _ records e); [done..|].
  unfold st_bind at 1, element_analyses_step, st_try, st_bind, st_lift.
  by rewrite Ha, Hn.
Qed.

End search.

(** ** One database *)

Section one_database.
Context `{!Builtins}.

Lemma records_schema extraction_time analyses :
  Forall (λ info, dict_keys info = analysis_info_keys ∧ info_plain info)
    (records_of extraction_time analyses).
Proof.
  apply Forall_forall. intros info (a&_&Ha)%list_elem_of_omap.
  destruct (extract_analysis_info a extraction_time) eqn:Hr; simplify_eq/=.
  by eapply record_schema.
Qed.

(** Two runs at two times: the records of the same analyses go side by
    side. *)
Lemma records_of_times time1 time2 analyses :
  Forall2 (agree_off ["ExtractedAt"])
    (records_of time1 analyses) (records_of time2 analyses).
Proof.
  induction analyses as [|analysis analyses IH]; [constructor|]. cbn.
  pose proof (record_times analysis time1 time2) as Hr.
  destruct (extract_analysis_info analysis time1),
    (extract_analysis_info analysis time2); cbn; try done.
  by constructor.
Qed.

(** The [try] of [extract_analyses], as a function of the database. *)
Lemma database_analyses_run fuel conn af_database extraction_time :
  st_run (database_analyses fuel conn af_database extraction_time) [] =
    match analyses_of af_database with
    | Ok analyses => Ok (records_of extraction_time analyses)
    | Raise e =>
        if bool_decide (e = AttributeError)
        then search_analyses_in_elements fuel conn extraction_time
        else Raise e
    end.
Proof.
  destruct (search_returns fuel conn extraction_time) as [found Hs].
  unfold st_run, database_analyses, analyses_of, st_try.
  unfold st_bind, st_lift.
  repeat match goal with
  | |- context [res_bind ?m _] =>
      lazymatch m with
      | py_iter _ => fail
      | _ => destruct m as [?|?]; cbn;
               [|rewrite one_of_singleton; case_bool_decide; by rewrite ?Hs]
      end
  end.
  rewrite analyses_loop. unfold py_iter, iter_list.
  destruct (ended _) as [e|]; cbn; [|done].
  rewrite one_of_singleton. case_bool_decide; by rewrite ?Hs.
Qed.

(** [extract_analyses] on one database, from the connection on. *)
Lemma extract_analyses_run fuel extraction_time database found conn
    initialized :
  extract_analyses fuel extraction_time (Some database) found conn initialized =
    (conn ← conn;
     af_database ← database_of conn initialized;
     st_run (database_analyses fuel conn af_database extraction_time) [])%py.
Proof.
  unfold extract_analyses, database_of. destruct conn as [conn|e]; [cbn|done].
  repeat match goal with
  | |- context [res_bind ?m _] =>
      lazymatch m with
      | res_bind _ _ => fail
      | _ => destruct m as [?|?]; cbn; [|done]
      end
  end.
  done.
Qed.

(** C10: [extract_analyses] on one database is a function of the
    connection: the records of the analyses of the database that can be
    identified, in the order of the collection; the result of the search
    through the elements when reading the collection raises
    [AttributeError]; and any other exception of that read as it is. *)
Theorem extract_analyses_spec fuel extraction_time database found conn
    initialized :
  extract_analyses fuel extraction_time (Some database) found conn initialized =
    (conn ← conn;
     af_database ← database_of conn initialized;
     match analyses_of af_database with
     | Ok analyses => Ok (records_of extraction_time analyses)
     | Raise e =>
         if bool_decide (e = AttributeError)
         then search_analyses_in_elements fuel conn extraction_time
         else Raise e
     end)%py.
Proof.
  rewrite extract_analyses_run. destruct conn as [conn|]; [cbn|done].
  destruct (database_of conn initialized); [cbn|done].
  apply database_analyses_run.
Qed.

(** Whichever way [extract_analyses] takes on one database, each
    record it returns has the 34 keys of the output format with values that
    [json.dump] can write. *)
Theorem extract_analyses_schema fuel extraction_time database found conn
    initialized records :
  extract_analyses fuel extraction_time (Some database) found conn initialized
    = Ok records →
  Forall (λ info, dict_keys info = analysis_info_keys ∧ info_plain info)
    records.
Proof.
  unfold extract_analyses. intros Hrun. res_binds Hrun.
  rewrite database_analyses_run in Hrun.
  destruct (analyses_of _) as [analyses|e].
  - injection Hrun as <-. apply records_schema.
  - case_bool_decide; [|done].
    destruct (search_returns_schema fuel x extraction_time) as (rs&Hs&?).
    rewrite Hs in Hrun. by simplify_eq.
Qed.

End one_database.

(** ** The functions on objects that are written out *)

(** The order of the elements decides what the search finds.  With an
    element that gives neither its analyses nor its name before it, the
    analysis of the unit is not found; with that element after it, it
    is. *)
Example search_depends_on_order :
  search_analyses_in_elements 10
    (ex_conn_elements
       [ex_element_closed; ex_element "Unit 1" [ex_analysis_named "Trip"] []])
    "2024-03-05T12:00:00" = Ok [] ∧
  ∃ record,
    search_analyses_in_elements 10
      (ex_conn_elements
         [ex_element "Unit 1" [ex_analysis_named "Trip"] []; ex_element_closed])
      "2024-03-05T12:00:00" = Ok [record] ∧
    dict_get "Name" record = Some (OStr "Trip").
Proof. split; [by vm_compute|]. eexists. by vm_compute. Qed.

(** ** Witnesses *)

Lemma unnamed_database_loses_all_witness :
  extract_analyses_from_all_databases "2024-03-05T12:00:00"
    (Ok (ex_server [ex_database "Plants" [ex_analysis_named "Trip"];
                    ex_database_unnamed []]))
    = Raise (NetError "timeout").
Proof.
  apply (unnamed_database_loses_all _ _
    [ex_database "Plants" [ex_analysis_named "Trip"]]
    (ex_database_unnamed []) [] None);
    [reflexivity|vm_compute; reflexivity|by repeat constructor|reflexivity].
Defined.

Lemma cut_collection_unseen_witness :
  database_step "2024-03-05T12:00:00"
    (ex_database_cut "Plants" 2 [ex_analysis_named "Trip"]) [] =
  database_step "2024-03-05T12:00:00"
    (ex_database "Plants" [ex_analysis_named "Trip"]) [].
Proof. by apply cut_collection_unseen. Defined.

Lemma cut_databases_lose_all_witness :
  extract_analyses_from_all_databases "2024-03-05T12:00:00"
    (Ok (ONet [("Connect", SVal ONone); ("Name", SVal (OStr "GENCOPI"));
               ("Databases",
                SVal (ex_collection_cut 2
                        [ex_database "Plants" [ex_analysis_named "Trip"]]))]))
    = Raise (NetError "connection lost").
Proof.
  apply (cut_databases_lose_all _ _
    [ex_database "Plants" [ex_analysis_named "Trip"]]);
    [reflexivity|vm_compute; reflexivity|by repeat constructor].
Defined.

Lemma all_databases_reproducible_witness :
  ∃ records1,
    extract_analyses_from_all_databases "2024-03-05T12:00:00"
      (Ok (ex_server [ex_database "Plants" [ex_analysis_named "Trip"]]))
      = Ok records1 ∧
    ∃ records2,
      extract_analyses_from_all_databases "2025-01-01T00:00:00"
        (Ok (ex_server [ex_database "Plants" [ex_analysis_named "Trip"]]))
        = Ok records2 ∧
      Forall2 (agree_off ["ExtractedAt"]) records1 records2.
Proof.
  eexists. split; [vm_compute; reflexivity|].
  eapply (all_databases_reproducible "2024-03-05T12:00:00"
    "2025-01-01T00:00:00"
    (Ok (ex_server [ex_database "Plants" [ex_analysis_named "Trip"]]))).
  vm_compute. reflexivity.
Defined.

Lemma all_databases_schema_witness :
  ∃ records,
    extract_analyses_from_all_databases "2024-03-05T12:00:00"
      (Ok (ex_server [ex_database "Plants" [ex_analysis_named "Trip"]]))
      = Ok records ∧
    Forall (λ info, dict_keys info = analysis_info_raw_keys ∧ info_plain info)
      records.
Proof.
  eexists. split; [vm_compute; reflexivity|].
  eapply (all_databases_schema "2024-03-05T12:00:00"
    (Ok (ex_server [ex_database "Plants" [ex_analysis_named "Trip"]]))).
  vm_compute. reflexivity.
Defined.

Lemma traverse_elements_fuel_witness :
  traverse_elements 40 "2024-03-05T12:00:00" ex_roots [] =
    traverse_elements 1000 "2024-03-05T12:00:00" ex_roots [].
Proof. apply traverse_elements_fuel; vm_compute; lia. Defined.

Lemma closed_element_ends_traversal_witness :
  traverse_elements 10 "2024-03-05T12:00:00"
    (ex_collection
       [ex_element_closed; ex_element "Unit 1" [ex_analysis_named "Trip"] []])
    [] = (Raise (NetError "denied"), []).
Proof.
  apply (closed_element_ends_traversal 9 _ _ ex_element_closed
    [ex_element "Unit 1" [ex_analysis_named "Trip"] []] (NetError "denied"));
    by vm_compute.
Defined.

Lemma extract_analyses_schema_witness :
  ∃ records,
    extract_analyses 10 "2024-03-05T12:00:00" (Some "Plants") (Raise KeyError)
      (Ok (ex_conn_elements
             [ex_element "Unit 1" [ex_analysis_named "Trip"] []]))
      (Ok tt) = Ok records ∧
    Forall (λ info, dict_keys info = analysis_info_keys ∧ info_plain info)
      records.
Proof.
  eexists. split; [vm_compute; reflexivity|].
  eapply (extract_analyses_schema 10 "2024-03-05T12:00:00" "Plants"
    (Raise KeyError)
    (Ok (ex_conn_elements
           [ex_element "Unit 1" [ex_analysis_named "Trip"] []]))
    (Ok tt)).
  vm_compute. reflexivity.
Defined.
