(* ===== verification/ElementTree.v ===== *)
(** * The search through the elements, said without state

    [search_analyses_in_elements] of [examples/extract_analyses.py] walks
    the elements of a database: for each element of a level its analyses,
    then its children by a recursive call of [traverse_elements], with
    the list of records as its state and a [try] around every step
    ([AnalysisBatch]).  This file says what the walk does in two ways
    that have neither state nor handlers.

    First, of every object: [elements_met] is the list of the analyses
    the walk goes through, and the exception that ends it when one does.
    It is made of what the statements meet ([analyses_read],
    [name_logged], [entered]) the way the code is made of the
    statements, and [traverse_elements] goes through exactly that
    ([traverse_elements_meets], by the rules of [st_meets]); so the
    search returns the records of [search_met]
    ([search_analyses_in_elements_spec]).  Only one thing ends the walk
    of a level before its last element: an element that fails both its
    analyses and its name ([elements_met_closed]).  A collection that
    breaks off while it is read, a level that cannot be entered, whatever
    a deeper level raises: all of that is swallowed, and the records met
    before are kept.

    Second, of a hierarchy: the elements the walk sees are a tree,
    [Element], and what it should collect is the analyses in preorder, an
    element before its children, the children in the order of their
    collection ([analyses_of_element]).  [reads_as o e] says that the
    object [o] answers as the element [e]: the walk meets the analyses of
    [e] on it and goes down to the children of [e].  The name of an
    element is read for the log only, after the record of an analysis has
    been appended: it plays no part in what is collected.  Every tree has
    an object that answers as it does ([element_obj_reads]).

    The interpreter bounds the depth of the recursion, and
    [RecursionError] is an [Exception]: the [try] around the recursive
    call (line 813) swallows it.  What the walk collects under the bound
    [fuel] is therefore [analyses_within fuel]: the analyses of the first
    [fuel] levels ([search_analyses_in_elements_levels]).  That is all of
    them when no element lies deeper than the bound ([search_complete]);
    when some do, their records are missing, the others are there in
    their order ([search_within_all]), and no exception tells.  The bound
    is counted in calls of [traverse_elements]; the calls an element makes
    besides are taken to fit under it.

    [worklist] is the walk without recursion that a reimplementation
    would use: a list of the elements still to visit.  It is defined by
    well-founded recursion on the number of elements left, with
    Equations; its equations rest on functional extensionality, which
    [search_as_worklist] therefore uses.  It gives the preorder
    ([worklist_preorder]), and so what the search returns within its
    bound.

    What the walk meets does not depend on the time of the extraction;
    with the record of an analysis that depends on it under [ExtractedAt]
    only ([record_times] of [AnalysisInfo]), two runs of
    [extract_analyses] on one database agree outside that key
    ([one_database_reproducible]). *)

From Equations Require Import Equations.
From stdpp Require Import base tactics numbers option list strings.
From S2P Require Import Prelude PyStr PyObj State Info Analyses AnalysisInfo.
From S2P Require Import AnalysisBatch.

#[global] Set Warnings "-clear-no-such-hyp,-register-all".

#[local] Open Scope st_scope.

(** ** What the walk meets *)

Section met.
Context `{!Builtins}.

(** The record of an analysis, when it can be identified. *)
Definition record_of (extraction_time : string) (analysis : Obj)
    : option Info :=
  res_to_option (extract_analysis_info analysis extraction_time).

(** Lines 798-799: the analyses that the loop of an element goes
    through, and how reading them ends. *)
Definition analyses_read (element : Obj) : Iter Obj :=
  match attr_if_true element "Analyses" with
  | Ok (Some analyses_collection) => iterate analyses_collection
  | Ok None => mkIter [] None
  | Raise e => mkIter [] (Some e)
  end.

(** Line 807: the handler formats the name of the element. *)
Definition name_logged (element : Obj) : Res unit :=
  (name ← getattr element "Name"; log_fmt name)%py.

(** Lines 797-807: the analyses met on an element; the block ends with
    an exception when reading them fails and the name fails then. *)
Definition element_analyses_met (element : Obj) : Iter Obj :=
  iter_catch (analyses_read element) (λ _, iter_of_res (name_logged element)).

(** Line 811: the collection that the recursive call is made on, if it is
    made. *)
Definition entered (element : Obj) : Res (option Obj) :=
  (elements ← getattr element "Elements";
   t ← truthy elements;
   some ← (if t then count ← getattr elements "Count"; py_gt_zero count
           else Ok false);
   Ok (if some then Some elements else None))%py.

(** Lines 810-814: what is met below an element, when [below] says what
    the recursive call meets; the block never ends with an exception. *)
Definition children_met (below : Obj → Iter Obj) (element : Obj) : Iter Obj :=
  match entered element with
  | Ok (Some elements) => mkIter (given (below elements)) None
  | _ => mkIter [] None
  end.

(** Lines 796-814: the body of the loop. *)
Definition element_met (below : Obj → Iter Obj) (element : Obj) : Iter Obj :=
  iter_app (element_analyses_met element) (children_met below element).

(** Lines 793-814: the analyses [traverse_elements] goes through on a
    collection of elements. *)
Fixpoint elements_met (fuel : nat) (elements : Obj) : Iter Obj :=
  match fuel with
  | 0 => mkIter [] (Some RecursionError)
  | S fuel => iter_bind (iterate elements) (element_met (elements_met fuel))
  end.

(** Lines 818-819: the roots of the database, once they are counted. *)
Definition roots_of (conn : Obj) : Res Obj :=
  (database ← getattr conn "database";
   root_elements ← getattr database "Elements";
   count ← getattr root_elements "Count";
   _ ← log_fmt count;
   Ok root_elements)%py.

(** Lines 817-822: the analyses the search goes through. *)
Definition search_met (fuel : nat) (conn : Obj) : list Obj :=
  match roots_of conn with
  | Ok root_elements => given (elements_met fuel root_elements)
  | Raise _ => []
  end.

(** The elements that the walk of a level goes down to from an element,
    and those it starts from. *)
Definition children_given (element : Obj) : list Obj :=
  match entered element with
  | Ok (Some elements) => given (iterate elements)
  | _ => []
  end.

Definition roots_given (conn : Obj) : list Obj :=
  match roots_of conn with
  | Ok root_elements => given (iterate root_elements)
  | Raise _ => []
  end.

End met.

(** ** The hierarchy *)

(** An element: its name, its analyses and its children. *)
Inductive Element : Type :=
  ENode (name : string) (analyses : list Obj) (children : list Element).

(** The analyses of an element and of what lies below it, in preorder. *)
Fixpoint analyses_of_element (e : Element) : list Obj :=
  match e with
  | ENode _ analyses children => analyses ++ children ≫= analyses_of_element
  end.

(** The same down to a depth: the element is at depth 1. *)
Fixpoint analyses_within (depth : nat) (e : Element) : list Obj :=
  match depth, e with
  | 0, _ => []
  | S depth, ENode _ analyses children =>
      analyses ++ children ≫= analyses_within depth
  end.

(** The number of levels of an element. *)
Fixpoint levels (e : Element) : nat :=
  match e with ENode _ _ children => S (max_list (levels <$> children)) end.

(** The number of elements in and below an element, and in a list of
    them. *)
Fixpoint element_size (e : Element) : nat :=
  match e with
  | ENode _ _ children => S (sum_list_with element_size children)
  end.

Definition stack_size (stack : list Element) : nat :=
  sum_list_with element_size stack.

(** The walk with a list of the elements still to visit in the place of
    the recursion: the first of them is visited, and its children are put
    before the others.  Each step takes one element off what is left, in
    and below the list. *)
Equations? worklist (stack : list Element) : list Obj
    by wf (stack_size stack) lt :=
worklist [] := [];
worklist (ENode _ analyses children :: stack) :=
  analyses ++ worklist (children ++ stack).
Proof. unfold stack_size. rewrite sum_list_with_app. cbn. lia. Defined.

Section reads.
Context `{!Builtins}.

(** The object [o] answers as the element [e]: the walk meets the
    analyses of [e] on it, without an exception left, and goes down to
    the children of [e].  The name is for the log only. *)
Inductive reads_as : Obj → Element → Prop :=
  | reads_element o name analyses children :
      element_analyses_met o = mkIter analyses None →
      Forall2 reads_as (children_given o) children →
      reads_as o (ENode name analyses children).

(** The roots of the database of a connection are [es]. *)
Definition roots_read (conn : Obj) (es : list Element) : Prop :=
  Forall2 reads_as (roots_given conn) es.

End reads.

(** ** Objects of a hierarchy *)

(** An object that answers as [e], built as the examples of
    [AnalysisBatch] are. *)
Fixpoint element_obj (e : Element) : Obj :=
  match e with
  | ENode name analyses children =>
      ex_element name analyses (element_obj <$> children)
  end.

(** A connection to a database with the roots [es] and no [Analyses]. *)
Definition conn_obj (es : list Element) : Obj :=
  ex_conn_elements (element_obj <$> es).

(** A plant with a unit and a pump below it; each has one analysis. *)
Definition ex_plant : Element :=
  ENode "Plant A" [ex_analysis_named "Availability"]
    [ENode "Unit 1" [ex_analysis_named "Trip"]
       [ENode "Pump" [ex_analysis_named "Vibration"] []]].

(** A plant whose second unit gives neither its analyses nor its name,
    between two that do, and a plant after it. *)
Definition ex_conn_closed : Obj :=
  ex_conn_elements
    [ex_element "Plant B" []
       [ex_element "Unit 1" [ex_analysis_named "Trip"] [];
        ex_element_closed;
        ex_element "Unit 3" [ex_analysis_named "Surge"] []];
     ex_element "Plant C" [ex_analysis_named "Availability"] []].

(** * Facts *)

(** ** The walk goes through what it meets *)

Section walk.
Context `{!Builtins}.
Implicit Types (records : Records) (element elements o : Obj).

(** Lines 800-805: the record of an analysis is appended before the line
    that names the element is formatted, so that it stays in the list
    whatever the name of the element does. *)
Lemma found_analysis_step_meets extraction_time element analysis :
  st_meets (record_of extraction_time)
    (found_analysis_step extraction_time element analysis)
    (mkIter [analysis] None).
Proof.
  intros records. unfold found_analysis_step, st_try, record_of.
  unfold st_bind at 1, st_lift. cbn.
  destruct (extract_analysis_info analysis extraction_time) as [info|];
    cbn; [|by rewrite app_nil_r].
  unfold st_bind, st_lift, st_append, st_modify. cbn.
  destruct (getattr element "Name") as [name|]; cbn; [|done].
  by destruct (log_fmt name).
Qed.

(** Lines 798-803: the body of the first [try]. *)
Lemma analyses_block_meets extraction_time element :
  st_meets (record_of extraction_time)
    (a ⇐ attr_if_true element "Analyses";
     if a is Some _ then
       analyses_collection ⇐ getattr element "Analyses";
       st_for_in (iterate analyses_collection)
         (found_analysis_step extraction_time element)
     else st_pass)
    (analyses_read element).
Proof.
  unfold analyses_read.
  destruct (attr_if_true element "Analyses") as [[c|]|e] eqn:Hc;
    [|apply st_meets_pass|intros records; cbn; by rewrite app_nil_r].
  apply attr_if_true_Some in Hc as [Hc _]. intros records.
  rewrite st_bind_lift_ok. cbv beta iota. rewrite Hc, st_bind_lift_ok.
  rewrite <-(iter_bind_singletons (iterate c)) at 2 3.
  apply st_meets_for_in. intros a _. apply found_analysis_step_meets.
Qed.

(** Lines 797-807 *)
Lemma element_analyses_step_meets extraction_time element :
  st_meets (record_of extraction_time)
    (element_analyses_step extraction_time element)
    (element_analyses_met element).
Proof.
  apply st_meets_try; [apply analyses_block_meets|]. intros _ records.
  unfold name_logged, st_bind, st_lift.
  destruct (getattr element "Name") as [name|]; cbn;
    [|by rewrite app_nil_r].
  destruct (log_fmt name); cbn; by rewrite app_nil_r.
Qed.

(** Lines 810-814 on every branch: the recursive call is made on
    [entered], inside a [try] that swallows what it raises. *)
Lemma element_children_step_run traverse element records :
  element_children_step traverse element records =
    match entered element with
    | Ok (Some elements) =>
        st_try (traverse elements) any_exception (λ _, st_pass) records
    | _ => (Ok tt, records)
    end.
Proof.
  unfold element_children_step, entered, st_try, st_bind, st_lift.
  destruct (getattr element "Elements") as [elements|] eqn:He; cbn; [|done].
  destruct (truthy elements) as [[]|]; cbn; [|done..].
  by destruct (res_bind (getattr elements "Count") _) as [[]|].
Qed.

Lemma element_children_step_meets extraction_time traverse below element :
  (∀ elements,
     st_meets (record_of extraction_time) (traverse elements) (below elements)) →
  st_meets (record_of extraction_time)
    (element_children_step traverse element) (children_met below element).
Proof.
  intros Htr records. rewrite element_children_step_run. unfold children_met.
  destruct (entered element) as [[elements|]|];
    [by apply st_meets_try_pass|apply st_meets_pass..].
Qed.

(** Lines 793-814: [traverse_elements] goes through [elements_met], under
    every bound and on every object. *)
Lemma traverse_elements_meets fuel extraction_time elements :
  st_meets (record_of extraction_time)
    (traverse_elements fuel extraction_time elements)
    (elements_met fuel elements).
Proof.
  revert elements. induction fuel as [|fuel IH]; intros elements.
  { intros records. cbn. by rewrite app_nil_r. }
  cbn [traverse_elements elements_met].
  apply st_meets_for_in. intros element _. apply st_meets_seq.
  - apply element_analyses_step_meets.
  - by apply element_children_step_meets.
Qed.

(** Lines 817-822: the [try] of the search never ends with an
    exception. *)
Lemma search_body_meets fuel conn extraction_time :
  st_meets (record_of extraction_time)
    (search_body fuel conn extraction_time)
    (mkIter (search_met fuel conn) None).
Proof.
  pose proof (traverse_elements_meets fuel extraction_time) as Htr.
  intros records. unfold search_body, search_met, roots_of, st_try.
  unfold st_bind, st_lift.
  repeat match goal with
  | |- context [res_bind ?m _] =>
      destruct m as [?|?]; cbn; [|by rewrite app_nil_r]
  end.
  rewrite Htr. by destruct (ended _).
Qed.

(** The search returns the records of what it has met. *)
Lemma search_run fuel conn extraction_time :
  search_analyses_in_elements fuel conn extraction_time =
    Ok (records_of extraction_time (search_met fuel conn)).
Proof.
  unfold search_analyses_in_elements.
  by rewrite (st_meets_run _ _ _ (search_body_meets fuel conn extraction_time)).
Qed.

(** C11: [search_analyses_in_elements], with the list it appends to, its
    recursion and its three kinds of [try], is a function of the
    connection: it returns the records of the analyses that can be
    identified among those that [search_met] lists, in that order, and
    never raises.  Nothing that fails while a level is read loses a record
    that was appended before, and nothing tells that it failed. *)
Theorem search_analyses_in_elements_spec fuel conn extraction_time :
  search_analyses_in_elements fuel conn extraction_time =
    Ok (omap (record_of extraction_time) (search_met fuel conn)).
Proof. apply search_run. Qed.

(** An element that gives neither its analyses nor its name ends the walk
    of its level: the elements before it are met with what lies below
    them, those after it are not. *)
Lemma elements_met_closed fuel elements before element after e0 e :
  given (iterate elements) = before ++ element :: after →
  ended (iter_concat (element_met (elements_met fuel)) before None) = None →
  attr_if_true element "Analyses" = Raise e0 →
  getattr element "Name" = Raise e →
  elements_met (S fuel) elements =
    mkIter
      (given (iter_concat (element_met (elements_met fuel)) before None))
      (Some e).
Proof.
  intros Hi Hb Ha Hn. cbn. unfold iter_bind. rewrite Hi.
  rewrite (iter_concat_raise _ _ _ _ _ e Hb).
  - unfold element_met, element_analyses_met, analyses_read, name_logged.
    rewrite Ha, Hn. cbn. by rewrite app_nil_r.
  - unfold element_met, element_analyses_met, analyses_read, name_logged.
    by rewrite Ha, Hn.
Qed.

End walk.

(** ** Trees *)

(** Induction on an element, with the property at hand for its
    children. *)
Lemma Element_ind_deep (P : Element → Prop) :
  (∀ name analyses children,
     Forall P children → P (ENode name analyses children)) →
  ∀ e, P e.
Proof.
  intros HP. fix IH 1. intros [name analyses children]. apply HP.
  induction children as [|c children IHc]; constructor; [apply IH|apply IHc].
Qed.

Lemma analyses_within_0 es : es ≫= analyses_within 0 = [].
Proof. by induction es. Qed.

Lemma analyses_within_levels depth e :
  levels e ≤ depth → analyses_within depth e = analyses_of_element e.
Proof.
  revert depth.
  induction e as [name analyses children IH] using Element_ind_deep.
  intros [|depth] Hd; cbn in *; [lia|]. f_equal.
  apply Nat.succ_le_mono in Hd.
  induction IH as [|c children Hc _ IHcs]; cbn in *; [done|].
  rewrite Hc, IHcs by lia. done.
Qed.

Lemma analyses_within_roots depth es :
  Forall (λ e, levels e ≤ depth) es →
  es ≫= analyses_within depth = es ≫= analyses_of_element.
Proof.
  induction 1 as [|e es He _ IH]; cbn; [done|].
  by rewrite IH, analyses_within_levels.
Qed.

(** The analyses within a depth are among all of them, in the same
    order. *)
Lemma analyses_within_sublist depth e :
  analyses_within depth e `sublist_of` analyses_of_element e.
Proof.
  revert depth.
  induction e as [name analyses children IH] using Element_ind_deep.
  intros [|depth]; cbn; [apply sublist_nil_l|].
  apply sublist_app; [done|]. apply bind_sublist_Forall.
  eapply Forall_impl; [done|]. auto.
Qed.

Lemma analyses_within_roots_sublist depth es :
  es ≫= analyses_within depth `sublist_of` es ≫= analyses_of_element.
Proof.
  apply bind_sublist_Forall, Forall_forall. intros e _.
  apply analyses_within_sublist.
Qed.

(** The list of elements to visit gives the preorder of the recursion. *)
Lemma worklist_preorder stack :
  worklist stack = stack ≫= analyses_of_element.
Proof.
  funelim (worklist stack); simp worklist; [done|].
  rewrite H, bind_app. cbn. by rewrite app_assoc.
Qed.

(** ** The walk of a hierarchy *)

Section hierarchy.
Context `{!Builtins}.
Implicit Types (element elements o : Obj) (e : Element).

(** The body of the loop on an element that answers as [e], when the
    recursive call meets [depth] levels. *)
Lemma element_met_levels below depth o e :
  (∀ elements es,
     Forall2 reads_as (given (iterate elements)) es →
     given (below elements) = es ≫= analyses_within depth) →
  reads_as o e →
  element_met below o = mkIter (analyses_within (S depth) e) None.
Proof.
  intros Hb [element name analyses children Ha Hch].
  unfold element_met, children_met. rewrite Ha.
  unfold children_given in Hch. cbn [analyses_within].
  destruct (entered element) as [[elements|]|];
    [by rewrite (Hb _ _ Hch)|apply Forall2_nil_inv_l in Hch as ->..];
    unfold iter_app; cbn; by rewrite app_nil_r.
Qed.

(** What the walk meets on the elements of a hierarchy: the analyses of
    [fuel] levels. *)
Lemma elements_met_levels fuel elements es :
  Forall2 reads_as (given (iterate elements)) es →
  given (elements_met fuel elements) = es ≫= analyses_within fuel.
Proof.
  revert elements es. induction fuel as [|fuel IH]; intros elements es Hes.
  { by rewrite analyses_within_0. }
  cbn. unfold iter_bind.
  rewrite (iter_concat_whole reads_as (analyses_within (S fuel)) _ _ es);
    [done..|].
  intros o e. by apply element_met_levels.
Qed.

Lemma search_met_levels fuel conn es :
  roots_read conn es → search_met fuel conn = es ≫= analyses_within fuel.
Proof.
  unfold roots_read, roots_given, search_met. intros Hes.
  destruct (roots_of conn) as [root_elements|];
    [by apply elements_met_levels|].
  apply Forall2_nil_inv_l in Hes as ->. done.
Qed.

(** C12: on a hierarchy, [search_analyses_in_elements] returns the records
    of the analyses of the first [fuel] levels, in preorder: an element
    before its children, the children in the order of their collection.
    The analyses of what lies deeper than the bound of the recursion are
    missing, and the function returns as if they were not there. *)
Theorem search_analyses_in_elements_levels fuel conn extraction_time es :
  roots_read conn es →
  search_analyses_in_elements fuel conn extraction_time =
    Ok (records_of extraction_time (es ≫= analyses_within fuel)).
Proof. intros Hr. by rewrite search_run, (search_met_levels _ _ es). Qed.

(** When no element lies deeper than the bound of the recursion,
    [search_analyses_in_elements] returns the records of all the analyses
    of the hierarchy that can be identified, in preorder. *)
Theorem search_complete fuel conn extraction_time es :
  roots_read conn es → Forall (λ e, levels e ≤ fuel) es →
  search_analyses_in_elements fuel conn extraction_time =
    Ok (records_of extraction_time (es ≫= analyses_of_element)).
Proof.
  intros Hr Hl.
  by rewrite search_run, (search_met_levels _ _ es), analyses_within_roots.
Qed.

(** The recursion of [search_analyses_in_elements] can be replaced by
    a list of the elements still to visit: when no element lies deeper
    than the bound of the recursion, the search returns the records of
    the analyses that the walk over such a list meets, in its order; and
    that walk has no bound. *)
Theorem search_as_worklist fuel conn extraction_time es :
  roots_read conn es → Forall (λ e, levels e ≤ fuel) es →
  search_analyses_in_elements fuel conn extraction_time =
    Ok (records_of extraction_time (worklist es)).
Proof.
  intros Hr Hl. rewrite worklist_preorder.
  by rewrite search_run, (search_met_levels _ _ es), analyses_within_roots.
Qed.

(** Under every bound, what the search returns is part of what the
    hierarchy holds, in preorder: the bound loses records, and neither
    adds nor reorders any. *)
Theorem search_within_all fuel conn extraction_time es :
  roots_read conn es →
  ∃ records,
    search_analyses_in_elements fuel conn extraction_time = Ok records ∧
    records `sublist_of` records_of extraction_time (es ≫= analyses_of_element).
Proof.
  intros Hr. eexists. split; [apply search_run|].
  rewrite (search_met_levels _ _ es) by done.
  apply omap_sublist, analyses_within_roots_sublist.
Qed.

(** [extract_analyses] on a database that has no [Analyses] returns
    what the search through its elements finds: the records of the
    analyses of the first [fuel] levels of the hierarchy, in preorder. *)
Theorem extract_analyses_through_elements fuel extraction_time database
    found conn initialized af_database es :
  database_of conn initialized = Ok af_database →
  getattr af_database "Analyses" = Raise AttributeError →
  roots_read conn es →
  extract_analyses fuel extraction_time (Some database) found (Ok conn)
    initialized =
    Ok (records_of extraction_time (es ≫= analyses_within fuel)).
Proof.
  intros Hdb Ha Hr. rewrite extract_analyses_run. cbn. rewrite Hdb. cbn.
  rewrite database_analyses_run. unfold analyses_of. rewrite Ha. cbn.
  by rewrite search_run, (search_met_levels _ _ es).
Qed.

End hierarchy.

(** ** Two runs *)

Section two_runs.
Context `{!Builtins}.

(** What the search goes through does not depend on the time: a second
    search at another time returns as many records, in the same order,
    that differ under [ExtractedAt] only. *)
Theorem search_reproducible fuel conn time1 time2 :
  ∃ records1 records2,
    search_analyses_in_elements fuel conn time1 = Ok records1 ∧
    search_analyses_in_elements fuel conn time2 = Ok records2 ∧
    Forall2 (agree_off ["ExtractedAt"]) records1 records2.
Proof.
  eexists _, _. split_and!; [apply search_run..|apply records_of_times].
Qed.

(** C34: The extraction of one database is reproducible up to its time
    stamp, whichever way it takes: run again at another time against a
    connection that holds and answers the same, [extract_analyses] returns
    again, with as many records in the same order, through the collection
    of the database or through its elements as before, and each record
    holds what it held under every key but [ExtractedAt]. *)
Theorem one_database_reproducible fuel time1 time2 database found conn
    initialized records1 :
  extract_analyses fuel time1 (Some database) found conn initialized
    = Ok records1 →
  ∃ records2,
    extract_analyses fuel time2 (Some database) found conn initialized
      = Ok records2 ∧
    Forall2 (agree_off ["ExtractedAt"]) records1 records2.
Proof.
  rewrite !extract_analyses_run. destruct conn as [conn|]; [cbn|done].
  destruct (database_of conn initialized) as [af_database|]; [cbn|done].
  rewrite !database_analyses_run.
  destruct (analyses_of af_database) as [analyses|e].
  - intros [= <-]. eexists. split; [done|apply records_of_times].
  - case_bool_decide; [|done]. rewrite !search_run. intros [= <-].
    eexists. split; [done|apply records_of_times].
Qed.

End two_runs.

(** ** Every hierarchy has its objects *)

Lemma ex_element_analyses_met name analyses children :
  element_analyses_met (ex_element name analyses children) =
    mkIter analyses None.
Proof. done. Qed.

Lemma ex_element_children_given name analyses children :
  children_given (ex_element name analyses children) = children.
Proof. by destruct children. Qed.

Lemma element_obj_reads e : reads_as (element_obj e) e.
Proof.
  induction e as [name analyses children IH] using Element_ind_deep. cbn.
  apply reads_element; [apply ex_element_analyses_met|].
  rewrite ex_element_children_given.
  apply Forall2_fmap_l, Forall_Forall2_diag. done.
Qed.

Lemma conn_obj_roots es : roots_read (conn_obj es) es.
Proof.
  apply Forall2_fmap_l, Forall_Forall2_diag, Forall_forall.
  intros e _. apply element_obj_reads.
Qed.

(** * The theorems at work *)

(** A search that goes two levels deep returns the records of the plant
    and of its unit; that of the pump is missing. *)
Lemma search_analyses_in_elements_levels_witness :
  search_analyses_in_elements 2 (conn_obj [ex_plant]) "2024-03-05T12:00:00" =
    Ok (records_of "2024-03-05T12:00:00"
          [ex_analysis_named "Availability"; ex_analysis_named "Trip"]).
Proof.
  apply (search_analyses_in_elements_levels 2 (conn_obj [ex_plant])
           "2024-03-05T12:00:00" [ex_plant]).
  apply conn_obj_roots.
Defined.

Lemma search_complete_witness :
  search_analyses_in_elements 3 (conn_obj [ex_plant]) "2024-03-05T12:00:00" =
    Ok (records_of "2024-03-05T12:00:00"
          [ex_analysis_named "Availability"; ex_analysis_named "Trip";
           ex_analysis_named "Vibration"]).
Proof.
  apply (search_complete 3 (conn_obj [ex_plant]) "2024-03-05T12:00:00"
           [ex_plant]); [apply conn_obj_roots|].
  repeat constructor.
Defined.

Lemma search_as_worklist_witness :
  search_analyses_in_elements 3 (conn_obj [ex_plant]) "2024-03-05T12:00:00" =
    Ok (records_of "2024-03-05T12:00:00" (worklist [ex_plant])).
Proof.
  apply (search_as_worklist 3 (conn_obj [ex_plant]) "2024-03-05T12:00:00"
           [ex_plant]); [apply conn_obj_roots|].
  repeat constructor.
Defined.

Lemma extract_analyses_through_elements_witness :
  extract_analyses 2 "2024-03-05T12:00:00" (Some "Plants")
    (Raise (NetError "unused")) (Ok (conn_obj [ex_plant])) (Ok tt) =
    Ok (records_of "2024-03-05T12:00:00"
          [ex_analysis_named "Availability"; ex_analysis_named "Trip"]).
Proof.
  eapply (extract_analyses_through_elements 2 "2024-03-05T12:00:00" "Plants"
            _ (conn_obj [ex_plant]) (Ok tt) _ [ex_plant]);
    [vm_compute; reflexivity|reflexivity|apply conn_obj_roots].
Defined.

Lemma one_database_reproducible_witness :
  ∃ records2,
    extract_analyses 2 "2025-01-01T00:00:00" (Some "Plants")
      (Raise (NetError "unused")) (Ok (conn_obj [ex_plant])) (Ok tt)
      = Ok records2 ∧
    Forall2 (agree_off ["ExtractedAt"])
      (records_of "2024-03-05T12:00:00"
         [ex_analysis_named "Availability"; ex_analysis_named "Trip"])
      records2.
Proof.
  apply (one_database_reproducible 2 "2024-03-05T12:00:00").
  vm_compute. reflexivity.
Defined.

(** The unit that is closed ends the walk of the units of its plant: the
    first unit has been met, the third is not, and the walk goes on with
    the next plant. *)
Example search_met_closed :
  search_met 5 ex_conn_closed =
    [ex_analysis_named "Trip"; ex_analysis_named "Availability"].
Proof. vm_compute. reflexivity. Qed.
