(* ===== verification/PointList.v ===== *)
(** * The list of PI points: [extract_pi_points]

    [examples/extract_pipoints.py] lists the points of a PI server with
    their attributes.  One record per point is built in a dictionary,
    [point_info], inside [try] blocks, and appended to [points_list]; when
    building it fails, a short record with the name and the error is
    appended instead, if the name can still be read.

    The record of a point is code of [InfoM], the loop over the points is
    code of [StM Records].  The dictionary that [GetAttributes] returns is
    an [ODict]; [ContainsKey] and indexing are [contains_key] and
    [get_item].  [conn.search_points(pattern, max_count)] is a slot of the
    connection, as every call whose arguments do not change is; [conn] is
    what entering [PIServerConnection] gives.  The text of an exception,
    [str(e)], is its message: the one it carries in the model, and for an
    exception of Python's own the text that [Builtins] gives it.  [len(points)] is
    read for a [print] before the loop ([py_len]); the same read inside the
    loop, for the [print] of every 500th point, gives the same answer and
    is left out.  The result of the search is read while the loop runs
    ([st_for_in] over [iterate]). *)

From stdpp Require Import base tactics numbers option list strings.
From S2P Require Import Prelude PyStr PyObj State Info Analyses AnalysisInfo.

#[global] Set Warnings "-clear-no-such-hyp,-register-all".

#[local] Open Scope st_scope.

(** The list of records under construction. *)
Abbreviation Points := (list Info).

(** Lines 86-140: the attributes asked of every point. *)
Definition point_attributes : list string :=
  ["pointid"; "tag"; "pointtype"; "pointtypex"; "descriptor"; "engunits";
   "zero"; "span"; "displaydigits"; "typicalvalue"; "pointsource";
   "sourcetag"; "step"; "future"; "compressing"; "compdev";
   "compdevpercent"; "compmin"; "compmax"; "excdev"; "excdevpercent";
   "excmin"; "excmax"; "filtercode"; "shutdown"; "archiving"; "scan";
   "location1"; "location2"; "location3"; "location4"; "location5";
   "userint1"; "userint2"; "userreal1"; "userreal2"; "digitalset";
   "ptclassname"; "ptclassid"; "ptsecurity"; "datasecurity"; "squession";
   "totalcode"; "exdesc"; "instrumenttag"; "creationdate"; "creator";
   "changedate"; "changer"; "ptowner"; "ptgroup"; "ptaccess"; "recno"].

(** [attrs.ContainsKey(k)] and [attrs[k]] on the dictionary of attributes *)
Definition contains_key (attrs : Obj) (k : string) : Res bool :=
  match attrs with
  | ODict kvs => Ok (dict_has k kvs)
  | _ => Raise AttributeError
  end.

Definition get_item (attrs : Obj) (k : string) : Res Obj :=
  match attrs with
  | ODict kvs => res_of_option KeyError (dict_get k kvs)
  | _ => Raise TypeError
  end.

Section point_list.
Context `{!Builtins}.

(** [str(e)]: the message of the exception.  An exception of the SDK and
    a data error of the package carry theirs; what an exception of
    Python's own says, and how the package words a point that is not
    found, is [str_of_exn]. *)
Definition exn_text (e : Exn) : string :=
  match e with
  | NetError msg | PIDataError msg => msg
  | _ => str_of_exn e
  end.

(** Lines 161-173: a number when the text of the value reads as one, its
    text otherwise; a value without [ToString] as it is.  [hasattr] looks
    the method up without calling it; [str(value)] and line 171 call
    it. *)
Definition convert_attribute (value : Obj) : Res Obj :=
  (if is_None value then Ok value
   else
     if has_method value "ToString" then
       try_except
         (str_val ← py_str value;
          if str_contains "." str_val then f ← py_float value; Ok (OFloat f)
          else z ← py_int value; Ok (OInt z))
         (one_of [ValueError; TypeError])
         (λ _, text ← getattr value "ToString";
               s ← py_str text;
               Ok (OStr s))
     else Ok value)%py.

(** Lines 157-178: one attribute *)
Definition attribute_step (attrs : Obj) (attr_name : string) : InfoM unit :=
  st_try
    (has ⇐ contains_key attrs attr_name;
     if has then
       value ⇐ get_item attrs attr_name;
       value ⇐ convert_attribute value;
       info_set attr_name value
     else info_set attr_name ONone)
    any_exception (λ _, info_set attr_name ONone).

(** Lines 152-182: the attributes *)
Definition attributes_block (point : Obj) : InfoM unit :=
  st_try
    (attrs ⇐ getattr point "GetAttributes";
     st_for point_attributes (attribute_step attrs))
    any_exception (λ e, info_set "attributes_error" (OStr (exn_text e))).

(** Lines 189-192: the current value as a number, else as text *)
Definition convert_current (cv_val : Obj) : Res Obj :=
  (try_except (f ← py_float cv_val; Ok (OFloat f))
     (one_of [ValueError; TypeError])
     (λ _, t ← truthy cv_val;
           if t then s ← py_str cv_val; Ok (OStr s) else Ok ONone))%py.

(** Lines 185-200: the current value *)
Definition current_value_block (point : Obj) : InfoM unit :=
  st_try
    (current_value ⇐ getattr point "CurrentValue";
     t ⇐ truthy current_value;
     if t then
       cv_val ⇐ getattr current_value "Value";
       cv_val ⇐ convert_current cv_val;
       timestamp ⇐ getattr current_value "Timestamp";
       local_time ⇐ getattr timestamp "LocalTime";
       converted ⇐ convert_net_datetime local_time;
       good ⇐ getattr current_value "IsGood";
       is_good ⇐ truthy good;
       info_set "current_value"
         (ODict [("value", cv_val); ("timestamp", opt_datetime converted);
                 ("is_good", OBool is_good)])
     else st_pass)
    any_exception (λ _, info_set "current_value" ONone).

(** Lines 203-210: the class of the point *)
Definition point_class_block (point : Obj) : InfoM unit :=
  st_try
    (c ⇐ attr_if_true point "PointClass";
     if c is Some _ then
       point_class ⇐ getattr point "PointClass";
       has ⇐ hasattr point_class "Name";
       name ⇐ (if has then
                 (point_class ← getattr point "PointClass";
                  n ← getattr point_class "Name";
                  s ← py_str n;
                  Ok (OStr s))%py
               else Ok ONone);
       point_class ⇐ getattr point "PointClass";
       has ⇐ hasattr point_class "ID";
       id ⇐ (if has then
               (point_class ← getattr point "PointClass";
                i ← getattr point_class "ID";
                z ← py_int i;
                Ok (OInt z))%py
             else Ok ONone);
       info_set "point_class" (ODict [("name", name); ("id", id)])
     else st_pass)
    any_exception (λ _, info_set "point_class" ONone).

(** Lines 213-217: the server of the point *)
Definition server_name_block (point : Obj) : InfoM unit :=
  st_try
    (s ⇐ attr_if_true point "Server";
     if s is Some _ then
       server ⇐ getattr point "Server";
       n ⇐ getattr server "Name";
       name ⇐ py_str n;
       info_set "server_name" (OStr name)
     else st_pass)
    any_exception (λ _, info_set "server_name" ONone).

(** Lines 144-147: the dictionary the record starts as *)
Definition point_identification (point : Obj) : InfoM unit :=
  n ⇐ getattr point "Name";
  name ⇐ py_str n;
  has ⇐ hasattr point "ID";
  id ⇐ (if has then (i ← getattr point "ID"; z ← py_int i; Ok (OInt z))%py
        else Ok ONone);
  info_set "name" (OStr name);;
  info_set "id" id.

(** Lines 144-217: the record of a point *)
Definition point_record (point : Obj) : Res Info :=
  info_run
    (point_identification point;;
     attributes_block point;;
     current_value_block point;;
     point_class_block point;;
     server_name_block point).

(** Lines 224-233: the handler of the [try] of a point *)
Definition fallback_step (point : Obj) (e : Exn) : StM Points unit :=
  st_try
    (has ⇐ hasattr point "Name";
     name ⇐ (if has then (n ← getattr point "Name"; s ← py_str n; Ok s)%py
             else Ok "Unknown");
     st_append [("name", OStr name); ("error", OStr (exn_text e))])
    any_exception (λ _, st_pass).

(** Lines 143-233: one point *)
Definition point_step (point : Obj) : StM Points unit :=
  st_try
    (point_info ⇐ point_record point;
     st_append point_info)
    any_exception (fallback_step point).

(** Lines 61-236 *)
Definition extract_pi_points (conn : Res Obj) : Res Points :=
  (conn ← conn;
   name ← getattr conn "name";
   _ ← log_fmt name;
   points ← getattr conn "search_points";
   _ ← py_len points;
   st_run (st_for_in (iterate points) point_step) [])%py.

End point_list.

(** ** What the blocks assign, said directly *)

Section entries.
Context `{!Builtins}.

(** The value recorded for an attribute: [None] when the dictionary does
    not hold it and when reading or converting it raises. *)
Definition attribute_value (attrs : Obj) (attr_name : string) : Obj :=
  match contains_key attrs attr_name with
  | Ok true =>
      match (value ← get_item attrs attr_name; convert_attribute value)%py with
      | Ok v => v
      | Raise _ => ONone
      end
  | _ => ONone
  end.

Definition attribute_entries (point : Obj) : list (string * Obj) :=
  match getattr point "GetAttributes" with
  | Ok attrs => (λ k, (k, attribute_value attrs k)) <$> point_attributes
  | Raise e => [("attributes_error", OStr (exn_text e))]
  end.

(** What a block of the shape
    [try: if c: info[key] = v   except Exception: info[key] = None]
    assigns, from what evaluating [c] and [v] gives. *)
Definition optional_entry (key : string) (read : Res (option Obj))
    : list (string * Obj) :=
  match read with
  | Ok (Some v) => [(key, v)]
  | Ok None => []
  | Raise _ => [(key, ONone)]
  end.

Definition current_value_read (point : Obj) : Res (option Obj) :=
  (current_value ← getattr point "CurrentValue";
   t ← truthy current_value;
   if t then
     cv_val ← getattr current_value "Value";
     cv_val ← convert_current cv_val;
     timestamp ← getattr current_value "Timestamp";
     local_time ← getattr timestamp "LocalTime";
     converted ← convert_net_datetime local_time;
     good ← getattr current_value "IsGood";
     is_good ← truthy good;
     Ok (Some (ODict [("value", cv_val); ("timestamp", opt_datetime converted);
                      ("is_good", OBool is_good)]))
   else Ok None)%py.

Definition point_class_read (point : Obj) : Res (option Obj) :=
  (c ← attr_if_true point "PointClass";
   match c with
   | Some point_class =>
       has ← hasattr point_class "Name";
       name ← (if has then n ← getattr point_class "Name"; s ← py_str n; Ok (OStr s)
               else Ok ONone);
       has ← hasattr point_class "ID";
       id ← (if has then i ← getattr point_class "ID"; z ← py_int i; Ok (OInt z)
             else Ok ONone);
       Ok (Some (ODict [("name", name); ("id", id)]))
   | None => Ok None
   end)%py.

Definition server_name_read (point : Obj) : Res (option Obj) :=
  (s ← attr_if_true point "Server";
   match s with
   | Some server =>
       n ← getattr server "Name"; name ← py_str n; Ok (Some (OStr name))
   | None => Ok None
   end)%py.

(** The name and the id the record starts with. *)
Definition point_identity (point : Obj) : Res (string * Obj) :=
  (n ← getattr point "Name";
   name ← py_str n;
   has ← hasattr point "ID";
   id ← (if has then i ← getattr point "ID"; z ← py_int i; Ok (OInt z)
         else Ok ONone);
   Ok (name, id))%py.

(** The assignments after the first two, in order. *)
Definition point_entries (point : Obj) : list (string * Obj) :=
  attribute_entries point ++
  optional_entry "current_value" (current_value_read point) ++
  optional_entry "point_class" (point_class_read point) ++
  optional_entry "server_name" (server_name_read point).

(** The short record of a point whose record could not be built. *)
Definition fallback_entry (point : Obj) (e : Exn) : option Info :=
  match (has ← hasattr point "Name";
         if has then n ← getattr point "Name"; s ← py_str n; Ok s
         else Ok "Unknown")%py with
  | Ok name => Some [("name", OStr name); ("error", OStr (exn_text e))]
  | Raise _ => None
  end.

(** The key of such a block: absent when the condition is false. *)
Definition optional_key {A} (key : string) (read : Res (option A))
    : list string :=
  match read with Ok None => [] | _ => [key] end.

(** The keys of the record of a point, in order. *)
Definition point_record_keys (point : Obj) : list string :=
  "name" :: "id" ::
  (if is_ok (getattr point "GetAttributes") then point_attributes
   else ["attributes_error"]) ++
  optional_key "current_value" (current_value_read point) ++
  optional_key "point_class" (point_class_read point) ++
  optional_key "server_name" (server_name_read point).

(** The number a .NET value is turned into: a float when its text has a
    point, an integer otherwise. *)
Definition number_of (value : Obj) (text : string) : Res Obj :=
  (if str_contains "." text then f ← py_float value; Ok (OFloat f)
   else z ← py_int value; Ok (OInt z))%py.

(** What a point adds to the list. *)
Definition point_entry (point : Obj) : option Info :=
  match point_record point with
  | Ok info => Some info
  | Raise e => fallback_entry point e
  end.

End entries.

(** ** Points to run the function on *)

(** A .NET number: its text, and what [float()] and [int()] give. *)
Definition ex_net_float (text : string) (f : PyFloat) : Obj :=
  ONet [("ToString", SVal (OStr text)); ("__float__", SVal (OFloat f))].

Definition ex_net_int (text : string) (z : Z) : Obj :=
  ONet [("ToString", SVal (OStr text)); ("__int__", SVal (OInt z))].

(** A .NET string. *)
Definition ex_net_text (text : string) : Obj :=
  ONet [("ToString", SVal (OStr text))].

Definition ex_point (name : string) (id : Z) (attrs : list (string * Obj))
    : Obj :=
  ONet [("Name", SVal (OStr name)); ("ID", SVal (OInt id));
        ("GetAttributes", SVal (ODict attrs));
        ("CurrentValue", SVal ONone)].

(** A point whose name the server does not give. *)
Definition ex_point_closed : Obj :=
  ONet [("Name", SRaise (NetError "denied")); ("ID", SVal (OInt 7))].

(** A point without a name. *)
Definition ex_point_unnamed : Obj := ONet [("ID", SVal (OInt 8))].

Definition ex_pi_conn (points : list Obj) : Obj :=
  ONet [("name", SVal (OStr "PISRV"));
        ("search_points", SVal (OList points))].

(** * Facts *)

(** Follow two sides that make the same reads in the same order. *)
Ltac same_reads :=
  repeat match goal with
  | |- context [if ?b then _ else _] => is_var b; destruct b; cbn
  | |- context [match ?o with Some _ => _ | None => _ end] =>
      is_var o; destruct o; cbn
  | |- context [res_bind ?m _] =>
      lazymatch m with
      | res_bind _ _ => fail
      | if _ then _ else _ => fail
      | match _ with _ => _ end => fail
      | _ => destruct m as [?|?]; cbn
      end
  end.

Section block_values.
Context `{!Builtins}.
Implicit Types (point attrs : Obj) (info : Info).

Lemma attribute_step_value attrs attr_name info :
  attribute_step attrs attr_name info =
    (Ok tt, dict_set attr_name (attribute_value attrs attr_name) info).
Proof.
  unfold attribute_step, attribute_value, st_try, st_bind, st_lift, info_set.
  destruct (contains_key attrs attr_name) as [[|]|e]; cbn; [|done..].
  destruct (get_item attrs attr_name) as [v|e]; cbn; [|done].
  by destruct (convert_attribute v).
Qed.

Lemma attributes_loop attrs attr_names info :
  st_for attr_names (attribute_step attrs) info =
    (Ok tt,
     set_all ((λ k, (k, attribute_value attrs k)) <$> attr_names) info).
Proof.
  revert info. induction attr_names as [|k ks IH]; intros info; [done|].
  cbn [st_for]. by rewrite (st_bind_ok _ _ _ _ _ (attribute_step_value _ _ _)), IH.
Qed.

Lemma attributes_block_value point info :
  attributes_block point info = (Ok tt, set_all (attribute_entries point) info).
Proof.
  unfold attributes_block, attribute_entries, st_try, st_bind, st_lift.
  destruct (getattr point "GetAttributes") as [attrs|e]; [|done].
  by rewrite attributes_loop.
Qed.

Lemma current_value_block_value point info :
  current_value_block point info =
    (Ok tt,
     set_all (optional_entry "current_value" (current_value_read point)) info).
Proof.
  unfold current_value_block, current_value_read, optional_entry.
  unfold st_try, st_bind, st_lift, info_set. by same_reads.
Qed.

Lemma server_name_block_value point info :
  server_name_block point info =
    (Ok tt,
     set_all (optional_entry "server_name" (server_name_read point)) info).
Proof.
  unfold server_name_block, server_name_read, optional_entry.
  unfold st_try, st_bind, st_lift, info_set.
  destruct (attr_if_true point "Server") as [[server|]|e] eqn:Hs; cbn;
    [|done..].
  apply attr_if_true_Some in Hs as [-> _]. by same_reads.
Qed.

Lemma point_class_block_value point info :
  point_class_block point info =
    (Ok tt,
     set_all (optional_entry "point_class" (point_class_read point)) info).
Proof.
  unfold point_class_block, point_class_read, optional_entry.
  unfold st_try, st_bind, st_lift, info_set.
  destruct (attr_if_true point "PointClass") as [[point_class|]|e] eqn:Hs; cbn;
    [|done..].
  apply attr_if_true_Some in Hs as [-> _]. cbn. by same_reads.
Qed.

Lemma point_blocks_value point info :
  (attributes_block point;;
   current_value_block point;;
   point_class_block point;;
   server_name_block point) info =
    (Ok tt, set_all (point_entries point) info).
Proof.
  rewrite (st_bind_ok _ _ _ _ _ (attributes_block_value _ _)).
  rewrite (st_bind_ok _ _ _ _ _ (current_value_block_value _ _)).
  rewrite (st_bind_ok _ _ _ _ _ (point_class_block_value _ _)).
  rewrite server_name_block_value. unfold point_entries.
  by rewrite !set_all_app.
Qed.

Lemma point_step_entry point (points : Points) :
  point_step point points =
    (Ok tt, points ++ option_list (point_entry point)).
Proof.
  unfold point_step, point_entry, st_try, st_bind, st_lift.
  destruct (point_record point) as [info|e]; cbn; [done|].
  unfold fallback_step, fallback_entry, st_try, st_bind, st_lift.
  same_reads; by rewrite ?app_nil_r.
Qed.

Lemma points_loop items (points : Points) :
  st_for items point_step points = (Ok tt, points ++ omap point_entry items).
Proof.
  revert points. induction items as [|point items IH]; intros points; cbn.
  - by rewrite app_nil_r.
  - rewrite (st_bind_ok _ _ _ _ _ (point_step_entry _ _)), IH.
    destruct (point_entry point); cbn; by rewrite <-?app_assoc, ?app_nil_r.
Qed.

(** The loop over the search result, read while it runs: the entries of
    the points given, however the iteration ends. *)
Lemma points_loop_in (it : Iter Obj) (points : Points) :
  st_for_in it point_step points =
    (iter_end (ended it), points ++ omap point_entry (given it)).
Proof. unfold st_for_in. by rewrite (st_bind_ok _ _ _ _ _ (points_loop _ _)). Qed.

Lemma omap_length_le {A B} (f : A → option B) (l : list A) :
  length (omap f l) ≤ length l.
Proof. induction l as [|x l IH]; cbn; [done|]. destruct (f x); cbn; lia. Qed.

Lemma point_record_value point :
  point_record point =
    (identity ← point_identity point;
     Ok (set_all (("name", OStr identity.1) :: ("id", identity.2) ::
                  point_entries point) []))%py.
Proof.
  unfold point_record, info_run, point_identification, point_identity.
  unfold st_bind at 1 2 3 4, st_lift.
  same_reads; try done; by rewrite point_blocks_value.
Qed.

Lemma extract_pi_points_value conn :
  extract_pi_points conn =
    (conn ← conn;
     name ← getattr conn "name";
     _ ← log_fmt name;
     points ← getattr conn "search_points";
     _ ← py_len points;
     items ← py_iter points;
     Ok (omap point_entry items))%py.
Proof.
  unfold extract_pi_points, py_iter, iter_list.
  repeat match goal with
  | |- context [res_bind ?m _] =>
      lazymatch m with
      | iter_end _ => fail
      | _ => destruct m as [?|?]; cbn; [|done]
      end
  end.
  unfold st_run. rewrite points_loop_in. by destruct (ended _).
Qed.

(** No block assigns to [name] after the first assignment. *)
Lemma point_entries_not_name point : "name" ∉ (point_entries point).*1.
Proof.
  unfold point_entries, attribute_entries.
  destruct (getattr point "GetAttributes");
    destruct (current_value_read point) as [[?|]|?];
    destruct (point_class_read point) as [[?|]|?];
    destruct (server_name_read point) as [[?|]|?];
    apply (bool_decide_unpack _); by vm_compute.
Qed.

(** Every entry of the list, the record or the short record, holds the
    name of its point, a string. *)
Lemma point_entry_named point info :
  point_entry point = Some info → ∃ s, dict_get "name" info = Some (OStr s).
Proof.
  unfold point_entry. rewrite point_record_value.
  destruct (point_identity point) as [[name id]|e]; cbn [res_bind].
  - intros [= <-]. exists name.
    change (set_all (?a :: ?b :: ?l) []) with (set_all l [a; b]).
    by rewrite dict_get_set_all by apply point_entries_not_name.
  - unfold fallback_entry. intros Hf.
    destruct (res_bind _ _) as [name|] in Hf; simplify_eq. by exists name.
Qed.

End block_values.

(** ** The records *)

Section records.
Context `{!Builtins}.
Implicit Types (point : Obj).

(** The record of a point is a function of the point: the name and
    the id, then what each of the four blocks assigns, in order.  Building
    it raises only when reading the name or the id does; an attribute, the
    current value, the class or the server that cannot be read leaves its
    mark in the record and nothing else. *)
Theorem point_record_spec point :
  point_record point =
    (identity ← point_identity point;
     Ok (set_all (("name", OStr identity.1) :: ("id", identity.2) ::
                  point_entries point) []))%py.
Proof. apply point_record_value. Qed.

(** C4: [extract_pi_points] returns one entry per point, in the order of
    the search: the record of the point, or the short record with the error
    when the record cannot be built, or nothing when the name cannot be
    read then either.  It raises what the connection, the search, [len]
    of the result or its iteration raises; no point makes it raise.  The
    loop is not inside a [try], so a result that fails while it is read
    gives no list. *)
Theorem extract_pi_points_spec conn :
  extract_pi_points conn =
    (conn ← conn;
     name ← getattr conn "name";
     _ ← log_fmt name;
     points ← getattr conn "search_points";
     _ ← py_len points;
     items ← py_iter points;
     Ok (omap point_entry items))%py.
Proof. apply extract_pi_points_value. Qed.

(** C27: a point whose name the server refuses to give is left out of the
    list without a trace: building its record raises, and the handler, which
    would append the short record, reads the name again and is itself
    silenced.  A point that has no name at all is listed as [Unknown]. *)
Theorem unreadable_name_drops_point point e :
  getattr point "Name" = Raise e →
  point_entry point =
    if bool_decide (e = AttributeError)
    then Some [("name", OStr "Unknown");
               ("error", OStr (exn_text AttributeError))]
    else None.
Proof.
  intros Hn. unfold point_entry. rewrite point_record_value.
  unfold point_identity, fallback_entry. rewrite Hn. cbn.
  case_bool_decide as He.
  - subst. by rewrite (hasattr_of_missing _ _ Hn).
  - by rewrite (hasattr_of_raise _ _ _ Hn He).
Qed.

(** The list is never longer than the search result. *)
Theorem extract_pi_points_length conn points items records :
  getattr conn "search_points" = Ok points → py_iter points = Ok items →
  extract_pi_points (Ok conn) = Ok records →
  length records ≤ length items.
Proof.
  intros Hp Hi. rewrite extract_pi_points_value. cbn.
  destruct (getattr conn "name") as [n|e]; [cbn|done].
  destruct (log_fmt n); [cbn|done]. rewrite Hp. cbn.
  destruct (py_len points); [cbn|done]. rewrite Hi. cbn.
  intros [= <-]. apply omap_length_le.
Qed.

(** The keys of a record depend on the point.  After [name] and [id]
    come the 53 attribute names, all of them, or [attributes_error] alone
    when [GetAttributes] raises; then [current_value], [point_class] and
    [server_name], each present when the point has the property or when
    reading it raises, and absent when the point lacks it. *)
Theorem point_record_has_keys point info :
  point_record point = Ok info → dict_keys info = point_record_keys point.
Proof.
  rewrite point_record_value. intros Hr. res_binds Hr.
  rewrite dict_keys_set_all. unfold point_record_keys, point_entries.
  unfold attribute_entries.
  destruct (getattr point "GetAttributes");
    destruct (current_value_read point) as [[?|]|?];
    destruct (point_class_read point) as [[?|]|?];
    destruct (server_name_read point) as [[?|]|?]; by vm_compute.
Qed.

(** A .NET value whose text is [text] is recorded as the number its
    text announces, a float when the text has a point and an integer
    otherwise; when the conversion raises [ValueError] or [TypeError] it is
    recorded as that text; any other exception of the conversion leaves
    [convert_attribute]. *)
Theorem convert_attribute_text slots text :
  dict_get "ToString" slots = Some (SVal (OStr text)) →
  convert_attribute (ONet slots) =
    match number_of (ONet slots) text with
    | Ok n => Ok n
    | Raise e =>
        if bool_decide (e ∈ [ValueError; TypeError]) then Ok (OStr text)
        else Raise e
    end.
Proof.
  intros Ht. unfold convert_attribute, number_of. cbn [is_None].
  assert (getattr (ONet slots) "ToString" = Ok (OStr text)) as Hg
    by (cbn; by rewrite Ht).
  assert (py_str (ONet slots) = Ok text) as Hs by (cbn; by rewrite Ht).
  rewrite (has_method_of_ok _ _ _ Hg), Hs. cbn [res_bind].
  destruct (str_contains "." text);
    [destruct (py_float (ONet slots)) as [n|e]
    |destruct (py_int (ONet slots)) as [n|e]];
    cbn [res_bind try_except]; try done;
    unfold one_of; case_bool_decide; by rewrite ?Hg.
Qed.

End records.

(** ** The function on points that are written out *)

(** Three points: one with four attributes, one whose name the
    server refuses, one without a name.  The list has two entries: the
    record of the first, with its 53 attribute keys, numbers where the text
    reads as a number; and the short record of the third. *)
Example extract_pi_points_ex :
  ∃ record,
    extract_pi_points
      (Ok (ex_pi_conn
             [ex_point "FLOW.PV" 1
                [("zero", ex_net_float "0.5" (mkFloat 5 (-1)));
                 ("span", ex_net_int "100" 100);
                 ("descriptor", ex_net_text "Flow");
                 ("tag", OStr "FLOW.PV")];
              ex_point_closed; ex_point_unnamed])) =
      Ok [record; [("name", OStr "Unknown"); ("error", OStr "<message>")]] ∧
    length record = 55 ∧
    dict_get "zero" record = Some (OFloat (mkFloat 5 (-1))) ∧
    dict_get "span" record = Some (OInt 100) ∧
    dict_get "descriptor" record = Some (OStr "Flow") ∧
    dict_get "tag" record = Some (OStr "FLOW.PV") ∧
    dict_get "recno" record = Some ONone ∧
    dict_get "current_value" record = None.
Proof. eexists. split; [by vm_compute|]. by vm_compute. Qed.

(** ** Witnesses *)

Lemma unreadable_name_drops_point_witness :
  point_entry ex_point_closed = None.
Proof.
  apply (unreadable_name_drops_point ex_point_closed (NetError "denied")).
  reflexivity.
Defined.

Lemma extract_pi_points_length_witness :
  ∃ records,
    extract_pi_points (Ok (ex_pi_conn [ex_point_closed; ex_point_unnamed]))
      = Ok records ∧
    length records ≤ 2.
Proof.
  eexists. split; [by vm_compute|].
  apply (extract_pi_points_length
    (ex_pi_conn [ex_point_closed; ex_point_unnamed])
    (OList [ex_point_closed; ex_point_unnamed])
    [ex_point_closed; ex_point_unnamed]); by vm_compute.
Defined.

Lemma point_record_has_keys_witness :
  ∃ info,
    point_record (ex_point "FLOW.PV" 1 []) = Ok info ∧
    dict_keys info = "name" :: "id" :: point_attributes.
Proof.
  eexists. split; [by vm_compute|].
  apply (point_record_has_keys (ex_point "FLOW.PV" 1 [])). by vm_compute.
Defined.

Lemma convert_attribute_text_witness :
  convert_attribute (ex_net_text "Flow") = Ok (OStr "Flow").
Proof.
  apply (convert_attribute_text [("ToString", SVal (OStr "Flow"))] "Flow").
  reflexivity.
Defined.
