(* ===== verification/Json.v ===== *)
(** * What [json.dump] writes

    Both scripts end with
    [json.dump(records, f, indent=2, default=serialize_datetime,
    ensure_ascii=False)].  The encoder walks the value: [None], Booleans,
    numbers and strings are written as they are, a list as an array, a
    dictionary as an object with its keys in order; for anything else it
    calls [default] and writes what that returns, and [default] here is
    [serialize_datetime], which answers the ISO text of a date and raises
    [TypeError] for every other object.

    [Json] is the value written, as a tree; the text (indentation, escapes)
    is determined by the tree and is not modelled.  [json_encode] is the
    encoder with its [default]; [json_dump] is the call of the scripts.
    [json_writable] and [json_of] say what the call does without running it:
    it raises exactly on a value that holds a .NET object, and otherwise
    writes [json_of]. *)

From stdpp Require Import base tactics numbers option list strings.
From S2P Require Import Prelude PyStr PyObj Analyses State Info.

#[global] Set Warnings "-clear-no-such-hyp,-register-all".

(** ** JSON values *)

Inductive Json : Type :=
| JNull
| JBool (b : bool)
| JInt (z : Z)
| JFloat (f : PyFloat)
| JStr (s : string)
| JArr (items : list Json)
| JObj (members : list (string * Json)).

(** A table: an array of objects that all have the members [keys], in
    this order. *)
Definition json_table (keys : list string) (j : Json) : bool :=
  match j with
  | JArr rows =>
      forallb (λ row, match row with
                      | JObj members => bool_decide (members.*1 = keys)
                      | _ => false
                      end) rows
  | _ => false
  end.

(** An array of objects that each have the member [key], with a string as
    its value. *)
Definition json_rows_named (key : string) (j : Json) : bool :=
  match j with
  | JArr rows =>
      forallb (λ row, match row with
                      | JObj members =>
                          match dict_get key members with
                          | Some (JStr _) => true
                          | _ => false
                          end
                      | _ => false
                      end) rows
  | _ => false
  end.

(** ** The encoder *)

Section encode.
Context (default : Obj → Res string).

(** [json.JSONEncoder(default=default).encode]: the items of a list and the
    values of a dictionary are encoded in order, and the first exception
    ends the encoding. *)
Fixpoint json_encode (o : Obj) : Res Json :=
  match o with
  | ONone => Ok JNull
  | OBool b => Ok (JBool b)
  | OInt z => Ok (JInt z)
  | OFloat f => Ok (JFloat f)
  | OStr s => Ok (JStr s)
  | OList xs =>
      items ← (fix go xs :=
                 match xs with
                 | [] => Ok []
                 | x :: xs => j ← json_encode x; js ← go xs; Ok (j :: js)
                 end) xs;
      Ok (JArr items)
  | ODict kvs =>
      members ← (fix go kvs :=
                   match kvs with
                   | [] => Ok []
                   | (k, v) :: kvs =>
                       j ← json_encode v; ms ← go kvs; Ok ((k, j) :: ms)
                   end) kvs;
      Ok (JObj members)
  | ODateTime _ | ONet _ => s ← default o; Ok (JStr s)
  end.

(** The member of an object that a key and its value become. *)
Definition json_member (kv : string * Obj) : Res (string * Json) :=
  j ← json_encode kv.2; Ok (kv.1, j).

End encode.

Section dump.
Context `{!Builtins}.

(** [json.dump(obj, f, indent=2, default=serialize_datetime,
    ensure_ascii=False)], as the value that reaches the file. *)
Definition json_dump (obj : Obj) : Res Json :=
  json_encode serialize_datetime obj.

(** ** The call, said directly *)

(** The values the call can write: those that hold no .NET object. *)
Fixpoint json_writable (o : Obj) : bool :=
  match o with
  | OList xs => forallb json_writable xs
  | ODict kvs => forallb (λ kv, json_writable kv.2) kvs
  | ONet _ => false
  | _ => true
  end.

(** What it writes for them: a date as its ISO text. *)
Fixpoint json_of (o : Obj) : Json :=
  match o with
  | ONone => JNull
  | OBool b => JBool b
  | OInt z => JInt z
  | OFloat f => JFloat f
  | OStr s => JStr s
  | ODateTime d => JStr (isoformat d)
  | OList xs => JArr (json_of <$> xs)
  | ODict kvs => JObj ((λ kv, (kv.1, json_of kv.2)) <$> kvs)
  | ONet _ => JNull
  end.

(** The records of a script as the one value the script writes. *)
Definition records_obj (records : list Info) : Obj := OList (ODict <$> records).

End dump.

(** * Theorems *)

(** ** The encoder on lists and dictionaries *)

Section encode_facts.
Context (default : Obj → Res string).

Lemma json_encode_list xs :
  json_encode default (OList xs) =
    (items ← res_mapM (json_encode default) xs; Ok (JArr items))%py.
Proof.
  cbn. f_equal. induction xs as [|x xs IH]; cbn; [done|]. by rewrite IH.
Qed.

Lemma json_encode_dict kvs :
  json_encode default (ODict kvs) =
    (members ← res_mapM (json_member default) kvs; Ok (JObj members))%py.
Proof.
  cbn. f_equal. induction kvs as [|[k v] kvs IH]; cbn; [done|].
  unfold json_member at 1. cbn. rewrite IH.
  by destruct (json_encode default v).
Qed.

End encode_facts.

Section dump_facts.
Context `{!Builtins}.

(** The call writes [json_of] of a writable value and raises [TypeError] on
    any other: no other exception leaves [json.dump]. *)
Lemma json_dump_cases o :
  json_dump o = if json_writable o then Ok (json_of o) else Raise TypeError.
Proof.
  unfold json_dump. induction o as [| | | | | |xs IH|kvs IH|slots _]
    using Obj_ind_deep; try done.
  - rewrite json_encode_list.
    rewrite (res_mapM_cases _ json_writable json_of TypeError) by done.
    cbn [json_writable json_of]. by destruct (forallb _ _).
  - rewrite json_encode_dict.
    rewrite (res_mapM_cases _ (λ kv, json_writable kv.2)
               (λ kv, (kv.1, json_of kv.2)) TypeError).
    + cbn [json_writable json_of]. by destruct (forallb _ _).
    + eapply Forall_impl; [exact IH|]. intros [k v] Hv. unfold json_member.
      cbn in *. rewrite Hv. by destruct (json_writable v).
Qed.

(** A value of a record of analyses is writable. *)
Lemma plain_writable v : plain v = true → json_writable v = true.
Proof. by destruct v. Qed.

Lemma info_plain_writable info :
  info_plain info → json_writable (ODict info) = true.
Proof.
  intros Hp. cbn. apply Is_true_true, forallb_True.
  eapply Forall_impl; [exact Hp|]. intros kv Hkv.
  by apply Is_true_true, plain_writable.
Qed.

Lemma records_writable (P : Info → Prop) records :
  (∀ info, P info → json_writable (ODict info) = true) →
  Forall P records → json_writable (records_obj records) = true.
Proof.
  intros HP Hr. cbn. apply Is_true_true, forallb_True, Forall_fmap.
  eapply Forall_impl; [exact Hr|]. intros info ?.
  by apply Is_true_true, HP.
Qed.

(** Records that have the same keys are written as a table. *)
Lemma records_table keys records :
  Forall (λ info, dict_keys info = keys) records →
  json_table keys (json_of (records_obj records)) = true.
Proof.
  intros Hk. cbn. apply Is_true_true, forallb_True.
  rewrite <-list_fmap_compose. apply Forall_fmap.
  eapply Forall_impl; [exact Hk|]. intros info <-. cbn.
  apply Is_true_true, bool_decide_eq_true.
  unfold dict_keys. by rewrite <-list_fmap_compose.
Qed.

(** The members of a written dictionary are found under its keys. *)
Lemma dict_get_json_of k kvs :
  dict_get k ((λ kv, (kv.1, json_of kv.2)) <$> kvs) = json_of <$> dict_get k kvs.
Proof. induction kvs as [|[k' v] kvs IH]; cbn; [done|]. by case_decide. Qed.

(** Records that hold a string under [key] are written as rows that have
    it. *)
Lemma records_named key records :
  Forall (λ info, ∃ s, dict_get key info = Some (OStr s)) records →
  json_rows_named key (json_of (records_obj records)) = true.
Proof.
  intros Hk. cbn. apply Is_true_true, forallb_True.
  rewrite <-list_fmap_compose. apply Forall_fmap.
  eapply Forall_impl; [exact Hk|]. intros info [s Hs]. cbn.
  by rewrite dict_get_json_of, Hs.
Qed.

End dump_facts.
