(* ===== verification/Scripts.v ===== *)
(** * The scripts: [main] and the file it writes

    [examples/extract_analyses.py] and [examples/extract_pipoints.py] end
    the same way: [main] runs the extraction, opens the output file for
    writing, hands the records to [json.dump], and prints how many records
    there are; one [try ... except Exception] is around all of that, and its
    handler empties the list.

    The file is the state: [Untouched] as long as [main] has not opened it,
    [Truncated] once it is open for writing (opening empties it, and the
    encoder writes as it goes, so a call that raises leaves the beginning
    of a JSON text), [Written j] when the call has returned.  The value of
    [main] here is the list that the summary counts; the lines printed are
    not modelled.  What [open] does is a parameter ([opened]); the
    parameters of the extraction are those of [AnalysisBatch] and
    [PointList].

    Under [__name__ == "__main__"] a script sets up [logging] and then
    calls [main] in a [try] whose handler logs and raises again.  The
    set-up builds a [FileHandler], which opens the log file for writing;
    this is outside the [try], so what it raises ends the script before
    [main] starts.  That opening is a parameter too ([log_opened]); what
    is written to the log is not modelled.

    The theorems put the extraction, the encoder and the file together:
    what each [main] leaves by cases, what can be said of a file that
    was written whatever the server answered ([analyses_file_is_a_table],
    [points_file_rows_named]), and how a script ends
    ([scripts_fail_only_at_logging]). *)

From stdpp Require Import base tactics numbers option list strings.
From S2P Require Import Prelude PyStr PyObj State Info Analyses AnalysisInfo.
From S2P Require Import AnalysisBatch PointList Json.

#[global] Set Warnings "-clear-no-such-hyp,-register-all".

#[local] Open Scope st_scope.

(** The output file of a script. *)
Inductive File : Type :=
| Untouched
| Truncated
| Written (j : Json).

Section scripts.
Context `{!Builtins}.

(** [with open(file, "w", encoding="utf-8") as f:
       json.dump(records, f, indent=2, default=serialize_datetime,
                 ensure_ascii=False)] *)
Definition save_json (opened : Res unit) (records : list Info)
    : StM File unit :=
  _ ⇐ opened;
  st_modify (λ _, Truncated);;
  j ⇐ json_dump (records_obj records);
  st_modify (λ _, Written j).

(** [logging.basicConfig(level=logging.DEBUG, format=...,
       handlers=[logging.FileHandler(log, mode="w", encoding="utf-8"),
                 logging.StreamHandler()])]: the arguments are built
    first, and [FileHandler] opens the log file. *)
Definition configure_logging (log_opened : Res unit) : StM File unit :=
  st_lift log_opened.

(** ** [extract_analyses.py] *)

(** Line 831 *)
Definition AF_DATABASE : option string := None.

(** Lines 827-865: [main]; the value is [analyses] as the summary has it. *)
Definition extract_analyses_main (fuel : nat) (extraction_time : string)
    (found conn : Res Obj) (initialized opened : Res unit)
    : StM File (list Info) :=
  st_try
    (analyses ⇐ extract_analyses fuel extraction_time AF_DATABASE found conn
                   initialized;
     save_json opened analyses;;
     st_ret analyses)
    any_exception (λ _, st_ret []).

(** Lines 868-885, the block under [__name__ == "__main__"]: the set-up
    of [logging] (872-879), then the call of [main] (881-885); what [main]
    raises is logged and raised again. *)
Definition extract_analyses_script (fuel : nat) (extraction_time : string)
    (found conn : Res Obj) (initialized opened log_opened : Res unit)
    : StM File unit :=
  configure_logging log_opened;;
  st_try
    (extract_analyses_main fuel extraction_time found conn initialized
       opened;;
     st_pass)
    any_exception (λ e, st_lift (Raise e)).

(** ** [extract_pipoints.py] *)

(** Lines 239-275: [main] *)
Definition extract_pipoints_main (conn : Res Obj) (opened : Res unit)
    : StM File (list Info) :=
  st_try
    (pi_points ⇐ extract_pi_points conn;
     save_json opened pi_points;;
     st_ret pi_points)
    any_exception (λ _, st_ret []).

(** Lines 278-293: the set-up of [logging] (280-287), then the call of
    [main] (289-293). *)
Definition extract_pipoints_script (conn : Res Obj)
    (opened log_opened : Res unit) : StM File unit :=
  configure_logging log_opened;;
  st_try (extract_pipoints_main conn opened;; st_pass)
    any_exception (λ e, st_lift (Raise e)).

End scripts.

(** ** What [main] does, said directly *)

Section outcomes.
Context `{!Builtins}.

(** What a [main] leaves, from what its extraction and [open] did: the
    records and the file that holds them, or no records. *)
Definition main_outcome (extracted : Res (list Info)) (opened : Res unit)
    (file : File) : list Info * File :=
  match extracted, opened with
  | Ok records, Ok _ =>
      if json_writable (records_obj records)
      then (records, Written (json_of (records_obj records)))
      else ([], Truncated)
  | _, _ => ([], file)
  end.

(** An attribute value is kept as it is when it has no [ToString]. *)
Definition kept_as_is (value : Obj) : bool :=
  negb (has_method value "ToString").

(** The attribute values of a point that are kept as they are can be
    written: they are values of Python, not objects of the SDK. *)
Definition attributes_writable (point : Obj) : bool :=
  match getattr point "GetAttributes" with
  | Ok (ODict kvs) =>
      forallb (λ kv, negb (kept_as_is kv.2) || json_writable kv.2) kvs
  | _ => true
  end.

End outcomes.

(** ** Values to run the scripts on *)

(** A point with one attribute that is an object without text. *)
Definition ex_point_opaque : Obj :=
  ex_point "OPAQUE" 2 [("tag", ONet [])].

(** A connection whose search finds two points, the second with such an
    attribute. *)
Definition ex_conn_opaque : Obj :=
  ex_pi_conn [ex_point "SINUSOID" 1 [("tag", ex_net_text "SINUSOID")];
              ex_point_opaque].

(** * Theorems *)

Section save_facts.
Context `{!Builtins}.

(** Saving, by cases: the file is left [Truncated] exactly when it could be
    opened and the records hold a value that cannot be written. *)
Lemma save_json_run opened records file :
  save_json opened records file =
    match opened with
    | Ok _ =>
        if json_writable (records_obj records)
        then (Ok tt, Written (json_of (records_obj records)))
        else (Raise TypeError, Truncated)
    | Raise e => (Raise e, file)
    end.
Proof.
  unfold save_json, st_bind, st_lift, st_modify. destruct opened; [|done].
  rewrite json_dump_cases. by destruct (json_writable _).
Qed.

(** The body that the two [main]s share. *)
Lemma main_run extracted opened file :
  st_try (records ⇐ extracted; save_json opened records;; st_ret records)
    any_exception (λ _, st_ret []) file =
    (Ok (main_outcome extracted opened file).1,
     (main_outcome extracted opened file).2).
Proof.
  unfold st_try, st_bind at 1, st_lift.
  destruct extracted as [records|e]; [|done].
  unfold st_bind, main_outcome. rewrite save_json_run.
  destruct opened; [|done]. by destruct (json_writable (records_obj records)).
Qed.

(** The block under [__name__ == "__main__"] around a [main] that does
    not raise: the set-up of [logging] is all that can. *)
Lemma script_run {A} (main : StM File A) log_opened :
  st_total main →
  ∀ file,
    (configure_logging log_opened;;
     st_try (main;; st_pass) any_exception (λ e, st_lift (Raise e))) file =
      match log_opened with
      | Ok _ => (Ok tt, (main file).2)
      | Raise e => (Raise e, file)
      end.
Proof.
  intros Hm file. specialize (Hm file).
  unfold configure_logging, st_try, st_bind, st_lift.
  destruct log_opened; [|done]. by destruct (main file) as [[?|?] ?].
Qed.

(** The records of the analyses can be written. *)
Lemma all_databases_writable extraction_time found records :
  extract_analyses_from_all_databases extraction_time found = Ok records →
  json_writable (records_obj records) = true.
Proof.
  unfold extract_analyses_from_all_databases.
  destruct found as [pi_system|e]; [cbn|done].
  destruct (is_None pi_system); [done|]. rewrite all_databases_run.
  intros Hrun. res_binds Hrun.
  eapply records_writable; [|by eapply databases_records_schema].
  intros info [_ ?]. by apply info_plain_writable.
Qed.

(** [main] of [extract_analyses.py], by cases on the extraction and on
    [open]. *)
Lemma extract_analyses_main_value fuel extraction_time found conn initialized
    opened file :
  extract_analyses_main fuel extraction_time found conn initialized opened
    file =
    match extract_analyses_from_all_databases extraction_time found, opened
    with
    | Ok analyses, Ok _ =>
        (Ok analyses, Written (json_of (records_obj analyses)))
    | _, _ => (Ok [], file)
    end.
Proof.
  unfold extract_analyses_main. rewrite main_run. cbn [extract_analyses
    AF_DATABASE]. unfold main_outcome.
  destruct (extract_analyses_from_all_databases _ _) eqn:He; [|done].
  destruct opened; [|done]. by rewrite (all_databases_writable _ _ _ He).
Qed.

End save_facts.

(** ** The records of the points *)

Section point_facts.
Context `{!Builtins}.
Implicit Types (point value : Obj).

#[local] Abbreviation writable :=
  (λ kv : string * Obj, json_writable kv.2 = true).

Lemma convert_attribute_writable value v :
  negb (kept_as_is value) || json_writable value = true →
  convert_attribute value = Ok v → json_writable v = true.
Proof.
  unfold convert_attribute, kept_as_is. intros Hw Hc.
  destruct (is_None value) eqn:Hn; [by destruct value; simplify_eq|].
  destruct (has_method value "ToString"); cbn in *; by res_answered.
Qed.

Lemma attribute_value_writable kvs k :
  forallb (λ kv, negb (kept_as_is kv.2) || json_writable kv.2) kvs = true →
  json_writable (attribute_value (ODict kvs) k) = true.
Proof.
  intros Hkvs%Is_true_true%forallb_True. unfold attribute_value. cbn.
  destruct (dict_has k kvs); [|done].
  destruct (dict_get k kvs) as [value|] eqn:Hk; [cbn|done].
  destruct (convert_attribute value) as [v|] eqn:Hv; [|done].
  apply dict_get_Some_elem in Hk.
  eapply convert_attribute_writable; [|done].
  apply Is_true_true. by apply (proj1 (Forall_forall _ _) Hkvs (k, value)).
Qed.

Lemma attribute_entries_writable point :
  attributes_writable point = true → Forall writable (attribute_entries point).
Proof.
  unfold attributes_writable, attribute_entries.
  destruct (getattr point "GetAttributes") as [attrs|e]; [|by repeat constructor].
  intros Hw. apply Forall_fmap, Forall_forall. intros k _. cbn.
  destruct attrs; try done. by apply attribute_value_writable.
Qed.

Lemma optional_entry_writable key read :
  (∀ v, read = Ok (Some v) → json_writable v = true) →
  Forall writable (optional_entry key read).
Proof.
  intros Hr. destruct read as [[v|]|]; repeat constructor. by apply Hr.
Qed.

Lemma convert_current_writable cv_val v :
  convert_current cv_val = Ok v → json_writable v = true.
Proof. unfold convert_current. intros Hc. by res_answered. Qed.

Lemma current_value_read_writable point v :
  current_value_read point = Ok (Some v) → json_writable v = true.
Proof.
  unfold current_value_read. intros Hr. res_answered. cbn.
  erewrite convert_current_writable by done.
  by match goal with |- context [opt_datetime ?d] => destruct d end.
Qed.

Lemma point_class_read_writable point v :
  point_class_read point = Ok (Some v) → json_writable v = true.
Proof.
  unfold point_class_read. intros Hr.
  destruct (attr_if_true point "PointClass") as [[c|]|]; cbn in Hr; [|done..].
  by res_answered.
Qed.

Lemma server_name_read_writable point v :
  server_name_read point = Ok (Some v) → json_writable v = true.
Proof.
  unfold server_name_read. intros Hr.
  destruct (attr_if_true point "Server") as [[c|]|]; cbn in Hr; [|done..].
  by res_answered.
Qed.

(** The record of a point can be written when the attribute values that
    are kept as they are can. *)
Lemma point_entry_writable point info :
  attributes_writable point = true → point_entry point = Some info →
  json_writable (ODict info) = true.
Proof.
  intros Hw. unfold point_entry. rewrite point_record_value.
  destruct (point_identity point) as [[name id]|e] eqn:Hi; cbn [res_bind].
  - intros [= <-]. apply Is_true_true, forallb_True.
    eapply Forall_impl; [|intros kv Hkv; apply Is_true_true, Hkv].
    assert (json_writable id = true)
      by (unfold point_identity in Hi; by res_answered).
    apply (Forall_set_all (λ v, json_writable v = true));
      [|by repeat constructor].
    unfold point_entries. rewrite !Forall_app.
    split_and!; [by apply attribute_entries_writable|..];
      apply optional_entry_writable;
      eauto using current_value_read_writable, point_class_read_writable,
        server_name_read_writable.
  - unfold fallback_entry. intros Hf.
    destruct (res_bind _ _) in Hf; by simplify_eq.
Qed.

Lemma points_writable conn points items records :
  getattr conn "search_points" = Ok points → py_iter points = Ok items →
  Forall (λ point, attributes_writable point = true) items →
  extract_pi_points (Ok conn) = Ok records →
  json_writable (records_obj records) = true.
Proof.
  intros Hp Hi Hw. rewrite extract_pi_points_value. cbn. rewrite Hp. cbn.
  rewrite Hi. intros Hr. res_answered.
  apply (records_writable (λ info, json_writable (ODict info) = true));
    [done|].
  apply Forall_forall. intros info (point&Hin&Hpoint)%list_elem_of_omap.
  eapply point_entry_writable; [|done].
  by apply (proj1 (Forall_forall _ _) Hw).
Qed.

End point_facts.

(** ** The scripts *)

Section script_theorems.
Context `{!Builtins}.

(** C5: [main] of [extract_analyses.py] never raises, and what it leaves is
    decided by the extraction and by [open] alone: when both succeed the
    file holds all the records, as JSON, and the summary counts them;
    otherwise the file is as it was and the summary counts no record, also
    when the records had been extracted and only the file could not be
    opened.  [json.dump] never fails on the records, so the script leaves
    no truncated file. *)
Theorem extract_analyses_main_saves fuel extraction_time found conn
    initialized opened file :
  extract_analyses_main fuel extraction_time found conn initialized opened
    file =
    match extract_analyses_from_all_databases extraction_time found, opened
    with
    | Ok analyses, Ok _ =>
        (Ok analyses, Written (json_of (records_obj analyses)))
    | _, _ => (Ok [], file)
    end.
Proof. apply extract_analyses_main_value. Qed.

(** C28: what [extract_analyses.py] leaves in [analyses.json], when it
    writes the file, is a table: an array of objects that each have the 35
    keys of the output format of all databases, in the order of the
    format, whatever the server holds and answers. *)
Theorem analyses_file_is_a_table fuel extraction_time found conn initialized
    opened result j :
  extract_analyses_main fuel extraction_time found conn initialized opened
    Untouched = (result, Written j) →
  json_table analysis_info_raw_keys j = true.
Proof.
  rewrite extract_analyses_main_value.
  destruct (extract_analyses_from_all_databases _ _) as [records|e] eqn:He;
    [|done].
  destruct opened; [|done]. intros [= _ <-]. apply records_table.
  eapply Forall_impl; [by eapply all_databases_schema|]. by intros info [? _].
Qed.

(** C30: [main] of [extract_pipoints.py] writes every record it extracted
    when the attribute values that the conversion keeps as they are (those
    without [ToString]) are values that JSON has. *)
Theorem extract_pipoints_main_saves conn points items records file :
  getattr conn "search_points" = Ok points → py_iter points = Ok items →
  Forall (λ point, attributes_writable point = true) items →
  extract_pi_points (Ok conn) = Ok records →
  extract_pipoints_main (Ok conn) (Ok tt) file =
    (Ok records, Written (json_of (records_obj records))).
Proof.
  intros Hp Hi Hw Hr. unfold extract_pipoints_main.
  rewrite main_run, Hr. unfold main_outcome.
  by rewrite (points_writable _ _ _ _ Hp Hi Hw Hr).
Qed.

(** C29: what [extract_pipoints.py] leaves in [pipoints.json], when it
    writes the file, is an array of objects that each have a [name], a
    string: the record of a point and the short record of a point whose
    record could not be built both start with it, and a point that cannot
    give its name has no row.  The other keys depend on the point. *)
Theorem points_file_rows_named conn opened result j :
  extract_pipoints_main conn opened Untouched = (result, Written j) →
  json_rows_named "name" j = true.
Proof.
  unfold extract_pipoints_main. rewrite main_run. unfold main_outcome.
  destruct (extract_pi_points conn) as [records|e] eqn:Hr; [|done].
  destruct opened; [|done].
  destruct (json_writable _); [|done]. intros [= _ <-]. apply records_named.
  rewrite extract_pi_points_value in Hr. res_binds Hr.
  apply Forall_forall. intros info (point&_&Hpoint)%list_elem_of_omap.
  by eapply point_entry_named.
Qed.

(** C31: one attribute value that JSON does not have loses the whole
    output of [extract_pipoints.py]: the records are extracted, the file is
    opened and left truncated when [json.dump] raises, and the summary
    counts no point. *)
Theorem unwritable_value_truncates conn records file :
  extract_pi_points conn = Ok records →
  json_writable (records_obj records) = false →
  extract_pipoints_main conn (Ok tt) file = (Ok [], Truncated).
Proof.
  intros Hr Hw. unfold extract_pipoints_main.
  rewrite main_run, Hr. unfold main_outcome. by rewrite Hw.
Qed.

(** C32: a script ends with an exception in one case only: the log file
    cannot be opened when [logging] is set up, which is before the [try]
    around [main]; then nothing is extracted and the output file is as it
    was.  Otherwise the script ends normally, whatever the servers and
    [open] do, and the output file is the one the extraction and [open]
    decide: all the records, or the file as it was, for the analyses; for
    the points also a truncated file, when a record cannot be written. *)
Theorem scripts_fail_only_at_logging fuel extraction_time found conn
    initialized pi_conn opened log_opened file :
  extract_analyses_script fuel extraction_time found conn initialized opened
    log_opened file =
    match log_opened with
    | Ok _ =>
        (Ok tt,
         match extract_analyses_from_all_databases extraction_time found,
               opened with
         | Ok analyses, Ok _ => Written (json_of (records_obj analyses))
         | _, _ => file
         end)
    | Raise e => (Raise e, file)
    end ∧
  extract_pipoints_script pi_conn opened log_opened file =
    match log_opened with
    | Ok _ => (Ok tt, (main_outcome (extract_pi_points pi_conn) opened file).2)
    | Raise e => (Raise e, file)
    end.
Proof.
  unfold extract_analyses_script, extract_pipoints_script.
  rewrite !script_run, extract_analyses_main_value
    by (intros file'; unfold extract_analyses_main, extract_pipoints_main;
        by rewrite main_run).
  unfold extract_pipoints_main. rewrite main_run.
  destruct log_opened; [|done]. split; [|done].
  by destruct (extract_analyses_from_all_databases _ _), opened.
Qed.

End script_theorems.

(** * The theorems on values that are written out *)

Lemma extract_pipoints_main_saves_witness :
  extract_pipoints_main (Ok (ex_pi_conn [ex_point "SINUSOID" 1 []]))
    (Ok tt) Untouched =
    (Ok [[("name", OStr "SINUSOID"); ("id", OInt 1)] ++
         ((λ k, (k, ONone)) <$> point_attributes)],
     Written (JArr [JObj ([("name", JStr "SINUSOID"); ("id", JInt 1)] ++
                          ((λ k, (k, JNull)) <$> point_attributes))])).
Proof.
  apply (extract_pipoints_main_saves (ex_pi_conn [ex_point "SINUSOID" 1 []])
           (OList [ex_point "SINUSOID" 1 []]) [ex_point "SINUSOID" 1 []]);
    [reflexivity|reflexivity|by repeat constructor|vm_compute; reflexivity].
Defined.

Lemma analyses_file_is_a_table_witness :
  ∃ result j,
    extract_analyses_main 10 "2024-03-05T12:00:00"
      (Ok (ex_server [ex_database "Plants" [ex_analysis_named "Trip"]]))
      (Raise KeyError) (Ok tt) (Ok tt) Untouched = (result, Written j) ∧
    json_table analysis_info_raw_keys j = true.
Proof.
  do 2 eexists. split; [vm_compute; reflexivity|].
  eapply (analyses_file_is_a_table 10 "2024-03-05T12:00:00"
    (Ok (ex_server [ex_database "Plants" [ex_analysis_named "Trip"]]))
    (Raise KeyError) (Ok tt) (Ok tt)).
  vm_compute. reflexivity.
Defined.

Lemma points_file_rows_named_witness :
  ∃ result j,
    extract_pipoints_main
      (Ok (ex_pi_conn [ex_point "SINUSOID" 1 []; ex_point_closed;
                       ex_point_unnamed]))
      (Ok tt) Untouched = (result, Written j) ∧
    json_rows_named "name" j = true.
Proof.
  do 2 eexists. split; [vm_compute; reflexivity|].
  eapply (points_file_rows_named
    (Ok (ex_pi_conn [ex_point "SINUSOID" 1 []; ex_point_closed;
                     ex_point_unnamed])) (Ok tt)).
  vm_compute. reflexivity.
Defined.

Lemma unwritable_value_truncates_witness :
  extract_pipoints_main (Ok ex_conn_opaque) (Ok tt) Untouched =
    (Ok [], Truncated).
Proof.
  eapply (unwritable_value_truncates (Ok ex_conn_opaque));
    [vm_compute; reflexivity|vm_compute; reflexivity].
Defined.

(** A log file that cannot be opened: both scripts end there. *)
Example scripts_without_log :
  extract_analyses_script 10 "2024-03-05T12:00:00"
    (Ok (ex_server [ex_database "Plants" [ex_analysis_named "Trip"]]))
    (Raise KeyError) (Ok tt) (Ok tt) (Raise (NetError "denied")) Untouched =
    (Raise (NetError "denied"), Untouched) ∧
  extract_pipoints_script (Ok ex_conn_opaque) (Ok tt)
    (Raise (NetError "denied")) Untouched =
    (Raise (NetError "denied"), Untouched).
Proof. by vm_compute. Qed.

(** With its log, the script of the points ends normally on the value that
    cannot be written, and leaves the truncated file. *)
Example pipoints_script_truncates :
  extract_pipoints_script (Ok ex_conn_opaque) (Ok tt) (Ok tt) Untouched =
    (Ok tt, Truncated).
Proof. by vm_compute. Qed.
