(* ===== verification/Cache.v ===== *)
(** * The cache of query results

    [pipolars/cache/__init__.py] re-exports the backends ([MemoryCache],
    [SQLiteCache], [ArrowCache]) and the strategies ([TTLStrategy],
    [SlidingWindowStrategy]); the modules that define them are not among
    the sources.  This file is written from the specification: the cache
    entry of section 3, the backend contract of section 4.1 ([get], [set],
    [invalidate], [clear], [stats]; the in-memory variant, bounded by a
    number of entries, with least-recently-used eviction), the strategy
    contract of section 4.2 ([is_expired], [on_access]; time to live from
    insertion, sliding window), the construction of keys, and the control
    flow of section 2 (look in the cache, on a miss ask the source and
    store the answer).

    Time is a number of ticks of a clock.  The entries of the in-memory
    cache are a list in the order of use, the least recently used first;
    what the cache holds at a time is a finite map ([live]), and the
    operations are shown to act on that map as lookup, insert, delete and
    the empty map. *)

From stdpp Require Import base tactics numbers option list strings gmap pretty.
From S2P Require Import Prelude PyObj Sdk.

#[global] Set Warnings "-clear-no-such-hyp,-register-all".

(** ** Keys: the fingerprint of a query (section 4.2) *)

Abbreviation Time := nat.

(** The kinds of query of section 4.3. *)
Inductive QueryKind : Type :=
| QConfig | QSnapshot | QRecorded | QInterpolated | QPlot | QSummary
| QSummaries | QValueAt.

#[export] Instance QueryKind_eq_dec : EqDecision QueryKind.
Proof. solve_decision. Defined.

(** What identifies a query: the series, the range, the kind and the
    parameters (interval, summary flags, ...). *)
Record Query : Type := mkQuery {
  q_series : list string;
  q_start : string;
  q_end : string;
  q_kind : QueryKind;
  q_params : list string
}.

Definition kind_name (k : QueryKind) : string :=
  match k with
  | QConfig => "config" | QSnapshot => "snapshot" | QRecorded => "recorded"
  | QInterpolated => "interpolated" | QPlot => "plot"
  | QSummary => "summary" | QSummaries => "summaries"
  | QValueAt => "value_at"
  end.

(** The key of a query: its fields in a fixed order, the series preceded by
    their number, each field kept apart from the next. *)
Abbreviation Key := (list string).

Definition fingerprint (q : Query) : Key :=
  kind_name (q_kind q) :: q_start q :: q_end q ::
  pretty (length (q_series q)) :: q_series q ++ q_params q.

(** The fields run together, which section 4.2 rules out. *)
Definition fingerprint_joined (q : Query) : string :=
  fold_right String.append "" (fingerprint q).

(** ** Entries and strategies (sections 3 and 4.2) *)

Section cache.
Context {V : Type}.

(** A cache entry: the value, and the times of insertion and of last
    access with the time to live, which are the state of the policy. *)
Record Entry : Type := mkEntry {
  e_value : V;
  e_inserted : Time;
  e_accessed : Time;
  e_ttl : Time
}.

(** An access at [now]. *)
Definition touch (now : Time) (e : Entry) : Entry :=
  mkEntry (e_value e) (e_inserted e) (e_accessed e `max` now) (e_ttl e).

(** The contract of a strategy. *)
Class CacheStrategy : Type := {
  is_expired : Time → Entry → bool;
  on_access : Time → Entry → Entry
}.

(** What a backend relies on: an access keeps the value, an entry that is
    served is not expired by serving it, and an entry that has not been
    touched since it was made expires when its time to live is over. *)
Class StrategyLaws (strategy : CacheStrategy) : Prop := {
  on_access_value now e : e_value (on_access now e) = e_value e;
  on_access_live now e :
    is_expired now e = false → is_expired now (on_access now e) = false;
  fresh_expiry t now v ttl :
    is_expired now (mkEntry v t t ttl) = bool_decide (t + ttl ≤ now)
}.

(** Time to live, counted from the insertion. *)
Definition TTLStrategy : CacheStrategy := {|
  is_expired now e := bool_decide (e_inserted e + e_ttl e ≤ now);
  on_access := touch
|}.

(** Sliding window: each access moves the deadline. *)
Definition SlidingWindowStrategy : CacheStrategy := {|
  is_expired now e := bool_decide (e_accessed e + e_ttl e ≤ now);
  on_access := touch
|}.

(** ** The in-memory backend (section 4.1) *)

(** The entries in the order of use, the least recently used first, the
    bound on their number, and the counters of [stats]. *)
Record MemoryCache : Type := mkMemoryCache {
  c_entries : list (Key * Entry);
  c_max : nat;
  c_hits : nat;
  c_misses : nat;
  c_evictions : nat
}.

Record Stats : Type := mkStats {
  hits : nat; misses : nat; size : nat; evictions : nat
}.

Definition empty_cache (max_entries : nat) : MemoryCache :=
  mkMemoryCache [] max_entries 0 0 0.

(** The entry of a key, and the entries without a key. *)
Fixpoint assoc (k : Key) (es : list (Key * Entry)) : option Entry :=
  match es with
  | [] => None
  | (k', e) :: es => if decide (k = k') then Some e else assoc k es
  end.

Definition without (k : Key) (es : list (Key * Entry)) : list (Key * Entry) :=
  filter (λ ke, ke.1 ≠ k) es.

Context `{strategy : !CacheStrategy}.

(** [get(key)]: a value or a miss.  An entry that has expired is a miss
    and is dropped; one that is served becomes the most recently used. *)
Definition cache_get (now : Time) (k : Key) (c : MemoryCache)
    : option V * MemoryCache :=
  match assoc k (c_entries c) with
  | Some e =>
      if is_expired now e
      then (None,
            mkMemoryCache (without k (c_entries c)) (c_max c) (c_hits c)
              (S (c_misses c)) (c_evictions c))
      else (Some (e_value e),
            mkMemoryCache (without k (c_entries c) ++ [(k, on_access now e)])
              (c_max c) (S (c_hits c)) (c_misses c) (c_evictions c))
  | None =>
      (None,
       mkMemoryCache (c_entries c) (c_max c) (c_hits c) (S (c_misses c))
         (c_evictions c))
  end.

(** [set(key, value, ttl)]: the entry becomes the most recently used; when
    the cache is full the least recently used entry makes room. *)
Definition cache_set (now : Time) (k : Key) (v : V) (ttl : Time)
    (c : MemoryCache) : MemoryCache :=
  let es := without k (c_entries c) in
  if decide (c_max c ≤ length es)
  then mkMemoryCache (drop 1 es ++ [(k, mkEntry v now now ttl)]) (c_max c)
         (c_hits c) (c_misses c) (S (c_evictions c))
  else mkMemoryCache (es ++ [(k, mkEntry v now now ttl)]) (c_max c)
         (c_hits c) (c_misses c) (c_evictions c).

(** [invalidate(key)] *)
Definition cache_invalidate (k : Key) (c : MemoryCache) : MemoryCache :=
  mkMemoryCache (without k (c_entries c)) (c_max c) (c_hits c) (c_misses c)
    (c_evictions c).

(** [clear()] *)
Definition cache_clear (c : MemoryCache) : MemoryCache :=
  mkMemoryCache [] (c_max c) (c_hits c) (c_misses c) (c_evictions c).

(** [stats()] *)
Definition cache_stats (c : MemoryCache) : Stats :=
  mkStats (c_hits c) (c_misses c) (length (c_entries c)) (c_evictions c).

(** ** Sequences of operations *)

Inductive Op : Type :=
| OGet (k : Key)
| OSet (k : Key) (v : V) (ttl : Time)
| OInvalidate (k : Key)
| OClear.

Definition cache_step (now : Time) (op : Op) (c : MemoryCache) : MemoryCache :=
  match op with
  | OGet k => (cache_get now k c).2
  | OSet k v ttl => cache_set now k v ttl c
  | OInvalidate k => cache_invalidate k c
  | OClear => cache_clear c
  end.

Definition is_get (op : Op) : bool :=
  match op with OGet _ => true | _ => false end.

Definition sets_key (k : Key) (op : Op) : bool :=
  match op with OSet k' _ _ => bool_decide (k' = k) | _ => false end.

(** The operations of a trace, each at its time, the first first. *)
Definition cache_run (trace : list (Time * Op)) (c : MemoryCache)
    : MemoryCache :=
  foldl (λ c top, cache_step top.1 top.2 c) c trace.

(** The caches that operations can make of an empty one. *)
Inductive reachable (max_entries : nat) : MemoryCache → Prop :=
| reachable_empty : reachable max_entries (empty_cache max_entries)
| reachable_step now op c :
    reachable max_entries c → reachable max_entries (cache_step now op c).

(** ** What the cache holds *)

(** The invariant of the representation: a key has one entry, and the
    entries are within the bound. *)
Definition cache_wf (c : MemoryCache) : Prop :=
  NoDup (c_entries c).*1 ∧ length (c_entries c) ≤ c_max c ∧ 0 < c_max c.

(** What an entry gives at a time: its value unless it has expired. *)
Definition serve (now : Time) (e : Entry) : option V :=
  if is_expired now e then None else Some (e_value e).

(** What the cache holds at a time: the values of the entries that have
    not expired, as a finite map. *)
Definition live (now : Time) (c : MemoryCache) : gmap Key V :=
  omap (serve now) (list_to_map (c_entries c) : gmap Key Entry).

(** ** The cache in front of a source (section 2) *)

(** Look in the cache; on a miss ask the source and store the answer.  A
    backend that is not available ([None]) is a miss and stores nothing. *)
Definition cached_query (now : Time) (ttl : Time) (k : Key)
    (query : SdkM V) (backend : option MemoryCache)
    : SdkM (V * option MemoryCache) :=
  match backend with
  | None => sdk_bind query (λ v, sdk_ret (v, None))
  | Some c =>
      match cache_get now k c with
      | (Some v, c') => sdk_ret (v, Some c')
      | (None, c') =>
          sdk_bind query (λ v, sdk_ret (v, Some (cache_set now k v ttl c')))
      end
  end.

End cache.

#[global] Arguments Entry : clear implicits.
#[global] Arguments MemoryCache : clear implicits.
#[global] Arguments CacheStrategy : clear implicits.
#[global] Arguments Op : clear implicits.

(** ** A cache to run the operations on *)

(** The key of the recorded values of a tag over the last hour. *)
Definition ex_key (tag : string) : Key :=
  fingerprint (mkQuery [tag] "*-1h" "*" QRecorded []).

(** A cache with room for two entries, with time to live, after the
    answers for two tags have been stored at tick [0] for ten ticks. *)
Definition ex_cache : MemoryCache string :=
  cache_set 0 (ex_key "A") "a" 10
    (cache_set 0 (ex_key "B") "b" 10 (empty_cache 2)).

(** A source that is asked with one call. *)
Definition ex_query : SdkM string :=
  sdk_bind (sdk_call (CFunc "recorded_values" [OStr "A"])) (λ _, sdk_ret "a").

(** * Theorems *)

(** ** Keys *)

Lemma kind_name_inj : Inj (=) (=) kind_name.
Proof. intros [] []; by intros [=]. Qed.

(** Queries that differ in one dimension (a series, the range, the kind, a
    parameter) have different keys: the fingerprint decides the fields. *)
#[export] Instance fingerprint_inj : Inj (=) (=) fingerprint.
Proof.
  intros [s1 a1 b1 k1 p1] [s2 a2 b2 k2 p2]. unfold fingerprint. cbn.
  intros [= Hk -> -> Hn Hsp]. apply kind_name_inj in Hk as ->.
  apply (inj pretty) in Hn.
  apply app_inj_1 in Hsp as [-> ->]; done.
Qed.

(** Running the fields together does not: two queries with one key. *)
Example fingerprint_joined_collides :
  fingerprint_joined (mkQuery ["AB"] "t" "*" QRecorded ["C"]) =
  fingerprint_joined (mkQuery ["A"] "t" "*" QRecorded ["BC"]).
Proof. reflexivity. Qed.

(** ** Strategies *)

Section strategies.
Context {V : Type}.

#[export] Instance TTLStrategy_laws : StrategyLaws (@TTLStrategy V).
Proof. by split. Qed.

#[export] Instance SlidingWindowStrategy_laws :
  StrategyLaws (@SlidingWindowStrategy V).
Proof.
  split; [done| |done].
  intros now e. cbn. rewrite !bool_decide_eq_false. cbn. lia.
Qed.

End strategies.

(** ** Lists of entries *)

Section entries.
Context {V : Type}.
Implicit Types (k : Key) (e : Entry V) (es : list (Key * Entry V)).

Lemma lookup_entries es k : (list_to_map es : gmap Key (Entry V)) !! k = assoc k es.
Proof.
  induction es as [|[k' e] es IH]; cbn; [done|].
  rewrite lookup_insert, IH. by repeat case_decide.
Qed.

Lemma assoc_None es k : assoc k es = None ↔ k ∉ es.*1.
Proof.
  induction es as [|[k' e] es IH]; cbn;
    [split; [intros _; apply not_elem_of_nil|done]|].
  rewrite not_elem_of_cons. case_decide; naive_solver.
Qed.

Lemma assoc_app es1 es2 k :
  assoc k (es1 ++ es2) = from_option Some (assoc k es2) (assoc k es1).
Proof.
  induction es1 as [|[k' e] es1 IH]; cbn; [done|]. by case_decide.
Qed.

Lemma assoc_without es k k' :
  assoc k' (without k es) = if decide (k' = k) then None else assoc k' es.
Proof.
  unfold without. induction es as [|[k'' e] es IH]; [by case_decide|].
  rewrite filter_cons. cbn. repeat case_decide; cbn; rewrite ?IH;
    repeat case_decide; congruence.
Qed.

Lemma without_length es k : length (without k es) ≤ length es.
Proof. apply length_filter. Qed.

Lemma without_NoDup es k : NoDup es.*1 → NoDup (without k es).*1.
Proof.
  intros Hes. eapply sublist_NoDup; [done|].
  apply fmap_sublist, sublist_filter.
Qed.

Lemma without_notin es k : k ∉ (without k es).*1.
Proof. apply assoc_None. rewrite assoc_without. by case_decide. Qed.

(** Removing a key that is there makes the list shorter. *)
Lemma without_length_lt es k e :
  assoc k es = Some e → length (without k es) < length es.
Proof.
  intros He. apply (length_filter_lt _ _ (k, e)); [|naive_solver].
  induction es as [|[k' e'] es IH]; [done|]. cbn in He.
  case_decide; simplify_eq; [left|right; auto].
Qed.

(** A list of entries with a new last entry. *)
Lemma snoc_NoDup es k e : NoDup es.*1 → k ∉ es.*1 → NoDup (es ++ [(k, e)]).*1.
Proof.
  intros. rewrite fmap_app. apply NoDup_app. split_and!; [done| |].
  - intros k' ? ->%list_elem_of_singleton. done.
  - apply NoDup_singleton.
Qed.

(** Dropping the first entry of a list without repeated keys forgets its
    key and no other. *)
Lemma assoc_drop es k :
  NoDup es.*1 →
  assoc k (drop 1 es) = if decide (head es.*1 = Some k) then None else assoc k es.
Proof.
  destruct es as [|[k' e] es]; cbn; [by case_decide|]. rewrite drop_0.
  intros [Hk' _]%NoDup_cons. repeat case_decide; simplify_eq; try done.
  by apply assoc_None.
Qed.

End entries.

(** ** The backend: the invariant *)

Section backend.
Context {V : Type} `{strategy : !CacheStrategy V} `{!StrategyLaws strategy}.
Implicit Types (c : MemoryCache V) (k : Key) (now : Time) (v : V).

Lemma cache_get_wf now k c : cache_wf c → cache_wf (cache_get now k c).2.
Proof.
  intros (Hnd&Hlen&Hmax). unfold cache_get.
  destruct (assoc k (c_entries c)) as [e|] eqn:He; [|done].
  pose proof (without_length_lt _ _ _ He).
  destruct (is_expired now e); split_and!; cbn; try done.
  - by apply without_NoDup.
  - lia.
  - apply snoc_NoDup; [by apply without_NoDup|apply without_notin].
  - rewrite length_app. cbn. lia.
Qed.

Lemma cache_set_wf now k v ttl c :
  cache_wf c → cache_wf (cache_set now k v ttl c).
Proof.
  intros (Hnd&Hlen&Hmax). unfold cache_set.
  pose proof (without_length (c_entries c) k).
  pose proof (without_NoDup _ k Hnd) as Hnd'.
  pose proof (without_notin (c_entries c) k) as Hk.
  case_decide; split_and!; cbn; try done.
  - apply snoc_NoDup.
    + eapply sublist_NoDup; [done|]. apply fmap_sublist, sublist_drop.
    + intros Hin. apply Hk. eapply elem_of_sublist; [done|].
      apply fmap_sublist, sublist_drop.
  - rewrite length_app, length_drop. cbn. lia.
  - by apply snoc_NoDup.
  - rewrite length_app. cbn. lia.
Qed.

Lemma cache_invalidate_wf k c : cache_wf c → cache_wf (cache_invalidate k c).
Proof.
  intros (Hnd&Hlen&Hmax). pose proof (without_length (c_entries c) k).
  split_and!; cbn; [by apply without_NoDup|lia|done].
Qed.

Lemma cache_clear_wf c : cache_wf c → cache_wf (cache_clear c).
Proof. intros (_&_&Hmax). split_and!; cbn; [constructor|lia|done]. Qed.

Lemma cache_step_max now op c : c_max (cache_step now op c) = c_max c.
Proof.
  destruct op as [k|k v ttl|k|]; cbn; [|unfold cache_set; by case_decide|done..].
  unfold cache_get. destruct (assoc _ _); [|done]. by destruct (is_expired _ _).
Qed.

(** Every operation keeps the invariant of the in-memory cache: one
    entry per key, and no more entries than the bound. *)
Theorem cache_step_wf now op c : cache_wf c → cache_wf (cache_step now op c).
Proof.
  destruct op; cbn; auto using cache_get_wf, cache_set_wf,
    cache_invalidate_wf, cache_clear_wf.
Qed.

(** A cache that starts empty with room for an entry never holds more
    entries than its bound, nor two entries for one key, whatever is done
    with it. *)
Theorem reachable_wf max_entries c :
  0 < max_entries → reachable max_entries c →
  cache_wf c ∧ c_max c = max_entries.
Proof.
  intros Hmax. induction 1 as [|now op c _ [Hwf Hc]].
  - split; [|done]. split_and!; cbn; [constructor|lia|done].
  - split; [by apply cache_step_wf|by rewrite cache_step_max].
Qed.

(** ** The backend as a finite map *)

Lemma live_lookup now c k :
  live now c !! k = assoc k (c_entries c) ≫= serve now.
Proof. unfold live. by rewrite lookup_omap, lookup_entries. Qed.

Lemma serve_on_access now e :
  is_expired now e = false → serve now (on_access now e) = Some (e_value e).
Proof.
  intros He. unfold serve. by rewrite (on_access_live _ _ He), on_access_value.
Qed.

(** [get] is the lookup in what the cache holds at that time, and it
    leaves what the cache holds as it is: serving an entry and dropping an
    expired one change the representation only. *)
Theorem cache_get_live now k c :
  (cache_get now k c).1 = live now c !! k ∧
  live now (cache_get now k c).2 = live now c.
Proof.
  rewrite live_lookup. unfold cache_get.
  destruct (assoc k (c_entries c)) as [e|] eqn:He; cbn; [|done].
  unfold serve at 1. destruct (is_expired now e) eqn:Hx; cbn [fst snd];
    (split; [done|]); apply map_eq; intros k'; rewrite !live_lookup;
    cbn [c_entries]; rewrite ?assoc_app, !assoc_without; case_decide; subst;
    cbn; rewrite ?He; cbn.
  - unfold serve. by rewrite Hx.
  - done.
  - rewrite decide_True by done. cbn. rewrite serve_on_access by done.
    unfold serve. by rewrite Hx.
  - rewrite (decide_False (P := k' = k)) by done.
    by destruct (assoc k' (c_entries c)).
Qed.

(** [invalidate] is the deletion of the key, [clear] the empty map. *)
Theorem cache_invalidate_live now k c :
  live now (cache_invalidate k c) = delete k (live now c).
Proof.
  apply map_eq. intros k'. rewrite lookup_delete, !live_lookup. cbn.
  rewrite assoc_without. by repeat case_decide.
Qed.

Theorem cache_clear_live now c : live now (cache_clear c) = ∅.
Proof. apply map_eq. intros k'. by rewrite live_lookup, lookup_empty. Qed.

(** What [set] does to the entries of the other keys: at most one of them
    is lost. *)
Lemma cache_set_others now k v ttl c k' :
  cache_wf c → k' ≠ k →
  assoc k' (c_entries (cache_set now k v ttl c)) = assoc k' (c_entries c) ∨
  assoc k' (c_entries (cache_set now k v ttl c)) = None.
Proof.
  intros (Hnd&_) Hk. unfold cache_set. case_decide; cbn;
    rewrite assoc_app; cbn; rewrite (decide_False (P := k' = k)) by done.
  - rewrite assoc_drop by by apply without_NoDup.
    case_decide; [by right|left]. rewrite assoc_without, decide_False by done.
    by destruct (assoc k' (c_entries c)).
  - left. rewrite assoc_without, decide_False by done.
    by destruct (assoc k' (c_entries c)).
Qed.

Lemma cache_set_entry now k v ttl c :
  assoc k (c_entries (cache_set now k v ttl c)) = Some (mkEntry v now now ttl).
Proof.
  assert (∀ es, k ∉ es.*1 →
    assoc k (es ++ [(k, mkEntry v now now ttl)]) = Some (mkEntry v now now ttl))
    as Hes.
  { intros es Hk%assoc_None. rewrite assoc_app, Hk. cbn.
    by rewrite decide_True. }
  unfold cache_set. case_decide; cbn; apply Hes; [|apply without_notin].
  intros Hin. eapply (without_notin (c_entries c) k), elem_of_sublist; [done|].
  apply fmap_sublist, sublist_drop.
Qed.

(** [set] is the insertion of the key, up to an eviction: afterwards
    the cache holds the value under the key (when it has a time to live),
    and nothing that it did not hold before; when there is room it holds
    all that it held. *)
Theorem cache_set_live now k v ttl c :
  cache_wf c → 0 < ttl →
  live now (cache_set now k v ttl c) ⊆ <[k:=v]> (live now c) ∧
  live now (cache_set now k v ttl c) !! k = Some v ∧
  (length (without k (c_entries c)) < c_max c →
   live now (cache_set now k v ttl c) = <[k:=v]> (live now c)).
Proof.
  intros Hwf Httl.
  assert (live now (cache_set now k v ttl c) !! k = Some v) as Hk.
  { rewrite live_lookup, cache_set_entry. cbn. unfold serve.
    by rewrite fresh_expiry, bool_decide_eq_false_2 by lia. }
  split_and!; [|done|].
  - apply map_subseteq_spec. intros k' v'. rewrite lookup_insert.
    case_decide; subst; [by rewrite Hk|]. rewrite !live_lookup.
    by destruct (cache_set_others now k v ttl c k' Hwf) as [->| ->].
  - intros Hroom. apply map_eq. intros k'. rewrite lookup_insert.
    case_decide; subst; [done|]. rewrite !live_lookup. unfold cache_set.
    rewrite decide_False by lia. cbn.
    rewrite assoc_app, assoc_without, decide_False by done. cbn.
    rewrite decide_False by done. by destruct (assoc k' (c_entries c)).
Qed.

(** An entry that has just been set is served until its time to live is
    over, and not after. *)
Lemma cache_set_served t now k v ttl c :
  live now (cache_set t k v ttl c) !! k =
    if bool_decide (t + ttl ≤ now) then None else Some v.
Proof.
  rewrite live_lookup, cache_set_entry. cbn. unfold serve.
  by rewrite fresh_expiry.
Qed.

(** ** Least recently used *)

(** [set] keeps the entry of another key unless that entry is the first of
    the list and the cache is full. *)
Lemma cache_set_keeps now k v ttl c k' :
  cache_wf c → k' ≠ k →
  length (without k (c_entries c)) < c_max c ∨
    head (without k (c_entries c)).*1 ≠ Some k' →
  assoc k' (c_entries (cache_set now k v ttl c)) = assoc k' (c_entries c).
Proof.
  intros (Hnd&_) Hk Hroom. unfold cache_set. case_decide; cbn;
    rewrite assoc_app; cbn; rewrite (decide_False (P := k' = k)) by done;
    rewrite ?assoc_drop by by apply without_NoDup.
  - rewrite decide_False by (destruct Hroom; [lia|done]).
    rewrite assoc_without, decide_False by done.
    by destruct (assoc k' (c_entries c)).
  - rewrite assoc_without, decide_False by done.
    by destruct (assoc k' (c_entries c)).
Qed.

(** What [get] does to the entries: the entry of the key is dropped or
    touched, the others stay. *)
Lemma cache_get_entry now k c k' :
  assoc k' (c_entries (cache_get now k c).2) =
    if decide (k' = k)
    then assoc k (c_entries c) ≫=
           λ e, if is_expired now e then None else Some (on_access now e)
    else assoc k' (c_entries c).
Proof.
  unfold cache_get. destruct (assoc k (c_entries c)) as [e|] eqn:He;
    [|case_decide; subst; by rewrite ?He].
  destruct (is_expired now e) eqn:Hx; cbn;
    rewrite ?assoc_app, assoc_without; case_decide; subst; cbn;
    rewrite ?Hx, ?decide_True by done; try done.
  rewrite decide_False by done. by destruct (assoc k' (c_entries c)).
Qed.

(** After a hit the key is the last of the list. *)
Lemma cache_get_hit_entries now k c v :
  live now c !! k = Some v →
  ∃ e, serve now e = Some v ∧
    c_entries (cache_get now k c).2 = without k (c_entries c) ++ [(k, e)].
Proof.
  rewrite live_lookup. unfold cache_get.
  destruct (assoc k (c_entries c)) as [e|]; cbn; [|done]. intros Hv.
  assert (is_expired now e = false ∧ e_value e = v) as [Hx <-]
    by (unfold serve in Hv; destruct (is_expired now e); by simplify_eq).
  rewrite Hx. exists (on_access now e). by rewrite serve_on_access.
Qed.

(** Eviction takes the least recently used entry: in a cache with room
    for two entries, a key that has just been served is still served after
    another key is set, also when that evicts an entry. *)
Theorem recently_used_survives now k k' v v' ttl c :
  cache_wf c → 2 ≤ c_max c → k' ≠ k → live now c !! k = Some v →
  live now (cache_set now k' v' ttl (cache_get now k c).2) !! k = Some v.
Proof.
  intros Hwf Hmax Hk Hv. pose proof (cache_get_wf now k c Hwf) as Hwf1.
  destruct (cache_get_hit_entries now k c v Hv) as (e&He&Hes).
  rewrite live_lookup, cache_set_keeps; [|done..|].
  - rewrite Hes, assoc_app, (proj2 (assoc_None _ _) (without_notin _ _)).
    cbn. by rewrite decide_True.
  - rewrite Hes. unfold without at 1 3. rewrite filter_app, filter_cons_True,
      filter_nil by done.
    fold (without k' (without k (c_entries c))). rewrite length_app. cbn.
    rewrite (cache_step_max now (OGet k) c : c_max (cache_get now k c).2 = _).
    destruct (without k' (without k (c_entries c))) as [|[k1 e1] es] eqn:Hw;
      [left; cbn; lia|right]. cbn. intros [= ->].
    apply (without_notin (c_entries c) k), elem_of_sublist
      with ((without k' (without k (c_entries c))).*1);
      [rewrite Hw; left|apply fmap_sublist, sublist_filter].
Qed.

(** ** The counters *)

Lemma stats_step now op c :
  c_hits (cache_step now op c) + c_misses (cache_step now op c) =
    c_hits c + c_misses c + (if is_get op then 1 else 0) ∧
  c_evictions c ≤ c_evictions (cache_step now op c).
Proof.
  destruct op as [k|k v ttl|k|]; cbn; unfold cache_get, cache_set;
    repeat first [case_match|case_decide]; cbn; lia.
Qed.

(** The counters of [stats] count: hits and misses together are the
    number of [get]s, no operation takes an eviction back, and the size is
    the number of entries. *)
Theorem stats_count trace c :
  let s := cache_stats c in
  let s' := cache_stats (cache_run trace c) in
  hits s' + misses s' = hits s + misses s + length (filter (λ top, is_get top.2) trace) ∧
  evictions s ≤ evictions s' ∧
  size s' = length (c_entries (cache_run trace c)).
Proof.
  cbn. revert c. induction trace as [|[now op] trace IH]; intros c;
    [cbn; lia|].
  change (cache_run ((now, op) :: trace) c)
    with (cache_run trace (cache_step now op c)).
  destruct (IH (cache_step now op c)) as (Hg&He&_).
  destruct (stats_step now op c) as [Hg1 He1].
  rewrite filter_cons. cbn [snd].
  destruct (is_get op);
    [rewrite decide_True by done|rewrite decide_False by (by intros [])];
    cbn [length]; lia.
Qed.

(** ** In front of a source *)

(** A key that the cache holds is answered from the cache: the program
    makes no call. *)
Lemma cached_query_served now ttl k (query : SdkM V) c v :
  live now c !! k = Some v →
  cached_query now ttl k query (Some c) =
    sdk_ret (v, Some (cache_get now k c).2).
Proof.
  destruct (cache_get_live now k c) as [Hg _]. rewrite <-Hg.
  unfold cached_query. destruct (cache_get now k c) as [r c']. cbn.
  by intros ->.
Qed.

(** A key that the cache does not hold is asked of the source, and the
    answer is stored. *)
Lemma cached_query_missed now ttl k (query : SdkM V) c :
  live now c !! k = None →
  cached_query now ttl k query (Some c) =
    sdk_bind query
      (λ v, sdk_ret (v, Some (cache_set now k v ttl (cache_get now k c).2))).
Proof.
  destruct (cache_get_live now k c) as [Hg _]. rewrite <-Hg.
  unfold cached_query. destruct (cache_get now k c) as [r c']. cbn.
  by intros ->.
Qed.

(** The answer of the source is stored: after a request that missed
    and was answered, the same request within the time to live is answered
    from the cache, with the same value, whatever the source would say
    now. *)
Theorem second_request_is_served now now' ttl k (query : SdkM V) c script v :
  now' < now + ttl → live now c !! k = None → Runs query script (Ok v) →
  ∃ c1,
    Runs (cached_query now ttl k query (Some c)) script (Ok (v, Some c1)) ∧
    ∀ query', ∃ c2,
      cached_query now' ttl k query' (Some c1) = sdk_ret (v, Some c2).
Proof.
  intros Hnow Hmiss Hq. destruct (cache_get_live now k c) as [Hg _].
  rewrite Hmiss in Hg. exists (cache_set now k v ttl (cache_get now k c).2).
  split.
  - unfold cached_query. destruct (cache_get now k c) as [r c']. cbn in *.
    subst r. rewrite <-(app_nil_r script).
    eapply Runs_bind_ok; [done|apply Runs_ret].
  - intros query'. eexists. apply cached_query_served.
    rewrite cache_set_served. by rewrite bool_decide_eq_false_2 by lia.
Qed.

(** A query that differs from the one stored in a series, the range,
    the kind or a parameter is not answered with its value: storing an
    answer makes no other key a hit. *)
Theorem different_query_misses t now q q' v ttl c :
  cache_wf c → q ≠ q' → live now c !! fingerprint q' = None →
  live now (cache_set t (fingerprint q) v ttl c) !! fingerprint q' = None.
Proof.
  intros Hwf Hq. rewrite !live_lookup.
  assert (fingerprint q' ≠ fingerprint q)
    by (by intros ?%(inj fingerprint)).
  by destruct (cache_set_others t (fingerprint q) v ttl c (fingerprint q')
    Hwf) as [->| ->].
Qed.

End backend.

(** ** Time to live *)

Section ttl.
Context {V : Type}.
#[local] Existing Instance TTLStrategy.
Implicit Types (c : MemoryCache V) (k : Key).

(** With time to live, an operation other than [set] on the key leaves
    the deadline of the key where it was. *)
Lemma ttl_step_deadline deadline now op c k :
  cache_wf c → sets_key k op = false →
  (∀ e, assoc k (c_entries c) = Some e → e_inserted e + e_ttl e ≤ deadline) →
  ∀ e, assoc k (c_entries (cache_step now op c)) = Some e →
       e_inserted e + e_ttl e ≤ deadline.
Proof.
  intros Hwf Hop Hc e. destruct op as [k2|k2 v2 ttl2|k2|]; cbn in *.
  - rewrite cache_get_entry. case_decide; subst; [|apply Hc].
    destruct (assoc k2 (c_entries c)) as [e2|] eqn:He2; [cbn|done].
    destruct (bool_decide _); [done|]. intros [= <-]. by apply (Hc e2).
  - apply bool_decide_eq_false in Hop.
    by destruct (cache_set_others now k2 v2 ttl2 c k Hwf) as [->| ->];
      [|auto..].
  - rewrite assoc_without. case_decide; [done|apply Hc].
  - done.
Qed.

(** With time to live every entry leaves the cache: whatever is asked
    of the cache after a [set], short of setting the key again, the key is
    a miss from the end of its time to live on.  Serving the entry does not
    keep it. *)
Theorem ttl_entry_expires trace t k v ttl c now :
  cache_wf c → Forall (λ top, sets_key k top.2 = false) trace →
  t + ttl ≤ now →
  live now (cache_run trace (cache_set t k v ttl c)) !! k = None.
Proof.
  intros Hwf Htrace Hnow. rewrite live_lookup.
  assert (cache_wf (cache_set t k v ttl c) ∧
          ∀ e, assoc k (c_entries (cache_set t k v ttl c)) = Some e →
               e_inserted e + e_ttl e ≤ t + ttl) as Hinv.
  { split; [by apply cache_set_wf|]. rewrite cache_set_entry.
    by intros e [= <-]. }
  revert Hinv. generalize (cache_set t k v ttl c). clear Hwf.
  induction Htrace as [|[now' op] trace Hop _ IH]; intros c' [Hwf Hd].
  - cbn. destruct (assoc k (c_entries c')) as [e|] eqn:He; [cbn|done].
    unfold serve. cbn. rewrite bool_decide_eq_true_2; [done|].
    specialize (Hd e eq_refl). lia.
  - apply IH. split; [by apply cache_step_wf|].
    by apply ttl_step_deadline.
Qed.

End ttl.

(** ** Sliding window *)

Section sliding_window.
Context {V : Type}.
#[local] Existing Instance SlidingWindowStrategy.

(** The requests for a key at the ticks [1] to [n]. *)
Lemma cache_run_snoc (trace : list (Time * Op V)) now op c :
  cache_run (trace ++ [(now, op)]) c = cache_step now op (cache_run trace c).
Proof. unfold cache_run. by rewrite foldl_app. Qed.

(** With a sliding window an entry that is asked for often enough
    never leaves the cache: a key set at tick [0] with two ticks to live
    and asked for at every tick is still served at any later time, though
    its time to live from insertion is long over. *)
Theorem sliding_window_keeps_hot_key k (v : V) n :
  live (S n)
    (cache_run ((λ t, (t, OGet k)) <$> seq 1 n)
       (cache_set 0 k v 2 (empty_cache 1))) !! k = Some v.
Proof.
  assert (c_entries (cache_run ((λ t, (t, OGet k)) <$> seq 1 n)
            (cache_set 0 k v 2 (empty_cache 1))) = [(k, mkEntry v 0 n 2)])
    as Hn.
  { induction n as [|n IH]; [done|].
    rewrite seq_S, fmap_app.
    change ((λ t, (t, OGet k)) <$> [1 + n]) with [(S n, @OGet V k)].
    rewrite cache_run_snoc. cbn. unfold cache_get.
    rewrite IH. cbn. rewrite decide_True by done. cbn.
    rewrite bool_decide_eq_false_2 by lia. cbn.
    rewrite decide_False by naive_solver. cbn. unfold touch. cbn.
    do 3 f_equal. lia. }
  rewrite live_lookup, Hn. cbn. rewrite decide_True by done. cbn.
  unfold serve. cbn. by rewrite bool_decide_eq_false_2 by lia.
Qed.

End sliding_window.

(** * The theorems on a cache that is written out *)

Lemma ex_cache_wf : cache_wf ex_cache.
Proof.
  apply cache_set_wf, cache_set_wf.
  split_and!; cbn; [constructor|lia..].
Qed.

Lemma cache_step_wf_witness :
  cache_wf (cache_step (strategy := TTLStrategy) 3 (OGet (ex_key "A")) ex_cache).
Proof. apply (cache_step_wf (strategy := TTLStrategy)), ex_cache_wf. Defined.

Lemma reachable_wf_witness : cache_wf ex_cache ∧ c_max ex_cache = 2.
Proof.
  apply (reachable_wf (strategy := TTLStrategy) 2 ex_cache); [lia|].
  apply (reachable_step (strategy := TTLStrategy) 2 0 (OSet (ex_key "A") "a" 10)),
    (reachable_step (strategy := TTLStrategy) 2 0 (OSet (ex_key "B") "b" 10)),
    reachable_empty.
Defined.

Lemma cache_set_live_witness :
  let c := cache_set 5 (ex_key "C") "c" 10 ex_cache in
  live (strategy := TTLStrategy) 5 c ⊆
    <[ex_key "C" := "c"]> (live (strategy := TTLStrategy) 5 ex_cache) ∧
  live (strategy := TTLStrategy) 5 c !! ex_key "C" = Some "c" ∧
  (length (without (ex_key "C") (c_entries ex_cache)) < c_max ex_cache →
   live (strategy := TTLStrategy) 5 c =
     <[ex_key "C" := "c"]> (live (strategy := TTLStrategy) 5 ex_cache)).
Proof.
  apply (cache_set_live (strategy := TTLStrategy) 5 (ex_key "C") "c" 10
           ex_cache ex_cache_wf).
  lia.
Defined.

Lemma recently_used_survives_witness :
  live (strategy := TTLStrategy) 5
    (cache_set 5 (ex_key "C") "c" 10
       (cache_get (strategy := TTLStrategy) 5 (ex_key "B") ex_cache).2)
    !! ex_key "B" = Some "b".
Proof.
  apply (recently_used_survives (strategy := TTLStrategy) 5 (ex_key "B")
           (ex_key "C") "b" "c" 10 ex_cache ex_cache_wf);
    [vm_compute; lia|done|vm_compute; reflexivity].
Defined.

Lemma second_request_is_served_witness :
  ∃ c1,
    Runs (cached_query (strategy := TTLStrategy) 20 10 (ex_key "A") ex_query
            (Some ex_cache))
      [(CFunc "recorded_values" [OStr "A"], Ok (OStr "answer"))]
      (Ok ("a", Some c1)) ∧
    ∀ query', ∃ c2,
      cached_query (strategy := TTLStrategy) 25 10 (ex_key "A") query' (Some c1) =
        sdk_ret ("a", Some c2).
Proof.
  apply (second_request_is_served (strategy := TTLStrategy) 20 25 10
           (ex_key "A") ex_query ex_cache);
    [lia|vm_compute; reflexivity|].
  apply (Runs_do _ _ (Ok (OStr "answer"))), Runs_ret.
Defined.

Lemma different_query_misses_witness :
  live (strategy := TTLStrategy) 3
    (cache_set 3
       (fingerprint (mkQuery ["C"] "*-1h" "*" QRecorded [])) "c" 10 ex_cache)
    !! fingerprint (mkQuery ["C"] "*-2h" "*" QRecorded []) = None.
Proof.
  apply (different_query_misses (strategy := TTLStrategy) 3 3
           (mkQuery ["C"] "*-1h" "*" QRecorded [])
           (mkQuery ["C"] "*-2h" "*" QRecorded []) "c" 10 ex_cache
           ex_cache_wf); [done|vm_compute; reflexivity].
Defined.

Lemma ttl_entry_expires_witness :
  live (strategy := TTLStrategy) 12
    (cache_run (strategy := TTLStrategy)
       [(4, OGet (ex_key "C")); (8, OGet (ex_key "C"));
        (9, OSet (ex_key "B") "b" 10)]
       (cache_set 2 (ex_key "C") "c" 10 ex_cache))
    !! ex_key "C" = None.
Proof.
  apply (ttl_entry_expires
           [(4, OGet (ex_key "C")); (8, OGet (ex_key "C"));
            (9, OSet (ex_key "B") "b" 10)]
           2 (ex_key "C") "c" 10 ex_cache 12 ex_cache_wf);
    [by repeat constructor|lia].
Defined.
