(* ===== verification/CachedQueries.v ===== *)
(** * CachedQueries: the extractor behind the cache

    Section 2 of the specification gives the control flow of a request: the
    extractor looks in the cache, on a miss it asks the upstream, converts
    the answer and stores it.  The extractor of
    src/src/pipolars/extraction/points.py does not look in a cache itself;
    this file puts [recorded_values] of [Points] behind [cached_query] of
    [Cache], with the key that section 4.2 asks for (a fingerprint of the
    series, the range, the kind of query and the parameters), and shows
    what the composition promises of the code: a key names one
    conversation with the upstream, a second request is answered without a
    call, and with time to live the upstream is asked again. *)
From stdpp Require Import base tactics numbers option list strings gmap pretty.
From S2P Require Import Prelude PyStr PyObj Types Sdk Points Cache.

(** The name of a boundary policy in a key. *)
Definition boundary_name (bt : BoundaryType) : string :=
  match bt with
  | INSIDE => "inside" | OUTSIDE => "outside" | INTERPOLATED => "interpolated"
  end.

Definition flag_name (b : bool) : string := if b then "true" else "false".

Section cached.
Context `{!Builtins} `{strategy : !CacheStrategy (list PIValue)}.

(** The query that a call of [recorded_values] is: the tag, the range as
    the texts that reach the SDK, and the boundary, the flag, the limit and
    the filter of the options (the defaults when none are given). *)
Definition recorded_values_query (tag_name : string) (start end_ : PITimestamp)
    (options : option RecordedValuesOptions) : Query :=
  let options := default RecordedValuesOptions_default options in
  mkQuery [tag_name] (time_text start) (time_text end_) QRecorded
    ([boundary_name (rv_boundary_type options);
      flag_name (rv_include_filtered_values options);
      pretty (rv_max_count options)] ++
     option_list (rv_filter_expression options)).

Definition recorded_values_key (tag_name : string) (start end_ : PITimestamp)
    (options : option RecordedValuesOptions) : Key :=
  fingerprint (recorded_values_query tag_name start end_ options).

(** [recorded_values] behind the cache: served from the cache when the key
    is there, else asked of the upstream and stored for [ttl] ticks. *)
Definition cached_recorded_values (now ttl : Time) (self : PIPointExtractor)
    (tag_name : string) (start end_ : PITimestamp)
    (options : option RecordedValuesOptions)
    (backend : option (MemoryCache (list PIValue)))
    : SdkM (list PIValue * option (MemoryCache (list PIValue))) :=
  cached_query now ttl (recorded_values_key tag_name start end_ options)
    (recorded_values self tag_name start end_ options) backend.

End cached.

(** The answers of an upstream to the six calls of [recorded_values], one
    good sample in them. *)
Definition ex_recorded_script : list (Call * Res Obj) :=
  recorded_values_script ex_self (OStr "AFTime") (OStr "AFTimeRange") "TAG"
    (TsStr "*-1h") (TsStr "*") RecordedValuesOptions_default
    (OStr "point") (OStr "t0") (OStr "t1") (OStr "range") ex_boundary_type
    (OStr "Inside") (Ok (OList [ex_af_value ex_number true false])).

(** * Theorems *)

Lemma boundary_name_inj : Inj (=) (=) boundary_name.
Proof. by intros [] [] [=]. Qed.

Lemma flag_name_inj : Inj (=) (=) flag_name.
Proof. by intros [] [] [=]. Qed.

Lemma option_list_inj {A} : Inj (=) (=) (@option_list A).
Proof. by intros [] [] [=]; subst. Qed.

Section cached_facts.
Context `{!Builtins}.
Implicit Types (self : PIPointExtractor) (c : MemoryCache (list PIValue)).

(** The options, resolved, are in the key. *)
Lemma recorded_values_key_options tag start end_ options tag' start' end_'
    options' :
  recorded_values_key tag start end_ options
  = recorded_values_key tag' start' end_' options' →
  tag = tag' ∧ time_text start = time_text start' ∧
  time_text end_ = time_text end_' ∧
  default RecordedValuesOptions_default options
  = default RecordedValuesOptions_default options'.
Proof.
  intros [= -> Hs He Hb Hf Hm Hx]%(inj fingerprint).
  apply boundary_name_inj in Hb. apply flag_name_inj in Hf.
  apply (inj pretty) in Hm. apply option_list_inj in Hx.
  split_and!; [done..|].
  by destruct (default _ options), (default _ options'); simplify_eq/=.
Qed.

(** [_parse_time] reads of a timestamp the text only. *)
Lemma parse_time_text self time time' :
  time_text time = time_text time' →
  _parse_time self time = _parse_time self time'.
Proof.
  unfold _parse_time. intros Ht. f_equal.
  by destruct time, time'; cbn in Ht; rewrite Ht.
Qed.

(** A key names one conversation with the upstream: two calls of
    [recorded_values] with the same key are the same program, so that an
    answer stored for one is the answer to the other, whichever way the
    range was written (a string or an [AFTime]) and whether the options
    were the defaults or left out. *)
Theorem recorded_values_key_sound self tag start end_ options tag' start'
    end_' options' :
  recorded_values_key tag start end_ options
  = recorded_values_key tag' start' end_' options' →
  recorded_values self tag start end_ options
  = recorded_values self tag' start' end_' options'.
Proof.
  intros (->&Hs&He&Ho)%recorded_values_key_options.
  unfold recorded_values, _create_time_range.
  by rewrite Ho, (parse_time_text self start start' Hs),
    (parse_time_text self end_ end_' He).
Qed.

(** The conversation of [recorded_values] with an upstream whose last
    answer is an exception: a script that shows every argument. *)
Lemma recorded_values_shows self AFTime_class AFTimeRange tag start end_
    options :
  getattr (_sdk self) "af_time_class" = Ok AFTime_class →
  getattr (_sdk self) "af_time_range_class" = Ok AFTimeRange →
  ∃ boundary,
    boundary_of ex_boundary_type
      (rv_boundary_type (default RecordedValuesOptions_default options))
    = Ok boundary ∧
    Runs (recorded_values self tag start end_ options)
      (recorded_values_script self AFTime_class AFTimeRange tag start end_
         (default RecordedValuesOptions_default options) ONone ONone ONone
         ONone ex_boundary_type boundary (Raise (NetError "")))
      (Raise (NetError "")).
Proof.
  intros Htime Hrange.
  destruct (boundary_of ex_boundary_type (rv_boundary_type
    (default RecordedValuesOptions_default options))) as [boundary|] eqn:Hb;
    [|by destruct (rv_boundary_type _)].
  exists boundary. split; [done|].
  by apply (recorded_values_runs self AFTime_class AFTimeRange Htime Hrange tag
    start end_ options ONone ONone ONone ONone ex_boundary_type boundary
    (Raise (NetError ""))).
Qed.

(** The members of the example [AFBoundaryType] are apart. *)
Lemma boundary_of_ex_inj bt bt' boundary :
  boundary_of ex_boundary_type bt = Ok boundary →
  boundary_of ex_boundary_type bt' = Ok boundary → bt = bt'.
Proof. by destruct bt, bt'; intros [= <-] [=]. Qed.

Lemma obj_of_filter_inj : Inj (=) (=) obj_of_filter.
Proof. by intros [] [] [=]; subst. Qed.

(** C40: and a key is no finer than the code: for an extractor whose SDK
    manager has the classes of time and range, two calls of
    [recorded_values] that are the same program have the same key.  With
    the theorem before, the key of a call tells exactly what the call asks
    of the upstream. *)
Theorem recorded_values_key_complete self AFTime_class AFTimeRange tag start
    end_ options tag' start' end_' options' :
  getattr (_sdk self) "af_time_class" = Ok AFTime_class →
  getattr (_sdk self) "af_time_range_class" = Ok AFTimeRange →
  recorded_values self tag start end_ options
  = recorded_values self tag' start' end_' options' →
  recorded_values_key tag start end_ options
  = recorded_values_key tag' start' end_' options'.
Proof.
  intros Htime Hrange Heq.
  destruct (recorded_values_shows self _ _ tag start end_ options Htime Hrange)
    as (b&Hb&H1).
  destruct (recorded_values_shows self _ _ tag' start' end_' options' Htime
    Hrange) as (b'&Hb'&H2).
  rewrite Heq in H1.
  pose proof (Runs_same_answers _ _ _ _ _ H1 H2 eq_refl) as Hs.
  unfold recorded_values_key, recorded_values_query.
  injection Hs as -> -> -> <- Hf -> ->. apply obj_of_filter_inj in Hf as ->.
  by rewrite (boundary_of_ex_inj _ _ _ Hb Hb').
Qed.

Section strategy.
Context `{strategy : !CacheStrategy (list PIValue)} `{!StrategyLaws strategy}.

(** The answer of the upstream is converted once and stored: when the
    key is not in the cache, the request makes the calls of
    [recorded_values] and gives its records; after that, a request with
    the same key within the time to live gives the same records and makes
    no call at all. *)
Theorem cached_recorded_values_served now now' ttl self tag start end_ options
    tag' start' end_' options' c script values :
  now' < now + ttl →
  live now c !! recorded_values_key tag start end_ options = None →
  Runs (recorded_values self tag start end_ options) script (Ok values) →
  recorded_values_key tag' start' end_' options'
  = recorded_values_key tag start end_ options →
  ∃ c1 c2,
    Runs (cached_recorded_values now ttl self tag start end_ options (Some c))
      script (Ok (values, Some c1)) ∧
    cached_recorded_values now' ttl self tag' start' end_' options' (Some c1)
    = sdk_ret (values, Some c2).
Proof.
  intros Hnow Hmiss Hruns Hkey. unfold cached_recorded_values.
  destruct (second_request_is_served now now' ttl _ _ c script values
    Hnow Hmiss Hruns) as (c1&?&Hserved).
  destruct (Hserved (recorded_values self tag' start' end_' options'))
    as [c2 ?].
  exists c1, c2. by rewrite Hkey.
Qed.

End strategy.

(** With time to live a stored answer does not stay for ever: once
    the time to live of the records is over, whatever was asked of the
    cache in between short of storing the key again, the request goes to
    the upstream: it makes the calls of [recorded_values] and gives what
    the upstream says now. *)
Theorem cached_recorded_values_refreshed t now ttl trace self tag start end_
    options c old script r :
  let k := recorded_values_key tag start end_ options in
  cache_wf c → Forall (λ top, sets_key k top.2 = false) trace →
  t + ttl ≤ now →
  Runs (recorded_values self tag start end_ options) script r →
  ∃ r',
    Runs (cached_recorded_values (strategy := TTLStrategy) now ttl self tag
            start end_ options
            (Some (cache_run (strategy := TTLStrategy) trace
                     (cache_set t k old ttl c))))
      script r' ∧ fst <$> r' = r.
Proof.
  intros k Hwf Htrace Hnow Hruns. unfold cached_recorded_values.
  rewrite (cached_query_missed (strategy := TTLStrategy))
    by by apply ttl_entry_expires.
  destruct r as [values|e].
  - eexists (Ok (values, _)). split; [|done].
    rewrite <-(app_nil_r script). eapply Runs_bind_ok; [done|apply Runs_ret].
  - exists (Raise e). split; [by apply Runs_bind_raise|done].
Qed.

End cached_facts.

Lemma recorded_values_key_sound_witness :
  recorded_values ex_self "TAG" (TsStr "*-1h") (TsAFTime (mkAFTime "*")) None
  = recorded_values ex_self "TAG" (TsAFTime (mkAFTime "*-1h")) (TsStr "*")
      (Some RecordedValuesOptions_default).
Proof. by apply recorded_values_key_sound. Defined.

Lemma recorded_values_key_complete_witness :
  recorded_values_key "TAG" (TsStr "*-1h") (TsAFTime (mkAFTime "*")) None
  = recorded_values_key "TAG" (TsAFTime (mkAFTime "*-1h")) (TsStr "*")
      (Some RecordedValuesOptions_default).
Proof.
  apply (recorded_values_key_complete ex_self (OStr "AFTime")
    (OStr "AFTimeRange")); reflexivity.
Defined.

Lemma cached_recorded_values_served_witness :
  ∃ c1 c2,
    Runs (cached_recorded_values (strategy := TTLStrategy) 0 10 ex_self "TAG"
            (TsStr "*-1h") (TsStr "*") None (Some (empty_cache 2)))
      ex_recorded_script
      (Ok ([mkPIValue (ODateTime ex_time) (OFloat (mkFloat 215 (-1))) GOOD],
           Some c1)) ∧
    cached_recorded_values (strategy := TTLStrategy) 9 10 ex_self "TAG"
      (TsAFTime (mkAFTime "*-1h")) (TsStr "*")
      (Some RecordedValuesOptions_default) (Some c1)
    = sdk_ret ([mkPIValue (ODateTime ex_time) (OFloat (mkFloat 215 (-1))) GOOD],
               Some c2).
Proof.
  apply (cached_recorded_values_served (strategy := TTLStrategy) 0 9 10 ex_self
    "TAG" (TsStr "*-1h") (TsStr "*") None "TAG" (TsAFTime (mkAFTime "*-1h"))
    (TsStr "*") (Some RecordedValuesOptions_default) (empty_cache 2)
    ex_recorded_script); [lia|done| |done].
  apply (recorded_values_runs ex_self (OStr "AFTime") (OStr "AFTimeRange")
    eq_refl eq_refl "TAG" (TsStr "*-1h") (TsStr "*") None). reflexivity.
Defined.

Lemma cached_recorded_values_refreshed_witness :
  ∃ r',
    Runs (cached_recorded_values (strategy := TTLStrategy) 12 10 ex_self "TAG"
            (TsStr "*-1h") (TsStr "*") None
            (Some (cache_run (strategy := TTLStrategy)
                     [(5, OGet (recorded_values_key "TAG" (TsStr "*-1h")
                                  (TsStr "*") None))]
                     (cache_set 0
                        (recorded_values_key "TAG" (TsStr "*-1h") (TsStr "*")
                           None) [] 10 (empty_cache 2)))))
      ex_recorded_script r' ∧
    fst <$> r' =
      Ok [mkPIValue (ODateTime ex_time) (OFloat (mkFloat 215 (-1))) GOOD].
Proof.
  apply (cached_recorded_values_refreshed 0 12 10
    [(5, OGet (recorded_values_key "TAG" (TsStr "*-1h") (TsStr "*") None))]
    ex_self "TAG" (TsStr "*-1h") (TsStr "*") None (empty_cache 2) []
    ex_recorded_script).
  - split_and!; cbn; [constructor|lia..].
  - by repeat constructor.
  - lia.
  - apply (recorded_values_runs ex_self (OStr "AFTime") (OStr "AFTimeRange")
      eq_refl eq_refl "TAG" (TsStr "*-1h") (TsStr "*") None). reflexivity.
Defined.
