(* ===== verification/Convert.v ===== *)
(** * Convert: the converter between the long and the wide form

    [pipolars.transform] re-exports [values_to_dataframe] and
    [multi_tag_to_dataframe] of [pipolars.transform.converters]
    (src/src/pipolars/transform/__init__.py); the converters themselves are
    not part of the sources, so this file is modelled from the
    specification (section 4.4 and the round trip of section 8):

    - the long form has one row per (series, timestamp, value, quality);
    - the wide form has one row per distinct timestamp and one column per
      series, a missing combination is null ([None]), rows are aligned by
      equality of the timestamps and stand in ascending order;
    - going from the long form to the wide form and back gives the rows one
      started with, up to their order.

    A timestamp is an instant, a [Z]; a table is a list of rows.  The wide
    form has no column for the quality, so the round trip is stated of the
    (series, timestamp, value) part of a row. *)
From stdpp Require Import base tactics numbers option list sets strings sorting.
From S2P Require Import Prelude PyObj Types.

(** The samples of two series that share one timestamp, the second series
    given out of order. *)
Definition ex_data : list (string * list (Z * Z * DataQuality)) :=
  [("B", [(20, 7, GOOD); (10, 5, BAD)]); ("A", [(20, 1, GOOD); (30, 2, GOOD)])]%Z.

Section converter.
Context {V : Type}.

(** A sample of one series, and a row of the long form. *)
Record Row : Type := mkRow {
  r_series : string;
  r_timestamp : Z;
  r_value : V;
  r_quality : DataQuality
}.

(** The wide form: the series names, and per timestamp one cell per series. *)
Record Wide : Type := mkWide {
  w_columns : list string;
  w_rows : list (Z * list (option V))
}.

(** [values_to_dataframe]: the samples of one series as rows. *)
Definition values_to_dataframe (tag : string)
    (samples : list (Z * V * DataQuality)) : list Row :=
  (λ s, mkRow tag s.1.1 s.1.2 s.2) <$> samples.

(** The long form of several series: the rows of each, one series after
    the other. *)
Definition long_form (data : list (string * list (Z * V * DataQuality))) :
    list Row :=
  data ≫= λ d, values_to_dataframe d.1 d.2.

(** The distinct timestamps in ascending order: insertion into a strictly
    ascending list. *)
Fixpoint insert_timestamp (t : Z) (ts : list Z) : list Z :=
  match ts with
  | [] => [t]
  | t' :: ts' =>
      if decide (t < t')%Z then t :: ts
      else if decide (t = t') then ts
      else t' :: insert_timestamp t ts'
  end.

Definition timestamps (rows : list Row) : list Z :=
  foldr insert_timestamp [] (r_timestamp <$> rows).

(** The cell of a series at a timestamp: the value of the first row with
    that series and exactly that timestamp, null when there is none. *)
Fixpoint cell (rows : list Row) (tag : string) (t : Z) : option V :=
  match rows with
  | [] => None
  | r :: rows =>
      if decide (r_series r = tag ∧ r_timestamp r = t) then Some (r_value r)
      else cell rows tag t
  end.

(** The pivot: one row per distinct timestamp, one cell per column. *)
Definition pivot (columns : list string) (rows : list Row) : Wide :=
  mkWide columns
    ((λ t, (t, (λ tag, cell rows tag t) <$> columns)) <$> timestamps rows).

(** [multi_tag_to_dataframe]: the wide table of several series, its columns
    in the order of the request. *)
Definition multi_tag_to_dataframe
    (data : list (string * list (Z * V * DataQuality))) : Wide :=
  pivot (data.*1) (long_form data).

(** The way back: the cells that are not null, row by row. *)
Definition unpivot_row (columns : list string) (row : Z * list (option V)) :
    list (string * Z * V) :=
  omap (λ c, (λ v, (c.1, row.1, v)) <$> c.2) (zip columns row.2).

Definition unpivot (w : Wide) : list (string * Z * V) :=
  w_rows w ≫= unpivot_row (w_columns w).

(** What the wide form keeps of a row, and the key that names a cell. *)
Definition triple (r : Row) : string * Z * V :=
  (r_series r, r_timestamp r, r_value r).

Definition key (r : Row) : string * Z := (r_series r, r_timestamp r).

(** ** The timestamps *)

Lemma elem_of_insert_timestamp t t' ts :
  t' ∈ insert_timestamp t ts ↔ t' = t ∨ t' ∈ ts.
Proof.
  induction ts as [|t0 ts IH]; cbn; [set_solver|].
  repeat case_decide; rewrite ?elem_of_cons, ?IH; naive_solver.
Qed.

Lemma insert_timestamp_sorted t ts :
  StronglySorted Z.lt ts → StronglySorted Z.lt (insert_timestamp t ts).
Proof.
  induction 1 as [|t0 ts Hts IH Hall]; cbn; [by repeat constructor|].
  repeat case_decide; [| by constructor |].
  - constructor; [by constructor|].
    constructor; [done|]. eapply Forall_impl; [done|]. cbn. lia.
  - constructor; [done|]. apply Forall_forall. intros t'.
    rewrite elem_of_insert_timestamp, Forall_forall in *.
    intros [->|?]; [lia|auto].
Qed.

Lemma elem_of_timestamps t rows :
  t ∈ timestamps rows ↔ ∃ r, r ∈ rows ∧ r_timestamp r = t.
Proof.
  unfold timestamps. induction rows as [|r rows IH]; cbn; [set_solver|].
  rewrite elem_of_insert_timestamp, IH. set_solver.
Qed.

Lemma timestamps_sorted rows : StronglySorted Z.lt (timestamps rows).
Proof.
  unfold timestamps. induction rows; cbn;
    [constructor|by apply insert_timestamp_sorted].
Qed.

Lemma sorted_lt_NoDup (ts : list Z) : StronglySorted Z.lt ts → NoDup ts.
Proof.
  induction 1 as [|t ts _ IH Hall]; constructor; [|done].
  intros Hin. rewrite Forall_forall in Hall. specialize (Hall _ Hin). lia.
Qed.

(** ** The cells *)

Lemma cell_Some rows tag t v :
  cell rows tag t = Some v → ∃ q, mkRow tag t v q ∈ rows.
Proof.
  induction rows as [|[s t' v' q] rows IH]; cbn; [done|].
  case_decide as Hk; cbn in Hk.
  - intros [= <-]. destruct Hk as [<- <-]. exists q. left.
  - intros (q'&?)%IH. exists q'. by right.
Qed.

Lemma cell_None rows tag t : (tag, t) ∉ key <$> rows → cell rows tag t = None.
Proof.
  induction rows as [|r rows IH]; cbn; [done|].
  rewrite not_elem_of_cons. intros [Hne ?].
  rewrite decide_False; [auto|]. intros [<- <-]. by apply Hne.
Qed.

Lemma cell_elem rows r :
  NoDup (key <$> rows) → r ∈ rows →
  cell rows (r_series r) (r_timestamp r) = Some (r_value r).
Proof.
  induction rows as [|r' rows IH]; cbn; [by intros _ ?%not_elem_of_nil|].
  rewrite NoDup_cons, elem_of_cons. intros [Hnew Hrest] [->|Hin].
  - by rewrite decide_True.
  - rewrite decide_False; [auto|]. intros [Hs Ht]. apply Hnew.
    apply list_elem_of_fmap. exists r. unfold key. by rewrite Hs, Ht.
Qed.

(** ** The way there and back *)

Lemma unpivot_pivot columns rows :
  unpivot (pivot columns rows) =
  timestamps rows ≫= λ t,
    omap (λ tag, (λ v, (tag, t, v)) <$> cell rows tag t) columns.
Proof.
  unfold unpivot, pivot, unpivot_row; cbn [w_rows w_columns].
  induction (timestamps rows) as [|t ts IH]; [done|].
  rewrite fmap_cons, !bind_cons, IH. f_equal. cbn [fst snd].
  clear IH. induction columns as [|c columns IH]; [done|]; cbn.
  rewrite IH. by destruct (cell rows c t).
Qed.

Lemma elem_of_unpivot_pivot columns rows tag t v :
  (tag, t, v) ∈ unpivot (pivot columns rows) ↔
  t ∈ timestamps rows ∧ tag ∈ columns ∧ cell rows tag t = Some v.
Proof.
  rewrite unpivot_pivot, list_elem_of_bind. split.
  - intros (t'&(tag'&?&Hc)%list_elem_of_omap&?).
    destruct (cell rows tag' t') eqn:?; naive_solver.
  - intros (?&?&Hc). exists t. split; [|done].
    apply list_elem_of_omap. exists tag. by rewrite Hc.
Qed.

Lemma unpivot_pivot_NoDup columns rows :
  NoDup columns → NoDup (unpivot (pivot columns rows)).
Proof.
  intros Hcols. rewrite unpivot_pivot. apply NoDup_bind.
  - intros t1 t2 [[tag t] v] _ _ (?&?&H1)%list_elem_of_omap
      (?&?&H2)%list_elem_of_omap.
    apply fmap_Some in H1 as (?&_&?), H2 as (?&_&?). congruence.
  - intros t _. induction Hcols as [|c columns Hc _ IH]; cbn; [constructor|].
    destruct (cell rows c t) eqn:?; cbn; [|done].
    constructor; [|done]. intros (c'&?&Hv)%list_elem_of_omap.
    apply fmap_Some in Hv as (?&_&?). congruence.
  - apply sorted_lt_NoDup, timestamps_sorted.
Qed.

Lemma triple_NoDup rows : NoDup (key <$> rows) → NoDup (triple <$> rows).
Proof.
  intros Hk. apply (NoDup_fmap_1 fst).
  by rewrite <-list_fmap_compose.
Qed.

End converter.

Arguments Row : clear implicits.
Arguments Wide : clear implicits.

(** The wide form has its rows in strictly ascending order of the
    timestamps, one row per distinct timestamp of the long form, whatever
    the order of the rows given. *)
Theorem pivot_ascending {V} columns (rows : list (Row V)) :
  StronglySorted Z.lt ((w_rows (pivot columns rows)).*1) ∧
  ∀ t, t ∈ (w_rows (pivot columns rows)).*1 ↔
       ∃ r, r ∈ rows ∧ r_timestamp r = t.
Proof.
  assert ((w_rows (pivot columns rows)).*1 = timestamps rows) as ->.
  { unfold pivot; cbn. rewrite <-list_fmap_compose. apply list_fmap_id. }
  split; [apply timestamps_sorted|]. intros t. apply elem_of_timestamps.
Qed.

(** The wide form is rectangular and aligned by exact equality of the
    timestamps: every row has one cell per column, the cell of a series at
    a timestamp holds the value of a row of the long form with that series
    and that timestamp, and it is null when the long form has no such
    row. *)
Theorem pivot_cells {V} columns (rows : list (Row V)) t cells :
  (t, cells) ∈ w_rows (pivot columns rows) →
  length cells = length columns ∧
  ∀ i tag, columns !! i = Some tag →
    ∃ c, cells !! i = Some c ∧
      match c with
      | Some v => ∃ q, mkRow tag t v q ∈ rows
      | None => (tag, t) ∉ key <$> rows
      end.
Proof.
  intros (t'&[= <- ->]&_)%list_elem_of_fmap. split; [by rewrite length_fmap|].
  intros i tag Hi. exists (cell rows tag t).
  rewrite list_lookup_fmap, Hi. split; [done|].
  destruct (cell rows tag t) eqn:Hc; [by eapply cell_Some|].
  intros (r&[= -> ->]&Hr)%list_elem_of_fmap. revert Hc.
  clear -Hr. induction Hr; cbn; [by rewrite decide_True|by case_decide].
Qed.

(** A long form whose rows have distinct (series, timestamp) keys and
    whose series are all among the distinct columns comes back from the
    wide form as it was, up to the order of the rows. *)
Theorem pivot_unpivot {V} columns (rows : list (Row V)) :
  NoDup columns → NoDup (key <$> rows) →
  (∀ r, r ∈ rows → r_series r ∈ columns) →
  unpivot (pivot columns rows) ≡ₚ triple <$> rows.
Proof.
  intros Hcols Hkeys Hin.
  apply NoDup_Permutation; [by apply unpivot_pivot_NoDup|by apply triple_NoDup|].
  intros [[tag t] v]. rewrite elem_of_unpivot_pivot, list_elem_of_fmap. split.
  - intros (_&_&[q Hr]%cell_Some). by exists (mkRow tag t v q).
  - intros (r&[= -> -> ->]&Hr). split_and!; [|by auto|by apply cell_elem].
    apply elem_of_timestamps. by exists r.
Qed.

Lemma pivot_unpivot_witness :
  unpivot (multi_tag_to_dataframe ex_data) ≡ₚ triple <$> long_form ex_data.
Proof.
  apply (pivot_unpivot (ex_data.*1) (long_form ex_data)).
  - vm_compute. repeat constructor; set_solver.
  - vm_compute. repeat constructor; set_solver.
  - intros r Hr. vm_compute in Hr. vm_compute.
    repeat (apply elem_of_cons in Hr as [->|Hr]); set_solver.
Defined.

(** A key that occurs twice in the long form does not survive the way
    there and back: the wide form has one cell for it and keeps the first
    value. *)
Example pivot_duplicate_key :
  unpivot (pivot ["A"]
    [mkRow "A" 10%Z 1%Z GOOD; mkRow "A" 10%Z 2%Z GOOD]) = [("A", 10%Z, 1%Z)].
Proof. reflexivity. Qed.
