(* ===== verification/Client.v ===== *)
(** * Client: the server a client connects to

    [pipolars.api.client.PIClient] and [pipolars.core.config] are not part
    of the sources; what the constructor promises is fixed by the unit
    tests of src/tests/unit/test_client.py and by the script
    src/test_default_server.py, and by section 6 of the specification: the
    server defaults to localhost when the name is empty, blank or unset,
    and a full configuration object takes precedence over a server given
    beside it.  This file states that resolution and its tests. *)
From stdpp Require Import base tactics option strings.
From S2P Require Import Prelude PyStr.

(** [PIServerConfig]: the host, localhost unless given. *)
Record PIServerConfig : Type := mkPIServerConfig { host : string }.

Definition PIServerConfig_default : PIServerConfig :=
  mkPIServerConfig "localhost".

(** [PIConfig]: of the configuration, the server part. *)
Record PIConfig : Type := mkPIConfig { server : PIServerConfig }.

(** The first argument of [PIClient]: nothing, a name or a server
    configuration. *)
Inductive ServerArg : Type :=
| NoServer
| ServerName (name : string)
| ServerConfig (c : PIServerConfig).

(** A name that is empty once the white space around it is stripped. *)
Definition blank (name : string) : bool := bool_decide (str_strip name = "").

(** [PIClient(server, config).config]: the configuration object when there
    is one, else the server configuration given, else the name given unless
    it is blank, else localhost. *)
Definition PIClient_config (server_arg : ServerArg) (config : option PIConfig) :
    PIConfig :=
  match config with
  | Some c => c
  | None =>
      match server_arg with
      | ServerConfig c => mkPIConfig c
      | ServerName name =>
          if blank name then mkPIConfig PIServerConfig_default
          else mkPIConfig (mkPIServerConfig name)
      | NoServer => mkPIConfig PIServerConfig_default
      end
  end.

(** ** The unit tests of [TestPIClientInitialization] *)

Example test_blank_server_uses_default :
  host (server (PIClient_config (ServerName "") None)) = "localhost".
Proof. reflexivity. Qed.

Example test_whitespace_server_uses_default :
  host (server (PIClient_config (ServerName "   ") None)) = "localhost".
Proof. reflexivity. Qed.

Example test_none_server_uses_default :
  host (server (PIClient_config NoServer None)) = "localhost".
Proof. reflexivity. Qed.

Example test_explicit_server_name :
  host (server (PIClient_config (ServerName "my-pi-server") None))
  = "my-pi-server".
Proof. reflexivity. Qed.

Example test_server_config_object :
  host (server (PIClient_config
    (ServerConfig (mkPIServerConfig "config-server")) None)) = "config-server".
Proof. reflexivity. Qed.

Example test_config_takes_precedence_over_server :
  host (server (PIClient_config (ServerName "server-arg")
    (Some (mkPIConfig (mkPIServerConfig "config-host"))))) = "config-host".
Proof. reflexivity. Qed.

(** ** What the tests are instances of *)

(** A client made from a name, or from nothing, never has a blank
    host: the host is the name given when that is not blank and localhost
    otherwise. *)
Theorem PIClient_host_of_name server_arg :
  (∀ c, server_arg ≠ ServerConfig c) →
  let h := host (server (PIClient_config server_arg None)) in
  blank h = false ∧
  (h = "localhost" ∨ server_arg = ServerName h).
Proof.
  intros Hc. destruct server_arg as [|name|c]; cbn; [by auto| |by destruct (Hc c)].
  destruct (blank name) eqn:Hb; cbn; auto.
Qed.

Lemma PIClient_host_of_name_witness :
  let h := host (server (PIClient_config (ServerName "my-pi-server") None)) in
  blank h = false ∧ (h = "localhost" ∨ ServerName "my-pi-server" = ServerName h).
Proof. apply (PIClient_host_of_name (ServerName "my-pi-server")). by intros c. Defined.
